(** * Book club services: catalog, ratings and loans

    A shallow embedding of the three programs of the repository:

    - [Book_club.py] (first iteration, everything in process memory),
    - [Book_Service.py] (catalog and ratings over two MongoDB collections),
    - [Loan_Service.py] (loans over one MongoDB collection, with a
      synchronous query to the catalog before a loan is committed).

    Python values are modelled by the small universe [Py.val]; a handler
    that can raise returns a [Py.result]; a MongoDB collection is an
    association list from [_id] to document, in insertion order. *)

From Stdlib Require Import List ZArith String Ascii Bool Lia QArith Lqa.
From Stdlib Require Import DecimalString DecimalZ Permutation Sorted.
Import ListNotations.

Local Open Scope string_scope.
Local Open Scope list_scope.
Local Open Scope Z_scope.

(* ================================================================= *)
(** ** Python values, exceptions and the conversions the code uses   *)
(* ================================================================= *)

Module Py.

(** The exceptions the modelled code can raise. *)
Inductive exn : Type :=
| ValueError
| TypeError
| KeyError
| ZeroDivisionError
| DuplicateKeyError.

Inductive result (A : Type) : Type :=
| Ok (a : A)
| Raise (e : exn).

Arguments Ok {A} a.
Arguments Raise {A} e.

Definition bind {A B : Type} (m : result A) (k : A -> result B) : result B :=
  match m with
  | Ok a => k a
  | Raise e => Raise e
  end.

(** Decoded JSON scalars: [null], integral numbers and strings.  Arrays,
    nested objects, booleans and non-integral numbers are outside the
    universe. *)
Inductive val : Type :=
| PNone
| PInt (z : Z)
| PStr (s : string).

(** Python's [==] on these values. *)
Definition eqb (a b : val) : bool :=
  match a, b with
  | PNone, PNone => true
  | PInt x, PInt y => Z.eqb x y
  | PStr s, PStr t => String.eqb s t
  | _, _ => false
  end.

(** [len(v)]: only strings have a length here. *)
Definition len (v : val) : result Z :=
  match v with
  | PStr s => Ok (Z.of_nat (String.length s))
  | _ => Raise TypeError
  end.

(** [isinstance(v, str)]. *)
Definition is_str (v : val) : bool :=
  match v with PStr _ => true | _ => false end.

(** A JSON object decoded to a [dict]: keys are pairwise distinct. *)
Definition dict : Type := list (string * val).

Fixpoint get (k : string) (d : dict) : option val :=
  match d with
  | [] => None
  | (k', v) :: d' => if String.eqb k k' then Some v else get k d'
  end.

(** [k in d]. *)
Definition mem (k : string) (d : dict) : bool :=
  match get k d with Some _ => true | None => false end.

(** [d[k]]. *)
Definition item (k : string) (d : dict) : result val :=
  match get k d with Some v => Ok v | None => Raise KeyError end.

(** *** [int(s)] on a string

    A [string] holds the code points of a Python [str], one character
    each; the code points are below 256, so a [str] with a character
    from U+0100 on (a decimal digit of another script, for instance) has
    no counterpart here.

    Surrounding white space is dropped, one sign is allowed, and the
    digits may be grouped by single underscores. *)

(** The white space [int] drops: the six ASCII characters tab, line
    feed, vertical tab, form feed, carriage return and space, and, of
    the characters from 127 on, those that are Unicode white space,
    U+0085 and U+00A0.  The separators U+001C to U+001F are not
    dropped. *)
Definition is_space (c : ascii) : bool :=
  let n := nat_of_ascii c in
  ((9 <=? n) && (n <=? 13) || (n =? 32) || (n =? 133) || (n =? 160))%nat.

Definition is_digit (c : ascii) : bool :=
  let n := nat_of_ascii c in ((48 <=? n) && (n <=? 57))%nat.

Definition digit_val (c : ascii) : Z := Z.of_nat (nat_of_ascii c) - 48.

Fixpoint lstrip (s : string) : string :=
  match s with
  | String c s' => if is_space c then lstrip s' else s
  | EmptyString => EmptyString
  end.

Fixpoint rstrip (s : string) : string :=
  match s with
  | String c s' =>
      match rstrip s' with
      | EmptyString => if is_space c then EmptyString else String c EmptyString
      | r => String c r
      end
  | EmptyString => EmptyString
  end.

Definition strip (s : string) : string := rstrip (lstrip s).

(** The digits after the first one, without the underscores that group
    them. *)
Fixpoint ungroup_from (s : string) : option string :=
  match s with
  | EmptyString => Some EmptyString
  | String c s' =>
      if is_digit c then option_map (String c) (ungroup_from s')
      else if Ascii.eqb c "_" then
        match s' with
        | String d s'' =>
            if is_digit d then option_map (String d) (ungroup_from s'') else None
        | EmptyString => None
        end
      else None
  end.

Definition ungroup (s : string) : option string :=
  match s with
  | String c s' =>
      if is_digit c then option_map (String c) (ungroup_from s') else None
  | EmptyString => None
  end.

(** The value of a non-empty run of decimal digits. *)
Definition digits (s : string) : option Z :=
  match ungroup s with
  | Some t => option_map Z.of_uint (NilEmpty.uint_of_string t)
  | None => None
  end.

Definition int_of_str (s : string) : option Z :=
  match strip s with
  | String c s' =>
      if Ascii.eqb c "-" then option_map Z.opp (digits s')
      else if Ascii.eqb c "+" then digits s'
      else digits (String c s')
  | EmptyString => None
  end.

(** [int(s)]: [ValueError] when [s] is not an integer literal. *)
Definition int (s : string) : result Z :=
  match int_of_str s with
  | Some z => Ok z
  | None => Raise ValueError
  end.

(** [str(n)] on an integer. *)
Definition str (n : Z) : string := NilEmpty.string_of_int (Z.to_int n).

(** [sum(l)] on a list of integers. *)
Definition sum (l : list Z) : Z := fold_left Z.add l 0.

(** [a / b] on integers.  The floating-point quotient is represented by
    the exact rational it rounds. *)
Definition truediv (a b : Z) : result Q :=
  match b with
  | Zpos p => Ok (a # p)
  | Z0 => Raise ZeroDivisionError
  | Zneg p => Ok ((- a) # p)
  end.

(** [sorted(l, key=..., reverse=True)] on items paired with their keys:
    descending, and items with equal keys keep their order. *)
Fixpoint insert_desc {A : Type} (x : Q * A) (l : list (Q * A)) : list (Q * A) :=
  match l with
  | [] => [x]
  | y :: l' =>
      if Qle_bool (fst y) (fst x) then x :: y :: l' else y :: insert_desc x l'
  end.

Definition sorted_desc {A : Type} (l : list (Q * A)) : list (Q * A) :=
  fold_right insert_desc [] l.

(** [f"{v}"]. *)
Definition format (v : val) : string :=
  match v with
  | PNone => "None"
  | PInt z => str z
  | PStr s => s
  end.

(** [the_str v] reads a value already known to be a string. *)
Definition the_str (v : val) : result string :=
  match v with
  | PStr s => Ok s
  | _ => Raise TypeError
  end.

End Py.

Notation "'let?' x := m 'in' k" := (Py.bind m (fun x => k))
  (at level 10, x name, m at level 100, k at level 200).

(* ================================================================= *)
(** ** Handlers: a store threaded through code that may raise        *)
(* ================================================================= *)

Module Eff.

(** A computation over a store [S]: its outcome and the store it leaves.
    What was written before an exception stays written. *)
Definition eff (S A : Type) : Type := S -> Py.result A * S.

Definition ret {S A : Type} (a : A) : eff S A := fun s => (Py.Ok a, s).

Definition raise {S A : Type} (e : Py.exn) : eff S A := fun s => (Py.Raise e, s).

Definition bind {S A B : Type} (m : eff S A) (k : A -> eff S B) : eff S B :=
  fun s =>
    match m s with
    | (Py.Ok a, s') => k a s'
    | (Py.Raise e, s') => (Py.Raise e, s')
    end.

(** A read of the store that may raise. *)
Definition read {S A : Type} (f : S -> Py.result A) : eff S A :=
  fun s => (f s, s).

(** A write to the store. *)
Definition write {S : Type} (f : S -> S) : eff S unit :=
  fun s => (Py.Ok tt, f s).

(** A pure step that may raise. *)
Definition lift {S A : Type} (r : Py.result A) : eff S A := fun s => (r, s).

(** [n] calls of [m], one after the other, and what they returned. *)
Fixpoint times {S A : Type} (n : nat) (m : eff S A) : eff S (list A) :=
  match n with
  | O => ret []
  | Datatypes.S n' => bind m (fun x => bind (times n' m) (fun xs => ret (x :: xs)))
  end.

(** [f] on every element of [l], in order, and what the calls returned. *)
Fixpoint each {S X A : Type} (f : X -> eff S A) (l : list X) : eff S (list A) :=
  match l with
  | [] => ret []
  | x :: l' => bind (f x) (fun a => bind (each f l') (fun r => ret (a :: r)))
  end.

End Eff.

Notation "x <- m ;; k" := (Eff.bind m (fun x => k))
  (at level 61, m at next level, right associativity).

(* ================================================================= *)
(** ** A MongoDB collection                                          *)
(* ================================================================= *)

Module Mongo.

Section Collection.

Context {D : Type}.

(** Documents in natural (insertion) order, keyed by [_id]. *)
Definition collection : Type := list (Z * D).

(** [find_one({"_id": k})]. *)
Fixpoint find_one (k : Z) (c : collection) : option D :=
  match c with
  | [] => None
  | (k', d) :: c' => if Z.eqb k k' then Some d else find_one k c'
  end.

(** [insert_one(doc)] with [doc["_id"] = k]. *)
Definition insert_one (k : Z) (d : D) (c : collection) : Py.result collection :=
  match find_one k c with
  | Some _ => Py.Raise Py.DuplicateKeyError
  | None => Py.Ok (c ++ [(k, d)])
  end.

(** [update_one({"_id": k}, u)]: the first match is rewritten by [u];
    nothing happens when there is none. *)
Fixpoint update_one (k : Z) (u : D -> D) (c : collection) : collection :=
  match c with
  | [] => []
  | (k', d) :: c' =>
      if Z.eqb k k' then (k', u d) :: c' else (k', d) :: update_one k u c'
  end.

(** [delete_one(filter)] for an arbitrary filter [p]: the first match
    goes. *)
Fixpoint delete_one_where (p : Z -> D -> bool) (c : collection) : collection :=
  match c with
  | [] => []
  | (k, d) :: c' => if p k d then c' else (k, d) :: delete_one_where p c'
  end.

(** [delete_one({"_id": k})]. *)
Definition delete_one (k : Z) (c : collection) : collection :=
  delete_one_where (fun k' _ => Z.eqb k k') c.

(** [find({"_id": {"$gt": 0}}, {"_id": 0})]: the documents above the
    reserved identifier, without their [_id]. *)
Definition find_gt0 (c : collection) : list D :=
  map snd (filter (fun kd => 0 <? fst kd) c).

(** [find({}, {"_id": 0})]. *)
Definition find_all (c : collection) : list D := map snd c.

(** The [_id]s in use. *)
Definition ids (c : collection) : list Z := map fst c.

End Collection.

Arguments collection D : clear implicits.

End Mongo.

(* ================================================================= *)
(** ** The query string of a request                                 *)
(* ================================================================= *)

Module Flask.

(** [request.args]: the pairs of the query string, in their order.  A
    key can be given more than once. *)
Definition args : Type := list (string * string).

(** [request.args.items()]: one pair for each key, in the order in which
    the keys first occur, with the first value given for the key.  The
    later values of a key are not seen. *)
Fixpoint items_from (seen : list string) (a : args) : list (string * string) :=
  match a with
  | [] => []
  | (key, value) :: a' =>
      if existsb (String.eqb key) seen then items_from seen a'
      else (key, value) :: items_from (key :: seen) a'
  end.

Definition items (a : args) : list (string * string) := items_from [] a.

End Flask.

(* ================================================================= *)
(** ** Book_Service.py: the catalog and its ratings                  *)
(* ================================================================= *)

Module BookService.

Definition REQUIRED_FIELDS : list string :=
  ["title"; "ISBN"; "genre"; "authors"; "publisher"; "publishedDate"; "id"].

Definition GENRES : list string :=
  ["Fiction"; "Children"; "Biography"; "Science"; "Science Fiction";
   "Fantasy"; "Other"].

(** [x in l] on a list of strings. *)
Definition str_in (x : string) (l : list string) : bool :=
  existsb (String.eqb x) l.

(** A book document, without its [_id]. *)
Record Book : Type := mkBook {
  b_id : string;
  b_title : string;
  b_ISBN : string;
  b_genre : string;
  b_authors : string;
  b_publisher : string;
  b_publishedDate : string
}.

(** The book collection holds the books and, at [_id] 0, the counter. *)
Inductive bookdoc : Type :=
| Counter (highest_object_id : Z)
| BookDoc (b : Book).

(** A rating document, without its [_id]. *)
Record Rating : Type := mkRating {
  r_id : string;
  r_values : list Z;
  r_average : Q;
  r_title : string
}.

Record store : Type := mkStore {
  book_collection : Mongo.collection bookdoc;
  rating_collection : Mongo.collection Rating
}.

Definition set_books (f : Mongo.collection bookdoc -> Mongo.collection bookdoc)
  (s : store) : store :=
  mkStore (f (book_collection s)) (rating_collection s).

Definition set_ratings (f : Mongo.collection Rating -> Mongo.collection Rating)
  (s : store) : store :=
  mkStore (book_collection s) (f (rating_collection s)).

(** The start of the service: the counter is created when it is not
    there ([$setOnInsert] under [upsert]). *)
Definition startup (s : store) : store :=
  match Mongo.find_one 0 (book_collection s) with
  | None => set_books (fun c => c ++ [(0, Counter 0)]) s
  | Some _ => s
  end.

(** [doc[field]] on a document of the book collection. *)
Definition book_field (field : string) (d : bookdoc) : Py.result string :=
  match d with
  | Counter _ => Py.Raise Py.KeyError
  | BookDoc b =>
      if String.eqb field "title" then Py.Ok (b_title b)
      else if String.eqb field "ISBN" then Py.Ok (b_ISBN b)
      else if String.eqb field "genre" then Py.Ok (b_genre b)
      else if String.eqb field "authors" then Py.Ok (b_authors b)
      else if String.eqb field "publisher" then Py.Ok (b_publisher b)
      else if String.eqb field "publishedDate" then Py.Ok (b_publishedDate b)
      else if String.eqb field "id" then Py.Ok (b_id b)
      else Py.Raise Py.KeyError
  end.

Definition Book_eqb (a b : Book) : bool :=
  String.eqb (b_id a) (b_id b) && String.eqb (b_title a) (b_title b)
  && String.eqb (b_ISBN a) (b_ISBN b) && String.eqb (b_genre a) (b_genre b)
  && String.eqb (b_authors a) (b_authors b)
  && String.eqb (b_publisher a) (b_publisher b)
  && String.eqb (b_publishedDate a) (b_publishedDate b).

(** A document used as a filter: every field of [f] has to be matched. *)
Definition matches (f d : bookdoc) : bool :=
  match f, d with
  | Counter h, Counter h' => Z.eqb h h'
  | BookDoc a, BookDoc b => Book_eqb a b
  | _, _ => false
  end.

(** *** class BookClub *)

Definition add_book (k : Z) (b : Book) : Eff.eff store unit :=
  fun s =>
    match Mongo.insert_one k (BookDoc b) (book_collection s) with
    | Py.Ok c => (Py.Ok tt, set_books (fun _ => c) s)
    | Py.Raise e => (Py.Raise e, s)
    end.

Definition add_book_rating (k : Z) (r : Rating) : Eff.eff store unit :=
  fun s =>
    match Mongo.insert_one k r (rating_collection s) with
    | Py.Ok c => (Py.Ok tt, set_ratings (fun _ => c) s)
    | Py.Raise e => (Py.Raise e, s)
    end.

Definition get_books (s : store) : list bookdoc :=
  Mongo.find_gt0 (book_collection s).

Definition get_book_ratings (s : store) : list Rating :=
  Mongo.find_all (rating_collection s).

(** [get_book] once its argument went through [int]. *)
Definition get_book_at (k : Z) (s : store) : option bookdoc :=
  if 0 <? k then Mongo.find_one k (book_collection s) else None.

Definition get_book (book_id : string) (s : store) : Py.result (option bookdoc) :=
  let? k := Py.int book_id in Py.Ok (get_book_at k s).

Definition get_book_rating (book_id : string) (s : store)
  : Py.result (option Rating) :=
  let? k := Py.int book_id in Py.Ok (Mongo.find_one k (rating_collection s)).

(** [rating[...]] on what [get_book_rating] returned. *)
Definition subscript {A : Type} (r : option Rating) (f : Rating -> A)
  : Py.result A :=
  match r with
  | Some x => Py.Ok (f x)
  | None => Py.Raise Py.TypeError
  end.

Definition calculate_rating_average (rating_id : string) : Eff.eff store Q :=
  k <- Eff.lift (Py.int rating_id) ;;
  rating <- Eff.read (fun s => Py.Ok (Mongo.find_one k (rating_collection s))) ;;
  values <- Eff.lift (subscript rating r_values) ;;
  new_average <- Eff.lift
    (Py.truediv (Py.sum values) (Z.of_nat (List.length values))) ;;
  _ <- Eff.write (set_ratings (Mongo.update_one k
         (fun r => mkRating (r_id r) (r_values r) new_average (r_title r)))) ;;
  Eff.ret new_average.

Definition add_rating_value (rating_value : Z) (rating_id : string)
  : Eff.eff store Q :=
  k <- Eff.lift (Py.int rating_id) ;;
  _ <- Eff.write (set_ratings (Mongo.update_one k
         (fun r => mkRating (r_id r) (r_values r ++ [rating_value])
                            (r_average r) (r_title r)))) ;;
  calculate_rating_average rating_id.

(** [delete_book] hands [int(book_id)] to [get_book], which converts it
    once more; the book found is itself the filter of the first
    [delete_one]. *)
Definition delete_book (book_id : string) : Eff.eff store unit :=
  k <- Eff.lift (Py.int book_id) ;;
  book <- Eff.read (fun s => Py.Ok (get_book_at k s)) ;;
  match book with
  | Some d =>
      _ <- Eff.write (set_books (Mongo.delete_one_where (fun _ => matches d))) ;;
      Eff.write (set_ratings (Mongo.delete_one k))
  | None => Eff.ret tt
  end.

(** The fields a PUT replaces. *)
Definition apply_update (u d : bookdoc) : bookdoc :=
  match u, d with
  | BookDoc n, BookDoc b =>
      BookDoc (mkBook (b_id b) (b_title n) (b_ISBN n) (b_genre n)
                      (b_authors n) (b_publisher n) (b_publishedDate n))
  | _, _ => d
  end.

Definition update_book (book_id : string) (updated_book : Book)
  : Eff.eff store unit :=
  k <- Eff.lift (Py.int book_id) ;;
  book <- Eff.read (fun s => Py.Ok (get_book_at k s)) ;;
  match book with
  | Some _ =>
      Eff.write (set_books (Mongo.update_one k (apply_update (BookDoc updated_book))))
  | None => Eff.ret tt
  end.

(** The filter of this [delete_one] carries the path string, and no
    [_id] of the collection is a string: nothing is deleted. *)
Definition delete_book_rating (book_id : string) : Eff.eff store unit :=
  rating <- Eff.read (get_book_rating book_id) ;;
  match rating with
  | Some _ => Eff.ret tt
  | None => Eff.ret tt
  end.

Definition increment_id : Eff.eff store Z :=
  doc <- Eff.read (fun s => Py.Ok (Mongo.find_one 0 (book_collection s))) ;;
  match doc with
  | None => Eff.raise Py.TypeError
  | Some (BookDoc _) => Eff.raise Py.KeyError
  | Some (Counter h) =>
      let current_key := h + 1 in
      _ <- Eff.write (set_books (Mongo.update_one 0
             (fun d => match d with
                       | Counter _ => Counter current_key
                       | BookDoc b => BookDoc b
                       end))) ;;
      Eff.ret current_key
  end.

(** *** Responses *)

Record TopEntry : Type := mkTop {
  t_id : string;
  t_title : string;
  t_average : Q
}.

(** What a handler hands to [jsonify]. *)
Inductive body : Type :=
| JError (msg : string)
| JBooks (l : list bookdoc)
| JBook (d : bookdoc)
| JId (i : string)
| JString (i : string)
| JRatings (l : list Rating)
| JRating (r : Rating)
| JAverage (q : Q)
| JTop (l : list TopEntry).

Definition response : Type := (body * Z)%type.

(** *** Validation *)

(** [[book for book in l if book[field] == value]]. *)
Fixpoint select (field value : string) (l : list bookdoc)
  : Py.result (list bookdoc) :=
  match l with
  | [] => Py.Ok []
  | d :: l' =>
      let? v := book_field field d in
      let? r := select field value l' in
      Py.Ok (if String.eqb v value then d :: r else r)
  end.

(** [any(book["ISBN"] == isbn for book in l)]. *)
Fixpoint any_ISBN (isbn : Py.val) (l : list bookdoc) : Py.result bool :=
  match l with
  | [] => Py.Ok false
  | d :: l' =>
      let? v := book_field "ISBN" d in
      if Py.eqb (Py.PStr v) isbn then Py.Ok true else any_ISBN isbn l'
  end.

(** The structural gate shared by both validations. *)
Definition well_shaped (required_fields : list string) (p : Py.dict) : bool :=
  (Z.of_nat (List.length p) =? Z.of_nat (List.length required_fields))
  && forallb (fun f => Py.mem f p) required_fields
  && forallb (fun f => match Py.get f p with
                       | Some v => Py.is_str v
                       | None => false
                       end) required_fields.

Definition validate_book_addition (book_payload : Py.dict) (s : store)
  : Py.result (option response) :=
  let required_fields := firstn 3 REQUIRED_FIELDS in
  if negb (well_shaped required_fields book_payload) then
    Py.Ok (Some (JError "Unprocessable content - check validity of fields", 422))
  else
    let? isbn := Py.item "ISBN" book_payload in
    let? n := Py.len isbn in
    if negb (n =? 13) then Py.Ok (Some (JError "Invalid ISBN", 422))
    else
      let? genre := Py.item "genre" book_payload in
      if negb (existsb (fun g => Py.eqb genre (Py.PStr g)) GENRES) then
        Py.Ok (Some (JError "Invalid genre", 422))
      else
        let? dup := any_ISBN isbn (get_books s) in
        if dup then
          Py.Ok (Some (JError "A book with this ISBN already exists", 422))
        else Py.Ok None.

Definition validate_book_update (book_payload : Py.dict)
  : Py.result (option response) :=
  let required_fields := removelast REQUIRED_FIELDS in
  if negb (well_shaped required_fields book_payload) then
    Py.Ok (Some (JError "Unprocessable content - check validity of fields", 422))
  else
    let? genre := Py.item "genre" book_payload in
    if negb (existsb (fun g => Py.eqb genre (Py.PStr g)) GENRES) then
      Py.Ok (Some (JError "Invalid genre", 422))
    else
      let? isbn := Py.item "ISBN" book_payload in
      let? n := Py.len isbn in
      if negb (n =? 13) then Py.Ok (Some (JError "Invalid ISBN", 422))
      else Py.Ok None.

Definition validate_rating_for_a_book (rating_payload : Py.dict)
  : option response :=
  match rating_payload with
  | [(k, Py.PInt v)] =>
      if String.eqb k "value" && (1 <=? v) && (v <=? 5) then None
      else Some (JError "Invalid rating value", 422)
  | _ => Some (JError "Invalid rating value", 422)
  end.

(** *** class Books: /books *)

(** The loop of [Books.get] over the pairs that [request.args.items()]
    yields, and what follows it. *)
Fixpoint Books_get_loop (params : list (string * string))
  (filtered_books : list bookdoc) : Py.result response :=
  match params with
  | [] =>
      match filtered_books with
      | [d] => Py.Ok (JBook d, 200)
      | _ => Py.Ok (JBooks filtered_books, 200)
      end
  | (field, value) :: rest =>
      if negb (str_in field REQUIRED_FIELDS)
         || (String.eqb field "genre" && negb (str_in value GENRES))
      then Py.Ok (JError "Invalid field or genre", 422)
      else
        let? filtered := select field value filtered_books in
        Books_get_loop rest filtered
  end.

Definition Books_get (request_parameters : Flask.args) (s : store)
  : Py.result response :=
  Books_get_loop (Flask.items request_parameters) (get_books s).

(** What [get_book_details] obtained from the external catalogue. *)
Record Details : Type := mkDetails {
  d_authors : string;
  d_publisher : string;
  d_publishedDate : string
}.

Definition Books_post (book_payload : Py.dict) (book_details : option Details)
  : Eff.eff store response :=
  match book_payload with
  | [] => Eff.ret (JError "Unsupported media type", 415)
  | _ =>
      error <- Eff.read (validate_book_addition book_payload) ;;
      match error with
      | Some e => Eff.ret e
      | None =>
          match book_details with
          | None => Eff.ret (JError "Unable to connect to Google Books", 500)
          | Some details =>
              book_id <- increment_id ;;
              title <- Eff.lift (let? v := Py.item "title" book_payload in Py.the_str v) ;;
              isbn <- Eff.lift (let? v := Py.item "ISBN" book_payload in Py.the_str v) ;;
              genre <- Eff.lift (let? v := Py.item "genre" book_payload in Py.the_str v) ;;
              let book := mkBook (Py.str book_id) title isbn genre
                            (d_authors details) (d_publisher details)
                            (d_publishedDate details) in
              _ <- add_book book_id book ;;
              _ <- add_book_rating book_id
                     (mkRating (Py.str book_id) [] 0 title) ;;
              Eff.ret (JId (Py.str book_id), 201)
          end
      end
  end.

(** *** class SpecificBook: /books/{id} *)

Definition SpecificBook_get (book_id : string) (s : store) : Py.result response :=
  let? book := get_book book_id s in
  match book with
  | None => Py.Ok (JError "Book not found", 404)
  | Some d => Py.Ok (JBook d, 200)
  end.

Definition SpecificBook_delete (book_id : string) : Eff.eff store response :=
  book <- Eff.read (get_book book_id) ;;
  match book with
  | None => Eff.ret (JError "Book not found", 404)
  | Some _ =>
      _ <- delete_book book_id ;;
      _ <- delete_book_rating book_id ;;
      Eff.ret (JString book_id, 200)
  end.

Definition SpecificBook_put (book_id : string) (book_payload : Py.dict)
  : Eff.eff store response :=
  book <- Eff.read (get_book book_id) ;;
  match book with
  | None => Eff.ret (JError "Book not found", 404)
  | Some _ =>
      match book_payload with
      | [] => Eff.ret (JError "Unsupported media type", 415)
      | _ =>
          error <- Eff.lift (validate_book_update book_payload) ;;
          match error with
          | Some e => Eff.ret e
          | None =>
              let field f := let? v := Py.item f book_payload in Py.the_str v in
              title <- Eff.lift (field "title") ;;
              isbn <- Eff.lift (field "ISBN") ;;
              genre <- Eff.lift (field "genre") ;;
              authors <- Eff.lift (field "authors") ;;
              publisher <- Eff.lift (field "publisher") ;;
              publishedDate <- Eff.lift (field "publishedDate") ;;
              _ <- update_book book_id
                     (mkBook "" title isbn genre authors publisher publishedDate) ;;
              Eff.ret (JId book_id, 200)
          end
      end
  end.

(** *** class Ratings, SpecificRatings, SpecificRatingsValues *)

(** The loop of [Ratings.get] over the pairs that
    [request.args.items()] yields. *)
Fixpoint Ratings_get_loop (params : list (string * string))
  (filtered_ratings : list Rating) : list Rating :=
  match params with
  | [] => filtered_ratings
  | (field, value) :: rest =>
      Ratings_get_loop rest
        (if String.eqb field "id"
         then filter (fun r => String.eqb (r_id r) value) filtered_ratings
         else filtered_ratings)
  end.

Definition Ratings_get (request_parameters : Flask.args) (s : store)
  : response :=
  (JRatings (Ratings_get_loop (Flask.items request_parameters)
               (get_book_ratings s)), 200).

Definition SpecificRatings_get (book_id : string) (s : store) : Py.result response :=
  let? rating := get_book_rating book_id s in
  match rating with
  | None => Py.Ok (JError "Rating not found", 404)
  | Some r => Py.Ok (JRating r, 200)
  end.

Definition SpecificRatingsValues_post (book_id : string) (rating_payload : Py.dict)
  : Eff.eff store response :=
  rating <- Eff.read (get_book_rating book_id) ;;
  match rating with
  | None => Eff.ret (JError "Rating not found", 404)
  | Some _ =>
      match rating_payload with
      | [] => Eff.ret (JError "Unsupported media type", 415)
      | _ =>
          match validate_rating_for_a_book rating_payload with
          | Some e => Eff.ret e
          | None =>
              value <- Eff.lift
                (let? v := Py.item "value" rating_payload in
                 match v with
                 | Py.PInt z => Py.Ok z
                 | _ => Py.Raise Py.TypeError
                 end) ;;
              average <- add_rating_value value book_id ;;
              Eff.ret (JAverage average, 201)
          end
      end
  end.

(** *** class TopBooks: /top *)

(** [book_club.get_book_rating(book['id'])], as every use subscripts it. *)
Definition rating_of (s : store) (book : bookdoc) : Py.result Rating :=
  let? i := book_field "id" book in
  let? rating := get_book_rating i s in
  subscript rating (fun r => r).

Fixpoint eligible_books (s : store) (l : list bookdoc)
  : Py.result (list bookdoc) :=
  match l with
  | [] => Py.Ok []
  | book :: l' =>
      let? r := rating_of s book in
      let? rest := eligible_books s l' in
      Py.Ok (if 3 <=? Z.of_nat (List.length (r_values r))
             then book :: rest else rest)
  end.

(** The sort keys, computed once per book before sorting. *)
Fixpoint keyed (s : store) (l : list bookdoc) : Py.result (list (Q * bookdoc)) :=
  match l with
  | [] => Py.Ok []
  | book :: l' =>
      let? r := rating_of s book in
      let? rest := keyed s l' in
      Py.Ok ((r_average r, book) :: rest)
  end.

Fixpoint top_loop (s : store) (sorted_books : list bookdoc)
  (top_rate_counter : Z) (current_average : Q) : Py.result (list TopEntry) :=
  match sorted_books with
  | [] => Py.Ok []
  | book :: rest =>
      let? r := rating_of s book in
      let continue (counter : Z) :=
        let? i := book_field "id" book in
        let? t := book_field "title" book in
        let? more := top_loop s rest counter (r_average r) in
        Py.Ok (mkTop i t (r_average r) :: more) in
      if negb (Qeq_bool (r_average r) current_average) then
        if 3 <? top_rate_counter + 1 then Py.Ok []
        else continue (top_rate_counter + 1)
      else continue top_rate_counter
  end.

Definition TopBooks_get (s : store) : Py.result response :=
  let? eligible := eligible_books s (get_books s) in
  let? ks := keyed s eligible in
  let sorted_books := map snd (Py.sorted_desc ks) in
  let? top_books := top_loop s sorted_books 0 0 in
  Py.Ok (JTop top_books, 200).

(** *** Books.get_book_details: the answer of Google Books *)

(** The [volumeInfo] of the first item, as far as the method reads it:
    each of the three keys may be absent; [authors] is a list of
    strings, the two others are strings. *)
Record VolumeInfo : Type := mkVolumeInfo {
  v_authors : option (list string);
  v_publisher : option string;
  v_publishedDate : option string
}.

(** The decoded answer: [totalItems] and [items[0]["volumeInfo"]]. *)
Record Volumes : Type := mkVolumes {
  totalItems : Z;
  volumeInfo : VolumeInfo
}.

(** How a call ends: the details, [None], or one of the two lookups on
    [authors] that can fail. *)
Inductive details_outcome : Type :=
| Returns (details : option Details)
| RaisesKeyError
| RaisesIndexError.

(** [info.get("authors", "missing")] is the list, or the string. *)
Inductive authors_value : Type :=
| AList (l : list string)
| AStr (s : string).

Definition authors_len (a : authors_value) : Z :=
  match a with
  | AList l => Z.of_nat (List.length l)
  | AStr s => Z.of_nat (String.length s)
  end.

Definition get_book_details (status_code : Z) (book_data : Volumes)
  : details_outcome :=
  if status_code =? 200 then
    if 0 <? totalItems book_data then
      let info := volumeInfo book_data in
      let authors := match v_authors info with
                     | Some l => AList l
                     | None => AStr "missing"
                     end in
      let continue (authors : string) :=
        let publisher := match v_publisher info with
                         | Some s => s
                         | None => "missing"
                         end in
        let published_date := match v_publishedDate info with
                              | Some s => s
                              | None => "missing"
                              end in
        let published_date :=
          if Z.of_nat (String.length published_date) =? 4 then published_date
          else if negb (Z.of_nat (String.length published_date) =? 10)
               then "missing" else published_date in
        Returns (Some (mkDetails authors publisher published_date)) in
      if 1 <? authors_len authors then
        match v_authors info with
        | Some l => continue (String.concat " and " l)
        | None => RaisesKeyError
        end
      else
        match authors with
        | AList (a :: _) => continue a
        | AList [] => RaisesIndexError
        | AStr (String c _) => continue (String c EmptyString)
        | AStr EmptyString => RaisesIndexError
        end
    else Returns None
  else Returns None.

End BookService.

(* ================================================================= *)
(** ** Book_club.py: the first iteration, in process memory          *)
(* ================================================================= *)

Module BookClub.

Definition REQUIRED_FIELDS : list string :=
  ["title"; "ISBN"; "genre"; "authors"; "publisher"; "publishedDate";
   "language"; "summary"; "id"].

Definition GENRES : list string := BookService.GENRES.

Definition str_in := BookService.str_in.

Record Book : Type := mkBook {
  b_title : string;
  b_ISBN : string;
  b_genre : string;
  b_authors : string;
  b_publisher : string;
  b_publishedDate : string;
  b_language : list string;
  b_summary : string;
  b_id : string
}.

Record Rating : Type := mkRating {
  r_id : string;
  r_values : list Z;
  r_average : Q;
  r_title : string
}.

(** The attributes of the one [BookClub] instance. *)
Record state : Type := mkState {
  books : list Book;
  bookRatings : list Rating;
  ID : Z
}.

Definition initial : state := mkState [] [] 0.

(** [book[field]] for the fields compared with a query string. *)
Definition book_field (field : string) (b : Book) : Py.result string :=
  if String.eqb field "title" then Py.Ok (b_title b)
  else if String.eqb field "ISBN" then Py.Ok (b_ISBN b)
  else if String.eqb field "genre" then Py.Ok (b_genre b)
  else if String.eqb field "authors" then Py.Ok (b_authors b)
  else if String.eqb field "publisher" then Py.Ok (b_publisher b)
  else if String.eqb field "publishedDate" then Py.Ok (b_publishedDate b)
  else if String.eqb field "summary" then Py.Ok (b_summary b)
  else if String.eqb field "id" then Py.Ok (b_id b)
  else Py.Raise Py.KeyError.

Fixpoint list_eqb (l l' : list string) : bool :=
  match l, l' with
  | [], [] => true
  | x :: t, y :: t' => String.eqb x y && list_eqb t t'
  | _, _ => false
  end.

(** [==] on two book dictionaries. *)
Definition Book_eqb (a b : Book) : bool :=
  String.eqb (b_title a) (b_title b) && String.eqb (b_ISBN a) (b_ISBN b)
  && String.eqb (b_genre a) (b_genre b)
  && String.eqb (b_authors a) (b_authors b)
  && String.eqb (b_publisher a) (b_publisher b)
  && String.eqb (b_publishedDate a) (b_publishedDate b)
  && list_eqb (b_language a) (b_language b)
  && String.eqb (b_summary a) (b_summary b)
  && String.eqb (b_id a) (b_id b).

(** *** class BookClub *)

Definition get_books (st : state) : list Book := books st.

Definition get_book_ratings (st : state) : list Rating := bookRatings st.

Definition get_book (book_id : string) (st : state) : option Book :=
  find (fun book => String.eqb (b_id book) book_id) (books st).

Definition get_book_rating (book_id : string) (st : state) : option Rating :=
  find (fun rating => String.eqb (r_id rating) book_id) (bookRatings st).

(** [l.remove(x)] for an [x] that occurs in [l]: the first element equal
    to [x] goes. *)
Fixpoint remove_first {A : Type} (p : A -> bool) (l : list A) : list A :=
  match l with
  | [] => []
  | x :: l' => if p x then l' else x :: remove_first p l'
  end.

Definition delete_book (book_id : string) (st : state) : state :=
  match get_book book_id st with
  | Some book =>
      mkState (remove_first (Book_eqb book) (books st)) (bookRatings st) (ID st)
  | None => st
  end.

Fixpoint values_eqb (l l' : list Z) : bool :=
  match l, l' with
  | [], [] => true
  | x :: t, y :: t' => Z.eqb x y && values_eqb t t'
  | _, _ => false
  end.

(** [==] on two rating dictionaries. *)
Definition Rating_eqb (a b : Rating) : bool :=
  String.eqb (r_id a) (r_id b) && values_eqb (r_values a) (r_values b)
  && Qeq_bool (r_average a) (r_average b) && String.eqb (r_title a) (r_title b).

Definition delete_book_rating (book_id : string) (st : state) : state :=
  match get_book_rating book_id st with
  | Some rating =>
      mkState (books st) (remove_first (Rating_eqb rating) (bookRatings st)) (ID st)
  | None => st
  end.

Definition increment_id (st : state) : Z * state :=
  (ID st + 1, mkState (books st) (bookRatings st) (ID st + 1)).

(** *** Responses *)

Record TopEntry : Type := mkTop {
  t_id : string;
  t_title : string;
  t_average : Q
}.

Inductive body : Type :=
| JError (msg : string)
| JBooks (l : list Book)
| JBook (b : Book)
| JId (i : string)
| JString (i : string)
| JAverage (q : Q)
| JTop (l : list TopEntry).

Definition response : Type := (body * Z)%type.

Definition validate_rating_for_a_book (rating_payload : Py.dict)
  : option response :=
  match rating_payload with
  | [(k, Py.PInt v)] =>
      if String.eqb k "value" && (1 <=? v) && (v <=? 5) then None
      else Some (JError "Invalid rating value", 422)
  | _ => Some (JError "Invalid rating value", 422)
  end.

(** *** class Books: /books *)

Definition LANGUAGES : list string := ["heb"; "eng"; "spa"; "chi"].

Fixpoint select (field value : string) (l : list Book) : Py.result (list Book) :=
  match l with
  | [] => Py.Ok []
  | b :: l' =>
      let? v := book_field field b in
      let? r := select field value l' in
      Py.Ok (if String.eqb v value then b :: r else r)
  end.

(** The loop of [Books.get] over the pairs that [request.args.items()]
    yields. *)
Fixpoint Books_get_loop (params : list (string * string))
  (filtered_books : list Book) : Py.result response :=
  match params with
  | [] => Py.Ok (JBooks filtered_books, 200)
  | (field, value) :: rest =>
      if negb (str_in field REQUIRED_FIELDS)
         || (String.eqb field "genre" && negb (str_in value GENRES))
      then Py.Ok (JError "Invalid field or genre", 422)
      else if String.eqb field "language" then
        if negb (str_in value LANGUAGES)
        then Py.Ok (JError "Invalid language", 422)
        else Books_get_loop rest
               (filter (fun book => str_in value (b_language book)) filtered_books)
      else
        let? filtered := select field value filtered_books in
        Books_get_loop rest filtered
  end.

Definition Books_get (request_parameters : Flask.args) (st : state)
  : Py.result response :=
  Books_get_loop (Flask.items request_parameters) (get_books st).

Definition validate_book_addition (book_payload : Py.dict) (st : state)
  : Py.result (option response) :=
  let required_fields := firstn 3 REQUIRED_FIELDS in
  if negb ((Z.of_nat (List.length book_payload) =? 3)
           && forallb (fun f => Py.mem f book_payload) required_fields
           && forallb (fun f => match Py.get f book_payload with
                                | Some v => Py.is_str v
                                | None => false
                                end) required_fields)
  then
    Py.Ok (Some (JError "Unprocessable content - check validity of fields", 422))
  else
    let? isbn := Py.item "ISBN" book_payload in
    let? n := Py.len isbn in
    if negb (n =? 13) then Py.Ok (Some (JError "Invalid ISBN", 422))
    else
      let? genre := Py.item "genre" book_payload in
      if negb (existsb (fun g => Py.eqb genre (Py.PStr g)) GENRES) then
        Py.Ok (Some (JError "Invalid genre", 422))
      else if existsb (fun book => Py.eqb (Py.PStr (b_ISBN book)) isbn)
                (get_books st)
      then Py.Ok (Some (JError "A book with this ISBN already exists", 422))
      else Py.Ok None.

(** What the three external services answered: the details of Google
    Books, the languages of OpenLibrary, the summary of Gemini. *)
Record Enrichment : Type := mkEnrichment {
  e_details : option BookService.Details;
  e_language : list string;
  e_summary : option string
}.

Definition Books_post (book_payload : Py.dict) (external : Enrichment)
  : Eff.eff state response :=
  match book_payload with
  | [] => Eff.ret (JError "Unsupported media type", 415)
  | _ =>
      error <- Eff.read (validate_book_addition book_payload) ;;
      match error with
      | Some e => Eff.ret e
      | None =>
          match e_details external with
          | None => Eff.ret (JError "Unable to connect to Google Books", 500)
          | Some details =>
              match e_summary external with
              | None => Eff.ret (JError "Unable to connect to Google Gemini", 500)
              | Some summary =>
                  n <- (fun st => let '(n, st') := increment_id st in (Py.Ok n, st')) ;;
                  let book_id := Py.str n in
                  title <- Eff.lift (let? v := Py.item "title" book_payload in Py.the_str v) ;;
                  isbn <- Eff.lift (let? v := Py.item "ISBN" book_payload in Py.the_str v) ;;
                  genre <- Eff.lift (let? v := Py.item "genre" book_payload in Py.the_str v) ;;
                  let book := mkBook title isbn genre
                                (BookService.d_authors details)
                                (BookService.d_publisher details)
                                (BookService.d_publishedDate details)
                                (e_language external) summary book_id in
                  _ <- Eff.write (fun st =>
                         mkState (books st ++ [book])
                           (bookRatings st ++ [mkRating book_id [] 0 title])
                           (ID st)) ;;
                  Eff.ret (JId book_id, 201)
              end
          end
      end
  end.

(** *** class SpecificBook: /books/{id} *)

Definition SpecificBook_get (book_id : string) (st : state) : response :=
  match get_book book_id st with
  | None => (JError "Book not found", 404)
  | Some book => (JBook book, 200)
  end.

Definition SpecificBook_delete (book_id : string) (st : state) : response * state :=
  match get_book book_id st with
  | None => ((JError "Book not found", 404), st)
  | Some _ =>
      ((JString book_id, 200), delete_book_rating book_id (delete_book book_id st))
  end.

(** *** class SpecificRatingsValues: /ratings/{id}/values *)

(** The rating found by [get_book_rating] is updated where it is stored:
    the value is appended, then the average is computed anew. *)
Fixpoint append_value (book_id : string) (value : Z) (l : list Rating)
  : Py.result (Q * list Rating) :=
  match l with
  | [] => Py.Raise Py.TypeError
  | rating :: l' =>
      if String.eqb (r_id rating) book_id then
        let values := r_values rating ++ [value] in
        let? average := Py.truediv (Py.sum values) (Z.of_nat (List.length values)) in
        Py.Ok (average, mkRating (r_id rating) values average (r_title rating) :: l')
      else
        let? r := append_value book_id value l' in
        Py.Ok (fst r, rating :: snd r)
  end.

Definition SpecificRatingsValues_post (book_id : string) (rating_payload : Py.dict)
  : Eff.eff state response :=
  rating <- Eff.read (fun st => Py.Ok (get_book_rating book_id st)) ;;
  match rating with
  | None => Eff.ret (JError "Rating not found", 404)
  | Some _ =>
      match rating_payload with
      | [] => Eff.ret (JError "Unsupported media type", 415)
      | _ =>
          match validate_rating_for_a_book rating_payload with
          | Some e => Eff.ret e
          | None =>
              value <- Eff.lift
                (let? v := Py.item "value" rating_payload in
                 match v with
                 | Py.PInt z => Py.Ok z
                 | _ => Py.Raise Py.TypeError
                 end) ;;
              fun st =>
                match append_value book_id value (bookRatings st) with
                | Py.Ok (average, ratings) =>
                    (Py.Ok (JAverage average, 200),
                     mkState (books st) ratings (ID st))
                | Py.Raise e => (Py.Raise e, st)
                end
          end
      end
  end.

(** *** class TopBooks: /top *)

Definition rating_of (st : state) (book : Book) : Py.result Rating :=
  match get_book_rating (b_id book) st with
  | Some r => Py.Ok r
  | None => Py.Raise Py.TypeError
  end.

Fixpoint eligible_books (st : state) (l : list Book) : Py.result (list Book) :=
  match l with
  | [] => Py.Ok []
  | book :: l' =>
      let? r := rating_of st book in
      let? rest := eligible_books st l' in
      Py.Ok (if 3 <=? Z.of_nat (List.length (r_values r))
             then book :: rest else rest)
  end.

Fixpoint keyed (st : state) (l : list Book) : Py.result (list (Q * Book)) :=
  match l with
  | [] => Py.Ok []
  | book :: l' =>
      let? r := rating_of st book in
      let? rest := keyed st l' in
      Py.Ok ((r_average r, book) :: rest)
  end.

Fixpoint top_loop (st : state) (sorted_books : list Book)
  (top_rate_counter : Z) (current_average : Q) : Py.result (list TopEntry) :=
  match sorted_books with
  | [] => Py.Ok []
  | book :: rest =>
      let? r := rating_of st book in
      let continue (counter : Z) :=
        let? more := top_loop st rest counter (r_average r) in
        Py.Ok (mkTop (b_id book) (b_title book) (r_average r) :: more) in
      if negb (Qeq_bool (r_average r) current_average) then
        if 3 <? top_rate_counter + 1 then Py.Ok []
        else continue (top_rate_counter + 1)
      else continue top_rate_counter
  end.

Definition TopBooks_get (st : state) : Py.result response :=
  let? eligible := eligible_books st (books st) in
  let? ks := keyed st eligible in
  let sorted_books := map snd (Py.sorted_desc ks) in
  let? top_books := top_loop st sorted_books 0 0 in
  Py.Ok (JTop top_books, 200).

(** *** class Ratings, SpecificRatings *)

(** The loop of [Ratings.get] over the pairs that
    [request.args.items()] yields. *)
Fixpoint Ratings_get_loop (params : list (string * string))
  (filtered_ratings : list Rating) : list Rating :=
  match params with
  | [] => filtered_ratings
  | (field, value) :: rest =>
      Ratings_get_loop rest
        (if String.eqb field "id"
         then filter (fun rating => String.eqb (r_id rating) value) filtered_ratings
         else filtered_ratings)
  end.

(** The answer is the list of ratings, with status 200. *)
Definition Ratings_get (request_parameters : Flask.args) (st : state)
  : list Rating * Z :=
  (Ratings_get_loop (Flask.items request_parameters) (get_book_ratings st), 200).

(** The answer is the rating found, with status 200, or nothing, with
    status 404 and the error "Rating not found". *)
Definition SpecificRatings_get (book_id : string) (st : state)
  : option Rating * Z :=
  match get_book_rating book_id st with
  | None => (None, 404)
  | Some rating => (Some rating, 200)
  end.

End BookClub.

(* ================================================================= *)
(** ** Loan_Service.py: the loans                                    *)
(* ================================================================= *)

Module LoanService.

Definition REQUIRED_FIELDS : list string :=
  ["memberName"; "ISBN"; "loanDate"; "title"; "bookID"; "loanID"].

(** A loan document, without its [_id].  Apart from [loanID] the fields
    are copied from the request and from the catalog's answer as they
    come. *)
Record Loan : Type := mkLoan {
  l_loanID : string;
  l_bookID : Py.val;
  l_title : Py.val;
  l_ISBN : Py.val;
  l_memberName : Py.val;
  l_loanDate : Py.val
}.

(** The loan collection holds the loans and, at [_id] 0, the counter. *)
Inductive loandoc : Type :=
| Counter (highest_object_id : Z)
| LoanDoc (l : Loan).

Definition store : Type := Mongo.collection loandoc.

Definition startup (s : store) : store :=
  match Mongo.find_one 0 s with
  | None => s ++ [(0, Counter 0)]
  | Some _ => s
  end.

(** [doc[field]] on a document of the loan collection. *)
Definition loan_field (field : string) (d : loandoc) : Py.result Py.val :=
  match d with
  | Counter _ => Py.Raise Py.KeyError
  | LoanDoc l =>
      if String.eqb field "memberName" then Py.Ok (l_memberName l)
      else if String.eqb field "ISBN" then Py.Ok (l_ISBN l)
      else if String.eqb field "loanDate" then Py.Ok (l_loanDate l)
      else if String.eqb field "title" then Py.Ok (l_title l)
      else if String.eqb field "bookID" then Py.Ok (l_bookID l)
      else if String.eqb field "loanID" then Py.Ok (Py.PStr (l_loanID l))
      else Py.Raise Py.KeyError
  end.

(** *** The answer of the catalog *)

(** What [book_response.json()] decodes: an array of objects, or one
    object. *)
Inductive Body : Type :=
| BList (l : list Py.dict)
| BObj (d : Py.dict).

(** The answer to the request: its status, and what [.json()] makes of
    its content.  On a content that is not JSON (the HTML page of a
    server error, for instance) [.json()] raises [JSONDecodeError], a
    [ValueError]. *)
Record Response : Type := mkResponse {
  status_code : Z;
  json : Py.result Body
}.

(** [len(book_details)]. *)
Definition body_len (b : Body) : Z :=
  match b with
  | BList l => Z.of_nat (List.length l)
  | BObj d => Z.of_nat (List.length d)
  end.

(** [book_details[k]]: an array has no string index. *)
Definition body_item (k : string) (b : Body) : Py.result Py.val :=
  match b with
  | BList _ => Py.Raise Py.TypeError
  | BObj d => Py.item k d
  end.

(** *** The loan date *)

Definition four_two_two (l : list ascii) : bool :=
  match l with
  | [y1; y2; y3; y4; s1; m1; m2; s2; d1; d2] =>
      Py.is_digit y1 && Py.is_digit y2 && Py.is_digit y3 && Py.is_digit y4
      && Ascii.eqb s1 "-" && Py.is_digit m1 && Py.is_digit m2
      && Ascii.eqb s2 "-" && Py.is_digit d1 && Py.is_digit d2
  | _ => false
  end.

(** [re.compile(r'^\d{4}-\d{2}-\d{2}$').match(s)]: [$] also matches just
    before a final line feed.  Of the decimal digits [\d] stands for,
    the ten of ASCII are the ones a [string] can hold; the digits of
    other scripts, which the pattern matches as well, are from U+0660
    on. *)
Definition date_pattern_match (s : string) : bool :=
  let l := list_ascii_of_string s in
  four_two_two l
  || match rev l with
     | c :: r => Ascii.eqb c "010" && four_two_two (rev r)
     | [] => false
     end.

(** The alternatives of [%m], in the order the directive tries them:
    [1[0-2]], [0[1-9]], [[1-9]]. *)
Definition month_alternatives (l : list ascii) : list (Z * list ascii) :=
  let d := Py.digit_val in
  match l with
  | a :: b :: r =>
      (if Ascii.eqb a "1" && Py.is_digit b && (d b <=? 2) then [(10 + d b, r)] else [])
      ++ (if Ascii.eqb a "0" && Py.is_digit b && (1 <=? d b) then [(d b, r)] else [])
      ++ (if Py.is_digit a && (1 <=? d a) then [(d a, b :: r)] else [])
  | [a] => if Py.is_digit a && (1 <=? d a) then [(d a, [])] else []
  | [] => []
  end.

(** The alternatives of [%d]: [3[01]], [[12]\d], [0[1-9]], [[1-9]],
    [ [1-9]]. *)
Definition day_alternatives (l : list ascii) : list (Z * list ascii) :=
  let d := Py.digit_val in
  match l with
  | a :: b :: r =>
      (if Ascii.eqb a "3" && Py.is_digit b && (d b <=? 1) then [(30 + d b, r)] else [])
      ++ (if Py.is_digit a && (1 <=? d a) && (d a <=? 2) && Py.is_digit b
          then [(10 * d a + d b, r)] else [])
      ++ (if Ascii.eqb a "0" && Py.is_digit b && (1 <=? d b) then [(d b, r)] else [])
      ++ (if Py.is_digit a && (1 <=? d a) then [(d a, b :: r)] else [])
      ++ (if Ascii.eqb a " " && Py.is_digit b && (1 <=? d b) then [(d b, r)] else [])
  | [a] => if Py.is_digit a && (1 <=? d a) then [(d a, [])] else []
  | [] => []
  end.

Definition is_leap (y : Z) : bool :=
  (y mod 4 =? 0) && (negb (y mod 100 =? 0) || (y mod 400 =? 0)).

Definition days_in_month (y m : Z) : Z :=
  if m =? 2 then (if is_leap y then 29 else 28)
  else if (m =? 4) || (m =? 6) || (m =? 9) || (m =? 11) then 30
  else 31.

(** [datetime(y, m, d)] is accepted. *)
Definition valid_ymd (y m d : Z) : bool :=
  (1 <=? y) && (y <=? 9999) && (1 <=? m) && (m <=? 12)
  && (1 <=? d) && (d <=? days_in_month y m).

(** [datetime.strptime(s, '%Y-%m-%d')] does not raise [ValueError]: the
    format matches a prefix, nothing is left over, and the date exists.
    As in the pattern above, [\d] in the directives is the ten digits
    of ASCII here. *)
Definition strptime_ok (s : string) : bool :=
  let d := Py.digit_val in
  match list_ascii_of_string s with
  | y1 :: y2 :: y3 :: y4 :: dash :: r =>
      if Py.is_digit y1 && Py.is_digit y2 && Py.is_digit y3 && Py.is_digit y4
         && Ascii.eqb dash "-"
      then
        let y := 1000 * d y1 + 100 * d y2 + 10 * d y3 + d y4 in
        match filter (fun mr => match snd mr with
                                | c :: r' => Ascii.eqb c "-"
                                             && negb (match day_alternatives r' with
                                                      | [] => true | _ => false end)
                                | [] => false
                                end) (month_alternatives r) with
        | (m, _ :: r') :: _ =>
            match day_alternatives r' with
            | (dd, []) :: _ => valid_ymd y m dd
            | _ => false
            end
        | _ => false
        end
      else false
  | _ => false
  end.

(** *** class LoansService *)

Definition add_loan (k : Z) (l : Loan) : Eff.eff store unit :=
  fun s =>
    match Mongo.insert_one k (LoanDoc l) s with
    | Py.Ok c => (Py.Ok tt, c)
    | Py.Raise e => (Py.Raise e, s)
    end.

Definition get_loan (loan_id : string) (s : store) : Py.result (option loandoc) :=
  let? k := Py.int loan_id in
  Py.Ok (if 0 <? k then Mongo.find_one k s else None).

Definition delete_loan (loan_id : string) : Eff.eff store unit :=
  k <- Eff.lift (Py.int loan_id) ;;
  Eff.write (Mongo.delete_one k).

Definition get_loans (s : store) : list loandoc := Mongo.find_gt0 s.

Definition increment_id : Eff.eff store Z :=
  doc <- Eff.read (fun s => Py.Ok (Mongo.find_one 0 s)) ;;
  match doc with
  | None => Eff.raise Py.TypeError
  | Some (LoanDoc _) => Eff.raise Py.KeyError
  | Some (Counter h) =>
      let current_key := h + 1 in
      _ <- Eff.write (Mongo.update_one 0
             (fun d => match d with
                       | Counter _ => Counter current_key
                       | LoanDoc l => LoanDoc l
                       end)) ;;
      Eff.ret current_key
  end.

(** [count_documents({"memberName": member_name})] runs over the whole
    collection; a document without the field is matched by [null].
    The member names here are the scalars of [Py.val], matched by
    equality.  MongoDB also matches a document whose [memberName] is an
    array with [member_name] among its elements; arrays are outside
    [Py.val], so statements about this count are for member names that
    are strings. *)
Definition member_matches (member_name : Py.val) (d : loandoc) : bool :=
  match d with
  | Counter _ => Py.eqb member_name Py.PNone
  | LoanDoc l => Py.eqb (l_memberName l) member_name
  end.

Definition loan_count_of_member (member_name : Py.val) (s : store) : Z :=
  Z.of_nat (List.length (filter (fun kd => member_matches member_name (snd kd)) s)).

(** *** Responses *)

Inductive body : Type :=
| JError (msg : string)
| JLoans (l : list loandoc)
| JLoan (d : loandoc)
| JLoanID (i : string)
| JString (i : string).

Definition response : Type := (body * Z)%type.

(** [any(loan["ISBN"] == isbn for loan in l)]. *)
Fixpoint any_ISBN (isbn : Py.val) (l : list loandoc) : Py.result bool :=
  match l with
  | [] => Py.Ok false
  | d :: l' =>
      let? v := loan_field "ISBN" d in
      if Py.eqb v isbn then Py.Ok true else any_ISBN isbn l'
  end.

Definition validate_loan_addition (loan_payload : Py.dict) (s : store)
  : Py.result (option response) :=
  let required_fields := firstn 3 REQUIRED_FIELDS in
  if negb ((Z.of_nat (List.length loan_payload)
            =? Z.of_nat (List.length required_fields))
           && forallb (fun f => Py.mem f loan_payload) required_fields)
  then
    Py.Ok (Some (JError "Unprocessable content - check validity of fields", 422))
  else
    let? isbn := Py.item "ISBN" loan_payload in
    let? n := Py.len isbn in
    if negb (n =? 13) then Py.Ok (Some (JError "Invalid ISBN", 422))
    else
      let? on_loan := any_ISBN isbn (get_loans s) in
      if on_loan then Py.Ok (Some (JError "This book is already on loan", 422))
      else
        let? member_name := Py.item "memberName" loan_payload in
        if 2 <=? loan_count_of_member member_name s then
          Py.Ok (Some (JError ("Too many books on loan for "
                               ++ Py.format member_name ++ ".")%string, 422))
        else
          let? loanDate := Py.item "loanDate" loan_payload in
          let? date := Py.the_str loanDate in
          if negb (date_pattern_match date) then
            Py.Ok (Some (JError "Invalid date format, should be YYYY-MM-DD", 422))
          else if negb (strptime_ok date) then
            Py.Ok (Some (JError "Invalid date", 422))
          else Py.Ok None.

(** *** class Loans: /loans *)

Fixpoint select (field value : string) (l : list loandoc)
  : Py.result (list loandoc) :=
  match l with
  | [] => Py.Ok []
  | d :: l' =>
      let? v := loan_field field d in
      let? r := select field value l' in
      Py.Ok (if Py.eqb v (Py.PStr value) then d :: r else r)
  end.

(** The loop of [Loans.get] over the pairs that [request.args.items()]
    yields. *)
Fixpoint Loans_get_loop (params : list (string * string))
  (filtered_loans : list loandoc) : Py.result response :=
  match params with
  | [] => Py.Ok (JLoans filtered_loans, 200)
  | (field, value) :: rest =>
      if negb (BookService.str_in field REQUIRED_FIELDS) then
        Py.Ok (JError "Unprocessable content - check validity of fields", 422)
      else
        let? filtered := select field value filtered_loans in
        Loans_get_loop rest filtered
  end.

Definition Loans_get (request_parameters : Flask.args) (s : store)
  : Py.result response :=
  Loans_get_loop (Flask.items request_parameters) (get_loans s).

(** [check_if_in_library] is the request to the catalog; its answer to
    each ISBN is a parameter of the handler.  The answer is decoded
    before its status is looked at.  A request that gets no answer at
    all (a connection that fails) is not part of the model. *)
Definition Loans_post (check_if_in_library : Py.val -> Response)
  (loan_payload : Py.dict) : Eff.eff store response :=
  match loan_payload with
  | [] => Eff.ret (JError "Unsupported media type", 415)
  | _ =>
      error <- Eff.read (validate_loan_addition loan_payload) ;;
      match error with
      | Some e => Eff.ret e
      | None =>
          isbn <- Eff.lift (Py.item "ISBN" loan_payload) ;;
          let book_response := check_if_in_library isbn in
          book_details <- Eff.lift (json book_response) ;;
          if (body_len book_details =? 0)
             || negb (status_code book_response =? 200)
          then Eff.ret (JError "book not found in the library", 404)
          else
            loan_id <- increment_id ;;
            bookID <- Eff.lift (body_item "id" book_details) ;;
            title <- Eff.lift (body_item "title" book_details) ;;
            memberName <- Eff.lift (Py.item "memberName" loan_payload) ;;
            loanDate <- Eff.lift (Py.item "loanDate" loan_payload) ;;
            _ <- add_loan loan_id
                   (mkLoan (Py.str loan_id) bookID title isbn memberName loanDate) ;;
            Eff.ret (JLoanID (Py.str loan_id), 201)
      end
  end.

(** *** class SpecificLoan: /loans/{id} *)

Definition SpecificLoan_get (loan_id : string) (s : store) : Py.result response :=
  let? loan := get_loan loan_id s in
  match loan with
  | None => Py.Ok (JError "Loan not found", 404)
  | Some d => Py.Ok (JLoan d, 200)
  end.

Definition SpecificLoan_delete (loan_id : string) : Eff.eff store response :=
  loan <- Eff.read (get_loan loan_id) ;;
  match loan with
  | None => Eff.ret (JError "Loan not found", 404)
  | Some _ =>
      _ <- delete_loan loan_id ;;
      Eff.ret (JString loan_id, 200)
  end.

End LoanService.

(* ================================================================= *)
(** ** Requests served at the same time                              *)
(* ================================================================= *)

(** [increment_id] talks to the store twice: [find_one], then
    [update_one].  When several requests are served at once, the store
    sees their operations in some interleaved order.  A schedule names,
    step by step, the caller whose next store operation runs. *)

Module Interleaving.

Section Allocator.

(** The store, the [find_one(...)["highest_object_id"]] of the counter
    document and the [$set] that writes it back. *)
Context {S : Type}.
Variable fetch : S -> Py.result Z.
Variable set : Z -> S -> S.

(** Where a call of [increment_id] stands. *)
Inductive caller : Type :=
| Ready
| Fetched (current_key : Z)
| Returned (current_key : Z)
| Failed (e : Py.exn).

Record world : Type := mkWorld {
  shared : S;
  callers : list caller
}.

(** The next store operation of one caller. *)
Definition advance (c : caller) (s : S) : caller * S :=
  match c with
  | Ready =>
      match fetch s with
      | Py.Ok h => (Fetched (h + 1), s)
      | Py.Raise e => (Failed e, s)
      end
  | Fetched current_key => (Returned current_key, set current_key s)
  | Returned current_key => (Returned current_key, s)
  | Failed e => (Failed e, s)
  end.

Fixpoint replace (i : nat) (c : caller) (l : list caller) : list caller :=
  match l, i with
  | [], _ => []
  | _ :: l', O => c :: l'
  | x :: l', Datatypes.S i' => x :: replace i' c l'
  end.

Definition step (i : nat) (w : world) : world :=
  match nth_error (callers w) i with
  | Some c =>
      let '(c', s') := advance c (shared w) in
      mkWorld s' (replace i c' (callers w))
  | None => w
  end.

Definition run (schedule : list nat) (w : world) : world :=
  fold_left (fun w i => step i w) schedule w.

(** [n] requests that all call the allocator. *)
Definition start (n : nat) (s : S) : world := mkWorld s (repeat Ready n).

(** One caller after the other, in the given order: the two operations
    of a call are not separated. *)
Definition serial (order : list nat) : list nat :=
  flat_map (fun i => [i; i]) order.

(** The identifiers handed out. *)
Definition returned (w : world) : list Z :=
  flat_map (fun c => match c with Returned k => [k] | _ => [] end) (callers w).

End Allocator.

(** The allocator of the catalog. *)
Definition book_fetch (s : BookService.store) : Py.result Z :=
  match Mongo.find_one 0 (BookService.book_collection s) with
  | None => Py.Raise Py.TypeError
  | Some (BookService.BookDoc _) => Py.Raise Py.KeyError
  | Some (BookService.Counter h) => Py.Ok h
  end.

Definition book_set (current_key : Z) (s : BookService.store) : BookService.store :=
  BookService.set_books (Mongo.update_one 0
    (fun d => match d with
              | BookService.Counter _ => BookService.Counter current_key
              | BookService.BookDoc b => BookService.BookDoc b
              end)) s.

(** The allocator of the loans. *)
Definition loan_fetch (s : LoanService.store) : Py.result Z :=
  match Mongo.find_one 0 s with
  | None => Py.Raise Py.TypeError
  | Some (LoanService.LoanDoc _) => Py.Raise Py.KeyError
  | Some (LoanService.Counter h) => Py.Ok h
  end.

Definition loan_set (current_key : Z) (s : LoanService.store) : LoanService.store :=
  Mongo.update_one 0
    (fun d => match d with
              | LoanService.Counter _ => LoanService.Counter current_key
              | LoanService.LoanDoc l => LoanService.LoanDoc l
              end) s.

End Interleaving.

(* ================================================================= *)
(** ** Ratings posted at the same time                               *)
(* ================================================================= *)

(** [add_rating_value] talks to the rating collection three times: the
    [$push] of the value, the [find_one] from which the average is
    computed, and the [$set] of the average.  A schedule names, step by
    step, the caller whose next store operation runs. *)

Module RatingInterleaving.

Definition store : Type := Mongo.collection BookService.Rating.

(** Where a call of [add_rating_value(rating_value, rating_id)] stands,
    with [int(rating_id)] and the value it was called with. *)
Inductive caller : Type :=
| Ready (k : Z) (rating_value : Z)
| Pushed (k : Z) (rating_value : Z)
| Computed (k : Z) (rating_value : Z) (new_average : Q)
| Returned (k : Z) (rating_value : Z) (new_average : Q)
| Failed (k : Z) (rating_value : Z) (e : Py.exn).

Record world : Type := mkWorld {
  shared : store;
  callers : list caller
}.

(** The three store operations. *)
Definition push (k rating_value : Z) (s : store) : store :=
  Mongo.update_one k
    (fun r => BookService.mkRating (BookService.r_id r)
                (BookService.r_values r ++ [rating_value])
                (BookService.r_average r) (BookService.r_title r)) s.

Definition compute (k : Z) (s : store) : Py.result Q :=
  let? values := BookService.subscript (Mongo.find_one k s) BookService.r_values in
  Py.truediv (Py.sum values) (Z.of_nat (List.length values)).

Definition set_average (k : Z) (new_average : Q) (s : store) : store :=
  Mongo.update_one k
    (fun r => BookService.mkRating (BookService.r_id r) (BookService.r_values r)
                new_average (BookService.r_title r)) s.

(** The next store operation of one caller. *)
Definition advance (c : caller) (s : store) : caller * store :=
  match c with
  | Ready k v => (Pushed k v, push k v s)
  | Pushed k v =>
      match compute k s with
      | Py.Ok a => (Computed k v a, s)
      | Py.Raise e => (Failed k v e, s)
      end
  | Computed k v a => (Returned k v a, set_average k a s)
  | Returned k v a => (Returned k v a, s)
  | Failed k v e => (Failed k v e, s)
  end.

Fixpoint replace (i : nat) (c : caller) (l : list caller) : list caller :=
  match l, i with
  | [], _ => []
  | _ :: l', O => c :: l'
  | x :: l', Datatypes.S i' => x :: replace i' c l'
  end.

Definition step (i : nat) (w : world) : world :=
  match nth_error (callers w) i with
  | Some c =>
      let '(c', s') := advance c (shared w) in
      mkWorld s' (replace i c' (callers w))
  | None => w
  end.

Definition run (schedule : list nat) (w : world) : world :=
  fold_left (fun w i => step i w) schedule w.

(** The requests, each with its rating and its value, before any store
    operation. *)
Definition start (requests : list (Z * Z)) (s : store) : world :=
  mkWorld s (map (fun kv => Ready (fst kv) (snd kv)) requests).

End RatingInterleaving.

(* ================================================================= *)
(** ** Notions used to state the properties                          *)
(* ================================================================= *)

(** The identifiers [h+1 .. h+n]. *)
Definition ids_after (h : Z) (n : nat) : list Z :=
  map (fun i => h + Z.of_nat i) (seq 1 n).

(** A string of decimal digits only. *)
Fixpoint all_digits (s : string) : bool :=
  match s with
  | EmptyString => true
  | String c s' => Py.is_digit c && all_digits s'
  end.

(** No element occurs twice. *)
Fixpoint distinct (l : list Z) : bool :=
  match l with
  | [] => true
  | x :: l' => negb (existsb (Z.eqb x) l') && distinct l'
  end.

(** The arithmetic mean of a list of integers. *)
Definition mean (l : list Z) : Q := Py.sum l # Pos.of_nat (List.length l).

(** The rating data model: values between 1 and 5; the average is 0
    while there is no value and the mean of the values afterwards. *)
Definition values_ok (values : list Z) (average : Q) : bool :=
  forallb (fun v => (1 <=? v) && (v <=? 5)) values
  && Qeq_bool average (match values with [] => 0 | _ => mean values end).

(** The states of the catalog that the handlers produce: one counter, at
    [_id] 0; every other document of the book collection is a book whose
    [id] is the decimal form of its [_id], not above the counter, with a
    rating document under the same [_id]; [_id]s are not repeated. *)
Definition book_doc_ok (h : Z) (ratings : Mongo.collection BookService.Rating)
  (kd : Z * BookService.bookdoc) : bool :=
  match snd kd with
  | BookService.Counter _ => fst kd =? 0
  | BookService.BookDoc b =>
      (0 <? fst kd) && (fst kd <=? h)
      && String.eqb (BookService.b_id b) (Py.str (fst kd))
      && match Mongo.find_one (fst kd) ratings with
         | Some _ => true
         | None => false
         end
  end.

Definition rating_doc_ok (h : Z) (kr : Z * BookService.Rating) : bool :=
  (0 <? fst kr) && (fst kr <=? h)
  && String.eqb (BookService.r_id (snd kr)) (Py.str (fst kr))
  && values_ok (BookService.r_values (snd kr)) (BookService.r_average (snd kr)).

Definition catalog_wf (s : BookService.store) : bool :=
  let books := BookService.book_collection s in
  let ratings := BookService.rating_collection s in
  match Mongo.find_one 0 books with
  | Some (BookService.Counter h) =>
      (0 <=? h)
      && distinct (Mongo.ids books) && distinct (Mongo.ids ratings)
      && forallb (book_doc_ok h ratings) books
      && forallb (rating_doc_ok h) ratings
  | _ => false
  end.

(** The same for the first iteration: every book has a rating record
    under its [id], and the rating records follow the data model. *)
Definition club_wf (st : BookClub.state) : bool :=
  forallb (fun b => match BookClub.get_book_rating (BookClub.b_id b) st with
                    | Some _ => true
                    | None => false
                    end) (BookClub.books st)
  && forallb (fun r => values_ok (BookClub.r_values r) (BookClub.r_average r))
       (BookClub.bookRatings st).

(** The states of the loan collection: the counter at [_id] 0, not
    negative; loans above it; no [_id] repeated. *)
Definition loans_wf (s : LoanService.store) : bool :=
  match Mongo.find_one 0 s with
  | Some (LoanService.Counter h) =>
      (0 <=? h)
      && distinct (Mongo.ids s)
      && forallb (fun kd => match snd kd with
                            | LoanService.Counter _ => fst kd =? 0
                            | LoanService.LoanDoc _ => 0 <? fst kd
                            end) s
  | _ => false
  end.

(** A catalog with one rated book, and the loans of one member. *)
Definition sample_book : BookService.Book :=
  BookService.mkBook "1" "Effective Java" "9780134685991" "Science"
    "Joshua Bloch" "Addison-Wesley" "2018-01-06".

Definition sample_catalog : BookService.store :=
  BookService.mkStore
    [(0, BookService.Counter 1); (1, BookService.BookDoc sample_book)]
    [(1, BookService.mkRating "1" [5; 4; 5] (14 # 3) "Effective Java")].

Definition sample_loan (i : string) (isbn : string) : LoanService.Loan :=
  LoanService.mkLoan i (Py.PStr "1") (Py.PStr "Effective Java") (Py.PStr isbn)
    (Py.PStr "Dana") (Py.PStr "2024-02-29").

Definition sample_loans : LoanService.store :=
  [(0, LoanService.Counter 2);
   (1, LoanService.LoanDoc (sample_loan "1" "9780134685991"));
   (2, LoanService.LoanDoc (sample_loan "2" "9780262033848"))].

(** POST /ratings/{id}/values with the body [{"value": v}], in the
    persistent service and in the first iteration. *)
Definition rate (book_id : string) (v : Z)
  : Eff.eff BookService.store BookService.response :=
  BookService.SpecificRatingsValues_post book_id [("value", Py.PInt v)].

Definition rate_in_memory (book_id : string) (v : Z)
  : Eff.eff BookClub.state BookClub.response :=
  BookClub.SpecificRatingsValues_post book_id [("value", Py.PInt v)].

(** A catalog and a club whose one book has not been rated yet. *)
Definition unrated_catalog : BookService.store :=
  BookService.mkStore
    [(0, BookService.Counter 1); (1, BookService.BookDoc sample_book)]
    [(1, BookService.mkRating "1" [] 0 "Effective Java")].

Definition club_book (i title : string) (language : list string)
  : BookClub.Book :=
  BookClub.mkBook title "9780134685991" "Science" "Joshua Bloch"
    "Addison-Wesley" "2018-01-06" language "A summary." i.

Definition unrated_club : BookClub.state :=
  BookClub.mkState [club_book "1" "Effective Java" ["eng"]]
    [BookClub.mkRating "1" [] 0 "Effective Java"] 1.

(** *** Strings of ASCII characters *)

(** Every character of the string is below U+0080. *)
Fixpoint ascii_only (s : string) : bool :=
  match s with
  | EmptyString => true
  | String c s' => (nat_of_ascii c <? 128)%nat && ascii_only s'
  end.

(** *** The list query, read as a filter *)

(** A query parameter the first iteration refuses. *)
Definition refused_in_memory (fv : string * string) : bool :=
  let '(field, value) := fv in
  negb (BookClub.str_in field BookClub.REQUIRED_FIELDS)
  || (String.eqb field "genre" && negb (BookClub.str_in value BookClub.GENRES))
  || (String.eqb field "language"
      && negb (BookClub.str_in value BookClub.LANGUAGES)).

(** A book meets a parameter: membership for [language], equality for
    every other field. *)
Definition meets_in_memory (b : BookClub.Book) (fv : string * string) : bool :=
  let '(field, value) := fv in
  if String.eqb field "language" then BookClub.str_in value (BookClub.b_language b)
  else match BookClub.book_field field b with
       | Py.Ok v => String.eqb v value
       | Py.Raise _ => false
       end.

(** The same for the persistent service, which has no [language]. *)
Definition refused (fv : string * string) : bool :=
  let '(field, value) := fv in
  negb (BookService.str_in field BookService.REQUIRED_FIELDS)
  || (String.eqb field "genre"
      && negb (BookService.str_in value BookService.GENRES)).

Definition meets (d : BookService.bookdoc) (fv : string * string) : bool :=
  match BookService.book_field (fst fv) d with
  | Py.Ok v => String.eqb v (snd fv)
  | Py.Raise _ => false
  end.

(** The body of a successful list answer of the persistent service: the
    one match alone, or the list of matches. *)
Definition one_or_list (l : list BookService.bookdoc) : BookService.body :=
  match l with
  | [d] => BookService.JBook d
  | _ => BookService.JBooks l
  end.

(** A document of the book collection that is a book. *)
Definition is_book (d : BookService.bookdoc) : Prop :=
  exists b, d = BookService.BookDoc b.

(** A club with one book in French. *)
Definition french_club : BookClub.state :=
  BookClub.mkState [club_book "1" "L'Etranger" ["fre"]]
    [BookClub.mkRating "1" [] 0 "L'Etranger"] 1.

(** *** The ranking, on items paired with their averages *)





(** *** The ranking, on the two catalogs *)





(** The same for the persistent service. *)
Definition eligible (s : BookService.store) (d : BookService.bookdoc) : bool :=
  match BookService.rating_of s d with
  | Py.Ok r => 3 <=? Z.of_nat (List.length (BookService.r_values r))
  | Py.Raise _ => false
  end.

Definition average (s : BookService.store) (d : BookService.bookdoc) : Q :=
  match BookService.rating_of s d with
  | Py.Ok r => BookService.r_average r
  | Py.Raise _ => 0
  end.



(** A club in which two averages are shared: seven books, one of them
    with two values only. *)
Definition tied_club : BookClub.state :=
  let rated i values average :=
    BookClub.mkRating i values average "Effective Java" in
  BookClub.mkState
    (map (fun i => club_book i "Effective Java" ["eng"])
       ["1"; "2"; "3"; "4"; "5"; "6"; "7"])
    [rated "1" [2; 2; 2] (6 # 3); rated "2" [3; 3; 3] (9 # 3);
     rated "3" [4; 4; 4] (12 # 3); rated "4" [5; 5] (10 # 2);
     rated "5" [5; 5; 5] (15 # 3); rated "6" [4; 3; 5] (12 # 3);
     rated "7" [3; 2; 4] (9 # 3)]
    7.

(** *** Loans *)

(** Some active loan carries this ISBN. *)
Definition on_loan (isbn : Py.val) (s : LoanService.store) : bool :=
  existsb (fun d => match LoanService.loan_field "ISBN" d with
                    | Py.Ok v => Py.eqb v isbn
                    | Py.Raise _ => false
                    end) (LoanService.get_loans s).

(** The loan date passes both checks of the fifth gate. *)
Definition valid_date (date : string) : bool :=
  LoanService.date_pattern_match date && LoanService.strptime_ok date.

(** A loan request whose three fields are present, with a string as
    ISBN and as loan date. *)
Definition loan_request (member : Py.val) (isbn date : string) : Py.dict :=
  [("memberName", member); ("ISBN", Py.PStr isbn); ("loanDate", Py.PStr date)].

(** *** The requests of the catalog service *)

(** One request to the persistent catalog, with what the external
    catalogue answered where the handler asks it. *)
Inductive request : Type :=
| PostBook (book_payload : Py.dict) (book_details : option BookService.Details)
| PutBook (book_id : string) (book_payload : Py.dict)
| DeleteBook (book_id : string)
| PostRatingValue (book_id : string) (rating_payload : Py.dict).

Definition handle (q : request) : Eff.eff BookService.store BookService.response :=
  match q with
  | PostBook p d => BookService.Books_post p d
  | PutBook i p => BookService.SpecificBook_put i p
  | DeleteBook i => BookService.SpecificBook_delete i
  | PostRatingValue i p => BookService.SpecificRatingsValues_post i p
  end.

(** The store after a sequence of requests, whatever they answered. *)
Definition serve (qs : list request) (s : BookService.store) : BookService.store :=
  fold_left (fun s q => snd (handle q s)) qs s.

(** The requests of the loan service. *)
Inductive loan_request_kind : Type :=
| PostLoan (answer : Py.val -> LoanService.Response) (loan_payload : Py.dict)
| DeleteLoan (loan_id : string).

Definition handle_loan (q : loan_request_kind)
  : Eff.eff LoanService.store LoanService.response :=
  match q with
  | PostLoan answer p => LoanService.Loans_post answer p
  | DeleteLoan i => LoanService.SpecificLoan_delete i
  end.

Definition serve_loans (qs : list loan_request_kind) (s : LoanService.store)
  : LoanService.store :=
  fold_left (fun s q => snd (handle_loan q s)) qs s.

(** *** The requests of the first iteration and its invariant *)

Inductive club_request : Type :=
| ClubPostBook (book_payload : Py.dict) (external : BookClub.Enrichment)
| ClubDeleteBook (book_id : string)
| ClubPostRatingValue (book_id : string) (rating_payload : Py.dict).

Definition handle_club (q : club_request)
  : Eff.eff BookClub.state BookClub.response :=
  match q with
  | ClubPostBook p e => BookClub.Books_post p e
  | ClubDeleteBook i =>
      fun st => let '(r, st') := BookClub.SpecificBook_delete i st in (Py.Ok r, st')
  | ClubPostRatingValue i p => BookClub.SpecificRatingsValues_post i p
  end.

Definition serve_club (qs : list club_request) (st : BookClub.state)
  : BookClub.state :=
  fold_left (fun st q => snd (handle_club q st)) qs st.

(** A session of the first iteration: the book is rated, a second
    book is created, the first one is deleted. *)
Definition club_session : list club_request :=
  [ClubPostRatingValue "1" [("value", Py.PInt 5)];
   ClubPostBook
     [("title", Py.PStr "Introduction to Algorithms");
      ("ISBN", Py.PStr "9780262033848"); ("genre", Py.PStr "Science")]
     (BookClub.mkEnrichment
        (Some (BookService.mkDetails "Thomas H. Cormen" "MIT Press" "2009-07-31"))
        ["eng"] (Some "A summary."));
   ClubPostRatingValue "2" [("value", Py.PInt 4)];
   ClubDeleteBook "1"].

(** What the handlers of the first iteration maintain: identifiers are
    decimal forms of numbers handed out so far, none is repeated, every
    book has a rating under its identifier, and the ratings follow the
    data model. *)
Definition club_inv (st : BookClub.state) : Prop :=
  0 <= BookClub.ID st
  /\ NoDup (map BookClub.b_id (BookClub.books st))
  /\ NoDup (map BookClub.r_id (BookClub.bookRatings st))
  /\ (forall b, In b (BookClub.books st) ->
        exists k, 1 <= k <= BookClub.ID st /\ BookClub.b_id b = Py.str k)
  /\ (forall r, In r (BookClub.bookRatings st) ->
        (exists k, 1 <= k <= BookClub.ID st /\ BookClub.r_id r = Py.str k)
        /\ values_ok (BookClub.r_values r) (BookClub.r_average r) = true)
  /\ (forall b, In b (BookClub.books st) ->
        exists r, In r (BookClub.bookRatings st)
                  /\ BookClub.r_id r = BookClub.b_id b).

(** *** A session *)

(** The book is created, then rated 5, 4 and 5. *)
Definition session : list request :=
  [PostBook [("title", Py.PStr "Effective Java");
             ("ISBN", Py.PStr "9780134685991");
             ("genre", Py.PStr "Science")]
     (Some (BookService.mkDetails "Joshua Bloch" "Addison-Wesley" "2018-01-06"));
   PostRatingValue "1" [("value", Py.PInt 5)];
   PostRatingValue "1" [("value", Py.PInt 4)];
   PostRatingValue "1" [("value", Py.PInt 5)]].

(** The catalog answers every ISBN with the one book. *)
Definition one_book (_ : Py.val) : LoanService.Response :=
  LoanService.mkResponse 200
    (Py.Ok (LoanService.BObj
              [("id", Py.PStr "1"); ("title", Py.PStr "Effective Java")])).

Definition loan_session : list loan_request_kind :=
  [PostLoan one_book (loan_request (Py.PStr "Dana") "9780134685991" "2024-02-29");
   PostLoan one_book (loan_request (Py.PStr "Dana") "9780262033848" "2024-02-29")].

(** *** Further notions: the catalog *)

(** Some book of the catalog carries this ISBN. *)
Definition on_shelf (isbn : Py.val) (s : BookService.store) : bool :=
  existsb (fun d => match BookService.book_field "ISBN" d with
                    | Py.Ok v => Py.eqb (Py.PStr v) isbn
                    | Py.Raise _ => false
                    end) (BookService.get_books s).

(** A catalog with two books. *)
Definition second_book : BookService.Book :=
  BookService.mkBook "2" "Introduction to Algorithms" "9780262033848" "Science"
    "Thomas H. Cormen" "MIT Press" "2009-07-31".

Definition two_book_catalog : BookService.store :=
  BookService.mkStore
    [(0, BookService.Counter 2); (1, BookService.BookDoc sample_book);
     (2, BookService.BookDoc second_book)]
    [(1, BookService.mkRating "1" [5; 4; 5] (14 # 3) "Effective Java");
     (2, BookService.mkRating "2" [] 0 "Introduction to Algorithms")].

(** A rating meets the parameters of a list query: only [id] is looked
    at. *)
Definition rating_meets (i : string) (params : list (string * string)) : bool :=
  forallb (fun fv => negb (String.eqb (fst fv) "id") || String.eqb i (snd fv))
    params.

(** *** Further notions: the loans *)

(** No [_id] of the loan collection is above the counter, and the
    [loanID] of a loan is the decimal form of its [_id]. *)
Definition loans_numbered (s : LoanService.store) : bool :=
  match Mongo.find_one 0 s with
  | Some (LoanService.Counter h) =>
      forallb (fun kd => (fst kd <=? h)
                         && match snd kd with
                            | LoanService.Counter _ => true
                            | LoanService.LoanDoc l =>
                                String.eqb (LoanService.l_loanID l) (Py.str (fst kd))
                            end) s
  | _ => false
  end.

(** The ISBNs of the active loans. *)
Definition loan_ISBNs (s : LoanService.store) : list Py.val :=
  flat_map (fun d => match d with
                     | LoanService.LoanDoc l => [LoanService.l_ISBN l]
                     | LoanService.Counter _ => []
                     end) (LoanService.get_loans s).

(** The ISBN a document of the collection puts on loan. *)
Definition isbn_of (kd : Z * LoanService.loandoc) : list Py.val :=
  if 0 <? fst kd then
    match snd kd with
    | LoanService.LoanDoc l => [LoanService.l_ISBN l]
    | LoanService.Counter _ => []
    end
  else [].

(** The two limits of the loan service: no ISBN is on loan twice, and
    [loan_count_of_member] is at most 2 for every member name. *)
Definition loans_limits (s : LoanService.store) : Prop :=
  NoDup (loan_ISBNs s)
  /\ forall member, LoanService.loan_count_of_member member s <= 2.

(** The member name of every loan of the collection is a string. *)
Definition string_member_of (d : LoanService.loandoc) : bool :=
  match d with
  | LoanService.Counter _ => true
  | LoanService.LoanDoc l =>
      match LoanService.l_memberName l with
      | Py.PStr _ => true
      | _ => false
      end
  end.

Definition string_members (s : LoanService.store) : bool :=
  forallb (fun kd => string_member_of (snd kd)) s.

(** The member name of a request that creates a loan is a string. *)
Definition string_member (q : loan_request_kind) : bool :=
  match q with
  | PostLoan _ p =>
      match Py.get "memberName" p with
      | Some (Py.PStr _) | None => true
      | Some _ => false
      end
  | DeleteLoan _ => true
  end.

(** A parameter of the loan list query that is refused, and a loan that
    meets a parameter: its field is the string of the query. *)
Definition loan_param_refused (fv : string * string) : bool :=
  negb (BookService.str_in (fst fv) LoanService.REQUIRED_FIELDS).

Definition loan_meets (d : LoanService.loandoc) (fv : string * string) : bool :=
  match LoanService.loan_field (fst fv) d with
  | Py.Ok v => Py.eqb v (Py.PStr (snd fv))
  | Py.Raise _ => false
  end.

(** *** The catalog as the loan service reads it *)

(** A document of the book collection as [jsonify] writes it and
    [.json()] decodes it. *)
Definition book_json (d : BookService.bookdoc) : Py.dict :=
  match d with
  | BookService.BookDoc b =>
      [("id", Py.PStr (BookService.b_id b));
       ("title", Py.PStr (BookService.b_title b));
       ("ISBN", Py.PStr (BookService.b_ISBN b));
       ("genre", Py.PStr (BookService.b_genre b));
       ("authors", Py.PStr (BookService.b_authors b));
       ("publisher", Py.PStr (BookService.b_publisher b));
       ("publishedDate", Py.PStr (BookService.b_publishedDate b))]
  | BookService.Counter h => [("highest_object_id", Py.PInt h)]
  end.

(** The bodies GET /books can send, decoded by the loan service. *)
Definition decoded (b : BookService.body) : option LoanService.Body :=
  match b with
  | BookService.JBook d => Some (LoanService.BObj (book_json d))
  | BookService.JBooks l => Some (LoanService.BList (map book_json l))
  | BookService.JError msg => Some (LoanService.BObj [("error", Py.PStr msg)])
  | _ => None
  end.

(** Two books with one ISBN, as a PUT can leave them. *)
Definition shared_ISBN_catalog : BookService.store :=
  BookService.mkStore
    [(0, BookService.Counter 2); (1, BookService.BookDoc sample_book);
     (2, BookService.BookDoc
           (BookService.mkBook "2" "Effective Java, 2nd edition" "9780134685991"
              "Science" "Joshua Bloch" "Addison-Wesley" "2008-05-08"))]
    [(1, BookService.mkRating "1" [5; 4; 5] (14 # 3) "Effective Java");
     (2, BookService.mkRating "2" [] 0 "Effective Java, 2nd edition")].

(** *** The loan date, written out *)

(** The decimal digit [n] as a character, and a date as YYYY-MM-DD. *)
Definition digit_char (n : Z) : ascii := ascii_of_nat (48 + Z.to_nat n).

Definition iso_date (y m d : Z) : string :=
  string_of_list_ascii
    [digit_char (y / 1000); digit_char (y / 100 mod 10);
     digit_char (y / 10 mod 10); digit_char (y mod 10); "-"%char;
     digit_char (m / 10); digit_char (m mod 10); "-"%char;
     digit_char (d / 10); digit_char (d mod 10)].

(** *** Ratings posted at the same time *)

(** The values for rating [k] of the callers that have pushed. *)
Definition pushed_for (k : Z) (c : RatingInterleaving.caller) : list Z :=
  match c with
  | RatingInterleaving.Ready _ _ => []
  | RatingInterleaving.Pushed k' v
  | RatingInterleaving.Computed k' v _
  | RatingInterleaving.Returned k' v _
  | RatingInterleaving.Failed k' v _ => if k' =? k then [v] else []
  end.

(** The values of the requests for rating [k]. *)
Definition requested_for (k : Z) (requests : list (Z * Z)) : list Z :=
  flat_map (fun kv => if fst kv =? k then [snd kv] else []) requests.

(** No caller is still before its push. *)
Definition all_pushed (w : RatingInterleaving.world) : bool :=
  forallb (fun c => match c with
                    | RatingInterleaving.Ready _ _ => false
                    | _ => true
                    end) (RatingInterleaving.callers w).

(** The request a caller was started with. *)
Definition request_of (c : RatingInterleaving.caller) : Z * Z :=
  match c with
  | RatingInterleaving.Ready k v
  | RatingInterleaving.Pushed k v
  | RatingInterleaving.Computed k v _
  | RatingInterleaving.Returned k v _
  | RatingInterleaving.Failed k v _ => (k, v)
  end.

(** *** The ISBNs of the catalog *)

Definition book_isbn_of (kd : Z * BookService.bookdoc) : list string :=
  if 0 <? fst kd then
    match snd kd with
    | BookService.BookDoc b => [BookService.b_ISBN b]
    | BookService.Counter _ => []
    end
  else [].

(** The ISBNs of the books the catalog lists. *)
Definition book_ISBNs (s : BookService.store) : list string :=
  flat_map book_isbn_of (BookService.book_collection s).

(** A request that is not a PUT. *)
Definition no_put (q : request) : bool :=
  match q with
  | PutBook _ _ => false
  | _ => true
  end.

(* ================================================================= *)
(** ** Properties                                                    *)
(* ================================================================= *)

(** *** Collections *)

Section CollectionFacts.

Context {D : Type}.
Implicit Types (c : Mongo.collection D) (k : Z).

Lemma find_one_update_same k u c :
  Mongo.find_one k (Mongo.update_one k u c) = option_map u (Mongo.find_one k c).
Proof.
  induction c as [|[k' d] c IH]; simpl; [reflexivity|].
  destruct (Z.eqb k k') eqn:E; simpl; rewrite E; [reflexivity | exact IH].
Qed.

Lemma find_one_update_other k k' u c :
  k <> k' ->
  Mongo.find_one k (Mongo.update_one k' u c) = Mongo.find_one k c.
Proof.
  intros Hne. induction c as [|[j d] c IH]; simpl; [reflexivity|].
  destruct (Z.eqb k' j) eqn:E; simpl.
  - apply Z.eqb_eq in E. subst j.
    destruct (Z.eqb_spec k k'); [contradiction | reflexivity].
  - rewrite IH. reflexivity.
Qed.

Lemma ids_update_one k u c :
  Mongo.ids (Mongo.update_one k u c) = Mongo.ids c.
Proof.
  induction c as [|[j d] c IH]; simpl; [reflexivity|].
  destruct (Z.eqb k j); simpl; [reflexivity | now rewrite IH].
Qed.

Lemma find_one_app k c c' :
  Mongo.find_one k (c ++ c') =
  match Mongo.find_one k c with
  | Some d => Some d
  | None => Mongo.find_one k c'
  end.
Proof.
  induction c as [|[j d] c IH]; simpl; [reflexivity|].
  destruct (Z.eqb k j); [reflexivity | exact IH].
Qed.

Lemma find_one_None_ids k c :
  Mongo.find_one k c = None <-> ~ In k (Mongo.ids c).
Proof.
  induction c as [|[j d] c IH]; simpl.
  - tauto.
  - destruct (Z.eqb k j) eqn:E.
    + apply Z.eqb_eq in E. subst. split; [discriminate | tauto].
    + apply Z.eqb_neq in E. rewrite IH. split; intro H; [|tauto].
      intros [H'|H']; [congruence | tauto].
Qed.

Lemma find_one_In k d c :
  Mongo.find_one k c = Some d -> In (k, d) c.
Proof.
  induction c as [|[j e] c IH]; simpl; [discriminate|].
  destruct (Z.eqb k j) eqn:E.
  - apply Z.eqb_eq in E. intros [= ->]. left. now subst.
  - intros H. right. now apply IH.
Qed.

Lemma In_find_one k d c :
  NoDup (Mongo.ids c) -> In (k, d) c -> Mongo.find_one k c = Some d.
Proof.
  induction c as [|[j e] c IH]; simpl; [tauto|].
  intros Hnd [H|H].
  - injection H as -> ->. now rewrite Z.eqb_refl.
  - inversion Hnd as [|? ? Hnotin Hnd']; subst.
    destruct (Z.eqb k j) eqn:E.
    + apply Z.eqb_eq in E. subst. exfalso. apply Hnotin.
      apply (in_map fst) in H. exact H.
    + now apply IH.
Qed.

End CollectionFacts.

(** *** The identifier allocator, one call after the other *)

Lemma book_increment_id_spec (s : BookService.store) (h : Z) :
  Interleaving.book_fetch s = Py.Ok h ->
  BookService.increment_id s = (Py.Ok (h + 1), Interleaving.book_set (h + 1) s)
  /\ Interleaving.book_fetch (Interleaving.book_set (h + 1) s) = Py.Ok (h + 1).
Proof.
  unfold Interleaving.book_fetch, BookService.increment_id, Eff.bind, Eff.read.
  destruct (Mongo.find_one 0 (BookService.book_collection s)) as [[h'|b]|] eqn:E;
    try discriminate.
  intros [= ->]. split; [reflexivity|].
  unfold Interleaving.book_set, BookService.set_books. simpl.
  rewrite find_one_update_same, E. reflexivity.
Qed.

Lemma loan_increment_id_spec (s : LoanService.store) (h : Z) :
  Interleaving.loan_fetch s = Py.Ok h ->
  LoanService.increment_id s = (Py.Ok (h + 1), Interleaving.loan_set (h + 1) s)
  /\ Interleaving.loan_fetch (Interleaving.loan_set (h + 1) s) = Py.Ok (h + 1).
Proof.
  unfold Interleaving.loan_fetch, LoanService.increment_id, Eff.bind, Eff.read.
  destruct (Mongo.find_one 0 s) as [[h'|b]|] eqn:E; try discriminate.
  intros [= ->]. split; [reflexivity|].
  unfold Interleaving.loan_set.
  rewrite find_one_update_same, E. reflexivity.
Qed.

Lemma ids_after_S h n :
  ids_after h (S n) = (h + 1) :: ids_after (h + 1) n.
Proof.
  unfold ids_after. simpl. f_equal.
  rewrite <- seq_shift, map_map. apply map_ext. intros i. lia.
Qed.

Lemma ids_after_increasing h n : StronglySorted Z.lt (ids_after h n).
Proof.
  revert h. induction n as [|n IH]; intros h.
  - constructor.
  - rewrite ids_after_S. constructor; [apply IH|].
    apply Forall_forall. intros x Hx. unfold ids_after in Hx.
    apply in_map_iff in Hx. destruct Hx as (i & <- & Hi).
    apply in_seq in Hi. lia.
Qed.

Lemma increasing_NoDup (l : list Z) : StronglySorted Z.lt l -> NoDup l.
Proof.
  induction 1 as [|x l Hs IH Hall]; constructor; [|exact IH].
  intros Hin. rewrite Forall_forall in Hall. specialize (Hall x Hin). lia.
Qed.

Lemma ids_after_lower h n x : In x (ids_after h n) -> h < x.
Proof.
  unfold ids_after. intros Hx. apply in_map_iff in Hx.
  destruct Hx as (i & <- & Hi). apply in_seq in Hi. lia.
Qed.

Lemma book_times_increment_id (n : nat) :
  forall (s : BookService.store) (h : Z),
    Interleaving.book_fetch s = Py.Ok h ->
    exists s',
      Eff.times n BookService.increment_id s = (Py.Ok (ids_after h n), s')
      /\ Interleaving.book_fetch s' = Py.Ok (h + Z.of_nat n).
Proof.
  induction n as [|n IH]; intros s h Hs.
  - exists s. split; [reflexivity|]. now rewrite Z.add_0_r.
  - destruct (book_increment_id_spec s h Hs) as [Hcall Hkept].
    destruct (IH _ _ Hkept) as (s' & Hrun & Hs').
    exists s'. split.
    + cbn [Eff.times]. unfold Eff.bind at 1. rewrite Hcall.
      unfold Eff.bind at 1. rewrite Hrun. rewrite ids_after_S. reflexivity.
    + rewrite Hs'. f_equal. lia.
Qed.

Lemma loan_times_increment_id (n : nat) :
  forall (s : LoanService.store) (h : Z),
    Interleaving.loan_fetch s = Py.Ok h ->
    exists s',
      Eff.times n LoanService.increment_id s = (Py.Ok (ids_after h n), s')
      /\ Interleaving.loan_fetch s' = Py.Ok (h + Z.of_nat n).
Proof.
  induction n as [|n IH]; intros s h Hs.
  - exists s. split; [reflexivity|]. now rewrite Z.add_0_r.
  - destruct (loan_increment_id_spec s h Hs) as [Hcall Hkept].
    destruct (IH _ _ Hkept) as (s' & Hrun & Hs').
    exists s'. split.
    + cbn [Eff.times]. unfold Eff.bind at 1. rewrite Hcall.
      unfold Eff.bind at 1. rewrite Hrun. rewrite ids_after_S. reflexivity.
    + rewrite Hs'. f_equal. lia.
Qed.

Lemma book_startup_fresh (s : BookService.store) :
  Mongo.find_one 0 (BookService.book_collection s) = None ->
  Interleaving.book_fetch (BookService.startup s) = Py.Ok 0.
Proof.
  intros H. unfold BookService.startup, Interleaving.book_fetch. rewrite H.
  simpl. rewrite find_one_app, H. reflexivity.
Qed.

Lemma loan_startup_fresh (s : LoanService.store) :
  Mongo.find_one 0 s = None ->
  Interleaving.loan_fetch (LoanService.startup s) = Py.Ok 0.
Proof.
  intros H. unfold LoanService.startup, Interleaving.loan_fetch. rewrite H.
  rewrite find_one_app, H. reflexivity.
Qed.

(** C6: after the service has started, [n] successive calls of the
    allocator of a store return [h+1, ..., h+n], where [h] is the counter
    found at the start ([0] on the first start, so the first identifier
    is 1); the identifiers are strictly increasing, and when the calls
    have returned the persisted counter is the last identifier handed
    out.  Both services. *)
Theorem increment_id_sequential (n : nat)
  (b0 : BookService.store) (l0 : LoanService.store) (hb hl : Z) :
  Interleaving.book_fetch (BookService.startup b0) = Py.Ok hb ->
  Interleaving.loan_fetch (LoanService.startup l0) = Py.Ok hl ->
  (Mongo.find_one 0 (BookService.book_collection b0) = None -> hb = 0)
  /\ (Mongo.find_one 0 l0 = None -> hl = 0)
  /\ (exists b,
        Eff.times n BookService.increment_id (BookService.startup b0)
        = (Py.Ok (ids_after hb n), b)
        /\ Interleaving.book_fetch b = Py.Ok (hb + Z.of_nat n))
  /\ (exists l,
        Eff.times n LoanService.increment_id (LoanService.startup l0)
        = (Py.Ok (ids_after hl n), l)
        /\ Interleaving.loan_fetch l = Py.Ok (hl + Z.of_nat n))
  /\ StronglySorted Z.lt (ids_after hb n)
  /\ StronglySorted Z.lt (ids_after hl n).
Proof.
  intros Hb Hl. repeat split.
  - intros H. apply book_startup_fresh in H. congruence.
  - intros H. apply loan_startup_fresh in H. congruence.
  - apply book_times_increment_id, Hb.
  - apply loan_times_increment_id, Hl.
  - apply ids_after_increasing.
  - apply ids_after_increasing.
Qed.

Lemma increment_id_sequential_witness :
  (exists b,
     Eff.times 3 BookService.increment_id
       (BookService.startup (BookService.mkStore [] []))
     = (Py.Ok [1; 2; 3], b)
     /\ Interleaving.book_fetch b = Py.Ok 3)
  /\ (exists l,
        Eff.times 3 LoanService.increment_id (LoanService.startup [])
        = (Py.Ok [1; 2; 3], l)
        /\ Interleaving.loan_fetch l = Py.Ok 3).
Proof.
  pose proof (increment_id_sequential 3 (BookService.mkStore [] []) [] 0 0
                eq_refl eq_refl) as (_ & _ & Hb & Hl & _).
  split; [exact Hb | exact Hl].
Defined.

(** *** The identifier allocator under interleaving *)

Section AllocatorFacts.

Context {S : Type}.
Variable fetch : S -> Py.result Z.
Variable set : Z -> S -> S.

Hypothesis fetch_set :
  forall s h k, fetch s = Py.Ok h -> fetch (set k s) = Py.Ok k.

Local Abbreviation world := (@Interleaving.world S).
Local Abbreviation step := (Interleaving.step fetch set).
Local Abbreviation run := (Interleaving.run fetch set).

Lemma replace_length i c (l : list Interleaving.caller) :
  List.length (Interleaving.replace i c l) = List.length l.
Proof.
  revert i. induction l as [|x l IH]; intros [|i]; simpl; auto.
Qed.

Lemma replace_same i c (l : list Interleaving.caller) :
  (i < List.length l)%nat -> nth_error (Interleaving.replace i c l) i = Some c.
Proof.
  revert i. induction l as [|x l IH]; intros [|i]; simpl; try lia; auto.
  intros H. apply IH. lia.
Qed.

Lemma replace_other i j c (l : list Interleaving.caller) :
  i <> j -> nth_error (Interleaving.replace i c l) j = nth_error l j.
Proof.
  revert i j. induction l as [|x l IH]; intros [|i] [|j] H; simpl; auto;
    congruence.
Qed.

Lemma replace_twice i c c' (l : list Interleaving.caller) :
  Interleaving.replace i c' (Interleaving.replace i c l) = Interleaving.replace i c' l.
Proof.
  revert i. induction l as [|x l IH]; intros [|i]; simpl; auto.
  now rewrite IH.
Qed.

(** The two operations of one call, run back to back. *)
Lemma step_step_ready i (w : world) h :
  nth_error (Interleaving.callers w) i = Some Interleaving.Ready ->
  fetch (Interleaving.shared w) = Py.Ok h ->
  step i (step i w)
  = Interleaving.mkWorld (set (h + 1) (Interleaving.shared w))
      (Interleaving.replace i (Interleaving.Returned (h + 1))
         (Interleaving.callers w)).
Proof.
  intros Hi Hf.
  assert (Hlt : (i < List.length (Interleaving.callers w))%nat)
    by (apply nth_error_Some; congruence).
  unfold Interleaving.step at 2. rewrite Hi. simpl. rewrite Hf.
  unfold Interleaving.step. cbn [Interleaving.callers Interleaving.shared].
  rewrite replace_same by exact Hlt. simpl.
  now rewrite replace_twice.
Qed.

Lemma run_serial_cons i order (w : world) :
  run (Interleaving.serial (i :: order)) w
  = run (Interleaving.serial order) (step i (step i w)).
Proof. reflexivity. Qed.

Lemma run_serial order :
  forall (w : world) h,
    NoDup order ->
    (forall i, In i order ->
               nth_error (Interleaving.callers w) i = Some Interleaving.Ready) ->
    fetch (Interleaving.shared w) = Py.Ok h ->
    let w' := run (Interleaving.serial order) w in
    fetch (Interleaving.shared w') = Py.Ok (h + Z.of_nat (List.length order))
    /\ List.length (Interleaving.callers w') = List.length (Interleaving.callers w)
    /\ (forall j i, nth_error order j = Some i ->
          nth_error (Interleaving.callers w') i
          = Some (Interleaving.Returned (h + 1 + Z.of_nat j)))
    /\ (forall i, ~ In i order ->
          nth_error (Interleaving.callers w') i
          = nth_error (Interleaving.callers w) i).
Proof.
  induction order as [|i order IH]; intros w h Hnd Hready Hf; cbn zeta.
  - simpl. rewrite Z.add_0_r. repeat split; auto.
    intros [|j] i; discriminate.
  - rewrite run_serial_cons.
    rewrite (step_step_ready i w h) by (auto using in_eq).
    inversion Hnd as [|? ? Hnotin Hnd']; subst.
    assert (Hlt : (i < List.length (Interleaving.callers w))%nat).
    { apply nth_error_Some. rewrite Hready by apply in_eq. discriminate. }
    match goal with |- context [run _ ?w0] => set (w1 := w0) end.
    specialize (IH w1 (h + 1) Hnd').
    assert (Hready1 : forall k, In k order ->
              nth_error (Interleaving.callers w1) k = Some Interleaving.Ready).
    { intros k Hk. subst w1. simpl. rewrite replace_other.
      - apply Hready. now right.
      - intros ->. contradiction. }
    assert (Hf1 : fetch (Interleaving.shared w1) = Py.Ok (h + 1)).
    { subst w1. simpl. eapply fetch_set. exact Hf. }
    specialize (IH Hready1 Hf1). cbn zeta in IH.
    destruct IH as (IHf & IHlen & IHret & IHother).
    repeat split.
    + rewrite IHf. f_equal. simpl List.length. lia.
    + rewrite IHlen. subst w1. simpl. apply replace_length.
    + intros [|j] k Hj; simpl in Hj.
      * injection Hj as <-. rewrite IHother by exact Hnotin.
        subst w1. simpl. rewrite replace_same by exact Hlt.
        do 2 f_equal. lia.
      * rewrite (IHret j k Hj). do 2 f_equal. lia.
    + intros k Hk. rewrite IHother by (intros H; apply Hk; now right).
      subst w1. simpl. apply replace_other. intros ->. apply Hk. now left.
Qed.

Lemma list_as_map_nth {A : Type} (l : list A) (d : A) :
  l = map (fun i => nth i l d) (seq 0 (List.length l)).
Proof.
  apply nth_error_ext. intros j.
  rewrite nth_error_map, nth_error_seq.
  destruct (Nat.ltb_spec j (List.length l)) as [Hlt|Hge]; simpl.
  - now apply nth_error_nth'.
  - now apply nth_error_None.
Qed.

Lemma returned_map_Returned (l : list Z) (c : list Interleaving.caller) :
  c = map Interleaving.Returned l ->
  flat_map (fun c => match c with Interleaving.Returned k => [k] | _ => [] end) c = l.
Proof.
  intros ->. induction l as [|x l IH]; simpl; [reflexivity | now rewrite IH].
Qed.

Lemma serial_returned n order s h :
  Permutation order (seq 0 n) ->
  fetch s = Py.Ok h ->
  Permutation
    (Interleaving.returned (run (Interleaving.serial order) (Interleaving.start n s)))
    (ids_after h n).
Proof.
  intros Hp Hf.
  assert (Hnd : NoDup order).
  { eapply Permutation_NoDup; [symmetry; exact Hp | apply seq_NoDup]. }
  assert (Hlen : List.length order = n).
  { rewrite (Permutation_length Hp). apply length_seq. }
  destruct (run_serial order (Interleaving.start n s) h Hnd) as (_ & Hl & Hret & _).
  { intros i Hi. simpl. apply nth_error_repeat.
    apply (Permutation_in _ Hp), in_seq in Hi. lia. }
  { exact Hf. }
  set (w' := run (Interleaving.serial order) (Interleaving.start n s)) in *.
  simpl in Hl. rewrite repeat_length in Hl.
  set (g := fun i => nth i (Interleaving.callers w') Interleaving.Ready).
  assert (Hg : map g order = map Interleaving.Returned (ids_after h n)).
  { apply nth_error_ext. intros j. unfold ids_after.
    rewrite !nth_error_map, nth_error_seq.
    destruct (nth_error order j) as [i|] eqn:Ej; simpl.
    - assert (Hj : (j < n)%nat).
      { rewrite <- Hlen. apply nth_error_Some. congruence. }
      apply Nat.ltb_lt in Hj. rewrite Hj. simpl. f_equal. unfold g.
      erewrite nth_error_nth by (apply Hret; exact Ej).
      f_equal. lia.
    - apply nth_error_None in Ej. rewrite Hlen in Ej.
      apply Nat.ltb_ge in Ej. rewrite Ej. reflexivity. }
  assert (Hc : Permutation (Interleaving.callers w')
                 (map Interleaving.Returned (ids_after h n))).
  { rewrite (list_as_map_nth (Interleaving.callers w') Interleaving.Ready).
    rewrite Hl, <- Hg. apply Permutation_map. symmetry. exact Hp. }
  unfold Interleaving.returned.
  rewrite (Permutation_flat_map _ Hc).
  rewrite (returned_map_Returned (ids_after h n)) by reflexivity.
  reflexivity.
Qed.

End AllocatorFacts.

Lemma book_fetch_set s h k :
  Interleaving.book_fetch s = Py.Ok h ->
  Interleaving.book_fetch (Interleaving.book_set k s) = Py.Ok k.
Proof.
  unfold Interleaving.book_fetch, Interleaving.book_set. simpl.
  rewrite find_one_update_same.
  destruct (Mongo.find_one 0 (BookService.book_collection s)) as [[h'|b]|];
    try discriminate.
  reflexivity.
Qed.

Lemma loan_fetch_set s h k :
  Interleaving.loan_fetch s = Py.Ok h ->
  Interleaving.loan_fetch (Interleaving.loan_set k s) = Py.Ok k.
Proof.
  unfold Interleaving.loan_fetch, Interleaving.loan_set.
  rewrite find_one_update_same.
  destruct (Mongo.find_one 0 s) as [[h'|b]|]; try discriminate.
  reflexivity.
Qed.

(** The two store operations of the model, run back to back, are
    [increment_id]. *)
Lemma book_increment_id_advance s h :
  Interleaving.book_fetch s = Py.Ok h ->
  let '(c1, s1) := Interleaving.advance Interleaving.book_fetch
                     Interleaving.book_set Interleaving.Ready s in
  let '(c2, s2) := Interleaving.advance Interleaving.book_fetch
                     Interleaving.book_set c1 s1 in
  c2 = Interleaving.Returned (h + 1)
  /\ BookService.increment_id s = (Py.Ok (h + 1), s2).
Proof.
  intros H. simpl. rewrite H. simpl. split; [reflexivity|].
  apply book_increment_id_spec, H.
Qed.

Lemma loan_increment_id_advance s h :
  Interleaving.loan_fetch s = Py.Ok h ->
  let '(c1, s1) := Interleaving.advance Interleaving.loan_fetch
                     Interleaving.loan_set Interleaving.Ready s in
  let '(c2, s2) := Interleaving.advance Interleaving.loan_fetch
                     Interleaving.loan_set c1 s1 in
  c2 = Interleaving.Returned (h + 1)
  /\ LoanService.increment_id s = (Py.Ok (h + 1), s2).
Proof.
  intros H. simpl. rewrite H. simpl. split; [reflexivity|].
  apply loan_increment_id_spec, H.
Qed.

(** C1, as the code has it: when the two store operations of every call
    run back to back (the callers are served one after the other, in any
    order), [n] allocations that find the counter at [h] hand out exactly
    [h+1 .. h+n], each once; after a first start that is [1 .. n].  Both
    services. *)
Theorem increment_id_serial_schedule (n : nat) (order : list nat)
  (b : BookService.store) (l : LoanService.store) (hb hl : Z) :
  Permutation order (seq 0 n) ->
  Interleaving.book_fetch b = Py.Ok hb ->
  Interleaving.loan_fetch l = Py.Ok hl ->
  Permutation
    (Interleaving.returned
       (Interleaving.run Interleaving.book_fetch Interleaving.book_set
          (Interleaving.serial order) (Interleaving.start n b)))
    (ids_after hb n)
  /\ Permutation
       (Interleaving.returned
          (Interleaving.run Interleaving.loan_fetch Interleaving.loan_set
             (Interleaving.serial order) (Interleaving.start n l)))
       (ids_after hl n)
  /\ NoDup (ids_after hb n) /\ NoDup (ids_after hl n).
Proof.
  intros Hp Hb Hl. repeat split.
  - apply (serial_returned _ _ book_fetch_set); assumption.
  - apply (serial_returned _ _ loan_fetch_set); assumption.
  - apply increasing_NoDup, ids_after_increasing.
  - apply increasing_NoDup, ids_after_increasing.
Qed.

Lemma increment_id_serial_schedule_witness :
  Permutation
    (Interleaving.returned
       (Interleaving.run Interleaving.book_fetch Interleaving.book_set
          (Interleaving.serial [1; 0; 2]%nat)
          (Interleaving.start 3 (BookService.startup (BookService.mkStore [] [])))))
    [1; 2; 3]
  /\ Permutation
       (Interleaving.returned
          (Interleaving.run Interleaving.loan_fetch Interleaving.loan_set
             (Interleaving.serial [1; 0; 2]%nat)
             (Interleaving.start 3 (LoanService.startup []))))
       [1; 2; 3].
Proof.
  pose proof (increment_id_serial_schedule 3 [1; 0; 2]%nat
                (BookService.startup (BookService.mkStore [] []))
                (LoanService.startup []) 0 0
                (perm_swap 0%nat 1%nat [2%nat]) eq_refl eq_refl)
    as (Hb & Hl & _).
  split; [exact Hb | exact Hl].
Defined.

(** C1, as stated, fails: two requests whose reads both come before
    either write find the same counter value, and both are handed the
    identifier 1; the identifiers handed out are not [1; 2]. *)
Lemma increment_id_interleaved_duplicate :
  let b0 := BookService.startup (BookService.mkStore [] []) in
  let l0 := LoanService.startup [] in
  let run_b := Interleaving.run Interleaving.book_fetch Interleaving.book_set in
  let run_l := Interleaving.run Interleaving.loan_fetch Interleaving.loan_set in
  Interleaving.callers (run_b [0; 1]%nat (Interleaving.start 2 b0))
  = [Interleaving.Fetched 1; Interleaving.Fetched 1]
  /\ Interleaving.returned (run_b [0; 1; 0; 1]%nat (Interleaving.start 2 b0)) = [1; 1]
  /\ Interleaving.returned (run_l [0; 1; 0; 1]%nat (Interleaving.start 2 l0)) = [1; 1]
  /\ ~ Permutation
         (Interleaving.returned (run_b [0; 1; 0; 1]%nat (Interleaving.start 2 b0)))
         (ids_after 0 2)
  /\ ~ NoDup (Interleaving.returned (run_l [0; 1; 0; 1]%nat (Interleaving.start 2 l0))).
Proof.
  cbv zeta. repeat split.
  - intros H. apply Permutation_sym in H.
    apply (Permutation_in 2) in H; [|right; left; reflexivity].
    simpl in H. intuition discriminate.
  - intros H. inversion H as [|? ? Hnotin ?]; subst. apply Hnotin. now left.
Qed.

(** *** Loans: the catalog check *)

Lemma validate_loan_addition_nonempty payload s :
  LoanService.validate_loan_addition payload s = Py.Ok None ->
  payload <> [].
Proof. intros H ->. discriminate H. Qed.

(** A request that passed the gates: the handler asks the catalog,
    decodes the answer, and only then looks at the status. *)
Lemma Loans_post_after_gates
  (check_if_in_library : Py.val -> LoanService.Response)
  (loan_payload : Py.dict) (s : LoanService.store) (isbn : Py.val) :
  LoanService.validate_loan_addition loan_payload s = Py.Ok None ->
  Py.get "ISBN" loan_payload = Some isbn ->
  LoanService.Loans_post check_if_in_library loan_payload s
  = match LoanService.json (check_if_in_library isbn) with
    | Py.Raise e => (Py.Raise e, s)
    | Py.Ok book_details =>
        (if (LoanService.body_len book_details =? 0)
            || negb (LoanService.status_code (check_if_in_library isbn) =? 200)
         then Eff.ret (LoanService.JError "book not found in the library", 404)
         else
           loan_id <- LoanService.increment_id ;;
           bookID <- Eff.lift (LoanService.body_item "id" book_details) ;;
           title <- Eff.lift (LoanService.body_item "title" book_details) ;;
           memberName <- Eff.lift (Py.item "memberName" loan_payload) ;;
           loanDate <- Eff.lift (Py.item "loanDate" loan_payload) ;;
           _ <- LoanService.add_loan loan_id
                  (LoanService.mkLoan (Py.str loan_id) bookID title isbn
                     memberName loanDate) ;;
           Eff.ret (LoanService.JLoanID (Py.str loan_id), 201)) s
    end.
Proof.
  intros Hv Hisbn.
  pose proof (validate_loan_addition_nonempty _ _ Hv) as Hne.
  unfold LoanService.Loans_post.
  destruct loan_payload as [|kv rest]; [contradiction|].
  unfold Eff.bind at 1, Eff.read at 1. rewrite Hv.
  unfold Eff.bind at 1, Eff.lift at 1, Py.item at 1. rewrite Hisbn.
  unfold Eff.bind at 1, Eff.lift at 1.
  destruct (LoanService.json (check_if_in_library isbn)); reflexivity.
Qed.

(** C2 fails on an answer of the catalog that is not JSON.  For a
    request that passed the five gates the handler calls [.json()] on
    the answer before it tests the status: when the content cannot be
    decoded the request ends in the exception [.json()] raises (an
    unhandled server error), whatever the status, and not in the 404
    response.  The rest of the claim holds: on a decoded answer with a
    status other than 200, or of length 0, the handler returns the 404
    response; in each of these cases the store is left as it was (no
    loan, no identifier taken); and whenever the handler changes the
    store, the catalog had answered 200 with a decodable content that
    is not empty. *)
Theorem loan_catalog_answer_decoded_first
  (check_if_in_library : Py.val -> LoanService.Response)
  (loan_payload : Py.dict) (s : LoanService.store) (isbn : Py.val) :
  LoanService.validate_loan_addition loan_payload s = Py.Ok None ->
  Py.get "ISBN" loan_payload = Some isbn ->
  let book_response := check_if_in_library isbn in
  (forall e,
      LoanService.json book_response = Py.Raise e ->
      LoanService.Loans_post check_if_in_library loan_payload s
      = (Py.Raise e, s))
  /\ (forall book_details,
        LoanService.json book_response = Py.Ok book_details ->
        LoanService.status_code book_response <> 200
        \/ LoanService.body_len book_details = 0 ->
        LoanService.Loans_post check_if_in_library loan_payload s
        = (Py.Ok (LoanService.JError "book not found in the library", 404), s))
  /\ (forall r s',
        LoanService.Loans_post check_if_in_library loan_payload s = (r, s') ->
        s' <> s ->
        LoanService.status_code book_response = 200
        /\ exists book_details,
            LoanService.json book_response = Py.Ok book_details
            /\ LoanService.body_len book_details <> 0).
Proof.
  intros Hv Hisbn book_response.
  pose proof (Loans_post_after_gates check_if_in_library _ _ _ Hv Hisbn)
    as Hpost.
  fold book_response in Hpost.
  split; [|split].
  - intros e He. rewrite Hpost, He. reflexivity.
  - intros book_details Hd Hbad. rewrite Hpost, Hd.
    destruct Hbad as [Hst|Hlen].
    + apply Z.eqb_neq in Hst. rewrite Hst. rewrite orb_true_r. reflexivity.
    + apply Z.eqb_eq in Hlen. rewrite Hlen. reflexivity.
  - intros r s' Hrun Hchanged. rewrite Hpost in Hrun.
    destruct (LoanService.json book_response) as [book_details|e];
      [|injection Hrun as _ <-; contradiction].
    destruct (LoanService.body_len book_details =? 0) eqn:El;
      [injection Hrun as _ <-; contradiction|].
    destruct (LoanService.status_code book_response =? 200) eqn:Es;
      [|injection Hrun as _ <-; contradiction].
    split; [now apply Z.eqb_eq|].
    exists book_details. split; [reflexivity | now apply Z.eqb_neq].
Qed.

(** The failing request: the catalog answers 500 with a page that is
    not JSON, and the loan request ends in [ValueError]. *)
Lemma loan_catalog_answer_decoded_first_witness :
  let payload := [("memberName", Py.PStr "Dana");
                  ("ISBN", Py.PStr "9780134685991");
                  ("loanDate", Py.PStr "2024-02-29")] in
  let failed := fun _ : Py.val =>
                  LoanService.mkResponse 500 (Py.Raise Py.ValueError) in
  LoanService.Loans_post failed payload (LoanService.startup [])
  = (Py.Raise Py.ValueError, LoanService.startup []).
Proof.
  cbv zeta.
  refine (proj1 (loan_catalog_answer_decoded_first _ _ (LoanService.startup [])
                   (Py.PStr "9780134685991") _ _) Py.ValueError _).
  - reflexivity.
  - reflexivity.
  - reflexivity.
Defined.

(** With an empty array in place of the page the same request is
    answered 404. *)
Lemma loan_absent_book_refused :
  let payload := [("memberName", Py.PStr "Dana");
                  ("ISBN", Py.PStr "9780134685991");
                  ("loanDate", Py.PStr "2024-02-29")] in
  let absent := fun _ : Py.val =>
                  LoanService.mkResponse 200 (Py.Ok (LoanService.BList [])) in
  LoanService.Loans_post absent payload (LoanService.startup [])
  = (Py.Ok (LoanService.JError "book not found in the library", 404),
     LoanService.startup []).
Proof. reflexivity. Qed.

(** *** [int] and [str] *)

Lemma all_digits_string_of_uint d :
  all_digits (NilEmpty.string_of_uint d) = true.
Proof. induction d; simpl; auto. Qed.

Lemma ungroup_from_digits s :
  all_digits s = true -> Py.ungroup_from s = Some s.
Proof.
  induction s as [|c s IH]; simpl; [reflexivity|].
  intros H. apply andb_prop in H. destruct H as [Hc Hs].
  rewrite Hc, (IH Hs). reflexivity.
Qed.

Lemma ungroup_digits c s :
  all_digits (String c s) = true -> Py.ungroup (String c s) = Some (String c s).
Proof.
  simpl. intros H. apply andb_prop in H. destruct H as [Hc Hs].
  rewrite Hc, (ungroup_from_digits s Hs). reflexivity.
Qed.

Lemma is_digit_not_space c : Py.is_digit c = true -> Py.is_space c = false.
Proof.
  unfold Py.is_digit, Py.is_space. intros H.
  apply andb_prop in H. destruct H as [H1 H2].
  apply Nat.leb_le in H1, H2.
  repeat match goal with
         | |- context [(?a <=? ?b)%nat] => destruct (Nat.leb_spec a b)
         | |- context [(?a =? ?b)%nat] => destruct (Nat.eqb_spec a b)
         end; simpl; try reflexivity; lia.
Qed.

Lemma rstrip_digits s : all_digits s = true -> Py.rstrip s = s.
Proof.
  induction s as [|c s IH]; simpl; [reflexivity|].
  intros H. apply andb_prop in H. destruct H as [Hc Hs].
  rewrite (IH Hs). destruct s; [|reflexivity].
  now rewrite (is_digit_not_space c Hc).
Qed.

Lemma rstrip_eq c s :
  Py.rstrip (String c s)
  = match Py.rstrip s with
    | EmptyString => if Py.is_space c then EmptyString else String c EmptyString
    | r => String c r
    end.
Proof. reflexivity. Qed.

Lemma string_of_uint_cons p :
  exists c s, NilEmpty.string_of_uint (Pos.to_uint p) = String c s.
Proof.
  pose proof (DecimalPos.Unsigned.to_uint_nonnil p) as H.
  destruct (Pos.to_uint p); try contradiction; simpl; eauto.
Qed.

Lemma digits_string_of_uint p :
  Py.digits (NilEmpty.string_of_uint (Pos.to_uint p)) = Some (Zpos p).
Proof.
  destruct (string_of_uint_cons p) as (c & s & E).
  pose proof (all_digits_string_of_uint (Pos.to_uint p)) as Hd.
  unfold Py.digits. rewrite E in *. rewrite (ungroup_digits c s Hd).
  rewrite <- E, NilEmpty.usu. simpl. f_equal.
  change (Z.of_uint (Pos.to_uint p)) with (Z.of_int (Z.to_int (Zpos p))).
  apply DecimalZ.of_to.
Qed.

(** [int(str(n))] is [n]. *)
Lemma int_str (n : Z) : Py.int (Py.str n) = Py.Ok n.
Proof.
  unfold Py.int. destruct n as [|p|p].
  - reflexivity.
  - unfold Py.str, Py.int_of_str, Py.strip. simpl Z.to_int.
    cbn [NilEmpty.string_of_int].
    pose proof (all_digits_string_of_uint (Pos.to_uint p)) as Hd.
    pose proof (digits_string_of_uint p) as Hv.
    destruct (string_of_uint_cons p) as (c & s & E). rewrite E in *.
    assert (Hc : Py.is_digit c = true) by (simpl in Hd; now apply andb_prop in Hd).
    cbn [Py.lstrip]. rewrite (is_digit_not_space c Hc).
    rewrite (rstrip_digits _ Hd).
    assert (Hm : Ascii.eqb c "-" = false).
    { destruct (Ascii.eqb_spec c "-"); [subst; discriminate | reflexivity]. }
    assert (Hp : Ascii.eqb c "+" = false).
    { destruct (Ascii.eqb_spec c "+"); [subst; discriminate | reflexivity]. }
    rewrite Hm, Hp, Hv. reflexivity.
  - unfold Py.str, Py.int_of_str, Py.strip. simpl Z.to_int.
    cbn [NilEmpty.string_of_int].
    pose proof (all_digits_string_of_uint (Pos.to_uint p)) as Hd.
    pose proof (digits_string_of_uint p) as Hv.
    destruct (string_of_uint_cons p) as (c & s & E). rewrite E in *.
    cbn [Py.lstrip]. change (Py.is_space "-") with false. cbv iota.
    rewrite rstrip_eq, (rstrip_digits _ Hd).
    change (Ascii.eqb "-" "-") with true. cbv iota.
    rewrite Hv. reflexivity.
Qed.

Lemma str_inj (m n : Z) : Py.str m = Py.str n -> m = n.
Proof.
  intros H. pose proof (int_str m) as Hm. rewrite H, int_str in Hm. congruence.
Qed.

(** *** Well-formed stores *)

Lemma distinct_NoDup (l : list Z) : distinct l = true -> NoDup l.
Proof.
  induction l as [|x l IH]; simpl; [constructor|].
  intros H. apply andb_prop in H. destruct H as [Hx Hl].
  constructor; [|auto].
  intros Hin. apply negb_true_iff in Hx.
  assert (existsb (Z.eqb x) l = true); [|congruence].
  apply existsb_exists. exists x. split; [exact Hin | apply Z.eqb_refl].
Qed.

Lemma Book_eqb_refl b : BookService.Book_eqb b b = true.
Proof. unfold BookService.Book_eqb. now rewrite !String.eqb_refl. Qed.

Lemma Book_eqb_eq a b : BookService.Book_eqb a b = true -> a = b.
Proof.
  unfold BookService.Book_eqb. intros H.
  repeat (apply andb_prop in H; destruct H as [H ?]).
  repeat match goal with
         | E : String.eqb _ _ = true |- _ => apply String.eqb_eq in E
         end.
  destruct a, b; simpl in *. congruence.
Qed.

Lemma matches_refl d : BookService.matches d d = true.
Proof. destruct d; simpl; [apply Z.eqb_refl | apply Book_eqb_refl]. Qed.

Lemma matches_eq d d' : BookService.matches d d' = true -> d = d'.
Proof.
  destruct d, d'; simpl; try discriminate.
  - intros H. apply Z.eqb_eq in H. now subst.
  - intros H. apply Book_eqb_eq in H. now subst.
Qed.

(** What [catalog_wf] says, as propositions. *)
Lemma catalog_wf_spec (s : BookService.store) :
  catalog_wf s = true ->
  exists h,
    Mongo.find_one 0 (BookService.book_collection s) = Some (BookService.Counter h)
    /\ 0 <= h
    /\ NoDup (Mongo.ids (BookService.book_collection s))
    /\ NoDup (Mongo.ids (BookService.rating_collection s))
    /\ (forall k d, In (k, d) (BookService.book_collection s) ->
          book_doc_ok h (BookService.rating_collection s) (k, d) = true)
    /\ (forall k r, In (k, r) (BookService.rating_collection s) ->
          rating_doc_ok h (k, r) = true).
Proof.
  unfold catalog_wf.
  destruct (Mongo.find_one 0 (BookService.book_collection s)) as [[h|b]|];
    try discriminate.
  intros H. repeat (apply andb_prop in H; destruct H as [H ?]).
  exists h. repeat split.
  - now apply Z.leb_le.
  - now apply distinct_NoDup.
  - now apply distinct_NoDup.
  - intros k d Hin.
    match goal with
    | F : forallb (book_doc_ok _ _) _ = true |- _ =>
        rewrite forallb_forall in F; exact (F _ Hin)
    end.
  - intros k r Hin.
    match goal with
    | F : forallb (rating_doc_ok _) _ = true |- _ =>
        rewrite forallb_forall in F; exact (F _ Hin)
    end.
Qed.

(** In a well-formed catalog, a document found above 0 is a book that
    carries the decimal form of its [_id] and has a rating. *)
Lemma catalog_wf_book s k d :
  catalog_wf s = true ->
  BookService.get_book_at k s = Some d ->
  0 < k
  /\ exists b, d = BookService.BookDoc b
       /\ BookService.b_id b = Py.str k
       /\ exists r, Mongo.find_one k (BookService.rating_collection s) = Some r.
Proof.
  intros Hwf Hget. unfold BookService.get_book_at in Hget.
  destruct (Z.ltb_spec 0 k) as [Hk|Hk]; [|discriminate].
  split; [exact Hk|].
  destruct (catalog_wf_spec s Hwf) as (h & _ & _ & _ & _ & Hb & _).
  apply find_one_In in Hget. specialize (Hb _ _ Hget).
  unfold book_doc_ok in Hb. simpl in Hb. destruct d as [h'|b].
  - apply Z.eqb_eq in Hb. lia.
  - repeat (apply andb_prop in Hb; destruct Hb as [Hb ?]).
    exists b. split; [reflexivity|]. split.
    + now apply String.eqb_eq.
    + destruct (Mongo.find_one k (BookService.rating_collection s)) as [r|];
        [eauto | discriminate].
Qed.

Section DeleteFacts.

Context {D : Type}.
Implicit Types (c : Mongo.collection D) (k : Z).

Lemma delete_one_where_ext (p q : Z -> D -> bool) c :
  (forall k d, In (k, d) c -> p k d = q k d) ->
  Mongo.delete_one_where p c = Mongo.delete_one_where q c.
Proof.
  induction c as [|[k d] c IH]; intros H; simpl; [reflexivity|].
  rewrite (H k d) by now left.
  destruct (q k d); [reflexivity|]. f_equal. apply IH.
  intros k' d' Hin. apply H. now right.
Qed.

Lemma find_one_delete_same k c :
  NoDup (Mongo.ids c) -> Mongo.find_one k (Mongo.delete_one k c) = None.
Proof.
  unfold Mongo.delete_one.
  induction c as [|[j d] c IH]; intros Hnd; simpl; [reflexivity|].
  inversion Hnd as [|? ? Hnotin Hnd']; subst.
  destruct (Z.eqb_spec k j) as [->|Hne].
  - now apply find_one_None_ids.
  - simpl. destruct (Z.eqb_spec k j); [contradiction|]. now apply IH.
Qed.

Lemma find_one_delete_other k k' c :
  k' <> k -> Mongo.find_one k' (Mongo.delete_one k c) = Mongo.find_one k' c.
Proof.
  unfold Mongo.delete_one. intros Hne.
  induction c as [|[j d] c IH]; simpl; [reflexivity|].
  destruct (Z.eqb_spec k j) as [->|Hkj].
  - destruct (Z.eqb_spec k' j); [contradiction | reflexivity].
  - simpl. now rewrite IH.
Qed.

Lemma ids_delete_one_incl k c x :
  In x (Mongo.ids (Mongo.delete_one k c)) -> In x (Mongo.ids c).
Proof.
  unfold Mongo.delete_one.
  induction c as [|[j d] c IH]; simpl; [tauto|].
  destruct (Z.eqb k j); simpl; tauto.
Qed.

End DeleteFacts.

(** *** Deleting a book *)

Lemma delete_by_content s k d :
  catalog_wf s = true ->
  BookService.get_book_at k s = Some d ->
  Mongo.delete_one_where (fun _ => BookService.matches d)
    (BookService.book_collection s)
  = Mongo.delete_one k (BookService.book_collection s).
Proof.
  intros Hwf Hget.
  destruct (catalog_wf_book s k d Hwf Hget) as (Hk & b & -> & Hid & _).
  destruct (catalog_wf_spec s Hwf) as (h & _ & _ & Hnd & _ & Hb & _).
  unfold BookService.get_book_at in Hget.
  destruct (Z.ltb_spec 0 k); [|lia].
  unfold Mongo.delete_one. apply delete_one_where_ext.
  intros k' d' Hin. destruct (Z.eqb_spec k k') as [<-|Hne].
  - rewrite (In_find_one _ _ _ Hnd Hin) in Hget. injection Hget as ->.
    apply matches_refl.
  - destruct (BookService.matches (BookService.BookDoc b) d') eqn:Em;
      [|reflexivity].
    apply matches_eq in Em. subst d'. specialize (Hb _ _ Hin).
    unfold book_doc_ok in Hb. simpl in Hb.
    repeat (apply andb_prop in Hb; destruct Hb as [Hb ?]).
    match goal with
    | E : String.eqb _ _ = true |- _ => apply String.eqb_eq in E; rewrite Hid in E;
                                        apply str_inj in E
    end.
    contradiction.
Qed.



(** *** What the read interface shows *)

Lemma find_gt0_In {D : Type} (c : Mongo.collection D) (d : D) :
  In d (Mongo.find_gt0 c) <-> exists k, 1 <= k /\ In (k, d) c.
Proof.
  unfold Mongo.find_gt0. rewrite in_map_iff. split.
  - intros ([k d'] & Hd & Hin). simpl in Hd. subst d'.
    apply filter_In in Hin. destruct Hin as [Hin Hk]. simpl in Hk.
    apply Z.ltb_lt in Hk. exists k. split; [lia | exact Hin].
  - intros (k & Hk & Hin). exists (k, d). split; [reflexivity|].
    apply filter_In. split; [exact Hin|]. simpl. apply Z.ltb_lt. lia.
Qed.

Lemma book_select_incl field value l r :
  BookService.select field value l = Py.Ok r -> incl r l.
Proof.
  revert r. induction l as [|d l IH]; simpl; intros r H.
  - injection H as <-. apply incl_refl.
  - destruct (BookService.book_field field d) as [v|e]; [|discriminate].
    simpl in H.
    destruct (BookService.select field value l) as [r'|e]; [|discriminate].
    simpl in H. injection H as <-. specialize (IH r' eq_refl).
    destruct (String.eqb v value).
    + intros x [->|Hx]; [now left | right; now apply IH].
    + intros x Hx. right. now apply IH.
Qed.

Lemma Books_get_loop_incl params :
  forall l b st,
    BookService.Books_get_loop params l = Py.Ok (b, st) ->
    match b with
    | BookService.JBooks r => incl r l
    | BookService.JBook d => In d l
    | _ => True
    end.
Proof.
  induction params as [|[field value] params IH]; intros l b st H; simpl in H.
  - destruct l as [|d [|d' l]]; simpl in H; injection H as <- <-.
    + apply incl_refl.
    + now left.
    + apply incl_refl.
  - match type of H with
    | (if ?c then _ else _) = _ => destruct c
    end.
    + injection H as <- <-. exact I.
    + destruct (BookService.select field value l) as [r|e] eqn:E;
        [|discriminate].
      simpl in H. specialize (IH r b st H).
      pose proof (book_select_incl _ _ _ _ E) as Hincl.
      destruct b; auto. intros x Hx. auto.
Qed.

Lemma loan_select_incl field value l r :
  LoanService.select field value l = Py.Ok r -> incl r l.
Proof.
  revert r. induction l as [|d l IH]; simpl; intros r H.
  - injection H as <-. apply incl_refl.
  - destruct (LoanService.loan_field field d) as [v|e]; [|discriminate].
    simpl in H.
    destruct (LoanService.select field value l) as [r'|e]; [|discriminate].
    simpl in H. injection H as <-. specialize (IH r' eq_refl).
    destruct (Py.eqb v (Py.PStr value)).
    + intros x [->|Hx]; [now left | right; now apply IH].
    + intros x Hx. right. now apply IH.
Qed.

Lemma Loans_get_loop_incl params :
  forall l b st,
    LoanService.Loans_get_loop params l = Py.Ok (b, st) ->
    match b with
    | LoanService.JLoans r => incl r l
    | _ => True
    end.
Proof.
  induction params as [|[field value] params IH]; intros l b st H; simpl in H.
  - injection H as <- <-. apply incl_refl.
  - match type of H with
    | (if ?c then _ else _) = _ => destruct c
    end.
    + injection H as <- <-. exact I.
    + destruct (LoanService.select field value l) as [r|e] eqn:E;
        [|discriminate].
      simpl in H. specialize (IH r b st H).
      pose proof (loan_select_incl _ _ _ _ E) as Hincl.
      destruct b; auto. intros x Hx. auto.
Qed.

(** C9: every document that a read of the book or loan collection
    returns (point lookup, full list, filtered list) is stored under an
    [_id] of at least 1, and a point lookup with an identifier of 0 or
    less finds nothing: the document at [_id] 0 is never part of a
    result. *)
Theorem reads_skip_counter_document :
  (forall (s : BookService.store) d,
      In d (BookService.get_books s) ->
      exists k, 1 <= k /\ In (k, d) (BookService.book_collection s))
  /\ (forall (s : BookService.store) book_id d,
        BookService.get_book book_id s = Py.Ok (Some d) ->
        exists k, Py.int book_id = Py.Ok k /\ 1 <= k
                  /\ In (k, d) (BookService.book_collection s))
  /\ (forall (s : BookService.store) book_id k,
        Py.int book_id = Py.Ok k -> k <= 0 ->
        BookService.get_book book_id s = Py.Ok None)
  /\ (forall (s : BookService.store) params b st d,
        BookService.Books_get params s = Py.Ok (b, st) ->
        (b = BookService.JBook d \/ exists l, b = BookService.JBooks l /\ In d l) ->
        exists k, 1 <= k /\ In (k, d) (BookService.book_collection s))
  /\ (forall (s : LoanService.store) d,
        In d (LoanService.get_loans s) -> exists k, 1 <= k /\ In (k, d) s)
  /\ (forall (s : LoanService.store) loan_id d,
        LoanService.get_loan loan_id s = Py.Ok (Some d) ->
        exists k, Py.int loan_id = Py.Ok k /\ 1 <= k /\ In (k, d) s)
  /\ (forall (s : LoanService.store) loan_id k,
        Py.int loan_id = Py.Ok k -> k <= 0 ->
        LoanService.get_loan loan_id s = Py.Ok None)
  /\ (forall (s : LoanService.store) params l st d,
        LoanService.Loans_get params s = Py.Ok (LoanService.JLoans l, st) ->
        In d l -> exists k, 1 <= k /\ In (k, d) s).
Proof.
  repeat apply conj.
  - intros s d H. now apply find_gt0_In.
  - intros s book_id d H. unfold BookService.get_book in H.
    destruct (Py.int book_id) as [k|e]; [|discriminate]. simpl in H.
    injection H as H. unfold BookService.get_book_at in H.
    destruct (Z.ltb_spec 0 k); [|discriminate].
    exists k. repeat split; [lia|]. now apply find_one_In.
  - intros s book_id k Hint Hk. unfold BookService.get_book. rewrite Hint. simpl.
    unfold BookService.get_book_at. destruct (Z.ltb_spec 0 k); [lia | reflexivity].
  - intros s params b st d H Hd. apply Books_get_loop_incl in H.
    apply find_gt0_In. destruct Hd as [->|(l & -> & Hin)]; auto.
  - intros s d H. now apply find_gt0_In.
  - intros s loan_id d H. unfold LoanService.get_loan in H.
    destruct (Py.int loan_id) as [k|e]; [|discriminate]. simpl in H.
    injection H as H. destruct (Z.ltb_spec 0 k); [|discriminate].
    exists k. repeat split; [lia|]. now apply find_one_In.
  - intros s loan_id k Hint Hk. unfold LoanService.get_loan. rewrite Hint. simpl.
    destruct (Z.ltb_spec 0 k); [lia | reflexivity].
  - intros s params l st d H Hd. apply Loans_get_loop_incl in H.
    apply find_gt0_In. auto.
Qed.

(** In a well-formed catalog the documents the list returns are books. *)
Lemma get_books_are_books s d :
  catalog_wf s = true -> In d (BookService.get_books s) ->
  exists k b, d = BookService.BookDoc b /\ 1 <= k
              /\ BookService.b_id b = Py.str k
              /\ In (k, d) (BookService.book_collection s).
Proof.
  intros Hwf Hin. apply find_gt0_In in Hin. destruct Hin as (k & Hk & Hin).
  destruct (catalog_wf_spec s Hwf) as (h & _ & _ & Hnd & _ & Hb & _).
  pose proof (Hb _ _ Hin) as Hok. unfold book_doc_ok in Hok. simpl in Hok.
  destruct d as [h'|b].
  - apply Z.eqb_eq in Hok. lia.
  - repeat (apply andb_prop in Hok; destruct Hok as [Hok ?]).
    exists k, b. repeat split; auto.
    match goal with E : String.eqb _ _ = true |- _ => now apply String.eqb_eq in E end.
Qed.

(** *** Identifiers that are not integers *)

(** When [int] rejects the identifier of the path, every handler of
    /books/{id}, /ratings/{id}, /ratings/{id}/values and /loans/{id}
    raises [ValueError] and leaves its store alone. *)
Lemma non_integer_raises (i : string) :
  Py.int_of_str i = None ->
  (forall s, BookService.SpecificBook_get i s = Py.Raise Py.ValueError)
  /\ (forall s, BookService.SpecificBook_delete i s = (Py.Raise Py.ValueError, s))
  /\ (forall p s, BookService.SpecificBook_put i p s = (Py.Raise Py.ValueError, s))
  /\ (forall s, BookService.SpecificRatings_get i s = Py.Raise Py.ValueError)
  /\ (forall p s,
        BookService.SpecificRatingsValues_post i p s = (Py.Raise Py.ValueError, s))
  /\ (forall s, LoanService.SpecificLoan_get i s = Py.Raise Py.ValueError)
  /\ (forall s, LoanService.SpecificLoan_delete i s = (Py.Raise Py.ValueError, s)).
Proof.
  intros H.
  assert (Hint : Py.int i = Py.Raise Py.ValueError)
    by (unfold Py.int; now rewrite H).
  repeat apply conj; intros;
    unfold BookService.SpecificBook_get, BookService.SpecificBook_delete,
      BookService.SpecificBook_put, BookService.SpecificRatings_get,
      BookService.SpecificRatingsValues_post, LoanService.SpecificLoan_get,
      LoanService.SpecificLoan_delete, BookService.get_book,
      BookService.get_book_rating, LoanService.get_loan, Eff.bind, Eff.read;
    rewrite Hint; reflexivity.
Qed.

(** The 404 answers come only from integer identifiers with nothing
    visible stored under them. *)
Lemma not_found_needs_integer (i : string) :
  (forall s st msg,
      BookService.SpecificBook_get i s = Py.Ok (BookService.JError msg, st) ->
      exists k, Py.int_of_str i = Some k /\ BookService.get_book_at k s = None)
  /\ (forall s s' st msg,
        BookService.SpecificBook_delete i s = (Py.Ok (BookService.JError msg, st), s') ->
        exists k, Py.int_of_str i = Some k /\ BookService.get_book_at k s = None)
  /\ (forall s st msg,
        BookService.SpecificRatings_get i s = Py.Ok (BookService.JError msg, st) ->
        exists k, Py.int_of_str i = Some k
                  /\ Mongo.find_one k (BookService.rating_collection s) = None)
  /\ (forall s st msg,
        LoanService.SpecificLoan_get i s = Py.Ok (LoanService.JError msg, st) ->
        exists k, Py.int_of_str i = Some k
                  /\ (if 0 <? k then Mongo.find_one k s else None) = None)
  /\ (forall s s' st msg,
        LoanService.SpecificLoan_delete i s = (Py.Ok (LoanService.JError msg, st), s') ->
        exists k, Py.int_of_str i = Some k
                  /\ (if 0 <? k then Mongo.find_one k s else None) = None).
Proof.
  unfold BookService.SpecificBook_get, BookService.SpecificBook_delete,
    BookService.SpecificRatings_get, LoanService.SpecificLoan_get,
    LoanService.SpecificLoan_delete, BookService.get_book,
    BookService.get_book_rating, LoanService.get_loan, BookService.delete_book,
    BookService.delete_book_rating, LoanService.delete_loan,
    BookService.get_book_rating, Eff.bind, Eff.read, Eff.lift, Eff.write,
    Eff.ret, Py.int.
  repeat apply conj; intros *;
    destruct (Py.int_of_str i) as [k|]; simpl; try discriminate.
  - destruct (BookService.get_book_at k s) eqn:E; [discriminate|]. eauto.
  - destruct (BookService.get_book_at k s) eqn:E; [|eauto].
    simpl. rewrite E. simpl.
    destruct (Mongo.find_one k _); discriminate.
  - destruct (Mongo.find_one k _) eqn:E; [discriminate|]. eauto.
  - destruct (if 0 <? k then Mongo.find_one k s else None) eqn:E;
      [discriminate|]. eauto.
  - destruct (if 0 <? k then Mongo.find_one k s else None) eqn:E;
      [discriminate|]. eauto.
Qed.

(** C10, as the code has it, for identifiers of ASCII characters: when
    [int] rejects the identifier of the path, the lookups and deletes of
    /books/{id}, /ratings/{id} and /loans/{id} raise [ValueError]; a 404
    answer is produced only for an identifier that [int] accepts and
    under whose value no visible document is stored.  What [int]
    accepts is more than the decimal representation of an integer:
    white space around it, a sign, leading zeros and single underscores
    between the digits. *)
Theorem non_integer_identifier_raises (i : string) :
  ascii_only i = true ->
  (Py.int_of_str i = None ->
   (forall s, BookService.SpecificBook_get i s = Py.Raise Py.ValueError)
   /\ (forall s, BookService.SpecificBook_delete i s = (Py.Raise Py.ValueError, s))
   /\ (forall s, BookService.SpecificRatings_get i s = Py.Raise Py.ValueError)
   /\ (forall s, LoanService.SpecificLoan_get i s = Py.Raise Py.ValueError)
   /\ (forall s, LoanService.SpecificLoan_delete i s = (Py.Raise Py.ValueError, s)))
  /\ (forall s st msg,
        BookService.SpecificBook_get i s = Py.Ok (BookService.JError msg, st) ->
        exists k, Py.int_of_str i = Some k /\ BookService.get_book_at k s = None)
  /\ (forall s s' st msg,
        BookService.SpecificBook_delete i s = (Py.Ok (BookService.JError msg, st), s') ->
        exists k, Py.int_of_str i = Some k /\ BookService.get_book_at k s = None)
  /\ (forall s st msg,
        BookService.SpecificRatings_get i s = Py.Ok (BookService.JError msg, st) ->
        exists k, Py.int_of_str i = Some k
                  /\ Mongo.find_one k (BookService.rating_collection s) = None)
  /\ (forall s st msg,
        LoanService.SpecificLoan_get i s = Py.Ok (LoanService.JError msg, st) ->
        exists k, Py.int_of_str i = Some k
                  /\ (if 0 <? k then Mongo.find_one k s else None) = None)
  /\ (forall s s' st msg,
        LoanService.SpecificLoan_delete i s = (Py.Ok (LoanService.JError msg, st), s') ->
        exists k, Py.int_of_str i = Some k
                  /\ (if 0 <? k then Mongo.find_one k s else None) = None).
Proof.
  intros _. split.
  - intros H.
    destruct (non_integer_raises i H) as (H1 & H2 & _ & H4 & _ & H6 & H7).
    repeat split; assumption.
  - apply not_found_needs_integer.
Qed.

Lemma non_integer_identifier_raises_witness :
  BookService.SpecificBook_get "abc" sample_catalog = Py.Raise Py.ValueError
  /\ LoanService.SpecificLoan_delete "1.5" sample_loans
     = (Py.Raise Py.ValueError, sample_loans).
Proof.
  split.
  - exact (proj1 (proj1 (non_integer_identifier_raises "abc" eq_refl) eq_refl)
             sample_catalog).
  - pose proof (proj1 (non_integer_identifier_raises "1.5" eq_refl) eq_refl)
      as H.
    exact (proj2 (proj2 (proj2 (proj2 H))) sample_loans).
Defined.

(** The decimal representation of an integer is the only string of that
    value that [str] writes. *)
Lemma str_of_int_value (i : string) (k : Z) :
  Py.int i = Py.Ok k -> (exists n, Py.str n = i) -> Py.str k = i.
Proof.
  intros Hk (n & <-). rewrite int_str in Hk. now injection Hk as ->.
Qed.

(** C10, as stated, fails: [" 1"], ["+1"], ["01"] and ["1_0"] are the
    decimal representation of no integer, and no conversion raises on
    them.  The first three are served like [1]: the book, its rating
    and the loan are returned.  The last is read as 10, and the answer
    is the 404 of a loan that does not exist. *)
Lemma noncanonical_identifier_served :
  (forall i, In i [" 1"; "+1"; "01"; "1_0"] -> ~ exists n, Py.str n = i)
  /\ BookService.SpecificBook_get " 1" sample_catalog
     = Py.Ok (BookService.JBook (BookService.BookDoc sample_book), 200)
  /\ BookService.SpecificRatings_get "+1" sample_catalog
     = Py.Ok (BookService.JRating
                (BookService.mkRating "1" [5; 4; 5] (14 # 3) "Effective Java"),
              200)
  /\ LoanService.SpecificLoan_get "01" sample_loans
     = Py.Ok (LoanService.JLoan
                (LoanService.LoanDoc (sample_loan "1" "9780134685991")), 200)
  /\ LoanService.SpecificLoan_delete "1_0" sample_loans
     = (Py.Ok (LoanService.JError "Loan not found", 404), sample_loans).
Proof.
  split; [|repeat split].
  intros i Hin Hex.
  assert (Hk : exists k, Py.int i = Py.Ok k /\ Py.str k <> i).
  { cbn [In] in Hin.
    destruct Hin as [<-|[<-|[<-|[<-|[]]]]];
      eexists; (split; [reflexivity | discriminate]). }
  destruct Hk as (k & Hk & Hne).
  apply Hne. now apply str_of_int_value.
Qed.

(** *** Ratings: the average *)

Lemma truediv_mean (l : list Z) :
  l <> [] -> Py.truediv (Py.sum l) (Z.of_nat (List.length l)) = Py.Ok (mean l).
Proof.
  destruct l as [|x l]; [congruence|]. intros _.
  unfold mean. simpl List.length.
  rewrite <- Pos.of_nat_succ. reflexivity.
Qed.

Lemma app_one_not_nil {A : Type} (l : list A) (x : A) : l ++ [x] <> [].
Proof. destruct l; discriminate. Qed.

Ltac eff :=
  unfold Eff.bind, Eff.read, Eff.lift, Eff.write, Eff.ret, Eff.raise;
  cbn [Py.bind]; cbv beta.

Lemma calculate_rating_average_spec (rating_id : string) (k : Z)
  (s : BookService.store) (r : BookService.Rating) :
  Py.int rating_id = Py.Ok k ->
  Mongo.find_one k (BookService.rating_collection s) = Some r ->
  BookService.r_values r <> [] ->
  BookService.calculate_rating_average rating_id s
  = (Py.Ok (mean (BookService.r_values r)),
     BookService.set_ratings
       (Mongo.update_one k
          (fun r0 => BookService.mkRating (BookService.r_id r0)
                       (BookService.r_values r0) (mean (BookService.r_values r))
                       (BookService.r_title r0))) s).
Proof.
  intros Hint Hr Hne. unfold BookService.calculate_rating_average. eff.
  rewrite Hint. cbv beta iota. rewrite Hr. cbn [BookService.subscript].
  rewrite (truediv_mean _ Hne). reflexivity.
Qed.

Lemma add_rating_value_spec (v : Z) (rating_id : string) (k : Z)
  (s : BookService.store) (r : BookService.Rating) :
  Py.int rating_id = Py.Ok k ->
  Mongo.find_one k (BookService.rating_collection s) = Some r ->
  let values := BookService.r_values r ++ [v] in
  exists s',
    BookService.add_rating_value v rating_id s = (Py.Ok (mean values), s')
    /\ Mongo.find_one k (BookService.rating_collection s')
       = Some (BookService.mkRating (BookService.r_id r) values (mean values)
                 (BookService.r_title r))
    /\ BookService.book_collection s' = BookService.book_collection s
    /\ (forall k', k' <> k ->
          Mongo.find_one k' (BookService.rating_collection s')
          = Mongo.find_one k' (BookService.rating_collection s)).
Proof.
  intros Hint Hr values.
  set (push := fun r0 => BookService.mkRating (BookService.r_id r0)
                 (BookService.r_values r0 ++ [v]) (BookService.r_average r0)
                 (BookService.r_title r0)).
  set (s1 := BookService.set_ratings (Mongo.update_one k push) s).
  assert (Hr1 : Mongo.find_one k (BookService.rating_collection s1)
                = Some (push r)).
  { subst s1. cbn [BookService.set_ratings BookService.rating_collection].
    now rewrite find_one_update_same, Hr. }
  pose proof (calculate_rating_average_spec rating_id k s1 (push r) Hint Hr1
                (app_one_not_nil _ _)) as Hcalc.
  eexists. split; [|split; [|split]].
  - unfold BookService.add_rating_value. eff. rewrite Hint. cbv beta iota.
    fold push. fold s1. exact Hcalc.
  - cbn [BookService.set_ratings BookService.rating_collection].
    rewrite find_one_update_same. subst s1.
    cbn [BookService.set_ratings BookService.rating_collection].
    rewrite find_one_update_same, Hr. reflexivity.
  - reflexivity.
  - intros k' Hne. subst s1.
    cbn [BookService.set_ratings BookService.rating_collection].
    now rewrite !find_one_update_other.
Qed.

Lemma rate_once (book_id : string) (k v : Z) (s : BookService.store)
  (r : BookService.Rating) :
  1 <= v <= 5 ->
  Py.int book_id = Py.Ok k ->
  Mongo.find_one k (BookService.rating_collection s) = Some r ->
  let values := BookService.r_values r ++ [v] in
  exists s',
    rate book_id v s = (Py.Ok (BookService.JAverage (mean values), 201), s')
    /\ Mongo.find_one k (BookService.rating_collection s')
       = Some (BookService.mkRating (BookService.r_id r) values (mean values)
                 (BookService.r_title r))
    /\ BookService.book_collection s' = BookService.book_collection s
    /\ (forall k', k' <> k ->
          Mongo.find_one k' (BookService.rating_collection s')
          = Mongo.find_one k' (BookService.rating_collection s)).
Proof.
  intros Hv Hint Hr values.
  destruct (add_rating_value_spec v book_id k s r Hint Hr)
    as (s' & Hadd & Hfound & Hbooks & Hothers).
  assert (Hv1 : (1 <=? v) = true) by (apply Z.leb_le; lia).
  assert (Hv2 : (v <=? 5) = true) by (apply Z.leb_le; lia).
  exists s'. split; [|auto].
  unfold rate, BookService.SpecificRatingsValues_post,
    BookService.get_book_rating, BookService.validate_rating_for_a_book.
  eff. rewrite Hint. cbn [Py.bind]. cbv beta iota. rewrite Hr.
  rewrite String.eqb_refl, Hv1, Hv2. cbn [andb].
  cbn [Py.item Py.get String.eqb Ascii.eqb Bool.eqb Py.bind]. cbv beta iota.
  rewrite Hadd. reflexivity.
Qed.

Lemma append_value_spec (book_id : string) (v : Z) (l : list BookClub.Rating)
  (q : BookClub.Rating) :
  find (fun rating => String.eqb (BookClub.r_id rating) book_id) l = Some q ->
  let values := BookClub.r_values q ++ [v] in
  exists l',
    BookClub.append_value book_id v l = Py.Ok (mean values, l')
    /\ find (fun rating => String.eqb (BookClub.r_id rating) book_id) l'
       = Some (BookClub.mkRating (BookClub.r_id q) values (mean values)
                 (BookClub.r_title q)).
Proof.
  intros Hfind values. induction l as [|x l IH]; [discriminate|].
  simpl in Hfind. cbn [BookClub.append_value].
  destruct (String.eqb (BookClub.r_id x) book_id) eqn:E.
  - injection Hfind as ->. fold values.
    rewrite (truediv_mean values) by apply app_one_not_nil.
    eexists. split; [reflexivity|]. simpl. rewrite E. reflexivity.
  - destruct (IH Hfind) as (l' & Hl' & Hf'). rewrite Hl'.
    eexists. split; [reflexivity|]. simpl. rewrite E. exact Hf'.
Qed.

Lemma rate_in_memory_once (book_id : string) (v : Z) (st : BookClub.state)
  (q : BookClub.Rating) :
  1 <= v <= 5 ->
  BookClub.get_book_rating book_id st = Some q ->
  let values := BookClub.r_values q ++ [v] in
  exists st',
    rate_in_memory book_id v st
    = (Py.Ok (BookClub.JAverage (mean values), 200), st')
    /\ BookClub.get_book_rating book_id st'
       = Some (BookClub.mkRating (BookClub.r_id q) values (mean values)
                 (BookClub.r_title q))
    /\ BookClub.books st' = BookClub.books st.
Proof.
  intros Hv Hq values.
  destruct (append_value_spec book_id v (BookClub.bookRatings st) q Hq)
    as (l' & Happ & Hfound).
  assert (Hv1 : (1 <=? v) = true) by (apply Z.leb_le; lia).
  assert (Hv2 : (v <=? 5) = true) by (apply Z.leb_le; lia).
  exists (BookClub.mkState (BookClub.books st) l' (BookClub.ID st)).
  split; [|split; [exact Hfound | reflexivity]].
  unfold rate_in_memory, BookClub.SpecificRatingsValues_post,
    BookClub.validate_rating_for_a_book.
  eff. rewrite Hq.
  rewrite String.eqb_refl, Hv1, Hv2. cbn [andb].
  cbn [Py.item Py.get String.eqb Ascii.eqb Bool.eqb Py.bind]. cbv beta iota.
  rewrite Happ. reflexivity.
Qed.

Lemma each_cons {S X A : Type} (f : X -> Eff.eff S A) x l s a s1 r s2 :
  f x s = (Py.Ok a, s1) ->
  Eff.each f l s1 = (Py.Ok r, s2) ->
  Eff.each f (x :: l) s = (Py.Ok (a :: r), s2).
Proof.
  intros H1 H2. cbn [Eff.each]. unfold Eff.bind at 1. rewrite H1.
  unfold Eff.bind at 1. rewrite H2. reflexivity.
Qed.

Lemma rate_sequence (vs : list Z) :
  forall (v : Z) (book_id : string) (k : Z) (s : BookService.store)
         (r0 : BookService.Rating),
    Forall (fun x => 1 <= x <= 5) (vs ++ [v]) ->
    Py.int book_id = Py.Ok k ->
    Mongo.find_one k (BookService.rating_collection s) = Some r0 ->
    let values := BookService.r_values r0 ++ vs ++ [v] in
    exists rs s',
      Eff.each (rate book_id) (vs ++ [v]) s
      = (Py.Ok (rs ++ [(BookService.JAverage (mean values), 201)]), s')
      /\ Mongo.find_one k (BookService.rating_collection s')
         = Some (BookService.mkRating (BookService.r_id r0) values (mean values)
                   (BookService.r_title r0))
      /\ BookService.book_collection s' = BookService.book_collection s.
Proof.
  induction vs as [|x vs IH]; intros v book_id k s r0 Hall Hint Hr values.
  - apply Forall_inv in Hall.
    destruct (rate_once book_id k v s r0 Hall Hint Hr) as (s' & H1 & H2 & H3 & _).
    exists [], s'. split; [|split; assumption].
    eapply each_cons; [exact H1 | reflexivity].
  - simpl in Hall. inversion Hall as [|? ? Hx Hrest]; subst.
    destruct (rate_once book_id k x s r0 Hx Hint Hr) as (s1 & H1 & H2 & H3 & _).
    destruct (IH v book_id k s1 _ Hrest Hint H2) as (rs & s' & Hrun & Hf & Hb).
    cbn [BookService.r_values BookService.r_id BookService.r_title] in Hrun, Hf.
    rewrite <- !app_assoc in Hrun, Hf. simpl in Hrun, Hf.
    eexists (_ :: rs), s'. split; [|split].
    + simpl. eapply each_cons; [exact H1 | exact Hrun].
    + exact Hf.
    + congruence.
Qed.

Lemma rate_in_memory_sequence (vs : list Z) :
  forall (v : Z) (book_id : string) (st : BookClub.state) (q0 : BookClub.Rating),
    Forall (fun x => 1 <= x <= 5) (vs ++ [v]) ->
    BookClub.get_book_rating book_id st = Some q0 ->
    let values := BookClub.r_values q0 ++ vs ++ [v] in
    exists rs st',
      Eff.each (rate_in_memory book_id) (vs ++ [v]) st
      = (Py.Ok (rs ++ [(BookClub.JAverage (mean values), 200)]), st')
      /\ BookClub.get_book_rating book_id st'
         = Some (BookClub.mkRating (BookClub.r_id q0) values (mean values)
                   (BookClub.r_title q0))
      /\ BookClub.books st' = BookClub.books st.
Proof.
  induction vs as [|x vs IH]; intros v book_id st q0 Hall Hq values.
  - apply Forall_inv in Hall.
    destruct (rate_in_memory_once book_id v st q0 Hall Hq) as (st' & H1 & H2 & H3).
    exists [], st'. split; [|split; assumption].
    eapply each_cons; [exact H1 | reflexivity].
  - simpl in Hall. inversion Hall as [|? ? Hx Hrest]; subst.
    destruct (rate_in_memory_once book_id x st q0 Hx Hq) as (st1 & H1 & H2 & H3).
    destruct (IH v book_id st1 _ Hrest H2) as (rs & st' & Hrun & Hf & Hb).
    cbn [BookClub.r_values BookClub.r_id BookClub.r_title] in Hrun, Hf.
    rewrite <- !app_assoc in Hrun, Hf. simpl in Hrun, Hf.
    eexists (_ :: rs), st'. split; [|split].
    + simpl. eapply each_cons; [exact H1 | exact Hrun].
    + exact Hf.
    + congruence.
Qed.

(** C3: after any sequence of accepted POSTs of rating values to one
    existing rating record, the record holds the earlier values followed
    by the posted ones, its stored average is the sum of all of them
    divided by their number, and the answer to the last POST carries that
    average.  As the sequence is arbitrary, this holds after each append.
    Both the persistent service and the first iteration. *)
Theorem rating_average_recomputed (vs : list Z) (v : Z) (book_id : string)
  (k : Z) (s : BookService.store) (r0 : BookService.Rating)
  (st : BookClub.state) (q0 : BookClub.Rating) :
  Forall (fun x => 1 <= x <= 5) (vs ++ [v]) ->
  Py.int book_id = Py.Ok k ->
  Mongo.find_one k (BookService.rating_collection s) = Some r0 ->
  BookClub.get_book_rating book_id st = Some q0 ->
  let values := BookService.r_values r0 ++ vs ++ [v] in
  let values1 := BookClub.r_values q0 ++ vs ++ [v] in
  (exists rs s',
     Eff.each (rate book_id) (vs ++ [v]) s
     = (Py.Ok (rs ++ [(BookService.JAverage (mean values), 201)]), s')
     /\ Mongo.find_one k (BookService.rating_collection s')
        = Some (BookService.mkRating (BookService.r_id r0) values (mean values)
                  (BookService.r_title r0))
     /\ BookService.book_collection s' = BookService.book_collection s)
  /\ (exists rs st',
        Eff.each (rate_in_memory book_id) (vs ++ [v]) st
        = (Py.Ok (rs ++ [(BookClub.JAverage (mean values1), 200)]), st')
        /\ BookClub.get_book_rating book_id st'
           = Some (BookClub.mkRating (BookClub.r_id q0) values1 (mean values1)
                     (BookClub.r_title q0))
        /\ BookClub.books st' = BookClub.books st)
  /\ mean values = Py.sum values # Pos.of_nat (List.length values)
  /\ mean values1 = Py.sum values1 # Pos.of_nat (List.length values1).
Proof.
  intros Hall Hint Hr Hq values values1. split; [|split; [|split]].
  - now apply rate_sequence.
  - now apply rate_in_memory_sequence.
  - reflexivity.
  - reflexivity.
Qed.

Lemma rating_average_recomputed_witness :
  (exists rs s',
     Eff.each (rate "1") [5; 4; 5] unrated_catalog
     = (Py.Ok (rs ++ [(BookService.JAverage (14 # 3), 201)]), s')
     /\ Mongo.find_one 1 (BookService.rating_collection s')
        = Some (BookService.mkRating "1" [5; 4; 5] (14 # 3) "Effective Java")
     /\ BookService.book_collection s' = BookService.book_collection unrated_catalog)
  /\ (exists rs st',
        Eff.each (rate_in_memory "1") [5; 4; 5] unrated_club
        = (Py.Ok (rs ++ [(BookClub.JAverage (14 # 3), 200)]), st')
        /\ BookClub.get_book_rating "1" st'
           = Some (BookClub.mkRating "1" [5; 4; 5] (14 # 3) "Effective Java")
        /\ BookClub.books st' = BookClub.books unrated_club).
Proof.
  assert (Hall : Forall (fun x => 1 <= x <= 5) ([5; 4] ++ [5]))
    by (repeat constructor; lia).
  destruct (rating_average_recomputed [5; 4] 5 "1" 1 unrated_catalog
              (BookService.mkRating "1" [] 0 "Effective Java")
              unrated_club (BookClub.mkRating "1" [] 0 "Effective Java")
              Hall eq_refl eq_refl eq_refl) as (H2 & H1 & _).
  split; [exact H2 | exact H1].
Defined.

(** *** The list query *)

Lemma filter_filter {A : Type} (p q : A -> bool) (l : list A) :
  filter q (filter p l) = filter (fun x => p x && q x) l.
Proof.
  induction l as [|x l IH]; simpl; [reflexivity|].
  destruct (p x); simpl; [destruct (q x)|]; now rewrite IH.
Qed.

Lemma filter_all {A : Type} (l : list A) : filter (fun _ => true) l = l.
Proof. induction l as [|x l IH]; simpl; [reflexivity | now rewrite IH]. Qed.

Lemma club_book_field_supported field b :
  BookClub.str_in field BookClub.REQUIRED_FIELDS = true ->
  String.eqb field "language" = false ->
  exists v, BookClub.book_field field b = Py.Ok v.
Proof.
  unfold BookClub.str_in, BookService.str_in, BookClub.REQUIRED_FIELDS,
    BookClub.book_field. simpl existsb.
  intros H Hl. rewrite Hl in H.
  repeat match goal with
         | |- context [String.eqb field ?x] =>
             destruct (String.eqb field x); [eauto|]
         end.
  discriminate.
Qed.

Lemma club_select_filter field value l :
  BookClub.str_in field BookClub.REQUIRED_FIELDS = true ->
  String.eqb field "language" = false ->
  BookClub.select field value l
  = Py.Ok (filter (fun b => meets_in_memory b (field, value)) l).
Proof.
  intros Hf Hl. induction l as [|b l IH]; [reflexivity|].
  destruct (club_book_field_supported field b Hf Hl) as (v & Hv).
  assert (Hm : meets_in_memory b (field, value) = String.eqb v value).
  { unfold meets_in_memory. now rewrite Hl, Hv. }
  cbn [BookClub.select filter]. rewrite Hv, IH, Hm. cbn [Py.bind].
  reflexivity.
Qed.

Lemma club_Books_get_loop_spec params :
  forall l,
    (existsb refused_in_memory params = true ->
     exists msg, BookClub.Books_get_loop params l
                 = Py.Ok (BookClub.JError msg, 422))
    /\ (existsb refused_in_memory params = false ->
        BookClub.Books_get_loop params l
        = Py.Ok (BookClub.JBooks
                   (filter (fun b => forallb (meets_in_memory b) params) l), 200)).
Proof.
  induction params as [|[field value] params IH]; intros l.
  - split; [discriminate|]. intros _. simpl. now rewrite filter_all.
  - cbn [BookClub.Books_get_loop existsb refused_in_memory].
    destruct (negb (BookClub.str_in field BookClub.REQUIRED_FIELDS)
              || String.eqb field "genre"
                 && negb (BookClub.str_in value BookClub.GENRES)) eqn:E1.
    + split; [eauto | discriminate].
    + apply orb_false_elim in E1. destruct E1 as [Hsup _].
      apply negb_false_iff in Hsup. cbn [orb].
      destruct (String.eqb field "language") eqn:El.
      * cbn [andb].
        destruct (negb (BookClub.str_in value BookClub.LANGUAGES)) eqn:E2.
        -- split; [eauto | discriminate].
        -- cbn [orb]. destruct (IH (filter (fun book =>
                BookClub.str_in value (BookClub.b_language book)) l)) as [IHe IHo].
           split; [exact IHe|]. intros Hok. rewrite (IHo Hok).
           rewrite filter_filter. do 3 f_equal.
           apply filter_ext. intros b. cbn [forallb meets_in_memory].
           now rewrite El.
      * cbn [andb orb]. rewrite (club_select_filter field value l Hsup El).
        cbn [Py.bind].
        destruct (IH (filter (fun b => meets_in_memory b (field, value)) l))
          as [IHe IHo].
        split; [exact IHe|]. intros Hok. rewrite (IHo Hok).
        rewrite filter_filter. reflexivity.
Qed.

Lemma book_field_supported field b :
  BookService.str_in field BookService.REQUIRED_FIELDS = true ->
  exists v, BookService.book_field field (BookService.BookDoc b) = Py.Ok v.
Proof.
  unfold BookService.str_in, BookService.REQUIRED_FIELDS,
    BookService.book_field. simpl existsb.
  intros H.
  repeat match goal with
         | |- context [String.eqb field ?x] =>
             destruct (String.eqb field x); [eauto|]
         end.
  discriminate.
Qed.

Lemma select_filter field value l :
  Forall is_book l ->
  BookService.str_in field BookService.REQUIRED_FIELDS = true ->
  BookService.select field value l
  = Py.Ok (filter (fun d => meets d (field, value)) l).
Proof.
  intros Hall Hf. induction Hall as [|d l [b ->] Hall IH]; [reflexivity|].
  destruct (book_field_supported field b Hf) as (v & Hv).
  assert (Hm : meets (BookService.BookDoc b) (field, value) = String.eqb v value).
  { unfold meets. cbn [fst snd]. now rewrite Hv. }
  cbn [BookService.select filter]. rewrite Hv, IH, Hm. cbn [Py.bind].
  reflexivity.
Qed.

Lemma Forall_filter_keeps {A : Type} (P : A -> Prop) (p : A -> bool) (l : list A) :
  Forall P l -> Forall P (filter p l).
Proof.
  rewrite !Forall_forall. intros H x Hx. apply filter_In in Hx. now apply H.
Qed.

Lemma Books_get_loop_spec params :
  forall l,
    Forall is_book l ->
    (existsb refused params = true ->
     BookService.Books_get_loop params l
     = Py.Ok (BookService.JError "Invalid field or genre", 422))
    /\ (existsb refused params = false ->
        BookService.Books_get_loop params l
        = Py.Ok (one_or_list
                   (filter (fun d => forallb (meets d) params) l), 200)).
Proof.
  induction params as [|[field value] params IH]; intros l Hall.
  - split; [discriminate|]. intros _. simpl forallb. rewrite filter_all.
    destruct l as [|d [|d' l]]; reflexivity.
  - cbn [BookService.Books_get_loop existsb refused].
    destruct (negb (BookService.str_in field BookService.REQUIRED_FIELDS)
              || String.eqb field "genre"
                 && negb (BookService.str_in value BookService.GENRES)) eqn:E1.
    + split; [reflexivity | discriminate].
    + apply orb_false_elim in E1. destruct E1 as [Hsup _].
      apply negb_false_iff in Hsup. cbn [orb].
      rewrite (select_filter field value l Hall Hsup). cbn [Py.bind].
      destruct (IH (filter (fun d => meets d (field, value)) l)
                  (Forall_filter_keeps _ _ _ Hall)) as [IHe IHo].
      split; [exact IHe|]. intros Hok. rewrite (IHo Hok).
      rewrite filter_filter. reflexivity.
Qed.

Lemma get_books_all_books s :
  catalog_wf s = true -> Forall is_book (BookService.get_books s).
Proof.
  intros Hwf. apply Forall_forall. intros d Hd.
  destruct (get_books_are_books s d Hwf Hd) as (k & b & -> & _).
  now exists b.
Qed.

(** The pairs that [items()] yields are pairs of the query string, and
    no key is yielded twice. *)
Lemma items_from_spec a :
  forall seen,
    (forall p, In p (Flask.items_from seen a) ->
               In p a /\ ~ In (fst p) seen)
    /\ NoDup (map fst (Flask.items_from seen a)).
Proof.
  induction a as [|[k v] a IH]; intros seen; cbn [Flask.items_from].
  - split; [intros p []|constructor].
  - destruct (existsb (String.eqb k) seen) eqn:E.
    + destruct (IH seen) as [H1 H2]. split; [|exact H2].
      intros p Hp. destruct (H1 p Hp). split; [now right|assumption].
    + destruct (IH (k :: seen)) as [H1 H2]. split.
      * intros p [<-|Hp].
        -- split; [now left|]. cbn [fst]. intros Hin.
           assert (Ht : existsb (String.eqb k) seen = true).
           { apply existsb_exists. exists k. split; [exact Hin|].
             apply String.eqb_refl. }
           congruence.
        -- destruct (H1 p Hp) as [Ha Hs]. split; [now right|].
           intros Hin. apply Hs. now right.
      * cbn [map fst]. constructor; [|exact H2].
        intros Hin. apply in_map_iff in Hin. destruct Hin as (p & Hk & Hp).
        destruct (H1 p Hp) as [_ Hs]. apply Hs. left. now symmetry.
Qed.

(** The value that [items()] yields for a key is the first one the query
    string gives for it. *)
Lemma items_from_first a :
  forall seen k v,
    ~ In k seen ->
    (In (k, v) (Flask.items_from seen a)
     <-> find (fun p => String.eqb (fst p) k) a = Some (k, v)).
Proof.
  induction a as [|[k' v'] a IH]; intros seen k v Hk;
    cbn [Flask.items_from find fst].
  - split; [intros []|discriminate].
  - destruct (String.eqb k' k) eqn:Ek.
    + apply String.eqb_eq in Ek. subst k'.
      assert (E : existsb (String.eqb k) seen = false).
      { destruct (existsb (String.eqb k) seen) eqn:E; [|reflexivity].
        apply existsb_exists in E. destruct E as (x & Hx & Hxk).
        apply String.eqb_eq in Hxk. subst x. contradiction. }
      rewrite E. split.
      * intros [H|H]; [congruence|].
        destruct (proj1 (items_from_spec a (k :: seen)) _ H) as [_ Hn].
        exfalso. apply Hn. now left.
      * intros H. left. congruence.
    + assert (Hne : k' <> k) by (intros ->; rewrite String.eqb_refl in Ek;
                                  discriminate).
      destruct (existsb (String.eqb k') seen).
      * now apply IH.
      * rewrite <- (IH (k' :: seen) k v).
        -- split; [intros [H|H]; [congruence|exact H] | now right].
        -- intros [H|H]; [now apply Hne | now apply Hk].
Qed.

(** C8, as the code has it.  Of a key given more than once only the
    first value is seen: the parameters of a request are the pairs
    [Flask.items] yields.  A parameter is refused with status 422 when it
    names a field outside the supported ones, or [genre] with a value
    outside the genres, or, in the first iteration, [language] with a
    value outside heb, eng, spa, chi; the persistent service has no
    [language] field and refuses it like any other unsupported name.
    When no parameter is refused, the answer holds exactly the records
    that meet every parameter: equality with the query value, and for
    [language] (first iteration) membership in the record's language
    list.  The persistent service answers with the record itself, not a
    list, when exactly one record is left. *)
Theorem list_query_filters (params : Flask.args)
  (st : BookClub.state) (s : BookService.store) :
  catalog_wf s = true ->
  (existsb refused_in_memory (Flask.items params) = true ->
   exists msg, BookClub.Books_get params st = Py.Ok (BookClub.JError msg, 422))
  /\ (existsb refused_in_memory (Flask.items params) = false ->
      BookClub.Books_get params st
      = Py.Ok (BookClub.JBooks
                 (filter (fun b =>
                            forallb (meets_in_memory b) (Flask.items params))
                    (BookClub.books st)), 200))
  /\ (existsb refused (Flask.items params) = true ->
      BookService.Books_get params s
      = Py.Ok (BookService.JError "Invalid field or genre", 422))
  /\ (existsb refused (Flask.items params) = false ->
      BookService.Books_get params s
      = Py.Ok (one_or_list
                 (filter (fun d => forallb (meets d) (Flask.items params))
                    (BookService.get_books s)), 200))
  /\ (forall value, refused ("language", value) = true)
  /\ (forall key value,
        In (key, value) (Flask.items params)
        <-> find (fun p => String.eqb (fst p) key) params = Some (key, value)).
Proof.
  intros Hwf. unfold BookClub.Books_get, BookService.Books_get.
  destruct (club_Books_get_loop_spec (Flask.items params) (BookClub.books st))
    as [H1 H2].
  destruct (Books_get_loop_spec (Flask.items params) (BookService.get_books s)
              (get_books_all_books s Hwf)) as [H3 H4].
  split; [exact H1|]. split; [exact H2|]. split; [exact H3|].
  split; [exact H4|]. split; [reflexivity|].
  intros key value. apply items_from_first. intros [].
Qed.

Lemma list_query_filters_witness :
  BookClub.Books_get [("language", "eng"); ("genre", "Science")] unrated_club
  = Py.Ok (BookClub.JBooks [club_book "1" "Effective Java" ["eng"]], 200)
  /\ BookService.Books_get [("ISBN", "9780134685991")] sample_catalog
     = Py.Ok (BookService.JBook (BookService.BookDoc sample_book), 200)
  /\ BookService.Books_get [("language", "eng")] sample_catalog
     = Py.Ok (BookService.JError "Invalid field or genre", 422)
  /\ BookService.Books_get [("genre", "Science"); ("genre", "Poetry")]
       sample_catalog
     = Py.Ok (one_or_list
                (filter (fun d => meets d ("genre", "Science"))
                   (BookService.get_books sample_catalog)), 200).
Proof.
  split; [|split; [|split]].
  - exact (proj1 (proj2 (list_query_filters
             [("language", "eng"); ("genre", "Science")]
             unrated_club sample_catalog eq_refl)) eq_refl).
  - exact (proj1 (proj2 (proj2 (proj2 (list_query_filters
             [("ISBN", "9780134685991")] unrated_club sample_catalog eq_refl))))
             eq_refl).
  - exact (proj1 (proj2 (proj2 (list_query_filters
             [("language", "eng")] unrated_club sample_catalog eq_refl)))
             eq_refl).
  - exact (proj1 (proj2 (proj2 (proj2 (list_query_filters
             [("genre", "Science"); ("genre", "Poetry")]
             unrated_club sample_catalog eq_refl)))) eq_refl).
Defined.

(** C8, as stated, fails in the first iteration: the query
    [language=fre] on a catalog whose one book lists [fre] among its
    languages is answered with status 422, although [language] is a
    supported field and the value is a member of the book's list. *)
Lemma language_query_refused :
  BookClub.Books_get [("language", "fre")] french_club
  = Py.Ok (BookClub.JError "Invalid language", 422)
  /\ BookClub.str_in "language" BookClub.REQUIRED_FIELDS = true
  /\ filter (fun b => BookClub.str_in "fre" (BookClub.b_language b))
       (BookClub.books french_club)
     = [club_book "1" "L'Etranger" ["fre"]].
Proof. repeat split. Qed.

(** *** The ranking *)

Section Ranking.

Context {A : Type}.
Implicit Types (l : list (Q * A)) (p : Q * A) (ks : list Q).
















End Ranking.

(** *** The data model of a rating keeps its average away from 0 *)




(** *** The ranking of the first iteration *)

Section ClubRanking.

Variable st : BookClub.state.

Hypothesis rated :
  forall b, In b (BookClub.books st) -> exists r, BookClub.rating_of st b = Py.Ok r.





End ClubRanking.




(** *** The ranking of the persistent service *)

Section CatalogRanking.

Variable s : BookService.store.

Hypothesis rated :
  forall d, In d (BookService.get_books s) ->
            exists b r, d = BookService.BookDoc b /\ BookService.rating_of s d = Py.Ok r.





End CatalogRanking.






(** With shared averages the answer is longer than 3: the books with
    the averages 5, 4, 4, 3 and 3 are all listed; the book with average 2
    and the book with two values are not. *)
Lemma tied_club_top :
  BookClub.TopBooks_get tied_club
  = Py.Ok (BookClub.JTop
             [BookClub.mkTop "5" "Effective Java" (15 # 3);
              BookClub.mkTop "3" "Effective Java" (12 # 3);
              BookClub.mkTop "6" "Effective Java" (12 # 3);
              BookClub.mkTop "2" "Effective Java" (9 # 3);
              BookClub.mkTop "7" "Effective Java" (9 # 3)], 200).
Proof. vm_compute. reflexivity. Qed.

(** *** Loans: the validation gates *)

Lemma loans_wf_spec (s : LoanService.store) :
  loans_wf s = true ->
  NoDup (Mongo.ids s)
  /\ forall d, In d (LoanService.get_loans s) -> exists l, d = LoanService.LoanDoc l.
Proof.
  unfold loans_wf. intros H.
  destruct (Mongo.find_one 0 s) as [[h0|x]|]; try discriminate.
  apply andb_prop in H. destruct H as [H Hall].
  apply andb_prop in H. destruct H as [_ Hd].
  split; [now apply distinct_NoDup|].
  intros d Hin. apply find_gt0_In in Hin. destruct Hin as (k & Hk & Hin).
  rewrite forallb_forall in Hall. specialize (Hall _ Hin). cbn [fst snd] in Hall.
  destruct d as [h|l]; [|eauto]. apply Z.eqb_eq in Hall. lia.
Qed.

Lemma any_ISBN_spec (isbn : Py.val) (l : list LoanService.loandoc) :
  (forall d, In d l -> exists x, d = LoanService.LoanDoc x) ->
  LoanService.any_ISBN isbn l
  = Py.Ok (existsb (fun d => match LoanService.loan_field "ISBN" d with
                             | Py.Ok v => Py.eqb v isbn
                             | Py.Raise _ => false
                             end) l).
Proof.
  induction l as [|d l IH]; intros H; [reflexivity|].
  destruct (H d (in_eq _ _)) as (x & ->).
  cbn [LoanService.any_ISBN existsb].
  change (LoanService.loan_field "ISBN" (LoanService.LoanDoc x))
    with (@Py.Ok Py.val (LoanService.l_ISBN x)).
  cbn [Py.bind].
  destruct (Py.eqb (LoanService.l_ISBN x) isbn); [reflexivity|].
  cbn [orb]. apply IH. intros d Hd. apply H. now right.
Qed.

(** The five gates on a request with its three fields, a string as ISBN
    and a string as loan date: the first gate that fails decides the
    answer, in this order. *)
Lemma validate_loan_addition_gates (s : LoanService.store)
  (member : Py.val) (isbn date : string) :
  loans_wf s = true ->
  LoanService.validate_loan_addition (loan_request member isbn date) s
  = Py.Ok
      (if negb (Z.of_nat (String.length isbn) =? 13) then
         Some (LoanService.JError "Invalid ISBN", 422)
       else if on_loan (Py.PStr isbn) s then
         Some (LoanService.JError "This book is already on loan", 422)
       else if 2 <=? LoanService.loan_count_of_member member s then
         Some (LoanService.JError
                 ("Too many books on loan for " ++ Py.format member ++ ".")%string,
               422)
       else if negb (LoanService.date_pattern_match date) then
         Some (LoanService.JError "Invalid date format, should be YYYY-MM-DD", 422)
       else if negb (LoanService.strptime_ok date) then
         Some (LoanService.JError "Invalid date", 422)
       else None).
Proof.
  intros Hwf. destruct (loans_wf_spec s Hwf) as [_ Hloans].
  unfold LoanService.validate_loan_addition, loan_request.
  cbn [List.length firstn LoanService.REQUIRED_FIELDS forallb Py.mem Py.get
       String.eqb Ascii.eqb Bool.eqb Z.of_nat Z.eqb Pos.of_succ_nat Pos.succ
       Pos.eqb andb negb Py.item Py.bind Py.len Py.the_str].
  destruct (negb (Z.of_nat (String.length isbn) =? 13)); [reflexivity|].
  rewrite (any_ISBN_spec _ _ Hloans). cbn [Py.bind]. fold (on_loan (Py.PStr isbn) s).
  destruct (on_loan (Py.PStr isbn) s); [reflexivity|].
  destruct (2 <=? LoanService.loan_count_of_member member s); [reflexivity|].
  destruct (negb (LoanService.date_pattern_match date)); [reflexivity|].
  destruct (negb (LoanService.strptime_ok date)); reflexivity.
Qed.

(** A request with its three fields as strings is refused with status
    422, and the store is left alone, when its ISBN is on loan, or its
    member has two loans, or its date is not a valid calendar date. *)
Lemma loan_refused (check_if_in_library : Py.val -> LoanService.Response)
  (s : LoanService.store) (member : Py.val) (isbn date : string) :
  loans_wf s = true ->
  on_loan (Py.PStr isbn) s = true
  \/ 2 <= LoanService.loan_count_of_member member s
  \/ valid_date date = false ->
  exists msg,
    LoanService.Loans_post check_if_in_library (loan_request member isbn date) s
    = (Py.Ok (LoanService.JError msg, 422), s).
Proof.
  intros Hwf Hbad.
  assert (Hv : exists msg,
             LoanService.validate_loan_addition (loan_request member isbn date) s
             = Py.Ok (Some (LoanService.JError msg, 422))).
  { rewrite (validate_loan_addition_gates s member isbn date Hwf).
    destruct (negb (Z.of_nat (String.length isbn) =? 13)); [eauto|].
    destruct (on_loan (Py.PStr isbn) s); [eauto|].
    destruct (Z.leb_spec 2 (LoanService.loan_count_of_member member s)); [eauto|].
    destruct Hbad as [Hbad|[Hbad|Hbad]]; [discriminate | lia |].
    unfold valid_date in Hbad.
    destruct (LoanService.date_pattern_match date); cbn [negb andb] in *; [|eauto].
    rewrite Hbad. cbn [negb]. eauto. }
  destruct Hv as (msg & Hv). exists msg.
  unfold LoanService.Loans_post, loan_request. fold (loan_request member isbn date).
  unfold Eff.bind, Eff.read. rewrite Hv. reflexivity.
Qed.

(** C5 fails on a request whose ISBN is a JSON number: the second gate
    takes [len] of it and raises [TypeError] (an unhandled server error),
    also when the member already has two loans and the date is not a
    calendar date; no client error is returned.  The loan store is left
    as it was. *)
Theorem loan_validation_numeric_ISBN
  (check_if_in_library : Py.val -> LoanService.Response) :
  let payload := [("memberName", Py.PStr "Dana");
                  ("ISBN", Py.PInt 9780134685991);
                  ("loanDate", Py.PStr "2023-02-30")] in
  LoanService.loan_count_of_member (Py.PStr "Dana") sample_loans = 2
  /\ valid_date "2023-02-30" = false
  /\ LoanService.validate_loan_addition payload sample_loans
     = Py.Raise Py.TypeError
  /\ LoanService.Loans_post check_if_in_library payload sample_loans
     = (Py.Raise Py.TypeError, sample_loans)
  /\ (forall (s : LoanService.store) (member date : Py.val) (z : Z),
        LoanService.Loans_post check_if_in_library
          [("memberName", member); ("ISBN", Py.PInt z); ("loanDate", date)] s
        = (Py.Raise Py.TypeError, s)).
Proof. cbv zeta. repeat split. Qed.

(** The catalog's validation does check that its fields are strings: the
    same kind of request is answered with status 422 there. *)
Lemma book_validation_numeric_ISBN (s : BookService.store) (z : Z) :
  BookService.validate_book_addition
    [("title", Py.PStr "Effective Java"); ("ISBN", Py.PInt z);
     ("genre", Py.PStr "Science")] s
  = Py.Ok (Some (BookService.JError
                   "Unprocessable content - check validity of fields", 422)).
Proof. reflexivity. Qed.

(** A request without exactly the three fields is refused by the first
    gate. *)
Lemma loan_shape_refused (check_if_in_library : Py.val -> LoanService.Response)
  (payload : Py.dict) (s : LoanService.store) :
  payload <> [] ->
  List.length payload <> 3%nat
  \/ Py.mem "memberName" payload && Py.mem "ISBN" payload
     && Py.mem "loanDate" payload = false ->
  LoanService.Loans_post check_if_in_library payload s
  = (Py.Ok (LoanService.JError
              "Unprocessable content - check validity of fields", 422), s).
Proof.
  intros Hne Hbad.
  assert (Hv : LoanService.validate_loan_addition payload s
               = Py.Ok (Some (LoanService.JError
                   "Unprocessable content - check validity of fields", 422))).
  { unfold LoanService.validate_loan_addition.
    cbn [firstn LoanService.REQUIRED_FIELDS forallb List.length].
    destruct Hbad as [Hlen|Hmem].
    - destruct (Z.eqb_spec (Z.of_nat (List.length payload)) (Z.of_nat 3));
        [lia | reflexivity].
    - apply andb_false_iff in Hmem. rewrite andb_false_iff in Hmem.
      destruct Hmem as [[Hm|Hm]|Hm]; rewrite Hm;
        rewrite ?andb_false_r, ?andb_false_l; reflexivity. }
  unfold LoanService.Loans_post. destruct payload; [contradiction|].
  unfold Eff.bind, Eff.read. rewrite Hv. reflexivity.
Qed.

(** *** The handlers keep the catalog well formed *)

Lemma NoDup_distinct (l : list Z) : NoDup l -> distinct l = true.
Proof.
  induction 1 as [|x l Hnotin Hnd IH]; simpl; [reflexivity|].
  rewrite IH, andb_true_r. apply negb_true_iff.
  destruct (existsb (Z.eqb x) l) eqn:E; [|reflexivity].
  apply existsb_exists in E. destruct E as (y & Hy & Hxy).
  apply Z.eqb_eq in Hxy. subst y. contradiction.
Qed.

Lemma catalog_wf_intro (s : BookService.store) (h : Z) :
  Mongo.find_one 0 (BookService.book_collection s) = Some (BookService.Counter h) ->
  0 <= h ->
  NoDup (Mongo.ids (BookService.book_collection s)) ->
  NoDup (Mongo.ids (BookService.rating_collection s)) ->
  (forall k d, In (k, d) (BookService.book_collection s) ->
     book_doc_ok h (BookService.rating_collection s) (k, d) = true) ->
  (forall k r, In (k, r) (BookService.rating_collection s) ->
     rating_doc_ok h (k, r) = true) ->
  catalog_wf s = true.
Proof.
  intros Hc Hh Hb Hr Hbooks Hratings. unfold catalog_wf. rewrite Hc.
  repeat (apply andb_true_intro; split).
  - now apply Z.leb_le.
  - now apply NoDup_distinct.
  - now apply NoDup_distinct.
  - apply forallb_forall. intros [k d] Hin. now apply Hbooks.
  - apply forallb_forall. intros [k r] Hin. now apply Hratings.
Qed.

Section UpdateFacts.

Context {D : Type}.

Lemma In_update_one (k0 : Z) (u : D -> D) (c : Mongo.collection D) k d :
  In (k, d) (Mongo.update_one k0 u c) ->
  exists d0, In (k, d0) c /\ (d = d0 \/ (k = k0 /\ d = u d0)).
Proof.
  induction c as [|[j e] c IH]; simpl; [tauto|].
  destruct (Z.eqb_spec k0 j) as [->|Hne]; simpl.
  - intros [[= <- <-]|Hin]; eauto 6.
  - intros [[= <- <-]|Hin]; [eauto 6|].
    destruct (IH Hin) as (d0 & H0 & Hd). eauto.
Qed.

Lemma In_delete_one (k0 : Z) (c : Mongo.collection D) k d :
  In (k, d) (Mongo.delete_one k0 c) -> In (k, d) c.
Proof.
  unfold Mongo.delete_one.
  induction c as [|[j e] c IH]; simpl; [tauto|].
  destruct (Z.eqb k0 j); simpl; tauto.
Qed.

Lemma NoDup_ids_delete_one (k0 : Z) (c : Mongo.collection D) :
  NoDup (Mongo.ids c) -> NoDup (Mongo.ids (Mongo.delete_one k0 c)).
Proof.
  unfold Mongo.delete_one.
  induction c as [|[j e] c IH]; simpl; intros H; [constructor|].
  inversion H as [|? ? Hnotin Hnd]; subst.
  destruct (Z.eqb k0 j); [exact Hnd|].
  simpl. constructor; [|now apply IH].
  intros Hin. apply Hnotin. eapply ids_delete_one_incl, Hin.
Qed.

Lemma find_one_Some_ids k (c : Mongo.collection D) d :
  Mongo.find_one k c = Some d -> In k (Mongo.ids c).
Proof.
  intros H. apply find_one_In in H. apply (in_map fst) in H. exact H.
Qed.

End UpdateFacts.

(** Boolean checks as propositions, in hypotheses and in the goal. *)
Ltac bools :=
  repeat match goal with
         | H : _ && _ = true |- _ => apply andb_prop in H; destruct H
         | H : Z.leb _ _ = true |- _ => apply Z.leb_le in H
         | H : Z.ltb _ _ = true |- _ => apply Z.ltb_lt in H
         | H : Z.eqb _ _ = true |- _ => apply Z.eqb_eq in H
         | H : String.eqb _ _ = true |- _ => apply String.eqb_eq in H
         end.

Ltac bools_goal :=
  repeat (apply andb_true_intro; split);
  try (apply Z.leb_le; lia); try (apply Z.ltb_lt; lia);
  try (apply Z.eqb_eq; lia); try (apply String.eqb_eq; congruence).

Lemma book_doc_ok_mono h h' ratings ratings' kd :
  h <= h' ->
  (forall r, Mongo.find_one (fst kd) ratings = Some r ->
             exists r', Mongo.find_one (fst kd) ratings' = Some r') ->
  book_doc_ok h ratings kd = true -> book_doc_ok h' ratings' kd = true.
Proof.
  intros Hle Hr. unfold book_doc_ok. destruct (snd kd); [auto|].
  intros H.
  destruct (Mongo.find_one (fst kd) ratings) as [r|] eqn:E;
    [|rewrite andb_false_r in H; discriminate].
  destruct (Hr r eq_refl) as (r' & ->). bools. bools_goal. reflexivity.
Qed.

Lemma rating_doc_ok_mono h h' kr :
  h <= h' -> rating_doc_ok h kr = true -> rating_doc_ok h' kr = true.
Proof.
  intros Hle. unfold rating_doc_ok. intros H.
  destruct (values_ok _ _); [|rewrite andb_false_r in H; discriminate].
  bools. bools_goal. reflexivity.
Qed.

Lemma catalog_wf_ids (s : BookService.store) (h : Z) :
  catalog_wf s = true ->
  Interleaving.book_fetch s = Py.Ok h ->
  0 <= h
  /\ (forall k, In k (Mongo.ids (BookService.book_collection s)) -> k <= h)
  /\ (forall k, In k (Mongo.ids (BookService.rating_collection s)) -> k <= h).
Proof.
  intros Hwf Hf. destruct (catalog_wf_spec s Hwf) as (h' & Hc & Hh & _ & _ & Hb & Hr).
  unfold Interleaving.book_fetch in Hf. rewrite Hc in Hf. injection Hf as <-.
  split; [exact Hh|]. split.
  - intros k Hk. apply in_map_iff in Hk. destruct Hk as ([k' d] & <- & Hin).
    specialize (Hb _ _ Hin). unfold book_doc_ok in Hb. cbn [fst snd] in *.
    destruct d; bools; lia.
  - intros k Hk. apply in_map_iff in Hk. destruct Hk as ([k' r] & <- & Hin).
    specialize (Hr _ _ Hin). unfold rating_doc_ok in Hr. cbn [fst snd] in *.
    destruct (values_ok _ _); [|rewrite andb_false_r in Hr; discriminate].
    bools. lia.
Qed.

Lemma catalog_wf_fetch (s : BookService.store) :
  catalog_wf s = true -> exists h, Interleaving.book_fetch s = Py.Ok h.
Proof.
  intros Hwf. destruct (catalog_wf_spec s Hwf) as (h & Hc & _).
  exists h. unfold Interleaving.book_fetch. now rewrite Hc.
Qed.

(** The counter may move up. *)
Lemma catalog_wf_book_set (s : BookService.store) (h : Z) :
  catalog_wf s = true ->
  Interleaving.book_fetch s = Py.Ok h ->
  catalog_wf (Interleaving.book_set (h + 1) s) = true.
Proof.
  intros Hwf Hf.
  destruct (catalog_wf_spec s Hwf) as (h' & Hc & Hh & Hndb & Hndr & Hb & Hr).
  assert (h' = h) by (unfold Interleaving.book_fetch in Hf; rewrite Hc in Hf; congruence).
  subst h'.
  apply (catalog_wf_intro _ (h + 1));
    unfold Interleaving.book_set, BookService.set_books;
    cbn [BookService.book_collection BookService.rating_collection].
  - rewrite find_one_update_same, Hc. reflexivity.
  - lia.
  - now rewrite ids_update_one.
  - exact Hndr.
  - intros k d Hin. apply In_update_one in Hin.
    destruct Hin as (d0 & Hin0 & [->|[-> ->]]).
    + apply (book_doc_ok_mono h (h + 1) (BookService.rating_collection s));
        [lia | eauto | now apply Hb].
    + specialize (Hb _ _ Hin0). unfold book_doc_ok in *. cbn [fst snd] in *.
      destruct d0; [apply Z.eqb_refl | bools; lia].
  - intros k r Hin. apply (rating_doc_ok_mono h); [lia | now apply Hr].
Qed.

(** A new book and its empty rating, under the identifier just
    allocated. *)
Lemma catalog_wf_insert (s : BookService.store) (h : Z)
  (b : BookService.Book) (title : string) :
  catalog_wf s = true ->
  Interleaving.book_fetch s = Py.Ok h ->
  1 <= h ->
  ~ In h (Mongo.ids (BookService.book_collection s)) ->
  ~ In h (Mongo.ids (BookService.rating_collection s)) ->
  BookService.b_id b = Py.str h ->
  catalog_wf
    (BookService.mkStore
       (BookService.book_collection s ++ [(h, BookService.BookDoc b)])
       (BookService.rating_collection s
        ++ [(h, BookService.mkRating (Py.str h) [] 0 title)])) = true.
Proof.
  intros Hwf Hf Hh Hfb Hfr Hid.
  destruct (catalog_wf_spec s Hwf) as (h' & Hc & _ & Hndb & Hndr & Hb & Hr).
  assert (h' = h) by (unfold Interleaving.book_fetch in Hf; rewrite Hc in Hf; congruence).
  subst h'.
  assert (Hnd : forall (D : Type) (c : Mongo.collection D) (d : D),
             NoDup (Mongo.ids c) -> ~ In h (Mongo.ids c) ->
             NoDup (Mongo.ids (c ++ [(h, d)]))).
  { intros D c d Hn Hnot. unfold Mongo.ids. rewrite map_app. simpl.
    apply NoDup_app; [exact Hn | repeat constructor; auto | ].
    intros x Hx [<-|[]]. contradiction. }
  apply (catalog_wf_intro _ h); cbn [BookService.book_collection
                                     BookService.rating_collection].
  - rewrite find_one_app, Hc. reflexivity.
  - lia.
  - now apply Hnd.
  - now apply Hnd.
  - intros k d Hin. apply in_app_or in Hin. destruct Hin as [Hin|[[= <- <-]|[]]].
    + apply (book_doc_ok_mono h h (BookService.rating_collection s));
        [lia | | now apply Hb].
      intros r Hr'. cbn [fst] in *. rewrite find_one_app, Hr'. eauto.
    + unfold book_doc_ok. cbn [fst snd]. rewrite Hid, String.eqb_refl.
      rewrite find_one_app.
      destruct (Mongo.find_one h (BookService.rating_collection s)) eqn:E.
      * bools_goal; reflexivity.
      * cbn. rewrite Z.eqb_refl. bools_goal; reflexivity.
  - intros k r Hin. apply in_app_or in Hin. destruct Hin as [Hin|[[= <- <-]|[]]].
    + now apply Hr.
    + unfold rating_doc_ok. cbn [fst snd BookService.r_id BookService.r_values
                               BookService.r_average].
      rewrite String.eqb_refl. bools_goal; reflexivity.
Qed.

Lemma insert_one_fresh {D : Type} (k : Z) (d : D) (c : Mongo.collection D) :
  ~ In k (Mongo.ids c) -> Mongo.insert_one k d c = Py.Ok (c ++ [(k, d)]).
Proof.
  intros H. unfold Mongo.insert_one.
  now rewrite (proj2 (find_one_None_ids k c) H).
Qed.

Lemma Books_post_wf (payload : Py.dict) (details : option BookService.Details)
  (s : BookService.store) :
  catalog_wf s = true ->
  catalog_wf (snd (BookService.Books_post payload details s)) = true.
Proof.
  intros Hwf.
  destruct (catalog_wf_fetch s Hwf) as (h & Hf).
  destruct (catalog_wf_ids s h Hwf Hf) as (Hh & Hib & Hir).
  pose proof (catalog_wf_book_set s h Hwf Hf) as Hwf1.
  pose proof (book_fetch_set s h (h + 1) Hf) as Hf1.
  destruct (book_increment_id_spec s h Hf) as [Hinc _].
  set (s1 := Interleaving.book_set (h + 1) s) in *.
  assert (Hfb : ~ In (h + 1) (Mongo.ids (BookService.book_collection s1))).
  { subst s1. unfold Interleaving.book_set, BookService.set_books.
    cbn [BookService.book_collection]. rewrite ids_update_one.
    intros Hin. specialize (Hib _ Hin). lia. }
  assert (Hfr : ~ In (h + 1) (Mongo.ids (BookService.rating_collection s1))).
  { subst s1. intros Hin. specialize (Hir _ Hin). lia. }
  unfold BookService.Books_post. destruct payload as [|kv rest]; [exact Hwf|].
  unfold Eff.bind at 1, Eff.read at 1.
  destruct (BookService.validate_book_addition (kv :: rest) s) as [[e|]|e];
    try exact Hwf.
  destruct details as [details|]; [|exact Hwf].
  unfold Eff.bind at 1. rewrite Hinc.
  unfold Eff.bind at 1, Eff.lift at 1.
  destruct (let? v := Py.item "title" (kv :: rest) in Py.the_str v) as [title|e];
    [|exact Hwf1].
  unfold Eff.bind at 1, Eff.lift at 1.
  destruct (let? v := Py.item "ISBN" (kv :: rest) in Py.the_str v) as [isbn|e];
    [|exact Hwf1].
  unfold Eff.bind at 1, Eff.lift at 1.
  destruct (let? v := Py.item "genre" (kv :: rest) in Py.the_str v) as [genre|e];
    [|exact Hwf1].
  unfold Eff.bind at 1, BookService.add_book.
  rewrite (insert_one_fresh _ _ _ Hfb).
  unfold Eff.bind at 1, BookService.add_book_rating.
  cbn [BookService.set_books BookService.rating_collection
       BookService.book_collection].
  rewrite (insert_one_fresh _ _ _ Hfr).
  cbn [BookService.set_ratings BookService.rating_collection
       BookService.book_collection Eff.ret snd].
  apply catalog_wf_insert; auto. lia.
Qed.

Section UpdateFactsNoDup.

Context {D : Type}.

Lemma In_update_one_NoDup (k0 : Z) (u : D -> D) (c : Mongo.collection D) k d :
  NoDup (Mongo.ids c) ->
  In (k, d) (Mongo.update_one k0 u c) ->
  (k <> k0 /\ In (k, d) c) \/ (k = k0 /\ exists d0, In (k0, d0) c /\ d = u d0).
Proof.
  induction c as [|[j e] c IH]; simpl; [tauto|].
  intros Hnd. inversion Hnd as [|? ? Hnotin Hnd']; subst.
  destruct (Z.eqb_spec k0 j) as [->|Hne]; simpl.
  - intros [[= <- <-]|Hin]; [right; eauto|].
    left. split; [|now right].
    intros ->. apply Hnotin. apply (in_map fst) in Hin. exact Hin.
  - intros [[= <- <-]|Hin]; [left; split; [congruence | now left]|].
    destruct (IH Hnd' Hin) as [[H1 H2]|[H1 (d0 & H2 & H3)]]; [left|right];
      eauto 6.
Qed.

Lemma update_one_twice (k : Z) (u1 u2 : D -> D) (c : Mongo.collection D) :
  Mongo.update_one k u2 (Mongo.update_one k u1 c)
  = Mongo.update_one k (fun d => u2 (u1 d)) c.
Proof.
  induction c as [|[j e] c IH]; simpl; [reflexivity|].
  destruct (Z.eqb_spec k j) as [->|Hne]; simpl.
  - now rewrite Z.eqb_refl.
  - destruct (Z.eqb_spec k j); [contradiction|]. now rewrite IH.
Qed.

Lemma find_one_update (k k0 : Z) (u : D -> D) (c : Mongo.collection D) :
  Mongo.find_one k (Mongo.update_one k0 u c)
  = if Z.eqb k k0 then option_map u (Mongo.find_one k c) else Mongo.find_one k c.
Proof.
  destruct (Z.eqb_spec k k0) as [->|Hne].
  - apply find_one_update_same.
  - now apply find_one_update_other.
Qed.

End UpdateFactsNoDup.

Lemma catalog_wf_delete (s : BookService.store) (k : Z) (d : BookService.bookdoc) :
  catalog_wf s = true ->
  BookService.get_book_at k s = Some d ->
  catalog_wf (BookService.mkStore
                (Mongo.delete_one k (BookService.book_collection s))
                (Mongo.delete_one k (BookService.rating_collection s))) = true.
Proof.
  intros Hwf Hget.
  destruct (catalog_wf_book s k d Hwf Hget) as (Hk & _).
  destruct (catalog_wf_spec s Hwf) as (h & Hc & Hh & Hndb & Hndr & Hb & Hr).
  apply (catalog_wf_intro _ h);
    cbn [BookService.book_collection BookService.rating_collection].
  - rewrite find_one_delete_other by lia. exact Hc.
  - exact Hh.
  - now apply NoDup_ids_delete_one.
  - now apply NoDup_ids_delete_one.
  - intros k' d' Hin.
    assert (Hne : k' <> k).
    { intros ->. apply (in_map fst) in Hin.
      pose proof (find_one_delete_same k (BookService.book_collection s) Hndb) as Hn.
      apply find_one_None_ids in Hn. contradiction. }
    apply In_delete_one in Hin.
    apply (book_doc_ok_mono h h (BookService.rating_collection s));
      [lia | | now apply Hb].
    intros r Hr'. cbn [fst] in *. rewrite find_one_delete_other by exact Hne. eauto.
  - intros k' r Hin. apply In_delete_one in Hin. now apply Hr.
Qed.

Lemma SpecificBook_delete_wf (book_id : string) (s : BookService.store) :
  catalog_wf s = true ->
  catalog_wf (snd (BookService.SpecificBook_delete book_id s)) = true.
Proof.
  intros Hwf.
  unfold BookService.SpecificBook_delete, BookService.get_book.
  unfold Eff.bind at 1, Eff.read at 1.
  destruct (Py.int book_id) as [k|e] eqn:Hint; cbn [Py.bind]; [|exact Hwf].
  destruct (BookService.get_book_at k s) as [d|] eqn:Hget; [|exact Hwf].
  unfold BookService.delete_book, BookService.delete_book_rating,
    BookService.get_book_rating.
  eff. rewrite Hint. cbn [Py.bind]. cbv beta iota. rewrite Hget.
  cbv beta iota.
  unfold BookService.set_ratings, BookService.set_books.
  cbn [BookService.book_collection BookService.rating_collection].
  rewrite (delete_by_content s k d Hwf Hget).
  destruct (Mongo.find_one k (Mongo.delete_one k (BookService.rating_collection s)));
    cbn [snd]; now apply (catalog_wf_delete s k d).
Qed.

Lemma values_ok_append (values : list Z) (a : Q) (v : Z) :
  values_ok values a = true -> 1 <= v <= 5 ->
  values_ok (values ++ [v]) (mean (values ++ [v])) = true.
Proof.
  unfold values_ok. intros H Hv. apply andb_prop in H. destruct H as [H _].
  apply andb_true_intro. split.
  - rewrite forallb_app, H. cbn. bools_goal. reflexivity.
  - destruct (values ++ [v]) eqn:E; [now destruct values|].
    apply Qeq_bool_iff. reflexivity.
Qed.

Lemma catalog_wf_rate (s : BookService.store) (k v : Z) (r : BookService.Rating) :
  catalog_wf s = true ->
  Mongo.find_one k (BookService.rating_collection s) = Some r ->
  1 <= v <= 5 ->
  catalog_wf
    (BookService.set_ratings
       (Mongo.update_one k
          (fun r0 => BookService.mkRating (BookService.r_id r0)
                       (BookService.r_values r0 ++ [v])
                       (mean (BookService.r_values r ++ [v]))
                       (BookService.r_title r0))) s) = true.
Proof.
  intros Hwf Hfind Hv.
  destruct (catalog_wf_spec s Hwf) as (h & Hc & Hh & Hndb & Hndr & Hb & Hr).
  apply (catalog_wf_intro _ h); unfold BookService.set_ratings;
    cbn [BookService.book_collection BookService.rating_collection]; auto.
  - now rewrite ids_update_one.
  - intros k' d Hin.
    apply (book_doc_ok_mono h h (BookService.rating_collection s));
      [lia | | now apply Hb].
    intros r' Hr'. cbn [fst] in *. rewrite find_one_update, Hr'.
    destruct (k' =? k); cbn; eauto.
  - intros k' r' Hin. apply In_update_one_NoDup in Hin; [|exact Hndr].
    destruct Hin as [[_ Hin]|[-> (r0 & Hin & ->)]]; [now apply Hr|].
    rewrite (In_find_one _ _ _ Hndr Hin) in Hfind. injection Hfind as ->.
    specialize (Hr _ _ Hin). unfold rating_doc_ok in *.
    cbn [fst snd BookService.r_id BookService.r_values BookService.r_average] in *.
    destruct (values_ok (BookService.r_values r) (BookService.r_average r)) eqn:E;
      [|rewrite andb_false_r in Hr; discriminate].
    rewrite (values_ok_append _ _ v E Hv). bools. bools_goal. reflexivity.
Qed.

Lemma validate_rating_passes (p : Py.dict) :
  BookService.validate_rating_for_a_book p = None ->
  exists v, p = [("value", Py.PInt v)] /\ 1 <= v <= 5.
Proof.
  unfold BookService.validate_rating_for_a_book.
  destruct p as [|[k [| v |]] [|]]; try discriminate.
  destruct (String.eqb_spec k "value") as [->|]; [|discriminate].
  cbn [andb].
  destruct (Z.leb_spec 1 v); [|discriminate].
  destruct (Z.leb_spec v 5); [|discriminate].
  intros _. exists v. split; [reflexivity | lia].
Qed.

Lemma add_rating_value_store (v : Z) (rating_id : string) (k : Z)
  (s : BookService.store) (r : BookService.Rating) :
  Py.int rating_id = Py.Ok k ->
  Mongo.find_one k (BookService.rating_collection s) = Some r ->
  BookService.add_rating_value v rating_id s
  = (Py.Ok (mean (BookService.r_values r ++ [v])),
     BookService.set_ratings
       (Mongo.update_one k
          (fun r0 => BookService.mkRating (BookService.r_id r0)
                       (BookService.r_values r0 ++ [v])
                       (mean (BookService.r_values r ++ [v]))
                       (BookService.r_title r0))) s).
Proof.
  intros Hint Hr.
  set (push := fun r0 => BookService.mkRating (BookService.r_id r0)
                 (BookService.r_values r0 ++ [v]) (BookService.r_average r0)
                 (BookService.r_title r0)).
  set (s1 := BookService.set_ratings (Mongo.update_one k push) s).
  assert (Hr1 : Mongo.find_one k (BookService.rating_collection s1)
                = Some (push r)).
  { subst s1. cbn [BookService.set_ratings BookService.rating_collection].
    now rewrite find_one_update_same, Hr. }
  pose proof (calculate_rating_average_spec rating_id k s1 (push r) Hint Hr1
                (app_one_not_nil _ _)) as Hcalc.
  unfold BookService.add_rating_value. eff. rewrite Hint. cbv beta iota.
  fold push. fold s1. rewrite Hcalc. f_equal.
  subst s1. unfold BookService.set_ratings.
  cbn [BookService.rating_collection BookService.book_collection].
  now rewrite update_one_twice.
Qed.

Lemma SpecificRatingsValues_post_wf (book_id : string) (p : Py.dict)
  (s : BookService.store) :
  catalog_wf s = true ->
  catalog_wf (snd (BookService.SpecificRatingsValues_post book_id p s)) = true.
Proof.
  intros Hwf.
  unfold BookService.SpecificRatingsValues_post, BookService.get_book_rating.
  unfold Eff.bind at 1, Eff.read at 1.
  destruct (Py.int book_id) as [k|e] eqn:Hint; cbn [Py.bind]; [|exact Hwf].
  destruct (Mongo.find_one k (BookService.rating_collection s)) as [r|] eqn:Hr;
    [|exact Hwf].
  destruct p as [|kv rest]; [exact Hwf|].
  destruct (BookService.validate_rating_for_a_book (kv :: rest)) as [e|] eqn:Hval;
    [exact Hwf|].
  destruct (validate_rating_passes _ Hval) as (v & -> & Hv).
  eff. cbn [Py.item Py.get String.eqb Ascii.eqb Bool.eqb Py.bind]. cbv beta iota.
  rewrite (add_rating_value_store v book_id k s r Hint Hr). cbn [snd].
  exact (catalog_wf_rate s k v r Hwf Hr Hv).
Qed.

Lemma catalog_wf_put (s : BookService.store) (k : Z) (nb : BookService.Book) :
  catalog_wf s = true ->
  catalog_wf
    (BookService.set_books
       (Mongo.update_one k (BookService.apply_update (BookService.BookDoc nb))) s)
  = true.
Proof.
  intros Hwf.
  destruct (catalog_wf_spec s Hwf) as (h & Hc & Hh & Hndb & Hndr & Hb & Hr).
  apply (catalog_wf_intro _ h); unfold BookService.set_books;
    cbn [BookService.book_collection BookService.rating_collection]; auto.
  - rewrite find_one_update, Hc. destruct (0 =? k); reflexivity.
  - now rewrite ids_update_one.
  - intros k' d Hin. apply In_update_one_NoDup in Hin; [|exact Hndb].
    destruct Hin as [[_ Hin]|[-> (d0 & Hin & ->)]]; [now apply Hb|].
    specialize (Hb _ _ Hin). unfold book_doc_ok in *. cbn [fst snd] in *.
    destruct d0; exact Hb.
Qed.

Lemma SpecificBook_put_wf (book_id : string) (p : Py.dict) (s : BookService.store) :
  catalog_wf s = true ->
  catalog_wf (snd (BookService.SpecificBook_put book_id p s)) = true.
Proof.
  intros Hwf.
  unfold BookService.SpecificBook_put, BookService.get_book.
  unfold Eff.bind at 1, Eff.read at 1.
  destruct (Py.int book_id) as [k|e] eqn:Hint; cbn [Py.bind]; [|exact Hwf].
  destruct (BookService.get_book_at k s) as [d|] eqn:Hget; [|exact Hwf].
  destruct p as [|kv rest]; [exact Hwf|].
  unfold Eff.bind at 1, Eff.lift at 1.
  destruct (BookService.validate_book_update (kv :: rest)) as [[e|]|e];
    try exact Hwf.
  repeat (unfold Eff.bind at 1, Eff.lift at 1;
          match goal with
          | |- context [match (let? v := Py.item ?f ?p in Py.the_str v) with _ => _ end] =>
              destruct (let? v := Py.item f p in Py.the_str v); [|exact Hwf]
          end).
  unfold BookService.update_book. eff. rewrite Hint. cbv beta iota.
  rewrite Hget. cbn [snd]. apply catalog_wf_put, Hwf.
Qed.

(** Every request leaves a well-formed catalog well formed; so does any
    sequence of requests after the first start on an empty store. *)
Lemma handle_wf (q : request) (s : BookService.store) :
  catalog_wf s = true -> catalog_wf (snd (handle q s)) = true.
Proof.
  destruct q; simpl.
  - apply Books_post_wf.
  - apply SpecificBook_put_wf.
  - apply SpecificBook_delete_wf.
  - apply SpecificRatingsValues_post_wf.
Qed.

Lemma serve_wf (qs : list request) :
  forall s, catalog_wf s = true -> catalog_wf (serve qs s) = true.
Proof.
  induction qs as [|q qs IH]; intros s Hwf; [exact Hwf|].
  apply IH. now apply handle_wf.
Qed.

Lemma reachable_catalog_wf (qs : list request) :
  catalog_wf (serve qs (BookService.startup (BookService.mkStore [] []))) = true.
Proof. apply serve_wf. reflexivity. Qed.

(** *** The handlers keep the loan collection well formed *)

Lemma loans_wf_parts (s : LoanService.store) :
  loans_wf s = true <->
  exists h,
    Mongo.find_one 0 s = Some (LoanService.Counter h) /\ 0 <= h
    /\ NoDup (Mongo.ids s)
    /\ forall k d, In (k, d) s ->
         match d with
         | LoanService.Counter _ => k = 0
         | LoanService.LoanDoc _ => 0 < k
         end.
Proof.
  unfold loans_wf. split.
  - destruct (Mongo.find_one 0 s) as [[h|x]|]; try discriminate.
    intros H. bools. exists h. repeat split; auto.
    + now apply distinct_NoDup.
    + intros k d Hin.
      match goal with F : forallb _ _ = true |- _ =>
        rewrite forallb_forall in F; specialize (F _ Hin); cbn [fst snd] in F
      end.
      destruct d; bools; auto.
  - intros (h & -> & Hh & Hnd & Hall). bools_goal.
    + now apply NoDup_distinct.
    + apply forallb_forall. intros [k d] Hin. specialize (Hall _ _ Hin).
      cbn [fst snd]. destruct d; bools_goal.
Qed.

Lemma loans_wf_set (s : LoanService.store) (h : Z) :
  loans_wf s = true ->
  Interleaving.loan_fetch s = Py.Ok h ->
  loans_wf (Interleaving.loan_set (h + 1) s) = true /\ 0 <= h.
Proof.
  intros Hwf Hf. apply loans_wf_parts in Hwf.
  destruct Hwf as (h' & Hc & Hh & Hnd & Hall).
  assert (h' = h) by (unfold Interleaving.loan_fetch in Hf; rewrite Hc in Hf; congruence).
  subst h'. split; [|exact Hh].
  apply loans_wf_parts. exists (h + 1). unfold Interleaving.loan_set.
  repeat split.
  - rewrite find_one_update_same, Hc. reflexivity.
  - lia.
  - now rewrite ids_update_one.
  - intros k d Hin. apply In_update_one_NoDup in Hin; [|exact Hnd].
    destruct Hin as [[_ Hin]|[-> (d0 & Hin & ->)]]; [now apply Hall|].
    specialize (Hall _ _ Hin). destruct d0; auto.
Qed.

Lemma loans_wf_insert (s : LoanService.store) (k : Z) (l : LoanService.Loan)
  (s' : LoanService.store) :
  loans_wf s = true -> 0 < k ->
  Mongo.insert_one k (LoanService.LoanDoc l) s = Py.Ok s' ->
  loans_wf s' = true.
Proof.
  intros Hwf Hk Hins. unfold Mongo.insert_one in Hins.
  destruct (Mongo.find_one k s) eqn:E; [discriminate|]. injection Hins as <-.
  apply loans_wf_parts in Hwf. destruct Hwf as (h & Hc & Hh & Hnd & Hall).
  apply loans_wf_parts. exists h. repeat split; auto.
  - rewrite find_one_app, Hc. reflexivity.
  - unfold Mongo.ids. rewrite map_app. simpl.
    apply NoDup_app; [exact Hnd | repeat constructor; auto |].
    intros x Hx [<-|[]]. apply find_one_None_ids in E. contradiction.
  - intros k' d Hin. apply in_app_or in Hin.
    destruct Hin as [Hin|[[= <- <-]|[]]]; [now apply Hall | exact Hk].
Qed.

Lemma Loans_post_wf (answer : Py.val -> LoanService.Response) (p : Py.dict)
  (s : LoanService.store) :
  loans_wf s = true ->
  loans_wf (snd (LoanService.Loans_post answer p s)) = true.
Proof.
  intros Hwf.
  assert (Hf : exists h, Interleaving.loan_fetch s = Py.Ok h).
  { apply loans_wf_parts in Hwf. destruct Hwf as (h & Hc & _).
    exists h. unfold Interleaving.loan_fetch. now rewrite Hc. }
  destruct Hf as (h & Hf).
  destruct (loans_wf_set s h Hwf Hf) as [Hwf1 Hh].
  destruct (loan_increment_id_spec s h Hf) as [Hinc _].
  set (s1 := Interleaving.loan_set (h + 1) s) in *.
  unfold LoanService.Loans_post. destruct p as [|kv rest]; [exact Hwf|].
  unfold Eff.bind at 1, Eff.read at 1.
  destruct (LoanService.validate_loan_addition (kv :: rest) s) as [[e|]|e];
    try exact Hwf.
  unfold Eff.bind at 1, Eff.lift at 1.
  destruct (Py.item "ISBN" (kv :: rest)) as [isbn|e]; [|exact Hwf].
  unfold Eff.bind at 1, Eff.lift at 1.
  destruct (LoanService.json (answer isbn)) as [book_details|e]; [|exact Hwf].
  match goal with |- context [if ?c then _ else _] => destruct c end;
    [exact Hwf|].
  unfold Eff.bind at 1. rewrite Hinc.
  repeat (unfold Eff.bind at 1, Eff.lift at 1;
          match goal with
          | |- context [match LoanService.body_item ?f ?b with _ => _ end] =>
              destruct (LoanService.body_item f b); [|exact Hwf1]
          | |- context [match Py.item ?f ?b with _ => _ end] =>
              destruct (Py.item f b); [|exact Hwf1]
          end).
  unfold Eff.bind at 1, LoanService.add_loan.
  match goal with
  | |- context [Mongo.insert_one ?k ?d ?c] =>
      destruct (Mongo.insert_one k d c) as [s2|e] eqn:Hins
  end; [|exact Hwf1].
  cbn [Eff.ret snd]. eapply (loans_wf_insert s1); [exact Hwf1 | | exact Hins]. lia.
Qed.

Lemma SpecificLoan_delete_wf (loan_id : string) (s : LoanService.store) :
  loans_wf s = true ->
  loans_wf (snd (LoanService.SpecificLoan_delete loan_id s)) = true.
Proof.
  intros Hwf.
  unfold LoanService.SpecificLoan_delete, LoanService.get_loan,
    LoanService.delete_loan.
  eff. destruct (Py.int loan_id) as [k|e]; cbn [Py.bind]; [|exact Hwf].
  cbv beta iota.
  destruct (Z.ltb_spec 0 k) as [Hk|Hk]; [|exact Hwf].
  destruct (Mongo.find_one k s); [|exact Hwf].
  cbn [snd]. apply loans_wf_parts in Hwf.
  destruct Hwf as (h & Hc & Hh & Hnd & Hall).
  apply loans_wf_parts. exists h. repeat split; auto.
  - rewrite find_one_delete_other by lia. exact Hc.
  - now apply NoDup_ids_delete_one.
  - intros k' d Hin. apply In_delete_one in Hin. now apply Hall.
Qed.

Lemma reachable_loans_wf (qs : list loan_request_kind) :
  loans_wf (serve_loans qs (LoanService.startup [])) = true.
Proof.
  assert (H : forall s, loans_wf s = true -> loans_wf (serve_loans qs s) = true).
  { induction qs as [|q qs IH]; intros s Hwf; [exact Hwf|].
    apply IH. destruct q; simpl.
    - now apply Loans_post_wf.
    - now apply SpecificLoan_delete_wf. }
  apply H. reflexivity.
Qed.

(** *** The handlers of the first iteration keep its invariant *)

Lemma club_inv_wf (st : BookClub.state) : club_inv st -> club_wf st = true.
Proof.
  intros (_ & _ & _ & _ & Hr & Hbr). unfold club_wf.
  apply andb_true_intro. split; apply forallb_forall.
  - intros b Hb. destruct (Hbr b Hb) as (r & Hin & Hid).
    unfold BookClub.get_book_rating.
    destruct (find _ (BookClub.bookRatings st)) eqn:E; [reflexivity|].
    exfalso. apply (find_none _ _ E) in Hin. cbv beta in Hin.
    rewrite Hid, String.eqb_refl in Hin. discriminate.
  - intros r Hin. now apply Hr.
Qed.

Lemma club_inv_initial : club_inv BookClub.initial.
Proof.
  unfold club_inv, BookClub.initial. simpl.
  repeat split; try constructor; try lia; intros ? [].
Qed.

Lemma remove_first_split {A : Type} (p : A -> bool) (l : list A) :
  (exists x, In x l /\ p x = true) ->
  exists l1 x l2,
    l = l1 ++ x :: l2 /\ p x = true /\ BookClub.remove_first p l = l1 ++ l2.
Proof.
  induction l as [|y l IH]; intros (x & Hin & Hp); [destruct Hin|].
  simpl. destruct (p y) eqn:E.
  - exists [], y, l. auto.
  - destruct IH as (l1 & z & l2 & -> & Hz & Hrem).
    { destruct Hin as [<-|Hin]; [congruence | eauto]. }
    exists (y :: l1), z, l2. simpl. rewrite Hrem. auto.
Qed.

Lemma NoDup_map_remove {A B : Type} (f : A -> B) (l1 l2 : list A) (x : A) :
  NoDup (map f (l1 ++ x :: l2)) ->
  NoDup (map f (l1 ++ l2)) /\ forall y, In y (l1 ++ l2) -> f y <> f x.
Proof.
  rewrite !map_app. cbn [map]. intros H.
  pose proof (NoDup_remove_1 _ _ _ H) as H1.
  pose proof (NoDup_remove_2 _ _ _ H) as H2.
  split; [exact H1|]. intros y Hy Heq. apply H2. rewrite <- Heq.
  rewrite <- map_app. now apply in_map.
Qed.

Lemma club_list_eqb_refl l : BookClub.list_eqb l l = true.
Proof. induction l; simpl; [reflexivity | now rewrite String.eqb_refl]. Qed.

Lemma club_Book_eqb_refl b : BookClub.Book_eqb b b = true.
Proof.
  unfold BookClub.Book_eqb. now rewrite !String.eqb_refl, club_list_eqb_refl.
Qed.

Lemma club_Book_eqb_id a b :
  BookClub.Book_eqb a b = true -> BookClub.b_id b = BookClub.b_id a.
Proof.
  unfold BookClub.Book_eqb. intros H. bools. congruence.
Qed.

Lemma club_values_eqb_refl l : BookClub.values_eqb l l = true.
Proof. induction l; simpl; [reflexivity | now rewrite Z.eqb_refl]. Qed.

Lemma club_Rating_eqb_refl r : BookClub.Rating_eqb r r = true.
Proof.
  unfold BookClub.Rating_eqb.
  rewrite !String.eqb_refl, club_values_eqb_refl. cbn [andb].
  rewrite andb_true_r. apply Qeq_bool_iff. reflexivity.
Qed.

Lemma club_Rating_eqb_id a b :
  BookClub.Rating_eqb a b = true -> BookClub.r_id b = BookClub.r_id a.
Proof.
  unfold BookClub.Rating_eqb. intros H.
  repeat (apply andb_prop in H; destruct H as [H ?]).
  apply String.eqb_eq in H. congruence.
Qed.

Lemma club_delete_inv (book_id : string) (st : BookClub.state) :
  club_inv st -> club_inv (snd (BookClub.SpecificBook_delete book_id st)).
Proof.
  intros Hinv. pose proof Hinv as (HID & Hndb & Hndr & Hb & Hr & Hbr).
  unfold BookClub.SpecificBook_delete.
  destruct (BookClub.get_book book_id st) as [book|] eqn:Hget; [|exact Hinv].
  cbn [snd]. unfold BookClub.delete_book. rewrite Hget.
  unfold BookClub.get_book in Hget. apply find_some in Hget.
  destruct Hget as [Hbook Hbid]. apply String.eqb_eq in Hbid.
  destruct (remove_first_split (BookClub.Book_eqb book) (BookClub.books st))
    as (l1 & x & l2 & Hsplit & Hx & Hrem).
  { exists book. split; [exact Hbook | apply club_Book_eqb_refl]. }
  apply club_Book_eqb_id in Hx.
  rewrite Hsplit in Hndb. apply NoDup_map_remove in Hndb.
  destruct Hndb as [Hndb' Hother].
  assert (Hincl : forall b, In b (l1 ++ l2) -> In b (BookClub.books st)).
  { intros b Hin. rewrite Hsplit. apply in_app_or in Hin. apply in_or_app.
    destruct Hin; [now left | right; now right]. }
  unfold BookClub.delete_book_rating, BookClub.get_book_rating.
  cbn [BookClub.bookRatings BookClub.books BookClub.ID].
  destruct (find _ (BookClub.bookRatings st)) as [rating|] eqn:Hfind.
  - apply find_some in Hfind. destruct Hfind as [Hrating Hrid].
    apply String.eqb_eq in Hrid.
    destruct (remove_first_split (BookClub.Rating_eqb rating)
                (BookClub.bookRatings st)) as (m1 & y & m2 & Hsplit' & Hy & Hrem').
    { exists rating. split; [exact Hrating | apply club_Rating_eqb_refl]. }
    apply club_Rating_eqb_id in Hy.
    pose proof Hndr as Hndr0.
    rewrite Hsplit' in Hndr. apply NoDup_map_remove in Hndr.
    destruct Hndr as [Hndr' Hother'].
    assert (Hincl' : forall r, In r (m1 ++ m2) -> In r (BookClub.bookRatings st)).
    { intros r Hin. rewrite Hsplit'. apply in_app_or in Hin. apply in_or_app.
      destruct Hin; [now left | right; now right]. }
    unfold club_inv. cbn [BookClub.bookRatings BookClub.books BookClub.ID].
    rewrite Hrem, Hrem'. repeat split; auto.
    + apply Hr. now apply Hincl'.
    + apply Hr. now apply Hincl'.
    + intros b Hin. destruct (Hbr b (Hincl b Hin)) as (r & Hrin & Hrb).
      exists r. split; [|exact Hrb].
      rewrite Hsplit' in Hrin. apply in_app_or in Hrin. apply in_or_app.
      destruct Hrin as [Hrin|[<-|Hrin]]; [now left | | now right].
      exfalso. apply (Hother b Hin). congruence.
  - unfold club_inv. cbn [BookClub.bookRatings BookClub.books BookClub.ID].
    rewrite Hrem. repeat split; auto; now apply Hr.
Qed.

Lemma club_inv_bump (st : BookClub.state) :
  club_inv st ->
  club_inv (BookClub.mkState (BookClub.books st) (BookClub.bookRatings st)
              (BookClub.ID st + 1)).
Proof.
  intros (HID & Hndb & Hndr & Hb & Hr & Hbr). unfold club_inv.
  cbn [BookClub.bookRatings BookClub.books BookClub.ID].
  repeat split; auto; try lia.
  - intros b Hin. destruct (Hb b Hin) as (k & Hk & Hid). exists k. split; [lia | auto].
  - destruct (Hr r H) as [(k & Hk & Hid) _]. exists k. split; [lia | auto].
  - now apply Hr.
Qed.

Lemma club_inv_insert (st : BookClub.state) (book : BookClub.Book) (title : string) :
  club_inv st ->
  BookClub.b_id book = Py.str (BookClub.ID st + 1) ->
  club_inv (BookClub.mkState (BookClub.books st ++ [book])
              (BookClub.bookRatings st
               ++ [BookClub.mkRating (Py.str (BookClub.ID st + 1)) [] 0 title])
              (BookClub.ID st + 1)).
Proof.
  intros (HID & Hndb & Hndr & Hb & Hr & Hbr) Hid. unfold club_inv.
  cbn [BookClub.bookRatings BookClub.books BookClub.ID].
  assert (Hfresh : forall (A : Type) (f : A -> string) (l : list A) (x : A),
             NoDup (map f l) ->
             (forall y, In y l -> exists k, 1 <= k <= BookClub.ID st /\ f y = Py.str k) ->
             f x = Py.str (BookClub.ID st + 1) ->
             NoDup (map f (l ++ [x]))).
  { intros A f l x Hnd Hall Hx. rewrite map_app. cbn [map].
    apply NoDup_app; [exact Hnd | repeat constructor; auto |].
    intros i Hi [<-|[]]. apply in_map_iff in Hi. destruct Hi as (y & Hy & Hin).
    destruct (Hall y Hin) as (k & Hk & Hyk). rewrite Hx, Hyk in Hy.
    apply str_inj in Hy. lia. }
  split; [lia|]. split; [|split; [|split; [|split]]].
  - apply Hfresh; auto.
  - apply Hfresh; auto. intros y Hy. now apply Hr.
  - intros b Hin. apply in_app_or in Hin. destruct Hin as [Hin|[<-|[]]].
    + destruct (Hb b Hin) as (k & Hk & Hbk). exists k. split; [lia | auto].
    + exists (BookClub.ID st + 1). split; [lia | auto].
  - intros r Hin. apply in_app_or in Hin. destruct Hin as [Hin|[<-|[]]].
    + destruct (Hr r Hin) as [(k & Hk & Hrk) Hok]. split; [|exact Hok].
      exists k. split; [lia | auto].
    + split; [|reflexivity]. exists (BookClub.ID st + 1). split; [lia | reflexivity].
  - intros b Hin. apply in_app_or in Hin. destruct Hin as [Hin|[<-|[]]].
    + destruct (Hbr b Hin) as (r & Hrin & Hrb). exists r.
      split; [apply in_or_app; now left | exact Hrb].
    + eexists. split; [apply in_or_app; right; now left|]. now rewrite Hid.
Qed.

Lemma club_post_inv (p : Py.dict) (e : BookClub.Enrichment) (st : BookClub.state) :
  club_inv st -> club_inv (snd (BookClub.Books_post p e st)).
Proof.
  intros Hinv. pose proof (club_inv_bump st Hinv) as Hinv1.
  unfold BookClub.Books_post. destruct p as [|kv rest]; [exact Hinv|].
  unfold Eff.bind at 1, Eff.read at 1.
  destruct (BookClub.validate_book_addition (kv :: rest) st) as [[x|]|x];
    try exact Hinv.
  destruct (BookClub.e_details e); [|exact Hinv].
  destruct (BookClub.e_summary e); [|exact Hinv].
  unfold Eff.bind at 1. cbn [BookClub.increment_id].
  repeat (unfold Eff.bind at 1, Eff.lift at 1;
          match goal with
          | |- context [match (let? v := Py.item ?f ?p in Py.the_str v) with _ => _ end] =>
              destruct (let? v := Py.item f p in Py.the_str v); [|exact Hinv1]
          end).
  unfold Eff.bind at 1, Eff.write at 1.
  cbn [Eff.ret snd BookClub.books BookClub.bookRatings BookClub.ID].
  now apply club_inv_insert.
Qed.

Lemma append_value_shape (book_id : string) (v : Z) (l : list BookClub.Rating) :
  forall a l',
    BookClub.append_value book_id v l = Py.Ok (a, l') ->
    map BookClub.r_id l' = map BookClub.r_id l
    /\ forall r', In r' l' ->
         In r' l
         \/ exists r, In r l
              /\ r' = BookClub.mkRating (BookClub.r_id r)
                        (BookClub.r_values r ++ [v])
                        (mean (BookClub.r_values r ++ [v])) (BookClub.r_title r).
Proof.
  induction l as [|x l IH]; intros a l' H; [discriminate|].
  cbn [BookClub.append_value] in H.
  destruct (String.eqb (BookClub.r_id x) book_id).
  - rewrite truediv_mean in H by apply app_one_not_nil. cbn [Py.bind] in H.
    injection H as <- <-. split; [reflexivity|].
    intros r' [<-|Hin]; [right; exists x; split; [now left | reflexivity]|].
    left. now right.
  - destruct (BookClub.append_value book_id v l) as [[a0 l0]|e]; [|discriminate].
    cbn [Py.bind fst snd] in H. injection H as <- <-.
    destruct (IH a0 l0 eq_refl) as [Hids Hmem]. split.
    + cbn [map]. now rewrite Hids.
    + intros r' [<-|Hin]; [left; now left|].
      destruct (Hmem r' Hin) as [H1|(r & H1 & H2)]; [left; now right|].
      right. exists r. split; [now right | exact H2].
Qed.

Lemma club_validate_rating_passes (p : Py.dict) :
  BookClub.validate_rating_for_a_book p = None ->
  exists v, p = [("value", Py.PInt v)] /\ 1 <= v <= 5.
Proof.
  unfold BookClub.validate_rating_for_a_book.
  destruct p as [|[k [| v |]] [|]]; try discriminate.
  destruct (String.eqb_spec k "value") as [->|]; [|discriminate].
  cbn [andb].
  destruct (Z.leb_spec 1 v); [|discriminate].
  destruct (Z.leb_spec v 5); [|discriminate].
  intros _. exists v. split; [reflexivity | lia].
Qed.

Lemma club_rate_inv (book_id : string) (p : Py.dict) (st : BookClub.state) :
  club_inv st ->
  club_inv (snd (BookClub.SpecificRatingsValues_post book_id p st)).
Proof.
  intros Hinv. pose proof Hinv as (HID & Hndb & Hndr & Hb & Hr & Hbr).
  unfold BookClub.SpecificRatingsValues_post.
  unfold Eff.bind at 1, Eff.read at 1.
  destruct (BookClub.get_book_rating book_id st) as [found|]; [|exact Hinv].
  destruct p as [|kv rest]; [exact Hinv|].
  destruct (BookClub.validate_rating_for_a_book (kv :: rest)) eqn:Hval;
    [exact Hinv|].
  destruct (club_validate_rating_passes _ Hval) as (v & -> & Hv).
  eff. cbn [Py.item Py.get String.eqb Ascii.eqb Bool.eqb Py.bind]. cbv beta iota.
  destruct (BookClub.append_value book_id v (BookClub.bookRatings st))
    as [[a l']|x] eqn:Happ; [|exact Hinv].
  cbn [snd]. destruct (append_value_shape _ _ _ _ _ Happ) as [Hids Hmem].
  unfold club_inv. cbn [BookClub.bookRatings BookClub.books BookClub.ID].
  rewrite Hids.
  assert (Hr' : forall r, In r l' ->
            (exists k, 1 <= k <= BookClub.ID st /\ BookClub.r_id r = Py.str k)
            /\ values_ok (BookClub.r_values r) (BookClub.r_average r) = true).
  { intros r' Hin. destruct (Hmem r' Hin) as [H1|(r & H1 & ->)]; [now apply Hr|].
    destruct (Hr r H1) as [Hk Hok]. split; [exact Hk|].
    cbn [BookClub.r_values BookClub.r_average].
    now apply (values_ok_append _ _ v Hok). }
  repeat split; auto; try (now apply Hr').
  intros b Hin. destruct (Hbr b Hin) as (r & Hrin & Hrb).
  apply (in_map BookClub.r_id) in Hrin. rewrite <- Hids in Hrin.
  apply in_map_iff in Hrin. destruct Hrin as (r' & Hid' & Hin').
  exists r'. split; [exact Hin' | congruence].
Qed.

(** Every state the first iteration reaches satisfies its invariant, and
    with it the hypothesis of the ranking. *)
Lemma reachable_club_wf (qs : list club_request) :
  club_wf (serve_club qs BookClub.initial) = true.
Proof.
  apply club_inv_wf.
  assert (H : forall st, club_inv st -> club_inv (serve_club qs st)).
  { induction qs as [|q qs IH]; intros st Hinv; [exact Hinv|].
    apply IH. destruct q; simpl.
    - now apply club_post_inv.
    - pose proof (club_delete_inv book_id st Hinv) as Hd.
      destruct (BookClub.SpecificBook_delete book_id st). exact Hd.
    - now apply club_rate_inv. }
  apply H, club_inv_initial.
Qed.

(** *** A session, end to end *)

(** The sample catalog is what the session leaves: the book appears in
    the ranking with the average 14/3; once it is deleted, its rating is
    gone and the ranking is empty. *)
Lemma session_catalog :
  let s := serve session (BookService.startup (BookService.mkStore [] [])) in
  s = sample_catalog
  /\ BookService.TopBooks_get s
     = Py.Ok (BookService.JTop [BookService.mkTop "1" "Effective Java" (14 # 3)], 200)
  /\ let s' := serve [DeleteBook "1"] s in
     BookService.SpecificRatings_get "1" s'
     = Py.Ok (BookService.JError "Rating not found", 404)
     /\ BookService.TopBooks_get s' = Py.Ok (BookService.JTop [], 200)
     /\ BookService.Books_get [] s' = Py.Ok (BookService.JBooks [], 200).
Proof. vm_compute. repeat split. Qed.

(** The sample loans are what two accepted loans of one member leave; a
    third request of that member is refused. *)
Lemma session_loans :
  let s := serve_loans loan_session (LoanService.startup []) in
  s = sample_loans
  /\ LoanService.Loans_post one_book
       (loan_request (Py.PStr "Dana") "9780131103627" "2024-03-01") s
     = (Py.Ok (LoanService.JError "Too many books on loan for Dana.", 422), s).
Proof. vm_compute. repeat split. Qed.

(* ================================================================= *)
(** ** Further properties of the catalog service                     *)
(* ================================================================= *)

(** *** Validation of a new book *)

Lemma well_shaped_fields (fields : list string) (p : Py.dict) :
  BookService.well_shaped fields p = true ->
  List.length p = List.length fields
  /\ forall f, In f fields -> exists v, Py.get f p = Some (Py.PStr v).
Proof.
  unfold BookService.well_shaped. intros H. bools.
  split; [lia|]. intros f Hf.
  rewrite forallb_forall in H0. specialize (H0 f Hf).
  destruct (Py.get f p) as [[| |v]|]; try discriminate. now exists v.
Qed.

Lemma book_any_ISBN_spec (isbn : Py.val) (l : list BookService.bookdoc) :
  Forall is_book l ->
  BookService.any_ISBN isbn l
  = Py.Ok (existsb (fun d => match BookService.book_field "ISBN" d with
                             | Py.Ok v => Py.eqb (Py.PStr v) isbn
                             | Py.Raise _ => false
                             end) l).
Proof.
  induction 1 as [|d l [b ->] _ IH]; [reflexivity|].
  cbn [BookService.any_ISBN existsb]. cbn [BookService.book_field String.eqb
    Ascii.eqb Bool.eqb Py.bind]. cbv beta iota.
  destruct (Py.eqb (Py.PStr (BookService.b_ISBN b)) isbn); [reflexivity|].
  exact IH.
Qed.

Lemma genre_in_GENRES (genre : string) :
  existsb (fun g => Py.eqb (Py.PStr genre) (Py.PStr g)) BookService.GENRES
  = BookService.str_in genre BookService.GENRES.
Proof. reflexivity. Qed.

(** What an accepted payload looks like, and that a refusal is a 422. *)
Lemma validate_book_addition_cases (p : Py.dict) (s : BookService.store) :
  catalog_wf s = true ->
  (BookService.validate_book_addition p s = Py.Ok None
   /\ List.length p = 3%nat
   /\ exists title isbn genre,
        Py.get "title" p = Some (Py.PStr title)
        /\ Py.get "ISBN" p = Some (Py.PStr isbn)
        /\ Py.get "genre" p = Some (Py.PStr genre)
        /\ String.length isbn = 13%nat
        /\ BookService.str_in genre BookService.GENRES = true
        /\ on_shelf (Py.PStr isbn) s = false)
  \/ (exists msg,
        BookService.validate_book_addition p s
        = Py.Ok (Some (BookService.JError msg, 422))).
Proof.
  intros Hwf. unfold BookService.validate_book_addition.
  destruct (BookService.well_shaped (firstn 3 BookService.REQUIRED_FIELDS) p)
    eqn:Hshape; cbn [negb].
  2:{ right. eexists. reflexivity. }
  destruct (well_shaped_fields _ _ Hshape) as (Hlen & Hfields).
  destruct (Hfields "title") as (title & Ht); [simpl; auto|].
  destruct (Hfields "ISBN") as (isbn & Hi); [simpl; auto|].
  destruct (Hfields "genre") as (genre & Hg); [simpl; auto|].
  unfold Py.item. rewrite Hi, Hg. cbn [Py.bind Py.len].
  destruct (Z.of_nat (String.length isbn) =? 13) eqn:Hn; cbn [negb].
  2:{ right. eexists. reflexivity. }
  rewrite genre_in_GENRES.
  destruct (BookService.str_in genre BookService.GENRES) eqn:Hgenre; cbn [negb].
  2:{ right. eexists. reflexivity. }
  rewrite (book_any_ISBN_spec _ _ (get_books_all_books s Hwf)).
  cbn [Py.bind]. fold (on_shelf (Py.PStr isbn) s).
  destruct (on_shelf (Py.PStr isbn) s) eqn:Hdup.
  - right. eexists. reflexivity.
  - left. split; [reflexivity|]. split; [exact Hlen|].
    exists title, isbn, genre. repeat split; auto.
    apply Z.eqb_eq in Hn. lia.
Qed.

Lemma validate_book_addition_duplicate (p : Py.dict) (s : BookService.store)
  (isbn : Py.val) :
  catalog_wf s = true ->
  Py.get "ISBN" p = Some isbn ->
  on_shelf isbn s = true ->
  exists msg,
    BookService.validate_book_addition p s
    = Py.Ok (Some (BookService.JError msg, 422)).
Proof.
  intros Hwf Hi Hon.
  destruct (validate_book_addition_cases p s Hwf)
    as [(_ & _ & t & i & g & _ & Hi' & _ & _ & _ & Hoff)|H]; [|exact H].
  rewrite Hi in Hi'. injection Hi' as ->. congruence.
Qed.

(** *** Creation of a book *)

(** The store an accepted POST /books leaves: the counter is raised to
    the new identifier, and the book and its empty rating are appended
    under it. *)
Lemma Books_post_accepted (p : Py.dict) (details : BookService.Details)
  (s : BookService.store) (h : Z) (title isbn genre : string) :
  catalog_wf s = true ->
  Interleaving.book_fetch s = Py.Ok h ->
  BookService.validate_book_addition p s = Py.Ok None ->
  Py.get "title" p = Some (Py.PStr title) ->
  Py.get "ISBN" p = Some (Py.PStr isbn) ->
  Py.get "genre" p = Some (Py.PStr genre) ->
  BookService.Books_post p (Some details) s
  = (Py.Ok (BookService.JId (Py.str (h + 1)), 201),
     BookService.mkStore
       (BookService.book_collection (Interleaving.book_set (h + 1) s)
        ++ [(h + 1, BookService.BookDoc
                      (BookService.mkBook (Py.str (h + 1)) title isbn genre
                         (BookService.d_authors details)
                         (BookService.d_publisher details)
                         (BookService.d_publishedDate details)))])
       (BookService.rating_collection s
        ++ [(h + 1, BookService.mkRating (Py.str (h + 1)) [] 0 title)])).
Proof.
  intros Hwf Hf Hv Ht Hi Hg.
  destruct (catalog_wf_ids s h Hwf Hf) as (Hh & Hib & Hir).
  destruct (book_increment_id_spec s h Hf) as [Hinc _].
  assert (Hfb : ~ In (h + 1) (Mongo.ids (BookService.book_collection
                                           (Interleaving.book_set (h + 1) s)))).
  { unfold Interleaving.book_set, BookService.set_books.
    cbn [BookService.book_collection]. rewrite ids_update_one.
    intros Hin. specialize (Hib _ Hin). lia. }
  assert (Hfr : ~ In (h + 1) (Mongo.ids (BookService.rating_collection
                                           (Interleaving.book_set (h + 1) s)))).
  { intros Hin. specialize (Hir _ Hin). lia. }
  unfold BookService.Books_post.
  destruct p as [|kv rest]; [discriminate Ht|].
  unfold Eff.bind at 1, Eff.read at 1. rewrite Hv.
  unfold Eff.bind at 1. rewrite Hinc.
  unfold Py.item. rewrite Ht, Hi, Hg. cbn [Py.bind Py.the_str].
  unfold Eff.bind at 1, Eff.lift at 1.
  unfold Eff.bind at 1, Eff.lift at 1.
  unfold Eff.bind at 1, Eff.lift at 1.
  unfold Eff.bind at 1, BookService.add_book.
  rewrite (insert_one_fresh _ _ _ Hfb).
  unfold Eff.bind at 1, BookService.add_book_rating.
  cbn [BookService.set_books BookService.rating_collection
       BookService.book_collection].
  rewrite (insert_one_fresh _ _ _ Hfr).
  reflexivity.
Qed.

(** X1. POST /books on a JSON object, in a catalog of the shape the
    handlers keep and once [get_book_details] has returned (details or
    [None]), always answers: 201, 415, 422 or 500, never an exception;
    and only a 201 changes the store, so a refused request does not use
    up an identifier. *)
Theorem book_post_always_answers (p : Py.dict)
  (details : option BookService.Details) (s : BookService.store) :
  catalog_wf s = true ->
  exists b status,
    fst (BookService.Books_post p details s) = Py.Ok (b, status)
    /\ In status [201; 415; 422; 500]
    /\ (status <> 201 -> snd (BookService.Books_post p details s) = s).
Proof.
  intros Hwf.
  destruct p as [|kv rest].
  { do 2 eexists. split; [reflexivity|]. split; [simpl; auto|reflexivity]. }
  destruct (validate_book_addition_cases (kv :: rest) s Hwf)
    as [(Hv & _ & title & isbn & genre & Ht & Hi & Hg & _)|(msg & Hv)].
  - destruct details as [details|].
    + destruct (catalog_wf_fetch s Hwf) as (h & Hf).
      rewrite (Books_post_accepted _ details s h title isbn genre Hwf Hf Hv Ht Hi Hg).
      do 2 eexists. split; [reflexivity|]. split; [simpl; auto|].
      intros H. now contradiction H.
    + unfold BookService.Books_post, Eff.bind, Eff.read. rewrite Hv.
      do 2 eexists. split; [reflexivity|]. split; [simpl; auto|reflexivity].
  - unfold BookService.Books_post, Eff.bind, Eff.read. rewrite Hv.
    do 2 eexists. split; [reflexivity|]. split; [simpl; auto|reflexivity].
Qed.

Lemma book_post_always_answers_witness :
  exists b status,
    fst (BookService.Books_post [("title", Py.PInt 7)] None sample_catalog)
    = Py.Ok (b, status)
    /\ In status [201; 415; 422; 500]
    /\ (status <> 201 ->
        snd (BookService.Books_post [("title", Py.PInt 7)] None sample_catalog)
        = sample_catalog).
Proof.
  apply (book_post_always_answers [("title", Py.PInt 7)] None sample_catalog).
  reflexivity.
Defined.

Lemma book_set_other (s : BookService.store) (h k : Z) :
  k <> 0 ->
  Mongo.find_one k (BookService.book_collection (Interleaving.book_set h s))
  = Mongo.find_one k (BookService.book_collection s).
Proof.
  intros Hk. unfold Interleaving.book_set, BookService.set_books.
  cbn [BookService.book_collection]. now apply find_one_update_other.
Qed.

(** X2. An accepted POST /books answers 201 with the decimal form of
    the counter plus one; the book (the three fields of the request and
    the three of the external catalogue) and an empty rating with
    average 0 are then found under that identifier, and every other
    identifier answers as before. *)
Theorem book_post_round_trip (p : Py.dict) (details : BookService.Details)
  (s : BookService.store) (h : Z) :
  catalog_wf s = true ->
  Interleaving.book_fetch s = Py.Ok h ->
  BookService.validate_book_addition p s = Py.Ok None ->
  exists title isbn genre s',
    Py.get "title" p = Some (Py.PStr title)
    /\ Py.get "ISBN" p = Some (Py.PStr isbn)
    /\ Py.get "genre" p = Some (Py.PStr genre)
    /\ BookService.Books_post p (Some details) s
       = (Py.Ok (BookService.JId (Py.str (h + 1)), 201), s')
    /\ Interleaving.book_fetch s' = Py.Ok (h + 1)
    /\ BookService.SpecificBook_get (Py.str (h + 1)) s'
       = Py.Ok (BookService.JBook
                  (BookService.BookDoc
                     (BookService.mkBook (Py.str (h + 1)) title isbn genre
                        (BookService.d_authors details)
                        (BookService.d_publisher details)
                        (BookService.d_publishedDate details))), 200)
    /\ BookService.SpecificRatings_get (Py.str (h + 1)) s'
       = Py.Ok (BookService.JRating
                  (BookService.mkRating (Py.str (h + 1)) [] 0 title), 200)
    /\ (forall book_id k,
          Py.int book_id = Py.Ok k -> k <> h + 1 ->
          BookService.SpecificBook_get book_id s'
          = BookService.SpecificBook_get book_id s
          /\ BookService.SpecificRatings_get book_id s'
             = BookService.SpecificRatings_get book_id s).
Proof.
  intros Hwf Hf Hv.
  destruct (validate_book_addition_cases p s Hwf)
    as [(_ & _ & title & isbn & genre & Ht & Hi & Hg & _)|(msg & Hv')];
    [|congruence].
  destruct (catalog_wf_ids s h Hwf Hf) as (Hh & Hib & Hir).
  exists title, isbn, genre. eexists.
  split; [exact Ht|]. split; [exact Hi|]. split; [exact Hg|].
  split; [apply (Books_post_accepted p details s h title isbn genre); auto|].
  assert (Hnb : Mongo.find_one (h + 1)
                  (BookService.book_collection (Interleaving.book_set (h + 1) s))
                = None).
  { apply find_one_None_ids. unfold Interleaving.book_set, BookService.set_books.
    cbn [BookService.book_collection]. rewrite ids_update_one.
    intros Hin. specialize (Hib _ Hin). lia. }
  assert (Hnr : Mongo.find_one (h + 1) (BookService.rating_collection s) = None).
  { apply find_one_None_ids. intros Hin. specialize (Hir _ Hin). lia. }
  split.
  { pose proof (book_fetch_set s h (h + 1) Hf) as Hf1.
    unfold Interleaving.book_fetch in *. cbn [BookService.book_collection].
    rewrite find_one_app.
    destruct (Mongo.find_one 0 (BookService.book_collection
                                  (Interleaving.book_set (h + 1) s)))
      as [[c|b]|]; try discriminate. exact Hf1. }
  split.
  { unfold BookService.SpecificBook_get, BookService.get_book.
    rewrite int_str. cbn [Py.bind]. unfold BookService.get_book_at.
    replace (0 <? h + 1) with true by (symmetry; apply Z.ltb_lt; lia).
    cbn [BookService.book_collection]. rewrite find_one_app, Hnb.
    cbn [Mongo.find_one]. now rewrite Z.eqb_refl. }
  split.
  { unfold BookService.SpecificRatings_get, BookService.get_book_rating.
    rewrite int_str. cbn [Py.bind BookService.rating_collection].
    rewrite find_one_app, Hnr. cbn [Mongo.find_one]. now rewrite Z.eqb_refl. }
  intros book_id k Hk Hne. split.
  - unfold BookService.SpecificBook_get, BookService.get_book.
    rewrite Hk. cbn [Py.bind]. unfold BookService.get_book_at.
    destruct (0 <? k) eqn:Hpos; [|reflexivity]. apply Z.ltb_lt in Hpos.
    cbn [BookService.book_collection]. rewrite find_one_app.
    rewrite book_set_other by lia.
    destruct (Mongo.find_one k (BookService.book_collection s)); [reflexivity|].
    cbn [Mongo.find_one]. now rewrite (proj2 (Z.eqb_neq _ _) Hne).
  - unfold BookService.SpecificRatings_get, BookService.get_book_rating.
    rewrite Hk. cbn [Py.bind BookService.rating_collection].
    rewrite find_one_app.
    destruct (Mongo.find_one k (BookService.rating_collection s)); [reflexivity|].
    cbn [Mongo.find_one]. now rewrite (proj2 (Z.eqb_neq _ _) Hne).
Qed.

Lemma book_post_round_trip_witness :
  exists s',
    BookService.Books_post
      [("title", Py.PStr "Effective Java"); ("ISBN", Py.PStr "9780134685991");
       ("genre", Py.PStr "Science")]
      (Some (BookService.mkDetails "Joshua Bloch" "Addison-Wesley" "2018-01-06"))
      (BookService.startup (BookService.mkStore [] []))
    = (Py.Ok (BookService.JId "1", 201), s')
    /\ BookService.SpecificBook_get "1" s'
       = Py.Ok (BookService.JBook (BookService.BookDoc sample_book), 200).
Proof.
  destruct (book_post_round_trip
              [("title", Py.PStr "Effective Java");
               ("ISBN", Py.PStr "9780134685991"); ("genre", Py.PStr "Science")]
              (BookService.mkDetails "Joshua Bloch" "Addison-Wesley" "2018-01-06")
              (BookService.startup (BookService.mkStore [] [])) 0
              eq_refl eq_refl eq_refl)
    as (title & isbn & genre & s' & Ht & Hi & Hg & Hpost & _ & Hget & _).
  injection Ht as <-. injection Hi as <-. injection Hg as <-.
  exists s'. split; [exact Hpost | exact Hget].
Defined.

(** X3. POST /books with the ISBN of a book the catalog already holds
    is refused with 422, whatever else the request carries, and the
    store is left as it was. *)
Theorem book_post_duplicate_ISBN (p : Py.dict)
  (details : option BookService.Details) (s : BookService.store)
  (isbn : Py.val) :
  catalog_wf s = true ->
  Py.get "ISBN" p = Some isbn ->
  on_shelf isbn s = true ->
  exists msg,
    BookService.Books_post p details s
    = (Py.Ok (BookService.JError msg, 422), s).
Proof.
  intros Hwf Hi Hon.
  destruct (validate_book_addition_duplicate p s isbn Hwf Hi Hon) as (msg & Hv).
  exists msg. unfold BookService.Books_post.
  destruct p as [|kv rest]; [discriminate Hi|].
  unfold Eff.bind, Eff.read. now rewrite Hv.
Qed.

Lemma book_post_duplicate_ISBN_witness :
  exists msg,
    BookService.Books_post
      [("title", Py.PStr "Effective Java, 3rd edition");
       ("ISBN", Py.PStr "9780134685991"); ("genre", Py.PStr "Science")]
      (Some (BookService.mkDetails "Joshua Bloch" "Addison-Wesley" "2018-01-06"))
      sample_catalog
    = (Py.Ok (BookService.JError msg, 422), sample_catalog).
Proof.
  apply (book_post_duplicate_ISBN _ _ sample_catalog (Py.PStr "9780134685991"));
    reflexivity.
Defined.

(** *** Replacement of a book *)

Lemma validate_book_update_cases (p : Py.dict) :
  (BookService.validate_book_update p = Py.Ok None
   /\ exists title isbn genre authors publisher publishedDate,
        Py.get "title" p = Some (Py.PStr title)
        /\ Py.get "ISBN" p = Some (Py.PStr isbn)
        /\ Py.get "genre" p = Some (Py.PStr genre)
        /\ Py.get "authors" p = Some (Py.PStr authors)
        /\ Py.get "publisher" p = Some (Py.PStr publisher)
        /\ Py.get "publishedDate" p = Some (Py.PStr publishedDate)
        /\ String.length isbn = 13%nat
        /\ BookService.str_in genre BookService.GENRES = true)
  \/ (exists msg,
        BookService.validate_book_update p
        = Py.Ok (Some (BookService.JError msg, 422))).
Proof.
  unfold BookService.validate_book_update.
  destruct (BookService.well_shaped (removelast BookService.REQUIRED_FIELDS) p)
    eqn:Hshape; cbn [negb].
  2:{ right. eexists. reflexivity. }
  destruct (well_shaped_fields _ _ Hshape) as (_ & Hfields).
  destruct (Hfields "title") as (title & Ht); [simpl; auto|].
  destruct (Hfields "ISBN") as (isbn & Hi); [simpl; auto|].
  destruct (Hfields "genre") as (genre & Hg); [simpl; auto|].
  destruct (Hfields "authors") as (authors & Ha); [simpl; auto 6|].
  destruct (Hfields "publisher") as (publisher & Hp); [simpl; auto 6|].
  destruct (Hfields "publishedDate") as (publishedDate & Hd); [simpl; auto 7|].
  unfold Py.item. rewrite Hi, Hg. cbn [Py.bind Py.len].
  rewrite genre_in_GENRES.
  destruct (BookService.str_in genre BookService.GENRES) eqn:Hgenre; cbn [negb].
  2:{ right. eexists. reflexivity. }
  destruct (Z.of_nat (String.length isbn) =? 13) eqn:Hn; cbn [negb].
  2:{ right. eexists. reflexivity. }
  left. split; [reflexivity|].
  exists title, isbn, genre, authors, publisher, publishedDate.
  repeat split; auto. apply Z.eqb_eq in Hn. lia.
Qed.

Lemma SpecificBook_put_accepted (book_id : string) (k : Z) (p : Py.dict)
  (s : BookService.store) (d : BookService.bookdoc)
  (title isbn genre authors publisher publishedDate : string) :
  Py.int book_id = Py.Ok k ->
  BookService.get_book_at k s = Some d ->
  BookService.validate_book_update p = Py.Ok None ->
  Py.get "title" p = Some (Py.PStr title) ->
  Py.get "ISBN" p = Some (Py.PStr isbn) ->
  Py.get "genre" p = Some (Py.PStr genre) ->
  Py.get "authors" p = Some (Py.PStr authors) ->
  Py.get "publisher" p = Some (Py.PStr publisher) ->
  Py.get "publishedDate" p = Some (Py.PStr publishedDate) ->
  BookService.SpecificBook_put book_id p s
  = (Py.Ok (BookService.JId book_id, 200),
     BookService.set_books
       (Mongo.update_one k
          (BookService.apply_update
             (BookService.BookDoc
                (BookService.mkBook "" title isbn genre authors publisher
                   publishedDate)))) s).
Proof.
  intros Hk Hd Hv Ht Hi Hg Ha Hp Hpd.
  unfold BookService.SpecificBook_put, BookService.update_book,
    BookService.get_book.
  destruct p as [|kv rest]; [discriminate Ht|].
  unfold Py.item. rewrite Hk, Hv, Ht, Hi, Hg, Ha, Hp, Hpd.
  eff. rewrite Hd. cbn [Py.the_str]. cbv beta iota. rewrite ?Hd.
  reflexivity.
Qed.

(** X4. PUT /books/{id} with an accepted payload answers 200 and
    replaces the six fields of the book, whose identifier stays; no
    other book changes, and the rating collection is not touched: the
    rating keeps the title the book had when it was created. *)
Theorem book_put_replaces_fields (book_id : string) (k : Z) (p : Py.dict)
  (s : BookService.store) (b : BookService.Book) :
  Py.int book_id = Py.Ok k ->
  BookService.get_book_at k s = Some (BookService.BookDoc b) ->
  BookService.validate_book_update p = Py.Ok None ->
  exists title isbn genre authors publisher publishedDate s',
    Py.get "title" p = Some (Py.PStr title)
    /\ Py.get "ISBN" p = Some (Py.PStr isbn)
    /\ Py.get "genre" p = Some (Py.PStr genre)
    /\ Py.get "authors" p = Some (Py.PStr authors)
    /\ Py.get "publisher" p = Some (Py.PStr publisher)
    /\ Py.get "publishedDate" p = Some (Py.PStr publishedDate)
    /\ BookService.SpecificBook_put book_id p s
       = (Py.Ok (BookService.JId book_id, 200), s')
    /\ BookService.SpecificBook_get book_id s'
       = Py.Ok (BookService.JBook
                  (BookService.BookDoc
                     (BookService.mkBook (BookService.b_id b) title isbn genre
                        authors publisher publishedDate)), 200)
    /\ BookService.rating_collection s' = BookService.rating_collection s
    /\ (forall k', k' <> k ->
          Mongo.find_one k' (BookService.book_collection s')
          = Mongo.find_one k' (BookService.book_collection s)).
Proof.
  intros Hk Hd Hv.
  destruct (validate_book_update_cases p)
    as [(_ & title & isbn & genre & authors & publisher & publishedDate
         & Ht & Hi & Hg & Ha & Hp & Hpd & _)|(msg & Hv')]; [|congruence].
  exists title, isbn, genre, authors, publisher, publishedDate. eexists.
  repeat (split; [eassumption|]).
  split; [apply (SpecificBook_put_accepted book_id k p s (BookService.BookDoc b) title isbn genre
                   authors publisher publishedDate); auto|].
  split; [|split; [reflexivity|]].
  - unfold BookService.SpecificBook_get, BookService.get_book.
    rewrite Hk. cbn [Py.bind]. unfold BookService.get_book_at in *.
    destruct (0 <? k); [|discriminate Hd].
    unfold BookService.set_books. cbn [BookService.book_collection].
    rewrite find_one_update_same, Hd. reflexivity.
  - intros k' Hne. unfold BookService.set_books.
    cbn [BookService.book_collection]. now apply find_one_update_other.
Qed.

Lemma book_put_replaces_fields_witness :
  exists s',
    BookService.SpecificBook_put "1"
      [("title", Py.PStr "Effective Java, 3rd edition");
       ("ISBN", Py.PStr "9780134685991"); ("genre", Py.PStr "Science");
       ("authors", Py.PStr "Joshua Bloch");
       ("publisher", Py.PStr "Addison-Wesley");
       ("publishedDate", Py.PStr "2018")] sample_catalog
    = (Py.Ok (BookService.JId "1", 200), s')
    /\ BookService.SpecificBook_get "1" s'
       = Py.Ok (BookService.JBook
                  (BookService.BookDoc
                     (BookService.mkBook "1" "Effective Java, 3rd edition"
                        "9780134685991" "Science" "Joshua Bloch"
                        "Addison-Wesley" "2018")), 200)
    /\ BookService.rating_collection s'
       = BookService.rating_collection sample_catalog.
Proof.
  destruct (book_put_replaces_fields "1" 1
              [("title", Py.PStr "Effective Java, 3rd edition");
               ("ISBN", Py.PStr "9780134685991"); ("genre", Py.PStr "Science");
               ("authors", Py.PStr "Joshua Bloch");
               ("publisher", Py.PStr "Addison-Wesley");
               ("publishedDate", Py.PStr "2018")] sample_catalog sample_book
              eq_refl eq_refl eq_refl)
    as (t & i & g & a & pu & pd & s' & Ht & Hi & Hg & Ha & Hp & Hpd
        & Hput & Hget & Hr & _).
  injection Ht as <-. injection Hi as <-. injection Hg as <-.
  injection Ha as <-. injection Hp as <-. injection Hpd as <-.
  exists s'. repeat split; assumption.
Defined.

(** X5. The update validation does not look at the other books: a PUT
    that gives one book the ISBN of another is accepted, and the
    catalog then holds two books with that ISBN. *)
Theorem book_put_allows_shared_ISBN (book_id : string) (k k2 : Z) (p : Py.dict)
  (s : BookService.store) (b b2 : BookService.Book) :
  Py.int book_id = Py.Ok k ->
  BookService.get_book_at k s = Some (BookService.BookDoc b) ->
  BookService.get_book_at k2 s = Some (BookService.BookDoc b2) ->
  k2 <> k ->
  BookService.validate_book_update p = Py.Ok None ->
  Py.get "ISBN" p = Some (Py.PStr (BookService.b_ISBN b2)) ->
  exists s' b',
    BookService.SpecificBook_put book_id p s
    = (Py.Ok (BookService.JId book_id, 200), s')
    /\ BookService.get_book_at k s' = Some (BookService.BookDoc b')
    /\ BookService.get_book_at k2 s' = Some (BookService.BookDoc b2)
    /\ BookService.b_ISBN b' = BookService.b_ISBN b2.
Proof.
  intros Hk Hd Hd2 Hne Hv Hi.
  destruct (validate_book_update_cases p)
    as [(_ & title & isbn & genre & authors & publisher & publishedDate
         & Ht & Hi' & Hg & Ha & Hp & Hpd & _)|(msg & Hv')]; [|congruence].
  rewrite Hi in Hi'. injection Hi' as <-.
  do 2 eexists.
  split; [apply (SpecificBook_put_accepted book_id k p s (BookService.BookDoc b)
                   title (BookService.b_ISBN b2) genre authors publisher
                   publishedDate); assumption|].
  unfold BookService.get_book_at, BookService.set_books in *.
  cbn [BookService.book_collection].
  destruct (0 <? k); [|discriminate Hd].
  destruct (0 <? k2); [|discriminate Hd2].
  rewrite find_one_update_same, Hd, find_one_update_other, Hd2 by exact Hne.
  cbn [option_map BookService.apply_update]. repeat split.
Qed.

Lemma book_put_allows_shared_ISBN_witness :
  exists s' b',
    BookService.SpecificBook_put "1"
      [("title", Py.PStr "Effective Java");
       ("ISBN", Py.PStr "9780262033848"); ("genre", Py.PStr "Science");
       ("authors", Py.PStr "Joshua Bloch");
       ("publisher", Py.PStr "Addison-Wesley");
       ("publishedDate", Py.PStr "2018-01-06")] two_book_catalog
    = (Py.Ok (BookService.JId "1", 200), s')
    /\ BookService.get_book_at 1 s' = Some (BookService.BookDoc b')
    /\ BookService.get_book_at 2 s' = Some (BookService.BookDoc second_book)
    /\ BookService.b_ISBN b' = "9780262033848".
Proof.
  apply (book_put_allows_shared_ISBN "1" 1 2
           [("title", Py.PStr "Effective Java");
            ("ISBN", Py.PStr "9780262033848"); ("genre", Py.PStr "Science");
            ("authors", Py.PStr "Joshua Bloch");
            ("publisher", Py.PStr "Addison-Wesley");
            ("publishedDate", Py.PStr "2018-01-06")]
           two_book_catalog sample_book second_book);
    try reflexivity.
  discriminate.
Defined.

(** *** What a request can do to the book collection *)

Lemma Books_post_store (p : Py.dict) (details : option BookService.Details)
  (s : BookService.store) (h : Z) :
  catalog_wf s = true ->
  Interleaving.book_fetch s = Py.Ok h ->
  snd (BookService.Books_post p details s) = s
  \/ exists b r,
       snd (BookService.Books_post p details s)
       = BookService.mkStore
           (BookService.book_collection (Interleaving.book_set (h + 1) s)
            ++ [(h + 1, BookService.BookDoc b)])
           (BookService.rating_collection s ++ [(h + 1, r)]).
Proof.
  intros Hwf Hf.
  destruct p as [|kv rest]; [now left|].
  destruct (validate_book_addition_cases (kv :: rest) s Hwf)
    as [(Hv & _ & title & isbn & genre & Ht & Hi & Hg & _)|(msg & Hv)].
  - destruct details as [details|].
    + right. do 2 eexists.
      rewrite (Books_post_accepted _ details s h title isbn genre Hwf Hf Hv Ht Hi Hg).
      reflexivity.
    + left. unfold BookService.Books_post, Eff.bind, Eff.read. now rewrite Hv.
  - left. unfold BookService.Books_post, Eff.bind, Eff.read. now rewrite Hv.
Qed.

Lemma SpecificBook_put_store (book_id : string) (p : Py.dict)
  (s : BookService.store) :
  snd (BookService.SpecificBook_put book_id p s) = s
  \/ exists k nb,
       snd (BookService.SpecificBook_put book_id p s)
       = BookService.set_books
           (Mongo.update_one k (BookService.apply_update (BookService.BookDoc nb)))
           s.
Proof.
  unfold BookService.SpecificBook_put, BookService.get_book.
  unfold Eff.bind at 1, Eff.read at 1.
  destruct (Py.int book_id) as [k|e] eqn:Hint; cbn [Py.bind]; [|now left].
  destruct (BookService.get_book_at k s) as [d|] eqn:Hget; [|now left].
  destruct p as [|kv rest]; [now left|].
  unfold Eff.bind at 1, Eff.lift at 1.
  destruct (BookService.validate_book_update (kv :: rest)) as [[e|]|e];
    try (now left).
  repeat (unfold Eff.bind at 1, Eff.lift at 1;
          match goal with
          | |- context [match (let? v := Py.item ?f ?p in Py.the_str v) with _ => _ end] =>
              destruct (let? v := Py.item f p in Py.the_str v); [|now left]
          end).
  unfold BookService.update_book. eff. rewrite Hint. cbv beta iota.
  rewrite ?Hget. cbv beta iota. rewrite ?Hget. cbv beta iota. cbn [snd].
  right. do 2 eexists. reflexivity.
Qed.

Lemma SpecificBook_delete_found (book_id : string) (k : Z)
  (d : BookService.bookdoc) (s : BookService.store) :
  catalog_wf s = true ->
  Py.int book_id = Py.Ok k ->
  BookService.get_book_at k s = Some d ->
  BookService.SpecificBook_delete book_id s
  = (Py.Ok (BookService.JString book_id, 200),
     BookService.mkStore
       (Mongo.delete_one k (BookService.book_collection s))
       (Mongo.delete_one k (BookService.rating_collection s))).
Proof.
  intros Hwf Hint Hget.
  unfold BookService.SpecificBook_delete, BookService.get_book,
    BookService.delete_book, BookService.delete_book_rating,
    BookService.get_book_rating.
  eff. rewrite Hint. cbn [Py.bind]. cbv beta iota. rewrite Hget.
  cbv beta iota. rewrite ?Hint. cbn [Py.bind]. cbv beta iota. rewrite ?Hget.
  cbv beta iota.
  unfold BookService.set_ratings, BookService.set_books.
  cbn [BookService.book_collection BookService.rating_collection].
  rewrite (delete_by_content s k d Hwf Hget).
  destruct (Mongo.find_one k (Mongo.delete_one k (BookService.rating_collection s)));
    reflexivity.
Qed.

Lemma SpecificBook_delete_absent (book_id : string) (s : BookService.store) :
  BookService.get_book book_id s = Py.Ok None ->
  BookService.SpecificBook_delete book_id s
  = (Py.Ok (BookService.JError "Book not found", 404), s).
Proof.
  intros H. unfold BookService.SpecificBook_delete, Eff.bind, Eff.read.
  now rewrite H.
Qed.

Lemma SpecificBook_delete_store (book_id : string) (s : BookService.store) :
  catalog_wf s = true ->
  snd (BookService.SpecificBook_delete book_id s) = s
  \/ exists k,
       0 < k
       /\ snd (BookService.SpecificBook_delete book_id s)
          = BookService.mkStore
              (Mongo.delete_one k (BookService.book_collection s))
              (Mongo.delete_one k (BookService.rating_collection s)).
Proof.
  intros Hwf.
  destruct (Py.int book_id) as [k|e] eqn:Hint.
  - destruct (BookService.get_book_at k s) as [d|] eqn:Hget.
    + right. exists k. split; [apply (catalog_wf_book s k d Hwf Hget)|].
      now rewrite (SpecificBook_delete_found book_id k d s Hwf Hint Hget).
    + left. rewrite SpecificBook_delete_absent; [reflexivity|].
      unfold BookService.get_book. rewrite Hint. cbn [Py.bind]. now rewrite Hget.
  - left. unfold BookService.SpecificBook_delete, BookService.get_book,
      Eff.bind, Eff.read. now rewrite Hint.
Qed.

Lemma SpecificRatingsValues_post_store (book_id : string) (p : Py.dict)
  (s : BookService.store) :
  snd (BookService.SpecificRatingsValues_post book_id p s) = s
  \/ exists k v r,
       1 <= v <= 5
       /\ p = [("value", Py.PInt v)]
       /\ Py.int book_id = Py.Ok k
       /\ Mongo.find_one k (BookService.rating_collection s) = Some r
       /\ snd (BookService.SpecificRatingsValues_post book_id p s)
          = BookService.set_ratings
              (Mongo.update_one k
                 (fun r0 => BookService.mkRating (BookService.r_id r0)
                              (BookService.r_values r0 ++ [v])
                              (mean (BookService.r_values r ++ [v]))
                              (BookService.r_title r0))) s.
Proof.
  unfold BookService.SpecificRatingsValues_post, BookService.get_book_rating.
  unfold Eff.bind at 1, Eff.read at 1.
  destruct (Py.int book_id) as [k|e] eqn:Hint; cbn [Py.bind]; [|now left].
  destruct (Mongo.find_one k (BookService.rating_collection s)) as [r|] eqn:Hr;
    [|now left].
  destruct p as [|kv rest]; [now left|].
  destruct (BookService.validate_rating_for_a_book (kv :: rest)) as [e|] eqn:Hval;
    [now left|].
  destruct (validate_rating_passes _ Hval) as (v & -> & Hv).
  eff. cbn [Py.item Py.get String.eqb Ascii.eqb Bool.eqb Py.bind]. cbv beta iota.
  rewrite (add_rating_value_store v book_id k s r Hint Hr). cbn [snd].
  right. exists k, v, r. repeat split; try lia; try reflexivity; auto.
  rewrite Hr. cbv beta iota.
  now rewrite (add_rating_value_store v book_id k s r Hint Hr).
Qed.

(** *** Identifiers *)

Lemma find_one_update_Some {D : Type} (k k0 : Z) (u : D -> D)
  (c : Mongo.collection D) (d' : D) :
  Mongo.find_one k (Mongo.update_one k0 u c) = Some d' ->
  exists d, Mongo.find_one k c = Some d.
Proof.
  rewrite find_one_update. destruct (k =? k0).
  - destruct (Mongo.find_one k c) as [d|]; [eauto | discriminate].
  - eauto.
Qed.

Lemma find_one_delete_Some {D : Type} (k k0 : Z) (c : Mongo.collection D) (d' : D) :
  NoDup (Mongo.ids c) ->
  Mongo.find_one k (Mongo.delete_one k0 c) = Some d' ->
  k <> k0 /\ Mongo.find_one k c = Some d'.
Proof.
  intros Hnd H. destruct (Z.eq_dec k k0) as [->|Hne].
  - rewrite find_one_delete_same in H by exact Hnd. discriminate.
  - rewrite find_one_delete_other in H by exact Hne. auto.
Qed.

(** One request: the counter does not go down, and no document appears
    under an identifier the counter has passed. *)
Lemma handle_books_footprint (q : request) (s : BookService.store) (h : Z) :
  catalog_wf s = true ->
  Interleaving.book_fetch s = Py.Ok h ->
  exists h',
    Interleaving.book_fetch (snd (handle q s)) = Py.Ok h' /\ h <= h'
    /\ forall k d',
         Mongo.find_one k (BookService.book_collection (snd (handle q s))) = Some d' ->
         k <= h ->
         exists d, Mongo.find_one k (BookService.book_collection s) = Some d.
Proof.
  intros Hwf Hf.
  destruct (catalog_wf_spec s Hwf) as (h0 & Hc & Hh & Hndb & Hndr & Hb & Hr).
  assert (h0 = h) as ->.
  { unfold Interleaving.book_fetch in Hf. rewrite Hc in Hf. now injection Hf. }
  assert (Hsame : exists h',
             Interleaving.book_fetch s = Py.Ok h' /\ h <= h'
             /\ forall k d',
                  Mongo.find_one k (BookService.book_collection s) = Some d' ->
                  k <= h ->
                  exists d, Mongo.find_one k (BookService.book_collection s) = Some d).
  { exists h. split; [exact Hf|]. split; [lia|]. eauto. }
  destruct q as [p details|book_id p|book_id|book_id p]; cbn [handle].
  - destruct (Books_post_store p details s h Hwf Hf) as [->|(b & r & ->)];
      [exact Hsame|].
    exists (h + 1). cbn [BookService.book_collection].
    pose proof (book_fetch_set s h (h + 1) Hf) as Hf1.
    split; [|split; [lia|]].
    + unfold Interleaving.book_fetch in *. cbn [BookService.book_collection].
      rewrite find_one_app.
      destruct (Mongo.find_one 0 (BookService.book_collection
                                    (Interleaving.book_set (h + 1) s)))
        as [[c|b0]|]; try discriminate. exact Hf1.
    + intros k d' Hfind Hk. rewrite find_one_app in Hfind.
      destruct (Mongo.find_one k (BookService.book_collection
                                    (Interleaving.book_set (h + 1) s)))
        as [d|] eqn:Hd.
      * unfold Interleaving.book_set, BookService.set_books in Hd.
        cbn [BookService.book_collection] in Hd.
        now apply find_one_update_Some in Hd.
      * cbn [Mongo.find_one] in Hfind.
        destruct (Z.eqb_spec k (h + 1)); [lia | discriminate].
  - destruct (SpecificBook_put_store book_id p s) as [->|(k0 & nb & ->)];
      [exact Hsame|].
    exists h. unfold BookService.set_books. cbn [BookService.book_collection].
    split; [|split; [lia|]].
    + unfold Interleaving.book_fetch. cbn [BookService.book_collection].
      rewrite find_one_update, Hc. destruct (0 =? k0); reflexivity.
    + intros k d' Hfind _. now apply find_one_update_Some in Hfind.
  - destruct (SpecificBook_delete_store book_id s Hwf) as [->|(k0 & Hk0 & ->)];
      [exact Hsame|].
    exists h. cbn [BookService.book_collection].
    split; [|split; [lia|]].
    + unfold Interleaving.book_fetch. cbn [BookService.book_collection].
      rewrite find_one_delete_other by lia. now rewrite Hc.
    + intros k d' Hfind _. apply find_one_delete_Some in Hfind; [|exact Hndb].
      destruct Hfind as [_ Hfind]. eauto.
  - destruct (SpecificRatingsValues_post_store book_id p s)
      as [->|(k0 & v & r & _ & _ & _ & _ & ->)]; [exact Hsame|].
    exact Hsame.
Qed.

Lemma serve_books_footprint (qs : list request) :
  forall (s : BookService.store) (h : Z),
    catalog_wf s = true ->
    Interleaving.book_fetch s = Py.Ok h ->
    exists h',
      Interleaving.book_fetch (serve qs s) = Py.Ok h' /\ h <= h'
      /\ forall k d',
           Mongo.find_one k (BookService.book_collection (serve qs s)) = Some d' ->
           k <= h ->
           exists d, Mongo.find_one k (BookService.book_collection s) = Some d.
Proof.
  induction qs as [|q qs IH]; intros s h Hwf Hf.
  - exists h. split; [exact Hf|]. split; [lia|]. eauto.
  - destruct (handle_books_footprint q s h Hwf Hf) as (h1 & Hf1 & Hle1 & Hold1).
    destruct (IH _ h1 (handle_wf q s Hwf) Hf1) as (h' & Hf' & Hle' & Hold').
    exists h'. split; [exact Hf'|]. split; [lia|].
    intros k d' Hfind Hk. cbn [serve fold_left] in Hfind.
    destruct (Hold' k d' Hfind ltac:(lia)) as (d1 & Hd1).
    exact (Hold1 k d1 Hd1 Hk).
Qed.

Lemma startup_keeps (s : BookService.store) :
  catalog_wf s = true -> BookService.startup s = s.
Proof.
  intros Hwf. destruct (catalog_wf_spec s Hwf) as (h & Hc & _).
  unfold BookService.startup. now rewrite Hc.
Qed.

(** X6. Identifiers of the catalog are not handed out twice: over any
    sequence of requests the counter does not go down, an identifier
    the counter has passed and that answers 404 keeps answering 404,
    whatever is created or deleted afterwards, and a restart of the
    service finds the counter and leaves the store as it is. *)
Theorem catalog_identifiers_not_reused (qs : list request)
  (s : BookService.store) (h : Z) :
  catalog_wf s = true ->
  Interleaving.book_fetch s = Py.Ok h ->
  exists h',
    Interleaving.book_fetch (serve qs s) = Py.Ok h' /\ h <= h'
    /\ BookService.startup (serve qs s) = serve qs s
    /\ forall book_id k,
         Py.int book_id = Py.Ok k -> k <= h ->
         BookService.SpecificBook_get book_id s
         = Py.Ok (BookService.JError "Book not found", 404) ->
         BookService.SpecificBook_get book_id (serve qs s)
         = Py.Ok (BookService.JError "Book not found", 404).
Proof.
  intros Hwf Hf.
  destruct (serve_books_footprint qs s h Hwf Hf) as (h' & Hf' & Hle & Hold).
  exists h'. split; [exact Hf'|]. split; [exact Hle|].
  split; [apply startup_keeps, serve_wf, Hwf|].
  intros book_id k Hk Hkh.
  unfold BookService.SpecificBook_get, BookService.get_book.
  rewrite Hk. cbn [Py.bind]. unfold BookService.get_book_at.
  destruct (0 <? k); [|reflexivity].
  destruct (Mongo.find_one k (BookService.book_collection s)) as [d|] eqn:Hd;
    [discriminate|]. intros _.
  destruct (Mongo.find_one k (BookService.book_collection (serve qs s)))
    as [d'|] eqn:Hd'; [|reflexivity].
  destruct (Hold k d' Hd' Hkh) as (d & Hd0). congruence.
Qed.

Lemma catalog_identifiers_not_reused_witness :
  let qs := [DeleteBook "1";
             PostBook [("title", Py.PStr "Effective Java");
                       ("ISBN", Py.PStr "9780134685991");
                       ("genre", Py.PStr "Science")]
               (Some (BookService.mkDetails "Joshua Bloch" "Addison-Wesley"
                        "2018-01-06"))] in
  exists h',
    Interleaving.book_fetch (serve qs two_book_catalog) = Py.Ok h' /\ 2 <= h'.
Proof.
  intros qs.
  destruct (catalog_identifiers_not_reused qs two_book_catalog 2 eq_refl eq_refl)
    as (h' & Hf & Hle & _).
  exists h'. split; [exact Hf | exact Hle].
Defined.

(** X7. Every request of the catalog service leaves a catalog of the
    shape the handlers rely on: one counter at the reserved identifier,
    no identifier repeated or above the counter, every book with [id]
    the decimal form of its [_id] and with a rating under the same
    [_id], every rating within 1..5 with the mean as its average. *)
Theorem catalog_requests_keep_shape (qs : list request) (s : BookService.store) :
  catalog_wf s = true -> catalog_wf (serve qs s) = true.
Proof.
  revert s. induction qs as [|q qs IH]; intros s Hwf; [exact Hwf|].
  cbn [serve fold_left]. apply IH.
  destruct q; cbn [handle];
    [apply Books_post_wf | apply SpecificBook_put_wf
     | apply SpecificBook_delete_wf | apply SpecificRatingsValues_post_wf];
    exact Hwf.
Qed.

Lemma catalog_requests_keep_shape_witness :
  catalog_wf (serve [PostRatingValue "1" [("value", Py.PInt 3)]; DeleteBook "2"]
                two_book_catalog) = true.
Proof.
  apply (catalog_requests_keep_shape
           [PostRatingValue "1" [("value", Py.PInt 3)]; DeleteBook "2"]
           two_book_catalog).
  reflexivity.
Defined.

(** *** The list of ratings *)

Lemma Ratings_get_loop_filter (params : list (string * string)) :
  forall l,
    BookService.Ratings_get_loop params l
    = filter (fun r => rating_meets (BookService.r_id r) params) l.
Proof.
  induction params as [|[field value] rest IH]; intros l.
  - cbn. now rewrite filter_all.
  - cbn [BookService.Ratings_get_loop]. rewrite IH.
    unfold rating_meets. cbn [forallb fst snd].
    destruct (String.eqb field "id"); cbn [negb orb].
    + now rewrite filter_filter.
    + reflexivity.
Qed.

Lemma club_Ratings_get_loop_filter (params : list (string * string)) :
  forall l,
    BookClub.Ratings_get_loop params l
    = filter (fun r => rating_meets (BookClub.r_id r) params) l.
Proof.
  induction params as [|[field value] rest IH]; intros l.
  - cbn. now rewrite filter_all.
  - cbn [BookClub.Ratings_get_loop]. rewrite IH.
    unfold rating_meets. cbn [forallb fst snd].
    destruct (String.eqb field "id"); cbn [negb orb].
    + now rewrite filter_filter.
    + reflexivity.
Qed.

Lemma rating_meets_items_seen a seen i :
  In "id" seen -> rating_meets i (Flask.items_from seen a) = true.
Proof.
  intros Hin. unfold rating_meets. apply forallb_forall. intros p Hp.
  destruct (proj1 (items_from_spec a seen) p Hp) as [_ Hn].
  destruct (String.eqb (fst p) "id") eqn:E; [|reflexivity].
  apply String.eqb_eq in E. rewrite E in Hn. contradiction.
Qed.

Lemma rating_meets_items a :
  forall seen i,
    ~ In "id" seen ->
    rating_meets i (Flask.items_from seen a)
    = match find (fun p => String.eqb (fst p) "id") a with
      | Some p => String.eqb i (snd p)
      | None => true
      end.
Proof.
  induction a as [|[k v] a IH]; intros seen i Hn; [reflexivity|].
  cbn [Flask.items_from find fst].
  destruct (String.eqb k "id") eqn:Ek.
  - apply String.eqb_eq in Ek. subst k.
    assert (E : existsb (String.eqb "id") seen = false).
    { destruct (existsb (String.eqb "id") seen) eqn:E; [|reflexivity].
      apply existsb_exists in E. destruct E as (x & Hx & Hxk).
      apply String.eqb_eq in Hxk. subst x. contradiction. }
    rewrite E.
    change (rating_meets i (("id", v) :: Flask.items_from ("id" :: seen) a))
      with ((negb (String.eqb "id" "id") || String.eqb i v)
            && rating_meets i (Flask.items_from ("id" :: seen) a)).
    rewrite rating_meets_items_seen by now left.
    cbn [snd]. now rewrite andb_true_r.
  - assert (Hne : k <> "id")
      by (intros ->; rewrite String.eqb_refl in Ek; discriminate).
    destruct (existsb (String.eqb k) seen); [now apply IH|].
    change (rating_meets i ((k, v) :: Flask.items_from (k :: seen) a))
      with ((negb (String.eqb k "id") || String.eqb i v)
            && rating_meets i (Flask.items_from (k :: seen) a)).
    rewrite Ek. cbn [negb orb andb]. apply IH.
    intros [H|H]; [now apply Hne | now apply Hn].
Qed.

(** X8. GET /ratings never refuses a query: it answers 200 with the
    ratings that meet the parameters [items()] yields, in both
    iterations.  Only [id] is looked at, and of a query string that
    gives [id] more than once only the first value: the ratings listed
    are those whose [id] equals that value, and all ratings when the
    query string has no [id]. *)
Theorem ratings_list_filter (params : Flask.args)
  (s : BookService.store) (st : BookClub.state) :
  BookService.Ratings_get params s
  = (BookService.JRatings
       (filter (fun r =>
                  rating_meets (BookService.r_id r) (Flask.items params))
          (BookService.get_book_ratings s)), 200)
  /\ BookClub.Ratings_get params st
     = (filter (fun r => rating_meets (BookClub.r_id r) (Flask.items params))
          (BookClub.bookRatings st), 200)
  /\ (forall i,
        rating_meets i (Flask.items params)
        = match find (fun p => String.eqb (fst p) "id") params with
          | Some p => String.eqb i (snd p)
          | None => true
          end)
  /\ BookService.Ratings_get [("id", "1"); ("id", "2")] two_book_catalog
     = (BookService.JRatings
          [BookService.mkRating "1" [5; 4; 5] (14 # 3) "Effective Java"], 200).
Proof.
  split; [|split; [|split]].
  - unfold BookService.Ratings_get. now rewrite Ratings_get_loop_filter.
  - unfold BookClub.Ratings_get. now rewrite club_Ratings_get_loop_filter.
  - intros i. apply rating_meets_items. intros [].
  - reflexivity.
Qed.

(** *** A book looked up through the list query *)

Lemma filter_key_NoDup {D : Type} (k : Z) (c : Mongo.collection D) :
  NoDup (Mongo.ids c) ->
  filter (fun kd => fst kd =? k) c
  = match Mongo.find_one k c with
    | Some d => [(k, d)]
    | None => []
    end.
Proof.
  induction c as [|[k' d] c IH]; intros Hnd; [reflexivity|].
  cbn [Mongo.ids map fst] in Hnd. inversion Hnd as [|? ? Hnotin Hnd']; subst.
  cbn [filter Mongo.find_one fst]. rewrite (Z.eqb_sym k k').
  specialize (IH Hnd').
  destruct (Z.eqb_spec k' k) as [->|Hne]; [|exact IH].
  rewrite IH. apply find_one_None_ids in Hnotin. now rewrite Hnotin.
Qed.

Lemma filter_map_snd {A B : Type} (p : B -> bool) (l : list (A * B)) :
  filter p (map snd l) = map snd (filter (fun x => p (snd x)) l).
Proof.
  induction l as [|x l IH]; [reflexivity|]. cbn [map filter].
  destruct (p (snd x)); cbn [map]; now rewrite IH.
Qed.

Lemma filter_none {A : Type} (l : list A) : filter (fun _ => false) l = [].
Proof. induction l; [reflexivity | exact IHl]. Qed.

(** The books whose [id] field is a given string, in a catalog of the
    shape the handlers keep. *)
Lemma books_with_id (s : BookService.store) (i : string) :
  catalog_wf s = true ->
  filter (fun d => meets d ("id", i)) (BookService.get_books s)
  = match Py.int i with
    | Py.Ok k =>
        if String.eqb i (Py.str k) then
          match BookService.get_book_at k s with
          | Some d => [d]
          | None => []
          end
        else []
    | Py.Raise _ => []
    end.
Proof.
  intros Hwf.
  destruct (catalog_wf_spec s Hwf) as (h & Hc & Hh & Hndb & Hndr & Hb & Hr).
  unfold BookService.get_books, Mongo.find_gt0.
  rewrite filter_map_snd, filter_filter.
  assert (Hdoc : forall k d, In (k, d) (BookService.book_collection s) ->
                   (0 <? k) && meets d ("id", i)
                   = (0 <? k) && String.eqb (Py.str k) i).
  { intros k d Hin. specialize (Hb k d Hin). unfold book_doc_ok in Hb.
    cbn [fst snd] in Hb. destruct d as [c|b].
    - apply Z.eqb_eq in Hb. subst k. reflexivity.
    - bools. unfold meets. cbn [fst snd BookService.book_field String.eqb
        Ascii.eqb Bool.eqb]. now rewrite H1. }
  destruct (Py.int i) as [k|e] eqn:Hint.
  - destruct (String.eqb_spec i (Py.str k)) as [->|Hne].
    + rewrite (filter_ext_in _ (fun kd => (fst kd =? k) && (0 <? k))).
      2:{ intros [k' d] Hin. cbn [fst snd]. rewrite (Hdoc _ _ Hin).
          destruct (Z.eqb_spec k' k) as [->|Hne].
          - rewrite String.eqb_refl. apply andb_comm.
          - destruct (String.eqb_spec (Py.str k') (Py.str k)) as [E|_].
            + apply str_inj in E. contradiction.
            + now rewrite andb_false_r. }
      unfold BookService.get_book_at. destruct (0 <? k).
      * rewrite (filter_ext _ (fun kd => fst kd =? k))
          by (intros; apply andb_true_r).
        rewrite (filter_key_NoDup k _ Hndb).
        destruct (Mongo.find_one k (BookService.book_collection s)); reflexivity.
      * rewrite (filter_ext _ (fun _ => false)) by (intros; apply andb_false_r).
        now rewrite filter_none.
    + rewrite (filter_ext_in _ (fun _ => false)).
      2:{ intros [k' d] Hin. cbn [fst snd]. rewrite (Hdoc _ _ Hin).
          destruct (String.eqb_spec (Py.str k') i) as [E|_];
            [|now rewrite andb_false_r].
          subst i. rewrite int_str in Hint. injection Hint as ->.
          now contradiction Hne. }
      now rewrite filter_none.
  - rewrite (filter_ext_in _ (fun _ => false)).
    2:{ intros [k' d] Hin. cbn [fst snd]. rewrite (Hdoc _ _ Hin).
        destruct (String.eqb_spec (Py.str k') i) as [E|_];
          [|now rewrite andb_false_r].
        subst i. rewrite int_str in Hint. discriminate. }
    now rewrite filter_none.
Qed.

Lemma Books_get_by_id (s : BookService.store) (i : string) :
  catalog_wf s = true ->
  BookService.Books_get [("id", i)] s
  = Py.Ok (one_or_list (filter (fun d => meets d ("id", i))
                          (BookService.get_books s)), 200).
Proof.
  intros Hwf. unfold BookService.Books_get.
  change (Flask.items [("id", i)]) with [("id", i)].
  destruct (Books_get_loop_spec [("id", i)] (BookService.get_books s)
              (get_books_all_books s Hwf)) as [_ H].
  rewrite H by reflexivity. do 3 f_equal.
  apply filter_ext. intros d. cbn [forallb]. apply andb_true_r.
Qed.

(** X9. The list query on [id] and the lookup by path agree on the
    decimal form of an identifier: both answer the book when it is
    there; when it is not, the list is empty and the lookup answers 404.
    A query value that converts to an integer without being its decimal
    form matches no book in the list query, while the lookup by path
    treats it as that integer. *)
Theorem book_list_by_id (s : BookService.store) :
  catalog_wf s = true ->
  (forall k d,
     BookService.get_book_at k s = Some d ->
     BookService.Books_get [("id", Py.str k)] s = Py.Ok (BookService.JBook d, 200)
     /\ BookService.SpecificBook_get (Py.str k) s
        = Py.Ok (BookService.JBook d, 200))
  /\ (forall k,
        BookService.get_book_at k s = None ->
        BookService.Books_get [("id", Py.str k)] s
        = Py.Ok (BookService.JBooks [], 200)
        /\ BookService.SpecificBook_get (Py.str k) s
           = Py.Ok (BookService.JError "Book not found", 404))
  /\ (forall book_id k,
        Py.int book_id = Py.Ok k -> book_id <> Py.str k ->
        BookService.Books_get [("id", book_id)] s
        = Py.Ok (BookService.JBooks [], 200)
        /\ BookService.SpecificBook_get book_id s
           = BookService.SpecificBook_get (Py.str k) s).
Proof.
  intros Hwf. split; [|split].
  - intros k d Hd. rewrite (Books_get_by_id s _ Hwf), (books_with_id s _ Hwf).
    unfold BookService.SpecificBook_get, BookService.get_book.
    rewrite int_str, String.eqb_refl. cbn [Py.bind]. rewrite Hd. now split.
  - intros k Hd. rewrite (Books_get_by_id s _ Hwf), (books_with_id s _ Hwf).
    unfold BookService.SpecificBook_get, BookService.get_book.
    rewrite int_str, String.eqb_refl. cbn [Py.bind]. rewrite Hd. now split.
  - intros book_id k Hint Hne.
    rewrite (Books_get_by_id s _ Hwf), (books_with_id s _ Hwf), Hint.
    apply String.eqb_neq in Hne. rewrite Hne. split; [reflexivity|].
    unfold BookService.SpecificBook_get, BookService.get_book.
    now rewrite Hint, int_str.
Qed.

Lemma book_list_by_id_witness :
  BookService.Books_get [("id", "2")] two_book_catalog
  = Py.Ok (BookService.JBook (BookService.BookDoc second_book), 200)
  /\ BookService.SpecificBook_get "2" two_book_catalog
     = Py.Ok (BookService.JBook (BookService.BookDoc second_book), 200).
Proof.
  exact (proj1 (book_list_by_id two_book_catalog eq_refl) 2
           (BookService.BookDoc second_book) eq_refl).
Defined.

(* ================================================================= *)
(** ** Further properties of the loan service                        *)
(* ================================================================= *)

(** *** An accepted loan request *)

Lemma mem_get (f : string) (p : Py.dict) :
  Py.mem f p = true -> exists v, Py.get f p = Some v.
Proof. unfold Py.mem. destruct (Py.get f p); [eauto | discriminate]. Qed.

Lemma loans_wf_fetch (s : LoanService.store) :
  loans_wf s = true -> exists h, Interleaving.loan_fetch s = Py.Ok h /\ 0 <= h.
Proof.
  intros Hwf. apply loans_wf_parts in Hwf. destruct Hwf as (h & Hc & Hh & _).
  exists h. unfold Interleaving.loan_fetch. now rewrite Hc.
Qed.

Lemma validate_loan_addition_accepts (p : Py.dict) (s : LoanService.store) :
  loans_wf s = true ->
  LoanService.validate_loan_addition p s = Py.Ok None ->
  List.length p = 3%nat
  /\ exists member isbn date,
       Py.get "memberName" p = Some member
       /\ Py.get "ISBN" p = Some (Py.PStr isbn)
       /\ Py.get "loanDate" p = Some (Py.PStr date)
       /\ String.length isbn = 13%nat
       /\ on_loan (Py.PStr isbn) s = false
       /\ LoanService.loan_count_of_member member s < 2
       /\ valid_date date = true.
Proof.
  intros Hwf. destruct (loans_wf_spec s Hwf) as [_ Hloans].
  unfold LoanService.validate_loan_addition.
  match goal with |- (if negb ?c then _ else _) = _ -> _ =>
    destruct c eqn:Hshape end; cbn [negb]; [|discriminate].
  apply andb_prop in Hshape. destruct Hshape as [Hlen Hmem].
  apply Z.eqb_eq in Hlen.
  cbn [firstn LoanService.REQUIRED_FIELDS forallb] in Hmem. bools.
  destruct (mem_get "memberName" p) as (member & Hm); [assumption|].
  destruct (mem_get "ISBN" p) as (isbn & Hi); [assumption|].
  destruct (mem_get "loanDate" p) as (date & Hd); [assumption|].
  unfold Py.item. rewrite Hm, Hi, Hd. cbn [Py.bind].
  destruct isbn as [| |isbn]; cbn [Py.len Py.bind]; try discriminate.
  destruct (Z.of_nat (String.length isbn) =? 13) eqn:Hn; cbn [negb];
    [|discriminate].
  rewrite (any_ISBN_spec _ _ Hloans). cbn [Py.bind].
  fold (on_loan (Py.PStr isbn) s).
  destruct (on_loan (Py.PStr isbn) s) eqn:Hon; [discriminate|].
  destruct (Z.leb_spec 2 (LoanService.loan_count_of_member member s));
    [discriminate|].
  destruct date as [| |date]; cbn [Py.the_str Py.bind]; try discriminate.
  destruct (LoanService.date_pattern_match date) eqn:Hpat; cbn [negb];
    [|discriminate].
  destruct (LoanService.strptime_ok date) eqn:Hstrp; cbn [negb]; [|discriminate].
  intros _. split; [cbn in Hlen; lia|].
  exists member, isbn, date. repeat split; auto.
  - apply Z.eqb_eq in Hn. lia.
  - unfold valid_date. now rewrite Hpat, Hstrp.
Qed.


Lemma loans_numbered_spec (s : LoanService.store) :
  loans_numbered s = true <->
  exists h,
    Mongo.find_one 0 s = Some (LoanService.Counter h)
    /\ forall k d, In (k, d) s ->
         k <= h
         /\ match d with
            | LoanService.Counter _ => True
            | LoanService.LoanDoc l => LoanService.l_loanID l = Py.str k
            end.
Proof.
  unfold loans_numbered. split.
  - destruct (Mongo.find_one 0 s) as [[h|l]|]; try discriminate.
    intros H. exists h. split; [reflexivity|]. intros k d Hin.
    rewrite forallb_forall in H. specialize (H _ Hin). cbn [fst snd] in H.
    apply andb_prop in H. destruct H as [Hk Hd]. apply Z.leb_le in Hk.
    split; [exact Hk|]. destruct d; [exact I | now apply String.eqb_eq].
  - intros (h & -> & H). apply forallb_forall. intros [k d] Hin.
    destruct (H k d Hin) as [Hk Hd]. cbn [fst snd].
    apply andb_true_intro. split; [now apply Z.leb_le|].
    destruct d; [reflexivity | now apply String.eqb_eq].
Qed.

(** What POST /loans does once the request has passed the validation:
    the answer of the catalog decides. *)
Lemma Loans_post_validated (answer : Py.val -> LoanService.Response)
  (p : Py.dict) (s : LoanService.store) (h : Z) (member : Py.val)
  (isbn date : string) :
  loans_numbered s = true ->
  Interleaving.loan_fetch s = Py.Ok h ->
  LoanService.validate_loan_addition p s = Py.Ok None ->
  Py.get "memberName" p = Some member ->
  Py.get "ISBN" p = Some (Py.PStr isbn) ->
  Py.get "loanDate" p = Some (Py.PStr date) ->
  LoanService.Loans_post answer p s
  = let book_response := answer (Py.PStr isbn) in
    match LoanService.json book_response with
    | Py.Raise e => (Py.Raise e, s)
    | Py.Ok book_details =>
        if (LoanService.body_len book_details =? 0)
           || negb (LoanService.status_code book_response =? 200)
        then (Py.Ok (LoanService.JError "book not found in the library", 404), s)
        else
          match LoanService.body_item "id" book_details with
          | Py.Raise e => (Py.Raise e, Interleaving.loan_set (h + 1) s)
          | Py.Ok bookID =>
              match LoanService.body_item "title" book_details with
              | Py.Raise e => (Py.Raise e, Interleaving.loan_set (h + 1) s)
              | Py.Ok title =>
                  (Py.Ok (LoanService.JLoanID (Py.str (h + 1)), 201),
                   Interleaving.loan_set (h + 1) s
                   ++ [(h + 1, LoanService.LoanDoc
                                 (LoanService.mkLoan (Py.str (h + 1)) bookID
                                    title (Py.PStr isbn) member
                                    (Py.PStr date)))])
              end
          end
    end.
Proof.
  intros Hnum Hf Hv Hm Hi Hd. cbv zeta.
  destruct (loan_increment_id_spec s h Hf) as [Hinc _].
  assert (Hfresh : ~ In (h + 1) (Mongo.ids (Interleaving.loan_set (h + 1) s))).
  { unfold Interleaving.loan_set. rewrite ids_update_one. intros Hin.
    apply loans_numbered_spec in Hnum. destruct Hnum as (h0 & Hc & Hall).
    unfold Interleaving.loan_fetch in Hf. rewrite Hc in Hf. injection Hf as ->.
    apply in_map_iff in Hin. destruct Hin as ([k d] & Hk & Hin).
    cbn [fst] in Hk. subst k. destruct (Hall _ _ Hin). lia. }
  unfold LoanService.Loans_post.
  destruct p as [|kv rest]; [discriminate Hm|].
  unfold Eff.bind at 1, Eff.read at 1. rewrite Hv.
  unfold Py.item. rewrite Hi, Hm, Hd.
  unfold Eff.bind at 1, Eff.lift at 1.
  unfold Eff.bind at 1, Eff.lift at 1.
  destruct (LoanService.json (answer (Py.PStr isbn))) as [book_details|e];
    [|reflexivity].
  destruct ((LoanService.body_len book_details =? 0)
            || negb (LoanService.status_code (answer (Py.PStr isbn)) =? 200));
    [reflexivity|].
  unfold Eff.bind at 1. rewrite Hinc.
  unfold Eff.bind at 1, Eff.lift at 1.
  destruct (LoanService.body_item "id" book_details)
    as [bookID|e]; [|reflexivity].
  unfold Eff.bind at 1, Eff.lift at 1.
  destruct (LoanService.body_item "title" book_details)
    as [title|e]; [|reflexivity].
  unfold Eff.bind at 1, Eff.lift at 1.
  unfold Eff.bind at 1, Eff.lift at 1.
  unfold Eff.bind at 1, LoanService.add_loan.
  rewrite (insert_one_fresh _ _ _ Hfresh). reflexivity.
Qed.

(** *** The limits of the loan service *)

Lemma Py_eqb_eq (a b : Py.val) : Py.eqb a b = true <-> a = b.
Proof.
  destruct a, b; cbn; split; intros H; try discriminate; try reflexivity.
  - apply Z.eqb_eq in H. now subst.
  - injection H as ->. apply Z.eqb_refl.
  - apply String.eqb_eq in H. now subst.
  - injection H as ->. apply String.eqb_refl.
Qed.

Lemma loan_ISBNs_flat_map (s : LoanService.store) :
  loan_ISBNs s = flat_map isbn_of s.
Proof.
  unfold loan_ISBNs, LoanService.get_loans, Mongo.find_gt0.
  induction s as [|[k d] s IH]; [reflexivity|].
  cbn [filter fst flat_map]. unfold isbn_of at 1. cbn [fst snd].
  destruct (0 <? k); cbn [map flat_map snd]; now rewrite IH.
Qed.

Lemma on_loan_In (isbn : Py.val) (s : LoanService.store) :
  on_loan isbn s = true <-> In isbn (loan_ISBNs s).
Proof.
  unfold on_loan, loan_ISBNs. rewrite existsb_exists, in_flat_map. split.
  - intros (d & Hin & Hd). exists d. split; [exact Hin|].
    destruct d as [h|l]; [discriminate|].
    cbn in Hd. apply Py_eqb_eq in Hd. subst. now left.
  - intros (d & Hin & Hd). exists d. split; [exact Hin|].
    destruct d as [h|l]; [contradiction|].
    destruct Hd as [<-|[]]. cbn. now apply Py_eqb_eq.
Qed.

Lemma loan_set_ISBNs (s : LoanService.store) (h : Z) :
  loan_ISBNs (Interleaving.loan_set h s) = loan_ISBNs s.
Proof.
  rewrite !loan_ISBNs_flat_map. unfold Interleaving.loan_set.
  induction s as [|[k d] s IH]; [reflexivity|].
  cbn [Mongo.update_one]. destruct (Z.eqb_spec 0 k) as [<-|Hne].
  - cbn [flat_map]. unfold isbn_of at 1 3. reflexivity.
  - cbn [flat_map]. now rewrite IH.
Qed.

Lemma loan_set_count (s : LoanService.store) (h : Z) (member : Py.val) :
  LoanService.loan_count_of_member member (Interleaving.loan_set h s)
  = LoanService.loan_count_of_member member s.
Proof.
  unfold LoanService.loan_count_of_member, Interleaving.loan_set. f_equal.
  induction s as [|[k d] s IH]; [reflexivity|].
  cbn [Mongo.update_one]. destruct (0 =? k).
  - cbn [filter snd]. destruct d; cbn [LoanService.member_matches];
      [destruct (Py.eqb member Py.PNone)|]; reflexivity.
  - cbn [filter snd].
    destruct (LoanService.member_matches member d); cbn [List.length];
      now rewrite IH.
Qed.

Lemma NoDup_app_drop {A : Type} (l1 m l2 : list A) :
  NoDup (l1 ++ m ++ l2) -> NoDup (l1 ++ l2).
Proof.
  induction m as [|x m IH]; [trivial|].
  intros H. apply IH. cbn [app] in H. now apply NoDup_remove_1 in H.
Qed.

Lemma delete_one_split {D : Type} (k : Z) (c : Mongo.collection D) :
  Mongo.delete_one k c = c
  \/ exists c1 d c2, c = c1 ++ (k, d) :: c2 /\ Mongo.delete_one k c = c1 ++ c2.
Proof.
  unfold Mongo.delete_one.
  induction c as [|[k' d] c IH]; [now left|].
  cbn [Mongo.delete_one_where]. destruct (Z.eqb_spec k k') as [<-|Hne].
  - right. exists [], d, c. now split.
  - destruct IH as [->|(c1 & d0 & c2 & -> & ->)]; [now left|].
    right. exists ((k', d) :: c1), d0, c2. now split.
Qed.

Lemma loans_limits_set (s : LoanService.store) (h : Z) :
  loans_limits s -> loans_limits (Interleaving.loan_set h s).
Proof.
  intros [Hnd Hcount]. split.
  - now rewrite loan_set_ISBNs.
  - intros member. now rewrite loan_set_count.
Qed.

Lemma loans_limits_delete (s : LoanService.store) (k : Z) :
  loans_limits s -> loans_limits (Mongo.delete_one k s).
Proof.
  intros [Hnd Hcount].
  destruct (delete_one_split k s) as [->|(c1 & d & c2 & Hs & ->)];
    [now split|].
  split.
  - rewrite loan_ISBNs_flat_map in *. rewrite Hs in Hnd.
    rewrite flat_map_app in *. cbn [flat_map] in Hnd.
    now apply NoDup_app_drop in Hnd.
  - intros member. specialize (Hcount member).
    unfold LoanService.loan_count_of_member in *. rewrite Hs in Hcount.
    rewrite filter_app, length_app in *. cbn [filter] in Hcount.
    destruct (LoanService.member_matches member (snd (k, d)));
      cbn [List.length] in Hcount; lia.
Qed.

Lemma loans_limits_created (s : LoanService.store) (k : Z) (l : LoanService.Loan) :
  0 < k ->
  loans_limits s ->
  on_loan (LoanService.l_ISBN l) s = false ->
  LoanService.loan_count_of_member (LoanService.l_memberName l) s < 2 ->
  loans_limits (s ++ [(k, LoanService.LoanDoc l)]).
Proof.
  intros Hk [Hnd Hcount] Hoff Hless. split.
  - rewrite loan_ISBNs_flat_map in *. rewrite flat_map_app. cbn [flat_map].
    unfold isbn_of at 2. cbn [fst snd].
    replace (0 <? k) with true by (symmetry; now apply Z.ltb_lt).
    rewrite app_nil_r. apply NoDup_app; [exact Hnd | repeat constructor; auto|].
    intros x Hx [<-|[]].
    rewrite <- loan_ISBNs_flat_map in Hx. apply on_loan_In in Hx. congruence.
  - intros member. specialize (Hcount member).
    unfold LoanService.loan_count_of_member in *.
    rewrite filter_app, length_app. cbn [filter snd LoanService.member_matches].
    destruct (Py.eqb (LoanService.l_memberName l) member) eqn:E;
      cbn [List.length]; [|lia].
    apply Py_eqb_eq in E. subst member. lia.
Qed.

(** What a request can do to the loan collection. *)
Lemma Loans_post_store (answer : Py.val -> LoanService.Response)
  (p : Py.dict) (s : LoanService.store) (h : Z) :
  loans_wf s = true ->
  loans_numbered s = true ->
  Interleaving.loan_fetch s = Py.Ok h ->
  snd (LoanService.Loans_post answer p s) = s
  \/ snd (LoanService.Loans_post answer p s) = Interleaving.loan_set (h + 1) s
  \/ exists l,
       on_loan (LoanService.l_ISBN l) s = false
       /\ LoanService.loan_count_of_member (LoanService.l_memberName l) s < 2
       /\ LoanService.l_loanID l = Py.str (h + 1)
       /\ Py.get "memberName" p = Some (LoanService.l_memberName l)
       /\ snd (LoanService.Loans_post answer p s)
          = Interleaving.loan_set (h + 1) s ++ [(h + 1, LoanService.LoanDoc l)].
Proof.
  intros Hwf Hnum Hf.
  destruct (LoanService.validate_loan_addition p s) as [[e|]|e] eqn:Hv.
  - left. unfold LoanService.Loans_post. destruct p; [reflexivity|].
    unfold Eff.bind, Eff.read. now rewrite Hv.
  - destruct (validate_loan_addition_accepts p s Hwf Hv)
      as (_ & member & isbn & date & Hm & Hi & Hd & _ & Hoff & Hless & _).
    rewrite (Loans_post_validated answer p s h member isbn date Hnum Hf Hv Hm Hi Hd).
    cbv zeta.
    destruct (LoanService.json (answer (Py.PStr isbn))) as [book_details|e];
      [|now left].
    destruct ((LoanService.body_len book_details =? 0)
              || negb (LoanService.status_code (answer (Py.PStr isbn)) =? 200));
      [now left|].
    destruct (LoanService.body_item "id" _) as [bookID|e]; [|right; now left].
    destruct (LoanService.body_item "title" _) as [title|e]; [|right; now left].
    right. right.
    exists (LoanService.mkLoan (Py.str (h + 1)) bookID title (Py.PStr isbn)
              member (Py.PStr date)).
    cbn [snd LoanService.l_ISBN LoanService.l_memberName LoanService.l_loanID].
    repeat split; assumption.
  - left. unfold LoanService.Loans_post. destruct p; [reflexivity|].
    unfold Eff.bind, Eff.read. now rewrite Hv.
Qed.

Lemma SpecificLoan_delete_store (loan_id : string) (s : LoanService.store) :
  snd (LoanService.SpecificLoan_delete loan_id s) = s
  \/ exists k,
       0 < k /\ Py.int loan_id = Py.Ok k
       /\ snd (LoanService.SpecificLoan_delete loan_id s) = Mongo.delete_one k s.
Proof.
  unfold LoanService.SpecificLoan_delete, LoanService.get_loan,
    LoanService.delete_loan.
  eff. destruct (Py.int loan_id) as [k|e]; cbn [Py.bind]; [|now left].
  cbv beta iota.
  destruct (Z.ltb_spec 0 k) as [Hk|Hk]; [|now left].
  destruct (Mongo.find_one k s); [|now left].
  right. exists k. repeat split. exact Hk.
Qed.

Lemma loans_numbered_set (s : LoanService.store) (h : Z) :
  loans_numbered s = true ->
  Interleaving.loan_fetch s = Py.Ok h ->
  loans_numbered (Interleaving.loan_set (h + 1) s) = true.
Proof.
  intros Hnum Hf. apply loans_numbered_spec in Hnum.
  destruct Hnum as (h0 & Hc & Hall).
  assert (h0 = h) as ->.
  { unfold Interleaving.loan_fetch in Hf. rewrite Hc in Hf. now injection Hf. }
  apply loans_numbered_spec. exists (h + 1). unfold Interleaving.loan_set. split.
  - rewrite find_one_update_same, Hc. reflexivity.
  - intros k d Hin. apply In_update_one in Hin.
    destruct Hin as (d0 & Hin & [->|[-> ->]]).
    + destruct (Hall _ _ Hin). split; [lia | assumption].
    + destruct (Hall _ _ Hin). split; [lia|]. destruct d0; [exact I | assumption].
Qed.

Lemma loans_numbered_created (s : LoanService.store) (h : Z) (l : LoanService.Loan) :
  loans_numbered s = true ->
  Interleaving.loan_fetch s = Py.Ok h ->
  LoanService.l_loanID l = Py.str h ->
  loans_numbered (s ++ [(h, LoanService.LoanDoc l)]) = true.
Proof.
  intros Hnum Hf Hid. apply loans_numbered_spec in Hnum.
  destruct Hnum as (h0 & Hc & Hall).
  assert (h0 = h) as ->.
  { unfold Interleaving.loan_fetch in Hf. rewrite Hc in Hf. now injection Hf. }
  apply loans_numbered_spec. exists h. split.
  - now rewrite find_one_app, Hc.
  - intros k d Hin. apply in_app_or in Hin. destruct Hin as [Hin|[Hin|[]]].
    + now apply Hall.
    + injection Hin as <- <-. split; [lia | exact Hid].
Qed.

Lemma loans_numbered_delete (s : LoanService.store) (k : Z) :
  0 < k -> loans_numbered s = true -> loans_numbered (Mongo.delete_one k s) = true.
Proof.
  intros Hk Hnum. apply loans_numbered_spec in Hnum.
  destruct Hnum as (h & Hc & Hall).
  apply loans_numbered_spec. exists h. split.
  - rewrite find_one_delete_other by lia. exact Hc.
  - intros k' d Hin. apply In_delete_one in Hin. now apply Hall.
Qed.

(** The three properties together: shape, numbering and limits. *)
Lemma string_members_set (s : LoanService.store) (h : Z) :
  string_members s = true ->
  string_members (Interleaving.loan_set h s) = true.
Proof.
  unfold string_members, Interleaving.loan_set. rewrite !forallb_forall.
  intros H [k d] Hin. apply In_update_one in Hin.
  destruct Hin as (d0 & Hin & [->|[_ ->]]); specialize (H _ Hin);
    cbn [snd] in *; [exact H|].
  destruct d0; exact H.
Qed.

Lemma string_members_delete (s : LoanService.store) (k : Z) :
  string_members s = true -> string_members (Mongo.delete_one k s) = true.
Proof.
  unfold string_members. rewrite !forallb_forall.
  intros H [j d] Hin. apply In_delete_one in Hin. now apply H.
Qed.

Lemma handle_loan_keeps (q : loan_request_kind) (s : LoanService.store) :
  loans_wf s = true -> loans_numbered s = true -> loans_limits s ->
  loans_wf (snd (handle_loan q s)) = true
  /\ loans_numbered (snd (handle_loan q s)) = true
  /\ loans_limits (snd (handle_loan q s))
  /\ (string_member q = true -> string_members s = true ->
      string_members (snd (handle_loan q s)) = true).
Proof.
  intros Hwf Hnum Hlim.
  split; [destruct q; [apply Loans_post_wf | apply SpecificLoan_delete_wf];
          exact Hwf|].
  destruct (loans_wf_fetch s Hwf) as (h & Hf & Hh).
  destruct q as [answer p|loan_id]; cbn [handle_loan string_member].
  - destruct (Loans_post_store answer p s h Hwf Hnum Hf)
      as [->|[->|(l & Hoff & Hless & Hid & Hname & ->)]].
    + split; [exact Hnum|]. split; [exact Hlim|]. auto.
    + split; [now apply loans_numbered_set|].
      split; [now apply loans_limits_set|].
      intros _. apply string_members_set.
    + split; [|split].
      * apply loans_numbered_created; [now apply loans_numbered_set | | exact Hid].
        now apply (loan_fetch_set s h).
      * apply loans_limits_created; [lia | now apply loans_limits_set | |].
        -- destruct (on_loan (LoanService.l_ISBN l) (Interleaving.loan_set (h + 1) s))
             eqn:E; [|reflexivity].
           apply on_loan_In in E. rewrite loan_set_ISBNs in E.
           apply on_loan_In in E. congruence.
        -- now rewrite loan_set_count.
      * rewrite Hname. intros Hq Hs. unfold string_members.
        rewrite forallb_app. apply andb_true_intro. split.
        -- now apply string_members_set.
        -- cbn [forallb snd string_member_of]. now rewrite andb_true_r.
  - destruct (SpecificLoan_delete_store loan_id s) as [->|(k & Hk & _ & ->)].
    + split; [exact Hnum|]. split; [exact Hlim|]. auto.
    + split; [now apply loans_numbered_delete|].
      split; [now apply loans_limits_delete|].
      intros _. apply string_members_delete.
Qed.

(** X10. Served one after the other, requests whose member names are
    strings, on a collection whose member names are strings, keep the
    collection of the loan service in shape (one counter, loans above
    it, no identifier repeated or above the counter, [loanID] the
    decimal form of [_id]) and within its two limits: no ISBN is on loan
    twice, and no member name is counted more than twice.  The member
    names stay strings. *)
Theorem loan_requests_keep_limits (qs : list loan_request_kind)
  (s : LoanService.store) :
  forallb string_member qs = true ->
  string_members s = true ->
  loans_wf s = true -> loans_numbered s = true -> loans_limits s ->
  loans_wf (serve_loans qs s) = true
  /\ loans_numbered (serve_loans qs s) = true
  /\ loans_limits (serve_loans qs s)
  /\ string_members (serve_loans qs s) = true.
Proof.
  revert s.
  induction qs as [|q qs IH]; intros s Hqs Hstr Hwf Hnum Hlim; [auto|].
  cbn [serve_loans fold_left]. cbn [forallb] in Hqs.
  apply andb_prop in Hqs. destruct Hqs as [Hq Hqs].
  destruct (handle_loan_keeps q s Hwf Hnum Hlim)
    as (Hwf' & Hnum' & Hlim' & Hstr').
  apply IH; auto.
Qed.

Lemma loan_requests_keep_limits_witness :
  loans_limits (serve_loans loan_session (LoanService.startup []))
  /\ LoanService.loan_count_of_member (Py.PStr "Dana")
       (serve_loans loan_session (LoanService.startup [])) = 2.
Proof.
  split; [|reflexivity].
  apply (loan_requests_keep_limits loan_session (LoanService.startup [])).
  - reflexivity.
  - reflexivity.
  - reflexivity.
  - reflexivity.
  - split; [constructor|]. intros member.
    unfold LoanService.loan_count_of_member. simpl.
    destruct (Py.eqb member Py.PNone); simpl; lia.
Defined.

(** *** Creation of a loan *)

(** X11. An accepted POST /loans that the catalog answers with one
    book (status 200 and an object with [id] and [title]) answers 201
    with the decimal form of the counter plus one; the loan found under
    that identifier carries the three fields of the request and the
    [id] and [title] of the catalog's book; the ISBN is then on loan,
    the member has one loan more, and every other identifier answers as
    before. *)
Theorem loan_post_round_trip (answer : Py.val -> LoanService.Response)
  (p : Py.dict) (s : LoanService.store) (h : Z) (member : Py.val)
  (isbn date : string) (d : Py.dict) (bookID title : Py.val) :
  loans_wf s = true ->
  loans_numbered s = true ->
  Interleaving.loan_fetch s = Py.Ok h ->
  LoanService.validate_loan_addition p s = Py.Ok None ->
  Py.get "memberName" p = Some member ->
  Py.get "ISBN" p = Some (Py.PStr isbn) ->
  Py.get "loanDate" p = Some (Py.PStr date) ->
  LoanService.status_code (answer (Py.PStr isbn)) = 200 ->
  LoanService.json (answer (Py.PStr isbn)) = Py.Ok (LoanService.BObj d) ->
  Py.get "id" d = Some bookID ->
  Py.get "title" d = Some title ->
  exists s',
    LoanService.Loans_post answer p s
    = (Py.Ok (LoanService.JLoanID (Py.str (h + 1)), 201), s')
    /\ LoanService.SpecificLoan_get (Py.str (h + 1)) s'
       = Py.Ok (LoanService.JLoan
                  (LoanService.LoanDoc
                     (LoanService.mkLoan (Py.str (h + 1)) bookID title
                        (Py.PStr isbn) member (Py.PStr date))), 200)
    /\ on_loan (Py.PStr isbn) s' = true
    /\ LoanService.loan_count_of_member member s'
       = LoanService.loan_count_of_member member s + 1
    /\ (forall loan_id k,
          Py.int loan_id = Py.Ok k -> k <> h + 1 ->
          LoanService.SpecificLoan_get loan_id s'
          = LoanService.SpecificLoan_get loan_id s).
Proof.
  intros Hwf Hnum Hf Hv Hm Hi Hd Hstatus Hjson Hid Htitle.
  pose proof (Loans_post_validated answer p s h member isbn date Hnum Hf Hv Hm Hi Hd)
    as Hpost.
  cbv zeta in Hpost. rewrite Hstatus, Hjson in Hpost.
  cbn [LoanService.body_len LoanService.body_item] in Hpost.
  unfold Py.item in Hpost. rewrite Hid, Htitle in Hpost.
  destruct d as [|kv d]; [discriminate Hid|].
  cbn [List.length Z.eqb negb orb] in Hpost.
  replace (Z.of_nat (S (List.length d)) =? 0) with false in Hpost
    by (symmetry; apply Z.eqb_neq; lia).
  cbn [orb] in Hpost.
  destruct (loans_wf_fetch s Hwf) as (h0 & Hf0 & Hh).
  assert (h0 = h) as -> by congruence.
  assert (Hnone : Mongo.find_one (h + 1) (Interleaving.loan_set (h + 1) s) = None).
  { apply find_one_None_ids. unfold Interleaving.loan_set.
    rewrite ids_update_one. intros Hin.
    apply loans_numbered_spec in Hnum. destruct Hnum as (h0 & Hc & Hall).
    unfold Interleaving.loan_fetch in Hf. rewrite Hc in Hf. injection Hf as ->.
    apply in_map_iff in Hin. destruct Hin as ([k x] & Hk & Hin).
    cbn [fst] in Hk. subst k. destruct (Hall _ _ Hin). lia. }
  eexists. split; [exact Hpost|]. split; [|split; [|split]].
  - unfold LoanService.SpecificLoan_get, LoanService.get_loan.
    rewrite int_str. cbn [Py.bind].
    replace (0 <? h + 1) with true by (symmetry; apply Z.ltb_lt; lia).
    rewrite find_one_app, Hnone. cbn [Mongo.find_one]. now rewrite Z.eqb_refl.
  - apply on_loan_In. rewrite loan_ISBNs_flat_map, flat_map_app.
    apply in_or_app. right. cbn [flat_map]. unfold isbn_of. cbn [fst snd].
    replace (0 <? h + 1) with true by (symmetry; apply Z.ltb_lt; lia).
    now left.
  - unfold LoanService.loan_count_of_member at 1.
    rewrite filter_app, length_app.
    cbn [filter snd LoanService.member_matches LoanService.l_memberName].
    rewrite (proj2 (Py_eqb_eq member member) eq_refl). cbn [List.length].
    fold (LoanService.loan_count_of_member member (Interleaving.loan_set (h + 1) s)).
    rewrite Nat2Z.inj_add.
    fold (LoanService.loan_count_of_member member (Interleaving.loan_set (h + 1) s)).
    rewrite loan_set_count. reflexivity.
  - intros loan_id k Hk Hne.
    unfold LoanService.SpecificLoan_get, LoanService.get_loan.
    rewrite Hk. cbn [Py.bind].
    destruct (Z.ltb_spec 0 k) as [Hpos|Hpos]; [|reflexivity].
    rewrite find_one_app. unfold Interleaving.loan_set.
    rewrite find_one_update_other by lia.
    destruct (Mongo.find_one k s); [reflexivity|].
    cbn [Mongo.find_one]. now rewrite (proj2 (Z.eqb_neq _ _) Hne).
Qed.

Lemma loan_post_round_trip_witness :
  exists s',
    LoanService.Loans_post one_book
      (loan_request (Py.PStr "Dana") "9780134685991" "2024-02-29")
      (LoanService.startup [])
    = (Py.Ok (LoanService.JLoanID "1", 201), s')
    /\ LoanService.SpecificLoan_get "1" s'
       = Py.Ok (LoanService.JLoan
                  (LoanService.LoanDoc (sample_loan "1" "9780134685991")), 200).
Proof.
  destruct (loan_post_round_trip one_book
              (loan_request (Py.PStr "Dana") "9780134685991" "2024-02-29")
              (LoanService.startup []) 0 (Py.PStr "Dana") "9780134685991"
              "2024-02-29"
              [("id", Py.PStr "1"); ("title", Py.PStr "Effective Java")]
              (Py.PStr "1") (Py.PStr "Effective Java")
              eq_refl eq_refl eq_refl eq_refl eq_refl eq_refl eq_refl eq_refl
              eq_refl eq_refl eq_refl)
    as (s' & Hpost & Hget & _).
  exists s'. split; [exact Hpost | exact Hget].
Defined.

(** *** Return of a loan *)

Lemma delete_one_found {D : Type} (k : Z) (c : Mongo.collection D) (d : D) :
  Mongo.find_one k c = Some d ->
  exists c1 c2, c = c1 ++ (k, d) :: c2 /\ Mongo.delete_one k c = c1 ++ c2.
Proof.
  unfold Mongo.delete_one.
  induction c as [|[k' d'] c IH]; [discriminate|].
  cbn [Mongo.find_one Mongo.delete_one_where].
  destruct (Z.eqb_spec k k') as [<-|Hne]; intros H.
  - injection H as ->. now exists [], c.
  - destruct (IH H) as (c1 & c2 & -> & ->).
    now exists ((k', d') :: c1), c2.
Qed.

(** X12. DELETE /loans/{id} on a loan that is there answers 200 with
    the identifier as it was given and removes that loan only: the
    identifier then answers 404, its ISBN is no longer on loan, the
    member has one loan less, and the other loans are as before.  On an
    identifier that answers 404 nothing changes. *)
Theorem loan_delete_returns (loan_id : string) (k : Z) (s : LoanService.store) :
  loans_wf s = true ->
  loans_limits s ->
  Py.int loan_id = Py.Ok k ->
  (forall l,
     LoanService.get_loan loan_id s = Py.Ok (Some (LoanService.LoanDoc l)) ->
     let s' := Mongo.delete_one k s in
     LoanService.SpecificLoan_delete loan_id s
     = (Py.Ok (LoanService.JString loan_id, 200), s')
     /\ LoanService.SpecificLoan_get loan_id s'
        = Py.Ok (LoanService.JError "Loan not found", 404)
     /\ on_loan (LoanService.l_ISBN l) s' = false
     /\ LoanService.loan_count_of_member (LoanService.l_memberName l) s'
        = LoanService.loan_count_of_member (LoanService.l_memberName l) s - 1
     /\ (forall k', k' <> k -> Mongo.find_one k' s' = Mongo.find_one k' s))
  /\ (LoanService.get_loan loan_id s = Py.Ok None ->
      LoanService.SpecificLoan_delete loan_id s
      = (Py.Ok (LoanService.JError "Loan not found", 404), s)).
Proof.
  intros Hwf [Hnd _] Hint. split.
  - intros l Hget s'.
    destruct (loans_wf_spec s Hwf) as [Hids _].
    unfold LoanService.get_loan in Hget. rewrite Hint in Hget.
    cbn [Py.bind] in Hget.
    destruct (Z.ltb_spec 0 k) as [Hk|Hk]; [|discriminate].
    injection Hget as Hfind.
    split; [|split; [|split; [|split]]].
    + unfold LoanService.SpecificLoan_delete, LoanService.get_loan,
        LoanService.delete_loan.
      eff. rewrite Hint. cbn [Py.bind]. cbv beta iota.
      replace (0 <? k) with true by (symmetry; now apply Z.ltb_lt).
      rewrite Hfind. reflexivity.
    + unfold LoanService.SpecificLoan_get, LoanService.get_loan.
      rewrite Hint. cbn [Py.bind].
      replace (0 <? k) with true by (symmetry; now apply Z.ltb_lt).
      subst s'. now rewrite find_one_delete_same.
    + destruct (delete_one_found k s _ Hfind) as (c1 & c2 & Hs & Hdel).
      subst s'. rewrite Hdel.
      destruct (on_loan (LoanService.l_ISBN l) (c1 ++ c2)) eqn:E; [|reflexivity].
      apply on_loan_In in E. rewrite loan_ISBNs_flat_map in *.
      rewrite Hs in Hnd. rewrite flat_map_app in *. cbn [flat_map] in Hnd.
      unfold isbn_of at 2 in Hnd. cbn [fst snd] in Hnd.
      replace (0 <? k) with true in Hnd by (symmetry; now apply Z.ltb_lt).
      cbn [app] in Hnd. apply NoDup_remove_2 in Hnd. contradiction.
    + destruct (delete_one_found k s _ Hfind) as (c1 & c2 & Hs & Hdel).
      subst s'. rewrite Hdel. unfold LoanService.loan_count_of_member.
      rewrite Hs, !filter_app, !length_app.
      cbn [filter snd LoanService.member_matches].
      rewrite (proj2 (Py_eqb_eq _ _) eq_refl). cbn [List.length]. lia.
    + intros k' Hne. subst s'. now apply find_one_delete_other.
  - intros Hget. unfold LoanService.SpecificLoan_delete, Eff.bind, Eff.read.
    now rewrite Hget.
Qed.

Lemma loan_delete_returns_witness :
  LoanService.SpecificLoan_delete "1" sample_loans
  = (Py.Ok (LoanService.JString "1", 200), Mongo.delete_one 1 sample_loans)
  /\ LoanService.SpecificLoan_get "1" (Mongo.delete_one 1 sample_loans)
     = Py.Ok (LoanService.JError "Loan not found", 404)
  /\ on_loan (Py.PStr "9780134685991") (Mongo.delete_one 1 sample_loans) = false.
Proof.
  assert (Hlim : loans_limits sample_loans).
  { split.
    - repeat constructor; simpl; intuition discriminate.
    - intros member. unfold LoanService.loan_count_of_member, sample_loans.
      cbn [filter snd LoanService.member_matches sample_loan
           LoanService.l_memberName].
      destruct member as [|z|m]; cbn [Py.eqb]; try (cbn; lia).
      destruct (String.eqb "Dana" m); cbn [List.length]; lia. }
  destruct (proj1 (loan_delete_returns "1" 1 sample_loans eq_refl Hlim eq_refl)
              (sample_loan "1" "9780134685991") eq_refl)
    as (Hdel & Hget & Hfree & _).
  repeat split; assumption.
Defined.

(** *** The list of loans *)

Lemma loan_field_supported field l :
  BookService.str_in field LoanService.REQUIRED_FIELDS = true ->
  exists v, LoanService.loan_field field (LoanService.LoanDoc l) = Py.Ok v.
Proof.
  unfold BookService.str_in, LoanService.REQUIRED_FIELDS,
    LoanService.loan_field. simpl existsb.
  intros H.
  repeat match goal with
         | |- context [String.eqb field ?x] =>
             destruct (String.eqb field x); [eauto|]
         end.
  discriminate.
Qed.

Lemma loan_select_filter field value l :
  (forall d, In d l -> exists x, d = LoanService.LoanDoc x) ->
  BookService.str_in field LoanService.REQUIRED_FIELDS = true ->
  LoanService.select field value l
  = Py.Ok (filter (fun d => loan_meets d (field, value)) l).
Proof.
  intros Hall Hf. induction l as [|d l IH]; [reflexivity|].
  destruct (Hall d (in_eq _ _)) as (x & ->).
  destruct (loan_field_supported field x Hf) as (v & Hv).
  assert (Hm : loan_meets (LoanService.LoanDoc x) (field, value)
               = Py.eqb v (Py.PStr value)).
  { unfold loan_meets. cbn [fst snd]. now rewrite Hv. }
  cbn [LoanService.select filter]. rewrite Hv, IH, Hm; [reflexivity|].
  intros d Hd. apply Hall. now right.
Qed.

Lemma Loans_get_loop_spec params :
  forall l,
    (forall d, In d l -> exists x, d = LoanService.LoanDoc x) ->
    (existsb loan_param_refused params = true ->
     LoanService.Loans_get_loop params l
     = Py.Ok (LoanService.JError
                "Unprocessable content - check validity of fields", 422))
    /\ (existsb loan_param_refused params = false ->
        LoanService.Loans_get_loop params l
        = Py.Ok (LoanService.JLoans
                   (filter (fun d => forallb (loan_meets d) params) l), 200)).
Proof.
  induction params as [|[field value] params IH]; intros l Hall.
  - split; [discriminate|]. intros _. simpl forallb. now rewrite filter_all.
  - cbn [LoanService.Loans_get_loop existsb]. unfold loan_param_refused at 1 3.
    cbn [fst].
    destruct (negb (BookService.str_in field LoanService.REQUIRED_FIELDS)) eqn:E1.
    + split; [reflexivity | discriminate].
    + apply negb_false_iff in E1. cbn [orb].
      rewrite (loan_select_filter field value l Hall E1). cbn [Py.bind].
      destruct (IH (filter (fun d => loan_meets d (field, value)) l))
        as [IHe IHo].
      { intros d Hd. apply filter_In in Hd. now apply Hall. }
      split; [exact IHe|]. intros Hok. rewrite (IHo Hok).
      rewrite filter_filter. reflexivity.
Qed.

(** X13. The parameters of GET /loans are the pairs [items()] yields:
    one for each key of the query string, with the first value given for
    it.  The request is refused with 422 when one of them names anything
    but the six fields of a loan; otherwise it is answered 200 with
    exactly the loans whose field is the string of the query, for every
    parameter.  The counter document is never part of the answer. *)
Theorem loan_list_filter (params : Flask.args) (s : LoanService.store) :
  loans_wf s = true ->
  (existsb loan_param_refused (Flask.items params) = true ->
   LoanService.Loans_get params s
   = Py.Ok (LoanService.JError
              "Unprocessable content - check validity of fields", 422))
  /\ (existsb loan_param_refused (Flask.items params) = false ->
      LoanService.Loans_get params s
      = Py.Ok (LoanService.JLoans
                 (filter (fun d => forallb (loan_meets d) (Flask.items params))
                    (LoanService.get_loans s)), 200))
  /\ (forall d, In d (LoanService.get_loans s) ->
        exists k l, d = LoanService.LoanDoc l /\ 0 < k /\ In (k, d) s)
  /\ (forall key value,
        In (key, value) (Flask.items params)
        <-> find (fun p => String.eqb (fst p) key) params = Some (key, value)).
Proof.
  intros Hwf. destruct (loans_wf_spec s Hwf) as [_ Hloans].
  unfold LoanService.Loans_get.
  destruct (Loans_get_loop_spec (Flask.items params)
              (LoanService.get_loans s) Hloans) as [H1 H2].
  split; [exact H1|]. split; [exact H2|]. split.
  - intros d Hd. destruct (Hloans d Hd) as (l & ->).
    apply find_gt0_In in Hd. destruct Hd as (k & Hk & Hin).
    exists k, l. repeat split; [lia | exact Hin].
  - intros key value. apply items_from_first. intros [].
Qed.

Lemma loan_list_filter_witness :
  LoanService.Loans_get [("memberName", "Dana"); ("ISBN", "9780262033848")]
    sample_loans
  = Py.Ok (LoanService.JLoans
             [LoanService.LoanDoc (sample_loan "2" "9780262033848")], 200)
  /\ LoanService.Loans_get
       [("ISBN", "9780262033848"); ("ISBN", "9780134685991")] sample_loans
     = Py.Ok (LoanService.JLoans
                [LoanService.LoanDoc (sample_loan "2" "9780262033848")], 200).
Proof.
  split.
  - exact (proj1 (proj2 (loan_list_filter
                           [("memberName", "Dana"); ("ISBN", "9780262033848")]
                           sample_loans eq_refl)) eq_refl).
  - exact (proj1 (proj2 (loan_list_filter
                           [("ISBN", "9780262033848"); ("ISBN", "9780134685991")]
                           sample_loans eq_refl)) eq_refl).
Defined.

(** *** An answer of the catalog the handler cannot use *)

(** X14. When the catalog answers an accepted loan request with status
    200 and an array that is not empty (several books carry the ISBN),
    POST /loans ends in [TypeError]; with an object that lacks [id] or
    [title] it ends in [KeyError].  In both cases the identifier has
    been taken from the counter already and no loan is stored. *)
Theorem loan_post_unusable_answer (answer : Py.val -> LoanService.Response)
  (p : Py.dict) (s : LoanService.store) (h : Z) (member : Py.val)
  (isbn date : string) :
  loans_numbered s = true ->
  Interleaving.loan_fetch s = Py.Ok h ->
  LoanService.validate_loan_addition p s = Py.Ok None ->
  Py.get "memberName" p = Some member ->
  Py.get "ISBN" p = Some (Py.PStr isbn) ->
  Py.get "loanDate" p = Some (Py.PStr date) ->
  LoanService.status_code (answer (Py.PStr isbn)) = 200 ->
  (forall x l,
     LoanService.json (answer (Py.PStr isbn))
     = Py.Ok (LoanService.BList (x :: l)) ->
     LoanService.Loans_post answer p s
     = (Py.Raise Py.TypeError, Interleaving.loan_set (h + 1) s))
  /\ (forall d,
        LoanService.json (answer (Py.PStr isbn)) = Py.Ok (LoanService.BObj d) ->
        d <> [] ->
        Py.get "id" d = None \/ Py.get "title" d = None ->
        LoanService.Loans_post answer p s
        = (Py.Raise Py.KeyError, Interleaving.loan_set (h + 1) s))
  /\ Interleaving.loan_fetch (Interleaving.loan_set (h + 1) s) = Py.Ok (h + 1)
  /\ LoanService.get_loans (Interleaving.loan_set (h + 1) s)
     = LoanService.get_loans s.
Proof.
  intros Hnum Hf Hv Hm Hi Hd Hstatus.
  pose proof (Loans_post_validated answer p s h member isbn date Hnum Hf Hv Hm Hi Hd)
    as Hpost.
  cbv zeta in Hpost. rewrite Hstatus in Hpost.
  split; [|split; [|split]].
  - intros x l Hjson. rewrite Hjson in Hpost.
    cbn [LoanService.body_len LoanService.body_item List.length] in Hpost.
    replace (Z.of_nat (S (List.length l)) =? 0) with false in Hpost
      by (symmetry; apply Z.eqb_neq; lia).
    exact Hpost.
  - intros d Hjson Hne Hmiss. rewrite Hjson in Hpost.
    cbn [LoanService.body_len LoanService.body_item] in Hpost.
    replace (Z.of_nat (List.length d) =? 0) with false in Hpost.
    2:{ symmetry. apply Z.eqb_neq. destruct d; [contradiction | cbn; lia]. }
    cbn [Z.eqb Pos.eqb negb orb] in Hpost.
    unfold Py.item in Hpost.
    destruct (Py.get "id" d) as [bookID|]; [|exact Hpost].
    destruct Hmiss as [Hmiss|Hmiss]; [discriminate|].
    now rewrite Hmiss in Hpost.
  - now apply (loan_fetch_set s h).
  - unfold LoanService.get_loans, Mongo.find_gt0, Interleaving.loan_set. f_equal.
    clear. induction s as [|[k d] s IH]; [reflexivity|].
    cbn [Mongo.update_one]. destruct (Z.eqb_spec 0 k) as [<-|Hne].
    + reflexivity.
    + cbn [filter fst]. now rewrite IH.
Qed.

Lemma loan_post_unusable_answer_witness :
  let two := fun _ : Py.val =>
               LoanService.mkResponse 200
                 (Py.Ok (LoanService.BList
                           [[("id", Py.PStr "1")]; [("id", Py.PStr "2")]])) in
  LoanService.Loans_post two
    (loan_request (Py.PStr "Dana") "9780134685991" "2024-02-29")
    (LoanService.startup [])
  = (Py.Raise Py.TypeError, [(0, LoanService.Counter 1)]).
Proof.
  intros two.
  exact (proj1 (loan_post_unusable_answer two
                  (loan_request (Py.PStr "Dana") "9780134685991" "2024-02-29")
                  (LoanService.startup []) 0 (Py.PStr "Dana") "9780134685991"
                  "2024-02-29" eq_refl eq_refl eq_refl eq_refl eq_refl eq_refl
                  eq_refl)
           [("id", Py.PStr "1")] [[("id", Py.PStr "2")]] eq_refl).
Defined.

(** *** The loan service in front of the catalog *)

Lemma Books_get_by_ISBN (c : BookService.store) (isbn : string) :
  catalog_wf c = true ->
  BookService.Books_get [("ISBN", isbn)] c
  = Py.Ok (one_or_list (filter (fun d => meets d ("ISBN", isbn))
                          (BookService.get_books c)), 200).
Proof.
  intros Hwf. unfold BookService.Books_get.
  change (Flask.items [("ISBN", isbn)]) with [("ISBN", isbn)].
  destruct (Books_get_loop_spec [("ISBN", isbn)] (BookService.get_books c)
              (get_books_all_books c Hwf)) as [_ H].
  rewrite H by reflexivity. do 3 f_equal.
  apply filter_ext. intros d. cbn [forallb]. apply andb_true_r.
Qed.

(** X15. The two services together.  When the answer the loan service
    receives is what GET /books?ISBN=... of the catalog sends for the
    ISBN of an accepted loan request, the outcome follows the number of
    books of the catalog with that ISBN: none, 404 and nothing stored;
    one, 201 and a loan that copies the [id] and [title] of that book;
    several, [TypeError] after the identifier has been taken. *)
Theorem loan_against_catalog (c : BookService.store)
  (answer : Py.val -> LoanService.Response) (p : Py.dict)
  (s : LoanService.store) (h : Z) (member : Py.val) (isbn date : string)
  (b : BookService.body) (status : Z) :
  catalog_wf c = true ->
  loans_numbered s = true ->
  Interleaving.loan_fetch s = Py.Ok h ->
  LoanService.validate_loan_addition p s = Py.Ok None ->
  Py.get "memberName" p = Some member ->
  Py.get "ISBN" p = Some (Py.PStr isbn) ->
  Py.get "loanDate" p = Some (Py.PStr date) ->
  BookService.Books_get [("ISBN", isbn)] c = Py.Ok (b, status) ->
  LoanService.status_code (answer (Py.PStr isbn)) = status ->
  option_map Py.Ok (decoded b)
  = Some (LoanService.json (answer (Py.PStr isbn))) ->
  LoanService.Loans_post answer p s
  = match filter (fun d => meets d ("ISBN", isbn)) (BookService.get_books c) with
    | [] => (Py.Ok (LoanService.JError "book not found in the library", 404), s)
    | [BookService.BookDoc x] =>
        (Py.Ok (LoanService.JLoanID (Py.str (h + 1)), 201),
         Interleaving.loan_set (h + 1) s
         ++ [(h + 1, LoanService.LoanDoc
                       (LoanService.mkLoan (Py.str (h + 1))
                          (Py.PStr (BookService.b_id x))
                          (Py.PStr (BookService.b_title x))
                          (Py.PStr isbn) member (Py.PStr date)))])
    | _ => (Py.Raise Py.TypeError, Interleaving.loan_set (h + 1) s)
    end.
Proof.
  intros Hwf Hnum Hf Hv Hm Hi Hd Hget Hstatus Hbody.
  rewrite (Books_get_by_ISBN c isbn Hwf) in Hget.
  injection Hget as <- <-.
  pose proof (Forall_filter_keeps _ (fun d => meets d ("ISBN", isbn)) _
                (get_books_all_books c Hwf)) as Hall.
  rewrite (Loans_post_validated answer p s h member isbn date Hnum Hf Hv Hm Hi Hd).
  cbv zeta. rewrite Hstatus.
  destruct (filter (fun d => meets d ("ISBN", isbn)) (BookService.get_books c))
    as [|d1 [|d2 l]].
  - cbn [one_or_list decoded map option_map] in Hbody.
    injection Hbody as <-. reflexivity.
  - inversion Hall as [|? ? [x ->] _]; subst.
    cbn [one_or_list decoded book_json option_map] in Hbody.
    injection Hbody as <-. reflexivity.
  - cbn [one_or_list decoded map option_map] in Hbody. injection Hbody as <-.
    cbn [LoanService.body_len LoanService.body_item List.length].
    replace (Z.of_nat (S (S (List.length (map book_json l)))) =? 0) with false
      by (symmetry; apply Z.eqb_neq; lia).
    destruct d1; reflexivity.
Qed.

Lemma loan_against_catalog_witness :
  let answer := fun _ : Py.val =>
    LoanService.mkResponse 200
      (Py.Ok (LoanService.BList
                (map book_json
                   (filter (fun d => meets d ("ISBN", "9780134685991"))
                      (BookService.get_books shared_ISBN_catalog))))) in
  LoanService.Loans_post answer
    (loan_request (Py.PStr "Dana") "9780134685991" "2024-02-29")
    (LoanService.startup [])
  = (Py.Raise Py.TypeError, [(0, LoanService.Counter 1)]).
Proof.
  intros answer.
  exact (loan_against_catalog shared_ISBN_catalog answer
           (loan_request (Py.PStr "Dana") "9780134685991" "2024-02-29")
           (LoanService.startup []) 0 (Py.PStr "Dana") "9780134685991"
           "2024-02-29" _ 200 eq_refl eq_refl eq_refl eq_refl eq_refl eq_refl
           eq_refl eq_refl eq_refl eq_refl).
Defined.

(** *** The loan date *)

Lemma is_digit_cases (c : ascii) :
  Py.is_digit c = true ->
  In c ["0"; "1"; "2"; "3"; "4"; "5"; "6"; "7"; "8"; "9"]%char.
Proof.
  destruct c as [[] [] [] [] [] [] [] []]; cbn; intros H;
    try discriminate H; auto 12.
Qed.

Lemma digit_val_char (c : ascii) :
  Py.is_digit c = true ->
  0 <= Py.digit_val c <= 9 /\ digit_char (Py.digit_val c) = c.
Proof.
  intros H. apply is_digit_cases in H.
  repeat (destruct H as [<-|H]; [split; [cbv; split; discriminate | reflexivity]|]).
  destruct H.
Qed.

Lemma digit_char_val (n : Z) :
  0 <= n <= 9 ->
  Py.is_digit (digit_char n) = true /\ Py.digit_val (digit_char n) = n.
Proof.
  intros H.
  assert (E : n = Z.of_nat (Z.to_nat n)) by lia.
  assert (B : (Z.to_nat n <= 9)%nat) by lia.
  revert E B. generalize (Z.to_nat n) as m. intros m -> B.
  do 10 (destruct m as [|m]; [split; reflexivity|]). lia.
Qed.

Lemma decimal_4 (a b c d : Z) :
  0 <= a <= 9 -> 0 <= b <= 9 -> 0 <= c <= 9 -> 0 <= d <= 9 ->
  let y := 1000 * a + 100 * b + 10 * c + d in
  y / 1000 = a /\ y / 100 mod 10 = b /\ y / 10 mod 10 = c /\ y mod 10 = d.
Proof.
  intros Ha Hb Hc Hd y. subst y.
  repeat split; Z.to_euclidean_division_equations; lia.
Qed.

Ltac digit_cases H :=
  apply is_digit_cases in H;
  repeat (destruct H as [<-|H]; [|]); [.. | destruct H].

(** [%m] in front of a hyphen: two digits that denote a month. *)
Lemma month_then_hyphen (a b : ascii) (r : list ascii) :
  Py.is_digit a = true -> Py.is_digit b = true ->
  let m := 10 * Py.digit_val a + Py.digit_val b in
  filter (fun mr => match snd mr with
                    | c :: r' => Ascii.eqb c "-"
                                 && negb (match LoanService.day_alternatives r' with
                                          | [] => true | _ => false end)
                    | [] => false
                    end) (LoanService.month_alternatives (a :: b :: "-"%char :: r))
  = if (1 <=? m) && (m <=? 12)
       && negb (match LoanService.day_alternatives r with
                | [] => true | _ => false end)
    then [(m, "-"%char :: r)] else [].
Proof.
  intros Ha Hb. digit_cases Ha; digit_cases Hb;
    cbv -[LoanService.day_alternatives];
    destruct (LoanService.day_alternatives r); reflexivity.
Qed.

(** [%d] at the end of the string: two digits that denote a day. *)
Lemma day_at_end (a b : ascii) (y m : Z) :
  Py.is_digit a = true -> Py.is_digit b = true ->
  let d := 10 * Py.digit_val a + Py.digit_val b in
  negb (match LoanService.day_alternatives [a; b] with
        | [] => true | _ => false end)
  && match LoanService.day_alternatives [a; b] with
     | (dd, []) :: _ => LoanService.valid_ymd y m dd
     | _ => false
     end
  = (1 <=? d) && (d <=? 31) && LoanService.valid_ymd y m d.
Proof.
  intros Ha Hb. digit_cases Ha; digit_cases Hb;
    cbv -[LoanService.valid_ymd]; reflexivity.
Qed.

(** [%d] followed by anything: the format does not reach the end. *)
Lemma day_not_at_end (a b c : ascii) (r : list ascii) (y m : Z) :
  match LoanService.day_alternatives (a :: b :: c :: r) with
  | (dd, []) :: _ => LoanService.valid_ymd y m dd
  | _ => false
  end = false.
Proof.
  unfold LoanService.day_alternatives.
  repeat match goal with
         | |- context [if ?x then _ else _] => destruct x
         end; reflexivity.
Qed.

Lemma valid_ymd_ranges (y m d : Z) :
  LoanService.valid_ymd y m d = true ->
  1 <= y <= 9999 /\ 1 <= m <= 12 /\ 1 <= d <= 31.
Proof.
  unfold LoanService.valid_ymd, LoanService.days_in_month. intros H. bools.
  repeat split; try lia.
  destruct (m =? 2); [destruct (LoanService.is_leap y); lia|].
  destruct ((m =? 4) || (m =? 6) || (m =? 9) || (m =? 11)); lia.
Qed.

Lemma four_two_two_digits (l : list ascii) :
  LoanService.four_two_two l = true ->
  exists y1 y2 y3 y4 m1 m2 d1 d2,
    l = [y1; y2; y3; y4; "-"; m1; m2; "-"; d1; d2]%char
    /\ Py.is_digit y1 = true /\ Py.is_digit y2 = true
    /\ Py.is_digit y3 = true /\ Py.is_digit y4 = true
    /\ Py.is_digit m1 = true /\ Py.is_digit m2 = true
    /\ Py.is_digit d1 = true /\ Py.is_digit d2 = true.
Proof.
  unfold LoanService.four_two_two.
  destruct l as [|y1 [|y2 [|y3 [|y4 [|s1 [|m1 [|m2 [|s2 [|d1 [|d2 [|x l]]]]]]]]]]];
    try discriminate.
  intros H. repeat (apply andb_prop in H; destruct H as [H ?]).
  repeat match goal with
         | E : Ascii.eqb _ _ = true |- _ => apply Ascii.eqb_eq in E; subst
         end.
  exists y1, y2, y3, y4, m1, m2, d1, d2. repeat split; try assumption.
  unfold Py.is_digit. cbv zeta. now rewrite H, H9.
Qed.

(** On a string of the form dddd-dd-dd, [strptime] succeeds exactly
    when the three numbers are a date. *)
Lemma strptime_ok_four_two_two (y1 y2 y3 y4 m1 m2 d1 d2 : ascii) :
  Py.is_digit y1 = true -> Py.is_digit y2 = true ->
  Py.is_digit y3 = true -> Py.is_digit y4 = true ->
  Py.is_digit m1 = true -> Py.is_digit m2 = true ->
  Py.is_digit d1 = true -> Py.is_digit d2 = true ->
  let v := Py.digit_val in
  LoanService.strptime_ok
    (string_of_list_ascii [y1; y2; y3; y4; "-"; m1; m2; "-"; d1; d2]%char)
  = LoanService.valid_ymd (1000 * v y1 + 100 * v y2 + 10 * v y3 + v y4)
      (10 * v m1 + v m2) (10 * v d1 + v d2).
Proof.
  intros Hy1 Hy2 Hy3 Hy4 Hm1 Hm2 Hd1 Hd2 v. subst v.
  unfold LoanService.strptime_ok.
  rewrite list_ascii_of_string_of_list_ascii.
  rewrite Hy1, Hy2, Hy3, Hy4. cbn [andb Ascii.eqb Bool.eqb].
  rewrite (month_then_hyphen m1 m2 [d1; d2] Hm1 Hm2). cbv zeta.
  set (y := 1000 * Py.digit_val y1 + 100 * Py.digit_val y2
            + 10 * Py.digit_val y3 + Py.digit_val y4).
  set (m := 10 * Py.digit_val m1 + Py.digit_val m2).
  pose proof (day_at_end d1 d2 y m Hd1 Hd2) as Hday. cbv zeta in Hday.
  set (d := 10 * Py.digit_val d1 + Py.digit_val d2) in *.
  destruct (LoanService.valid_ymd y m d) eqn:Hvalid.
  - destruct (valid_ymd_ranges y m d Hvalid) as (_ & Hm & Hd).
    replace ((1 <=? m) && (m <=? 12)) with true
      by (symmetry; apply andb_true_intro; split; apply Z.leb_le; lia).
    replace ((1 <=? d) && (d <=? 31)) with true in Hday
      by (symmetry; apply andb_true_intro; split; apply Z.leb_le; lia).
    cbn [andb] in *. apply andb_prop in Hday. destruct Hday as [Hne Hlast].
    rewrite Hne. exact Hlast.
  - rewrite andb_false_r in Hday.
    destruct ((1 <=? m) && (m <=? 12)); cbn [andb]; [|reflexivity].
    destruct (negb match LoanService.day_alternatives [d1; d2] with
                   | [] => true | _ => false end); [|reflexivity].
    exact Hday.
Qed.

Lemma strptime_ok_trailing (y1 y2 y3 y4 m1 m2 d1 d2 c : ascii) :
  Py.is_digit m1 = true -> Py.is_digit m2 = true ->
  LoanService.strptime_ok
    (string_of_list_ascii [y1; y2; y3; y4; "-"; m1; m2; "-"; d1; d2; c]%char)
  = false.
Proof.
  intros Hm1 Hm2. unfold LoanService.strptime_ok.
  rewrite list_ascii_of_string_of_list_ascii.
  destruct (Py.is_digit y1 && Py.is_digit y2 && Py.is_digit y3 && Py.is_digit y4
            && Ascii.eqb "-" "-"); [|reflexivity].
  rewrite (month_then_hyphen m1 m2 [d1; d2; c] Hm1 Hm2). cbv zeta.
  match goal with |- context [if ?x then _ else _] => destruct x end;
    [|reflexivity].
  apply day_not_at_end.
Qed.

(** X16. Of the loan dates made of ASCII characters, the date gate
    of a loan request lets through exactly the ten-character forms
    YYYY-MM-DD of the dates of the calendar, from year 1 to year 9999.
    Each check alone lets more through: the pattern accepts a final line
    feed and any digits, the parser accepts a month or a day of one
    digit. *)
Theorem loan_date_gate (date : string) :
  ascii_only date = true ->
  (valid_date date = true <->
   exists y m d, LoanService.valid_ymd y m d = true /\ date = iso_date y m d)
  /\ LoanService.date_pattern_match (iso_date 2023 2 30 ++ String "010" "")%string
     = true
  /\ LoanService.date_pattern_match "2023-02-30" = true
  /\ LoanService.strptime_ok "2024-2-9" = true.
Proof.
  intros _. split; [|repeat split]. split.
  - unfold valid_date. intros H. apply andb_prop in H. destruct H as [Hpat Hstrp].
    unfold LoanService.date_pattern_match in Hpat.
    apply orb_prop in Hpat. destruct Hpat as [Hpat|Hpat].
    + destruct (four_two_two_digits _ Hpat)
        as (y1 & y2 & y3 & y4 & m1 & m2 & d1 & d2 & Hl
            & Hy1 & Hy2 & Hy3 & Hy4 & Hm1 & Hm2 & Hd1 & Hd2).
      assert (Hs : date = string_of_list_ascii
                            [y1; y2; y3; y4; "-"; m1; m2; "-"; d1; d2]%char).
      { rewrite <- Hl. symmetry. apply string_of_list_ascii_of_string. }
      rewrite Hs in Hstrp.
      rewrite (strptime_ok_four_two_two y1 y2 y3 y4 m1 m2 d1 d2) in Hstrp by assumption.
      cbv zeta in Hstrp.
      destruct (digit_val_char y1 Hy1) as [By1 Cy1].
      destruct (digit_val_char y2 Hy2) as [By2 Cy2].
      destruct (digit_val_char y3 Hy3) as [By3 Cy3].
      destruct (digit_val_char y4 Hy4) as [By4 Cy4].
      destruct (digit_val_char m1 Hm1) as [Bm1 Cm1].
      destruct (digit_val_char m2 Hm2) as [Bm2 Cm2].
      destruct (digit_val_char d1 Hd1) as [Bd1 Cd1].
      destruct (digit_val_char d2 Hd2) as [Bd2 Cd2].
      eexists _, _, _. split; [exact Hstrp|].
      rewrite Hs. unfold iso_date.
      destruct (decimal_4 _ _ _ _ By1 By2 By3 By4) as (-> & -> & -> & ->).
      replace ((10 * Py.digit_val m1 + Py.digit_val m2) / 10)
        with (Py.digit_val m1) by (Z.to_euclidean_division_equations; lia).
      replace ((10 * Py.digit_val m1 + Py.digit_val m2) mod 10)
        with (Py.digit_val m2) by (Z.to_euclidean_division_equations; lia).
      replace ((10 * Py.digit_val d1 + Py.digit_val d2) / 10)
        with (Py.digit_val d1) by (Z.to_euclidean_division_equations; lia).
      replace ((10 * Py.digit_val d1 + Py.digit_val d2) mod 10)
        with (Py.digit_val d2) by (Z.to_euclidean_division_equations; lia).
      now rewrite Cy1, Cy2, Cy3, Cy4, Cm1, Cm2, Cd1, Cd2.
    + destruct (rev (list_ascii_of_string date)) as [|c r] eqn:Hrev;
        [discriminate|].
      apply andb_prop in Hpat. destruct Hpat as [_ Hpat].
      destruct (four_two_two_digits _ Hpat)
        as (y1 & y2 & y3 & y4 & m1 & m2 & d1 & d2 & Hl
            & _ & _ & _ & _ & Hm1 & Hm2 & _ & _).
      assert (Hs : date = string_of_list_ascii
                            [y1; y2; y3; y4; "-"; m1; m2; "-"; d1; d2; c]%char).
      { rewrite <- (string_of_list_ascii_of_string date).
        rewrite <- (rev_involutive (list_ascii_of_string date)), Hrev.
        cbn [rev]. now rewrite Hl. }
      rewrite Hs, (strptime_ok_trailing y1 y2 y3 y4 m1 m2 d1 d2 c Hm1 Hm2) in Hstrp.
      discriminate.
  - intros (y & m & d & Hvalid & ->).
    destruct (valid_ymd_ranges y m d Hvalid) as (Hy & Hm & Hd).
    assert (By1 : 0 <= y / 1000 <= 9) by (Z.to_euclidean_division_equations; lia).
    assert (By2 : 0 <= y / 100 mod 10 <= 9) by (Z.to_euclidean_division_equations; lia).
    assert (By3 : 0 <= y / 10 mod 10 <= 9) by (Z.to_euclidean_division_equations; lia).
    assert (By4 : 0 <= y mod 10 <= 9) by (Z.to_euclidean_division_equations; lia).
    assert (Bm1 : 0 <= m / 10 <= 9) by (Z.to_euclidean_division_equations; lia).
    assert (Bm2 : 0 <= m mod 10 <= 9) by (Z.to_euclidean_division_equations; lia).
    assert (Bd1 : 0 <= d / 10 <= 9) by (Z.to_euclidean_division_equations; lia).
    assert (Bd2 : 0 <= d mod 10 <= 9) by (Z.to_euclidean_division_equations; lia).
    destruct (digit_char_val _ By1) as [Dy1 Vy1].
    destruct (digit_char_val _ By2) as [Dy2 Vy2].
    destruct (digit_char_val _ By3) as [Dy3 Vy3].
    destruct (digit_char_val _ By4) as [Dy4 Vy4].
    destruct (digit_char_val _ Bm1) as [Dm1 Vm1].
    destruct (digit_char_val _ Bm2) as [Dm2 Vm2].
    destruct (digit_char_val _ Bd1) as [Dd1 Vd1].
    destruct (digit_char_val _ Bd2) as [Dd2 Vd2].
    unfold valid_date, iso_date. apply andb_true_intro. split.
    + unfold LoanService.date_pattern_match.
      rewrite list_ascii_of_string_of_list_ascii.
      apply orb_true_intro. left. unfold LoanService.four_two_two.
      now rewrite Dy1, Dy2, Dy3, Dy4, Dm1, Dm2, Dd1, Dd2.
    + rewrite strptime_ok_four_two_two by assumption. cbv zeta.
      rewrite Vy1, Vy2, Vy3, Vy4, Vm1, Vm2, Vd1, Vd2.
      replace (1000 * (y / 1000) + 100 * (y / 100 mod 10)
               + 10 * (y / 10 mod 10) + y mod 10) with y
        by (Z.to_euclidean_division_equations; lia).
      replace (10 * (m / 10) + m mod 10) with m
        by (Z.to_euclidean_division_equations; lia).
      replace (10 * (d / 10) + d mod 10) with d
        by (Z.to_euclidean_division_equations; lia).
      exact Hvalid.
Qed.

Lemma loan_date_gate_witness :
  valid_date "2024-02-29" = true
  /\ ~ exists y m d,
        LoanService.valid_ymd y m d = true /\ "2023-02-30" = iso_date y m d.
Proof.
  split.
  - apply (proj1 (loan_date_gate "2024-02-29" eq_refl)).
    exists 2024, 2, 29. split; reflexivity.
  - intros H.
    apply (proj1 (loan_date_gate "2023-02-30" eq_refl)) in H.
    discriminate H.
Defined.

(* ================================================================= *)
(** ** Further properties of the first iteration                     *)
(* ================================================================= *)

Lemma handle_club_inv (q : club_request) (st : BookClub.state) :
  club_inv st -> club_inv (snd (handle_club q st)).
Proof.
  intros Hinv. destruct q as [p e|book_id|book_id p]; cbn [handle_club].
  - now apply club_post_inv.
  - pose proof (club_delete_inv book_id st Hinv) as H.
    destruct (BookClub.SpecificBook_delete book_id st). exact H.
  - now apply club_rate_inv.
Qed.

(** X17. The requests of the first iteration keep its state in shape:
    the identifiers of the books, and those of the ratings, are decimal
    forms of numbers between 1 and the counter and are not repeated,
    every book has a rating under its identifier, and every rating has
    values within 1..5 and their mean (0 when there is none) as
    average. *)
Theorem club_requests_keep_shape (qs : list club_request) (st : BookClub.state) :
  club_inv st -> club_inv (serve_club qs st).
Proof.
  revert st. induction qs as [|q qs IH]; intros st Hinv; [exact Hinv|].
  cbn [serve_club fold_left]. apply IH. now apply handle_club_inv.
Qed.

Lemma club_requests_keep_shape_witness :
  club_inv (serve_club club_session unrated_club)
  /\ map BookClub.b_id (BookClub.books (serve_club club_session unrated_club))
     = ["2"]
  /\ map (fun r => (BookClub.r_id r, BookClub.r_values r))
       (BookClub.bookRatings (serve_club club_session unrated_club))
     = [("2", [4])]
  /\ BookClub.ID (serve_club club_session unrated_club) = 2.
Proof.
  split; [|repeat split].
  apply (club_requests_keep_shape club_session unrated_club).
  unfold club_inv, unrated_club. simpl.
  repeat split; try (repeat constructor; simpl; tauto); try lia.
  - intros b [<-|[]]. exists 1. split; [lia | reflexivity].
  - destruct H as [<-|[]]. exists 1. split; [lia | reflexivity].
  - destruct H as [<-|[]]. reflexivity.
  - intros b [<-|[]]. eexists. split; [now left | reflexivity].
Defined.

(** *** Deletion of a book *)

Lemma find_app_skip {A : Type} (p : A -> bool) (l1 l2 : list A) (x : A) :
  p x = false -> find p (l1 ++ x :: l2) = find p (l1 ++ l2).
Proof.
  intros Hx. induction l1 as [|y l1 IH]; cbn [app find].
  - now rewrite Hx.
  - destruct (p y); [reflexivity | exact IH].
Qed.

Lemma find_none_all {A : Type} (p : A -> bool) (l : list A) :
  (forall x, In x l -> p x = false) -> find p l = None.
Proof.
  induction l as [|y l IH]; intros H; [reflexivity|]. cbn [find].
  rewrite (H y (in_eq _ _)). apply IH. intros x Hx. apply H. now right.
Qed.

(** The list after [remove]: the entry of this identifier is gone, the
    entries of the other identifiers are found as before. *)
Lemma remove_first_by_id {A : Type} (f : A -> string) (eqb : A -> bool)
  (l : list A) (x : A) :
  NoDup (map f l) -> In x l -> eqb x = true ->
  (forall y, eqb y = true -> f y = f x) ->
  find (fun y => String.eqb (f y) (f x)) (BookClub.remove_first eqb l) = None
  /\ (forall i, i <> f x ->
        find (fun y => String.eqb (f y) i) (BookClub.remove_first eqb l)
        = find (fun y => String.eqb (f y) i) l)
  /\ (forall y, In y (BookClub.remove_first eqb l) -> In y l).
Proof.
  intros Hnd Hin Hx Hid.
  destruct (remove_first_split eqb l) as (l1 & z & l2 & Hsplit & Hz & Hrem).
  { now exists x. }
  rewrite Hrem. rewrite Hsplit in Hnd. apply NoDup_map_remove in Hnd.
  destruct Hnd as [_ Hother]. rewrite (Hid z Hz) in Hother.
  split; [|split].
  - apply find_none_all. intros y Hy. apply String.eqb_neq. now apply Hother.
  - intros i Hi. rewrite Hsplit. symmetry. apply find_app_skip.
    apply String.eqb_neq. rewrite (Hid z Hz). congruence.
  - intros y Hy. rewrite Hsplit. apply in_app_or in Hy. apply in_or_app.
    destruct Hy; [now left | right; now right].
Qed.

(** X18. In the first iteration DELETE /books/{id} on a book that is
    there answers 200 with the identifier and removes the book and its
    rating: both are then not found, while the books and ratings of the
    other identifiers, and the counter, stay.  On an identifier that is
    not there it answers 404 and changes nothing. *)
Theorem club_delete_cascades (book_id : string) (st : BookClub.state) :
  club_inv st ->
  (forall book,
     BookClub.get_book book_id st = Some book ->
     let st' := snd (BookClub.SpecificBook_delete book_id st) in
     fst (BookClub.SpecificBook_delete book_id st) = (BookClub.JString book_id, 200)
     /\ BookClub.SpecificBook_get book_id st'
        = (BookClub.JError "Book not found", 404)
     /\ BookClub.SpecificRatings_get book_id st' = (None, 404)
     /\ BookClub.ID st' = BookClub.ID st
     /\ forall i, i <> book_id ->
          BookClub.get_book i st' = BookClub.get_book i st
          /\ BookClub.get_book_rating i st' = BookClub.get_book_rating i st)
  /\ (BookClub.get_book book_id st = None ->
      BookClub.SpecificBook_delete book_id st
      = ((BookClub.JError "Book not found", 404), st)).
Proof.
  intros (HID & Hndb & Hndr & Hb & Hr & Hbr). split.
  2:{ intros Hnone. unfold BookClub.SpecificBook_delete. now rewrite Hnone. }
  intros book Hget st'. subst st'.
  unfold BookClub.SpecificBook_delete. rewrite Hget. cbn [fst snd].
  unfold BookClub.delete_book. rewrite Hget.
  pose proof Hget as Hfound. unfold BookClub.get_book in Hfound.
  apply find_some in Hfound. destruct Hfound as [Hbook Hbid].
  apply String.eqb_eq in Hbid.
  destruct (remove_first_by_id BookClub.b_id (BookClub.Book_eqb book)
              (BookClub.books st) book Hndb Hbook (club_Book_eqb_refl book))
    as (Hgone & Hkept & _).
  { intros y Hy. now apply club_Book_eqb_id in Hy. }
  rewrite Hbid in Hgone.
  destruct (Hbr book Hbook) as (r0 & Hr0 & Hr0id).
  unfold BookClub.delete_book_rating, BookClub.get_book_rating.
  cbn [BookClub.bookRatings BookClub.books BookClub.ID].
  destruct (find (fun rating => String.eqb (BookClub.r_id rating) book_id)
              (BookClub.bookRatings st)) as [rating|] eqn:Hfind.
  2:{ exfalso. apply (find_none _ _ Hfind) in Hr0. cbv beta in Hr0.
      rewrite Hr0id, Hbid, String.eqb_refl in Hr0. discriminate. }
  pose proof Hfind as Hfound. apply find_some in Hfound.
  destruct Hfound as [Hrating Hrid]. apply String.eqb_eq in Hrid.
  destruct (remove_first_by_id BookClub.r_id (BookClub.Rating_eqb rating)
              (BookClub.bookRatings st) rating Hndr Hrating
              (club_Rating_eqb_refl rating))
    as (Hgone' & Hkept' & _).
  { intros y Hy. now apply club_Rating_eqb_id in Hy. }
  rewrite Hrid in Hgone'.
  split; [reflexivity|]. split; [|split; [|split; [reflexivity|]]].
  - unfold BookClub.SpecificBook_get, BookClub.get_book.
    cbn [BookClub.books]. now rewrite Hgone.
  - unfold BookClub.SpecificRatings_get, BookClub.get_book_rating.
    cbn [BookClub.bookRatings]. now rewrite Hgone'.
  - intros i Hi. unfold BookClub.get_book, BookClub.get_book_rating.
    cbn [BookClub.books BookClub.bookRatings]. split.
    + apply Hkept. congruence.
    + apply Hkept'. congruence.
Qed.

Lemma club_delete_cascades_witness :
  fst (BookClub.SpecificBook_delete "1" unrated_club) = (BookClub.JString "1", 200)
  /\ BookClub.SpecificBook_get "1" (snd (BookClub.SpecificBook_delete "1" unrated_club))
     = (BookClub.JError "Book not found", 404)
  /\ BookClub.SpecificRatings_get "1"
       (snd (BookClub.SpecificBook_delete "1" unrated_club)) = (None, 404).
Proof.
  assert (Hinv : club_inv unrated_club).
  { unfold club_inv, unrated_club. simpl.
    repeat split; try (repeat constructor; simpl; tauto); try lia.
    - intros b [<-|[]]. exists 1. split; [lia | reflexivity].
    - destruct H as [<-|[]]. exists 1. split; [lia | reflexivity].
    - destruct H as [<-|[]]. reflexivity.
    - intros b [<-|[]]. eexists. split; [now left | reflexivity]. }
  destruct (proj1 (club_delete_cascades "1" unrated_club Hinv)
              (club_book "1" "Effective Java" ["eng"]) eq_refl)
    as (H1 & H2 & H3 & _).
  repeat split; assumption.
Defined.

(** *** Creation of a book *)

Lemma club_validate_book_addition_cases (p : Py.dict) (st : BookClub.state) :
  (BookClub.validate_book_addition p st = Py.Ok None
   /\ exists title isbn genre,
        Py.get "title" p = Some (Py.PStr title)
        /\ Py.get "ISBN" p = Some (Py.PStr isbn)
        /\ Py.get "genre" p = Some (Py.PStr genre)
        /\ String.length isbn = 13%nat
        /\ BookClub.str_in genre BookClub.GENRES = true
        /\ existsb (fun book => String.eqb (BookClub.b_ISBN book) isbn)
             (BookClub.books st) = false)
  \/ (exists msg,
        BookClub.validate_book_addition p st
        = Py.Ok (Some (BookClub.JError msg, 422))).
Proof.
  unfold BookClub.validate_book_addition.
  match goal with |- context [if negb ?c then _ else _] =>
    destruct c eqn:Hshape end; cbn [negb].
  2:{ right. eexists. reflexivity. }
  apply andb_prop in Hshape. destruct Hshape as [_ Hstr].
  cbn [firstn BookClub.REQUIRED_FIELDS forallb] in Hstr.
  repeat (apply andb_prop in Hstr; destruct Hstr as [? Hstr]).
  destruct (Py.get "title" p) as [[| |title]|]; try discriminate.
  destruct (Py.get "ISBN" p) as [[| |isbn]|] eqn:Hi; try discriminate.
  destruct (Py.get "genre" p) as [[| |genre]|] eqn:Hg; try discriminate.
  unfold Py.item. rewrite Hi, Hg. cbn [Py.bind Py.len].
  destruct (Z.of_nat (String.length isbn) =? 13) eqn:Hn; cbn [negb].
  2:{ right. eexists. reflexivity. }
  change (existsb (fun g => Py.eqb (Py.PStr genre) (Py.PStr g)) BookClub.GENRES)
    with (BookClub.str_in genre BookClub.GENRES).
  destruct (BookClub.str_in genre BookClub.GENRES) eqn:Hgenre; cbn [negb].
  2:{ right. eexists. reflexivity. }
  unfold BookClub.get_books. cbn [Py.eqb].
  destruct (existsb (fun book => String.eqb (BookClub.b_ISBN book) isbn)
              (BookClub.books st)) eqn:Hdup.
  - right. eexists. reflexivity.
  - left. split; [reflexivity|]. exists title, isbn, genre.
    repeat split; auto. apply Z.eqb_eq in Hn. lia.
Qed.

Lemma club_Books_post_accepted (p : Py.dict) (e : BookClub.Enrichment)
  (st : BookClub.state) (details : BookService.Details)
  (summary title isbn genre : string) :
  BookClub.validate_book_addition p st = Py.Ok None ->
  BookClub.e_details e = Some details ->
  BookClub.e_summary e = Some summary ->
  Py.get "title" p = Some (Py.PStr title) ->
  Py.get "ISBN" p = Some (Py.PStr isbn) ->
  Py.get "genre" p = Some (Py.PStr genre) ->
  BookClub.Books_post p e st
  = (Py.Ok (BookClub.JId (Py.str (BookClub.ID st + 1)), 201),
     BookClub.mkState
       (BookClub.books st
        ++ [BookClub.mkBook title isbn genre (BookService.d_authors details)
              (BookService.d_publisher details)
              (BookService.d_publishedDate details) (BookClub.e_language e)
              summary (Py.str (BookClub.ID st + 1))])
       (BookClub.bookRatings st
        ++ [BookClub.mkRating (Py.str (BookClub.ID st + 1)) [] 0 title])
       (BookClub.ID st + 1)).
Proof.
  intros Hv Hdet Hsum Ht Hi Hg. unfold BookClub.Books_post.
  destruct p as [|kv rest]; [discriminate Ht|].
  unfold Eff.bind at 1, Eff.read at 1. rewrite Hv, Hdet, Hsum.
  unfold Py.item. rewrite Ht, Hi, Hg. reflexivity.
Qed.

(** X19. In the first iteration an accepted POST /books answers 201
    with the decimal form of the counter plus one; the book found under
    that identifier carries the three fields of the request and what the
    three external services gave, its rating is empty with average 0,
    and the books and ratings of the other identifiers are found as
    before. *)
Theorem club_post_round_trip (p : Py.dict) (e : BookClub.Enrichment)
  (st : BookClub.state) (details : BookService.Details) (summary : string) :
  club_inv st ->
  BookClub.validate_book_addition p st = Py.Ok None ->
  BookClub.e_details e = Some details ->
  BookClub.e_summary e = Some summary ->
  let book_id := Py.str (BookClub.ID st + 1) in
  exists title isbn genre st',
    Py.get "title" p = Some (Py.PStr title)
    /\ Py.get "ISBN" p = Some (Py.PStr isbn)
    /\ Py.get "genre" p = Some (Py.PStr genre)
    /\ BookClub.Books_post p e st = (Py.Ok (BookClub.JId book_id, 201), st')
    /\ BookClub.ID st' = BookClub.ID st + 1
    /\ BookClub.SpecificBook_get book_id st'
       = (BookClub.JBook
            (BookClub.mkBook title isbn genre (BookService.d_authors details)
               (BookService.d_publisher details)
               (BookService.d_publishedDate details) (BookClub.e_language e)
               summary book_id), 200)
    /\ BookClub.SpecificRatings_get book_id st'
       = (Some (BookClub.mkRating book_id [] 0 title), 200)
    /\ (forall i, i <> book_id ->
          BookClub.get_book i st' = BookClub.get_book i st
          /\ BookClub.get_book_rating i st' = BookClub.get_book_rating i st).
Proof.
  intros (HID & Hndb & Hndr & Hb & Hr & Hbr) Hv Hdet Hsum book_id.
  destruct (club_validate_book_addition_cases p st)
    as [(_ & title & isbn & genre & Ht & Hi & Hg & _)|(msg & Hv')];
    [|congruence].
  exists title, isbn, genre. eexists.
  split; [exact Ht|]. split; [exact Hi|]. split; [exact Hg|].
  split; [apply (club_Books_post_accepted p e st details summary title isbn genre);
          assumption|].
  split; [reflexivity|].
  assert (Hnob : find (fun book => String.eqb (BookClub.b_id book) book_id)
                   (BookClub.books st) = None).
  { apply find_none_all. intros b Hin. apply String.eqb_neq.
    destruct (Hb b Hin) as (k & Hk & ->). intros E. apply str_inj in E. lia. }
  assert (Hnor : find (fun rating => String.eqb (BookClub.r_id rating) book_id)
                   (BookClub.bookRatings st) = None).
  { apply find_none_all. intros r Hin. apply String.eqb_neq.
    destruct (Hr r Hin) as [(k & Hk & ->) _]. intros E. apply str_inj in E. lia. }
  assert (Hfind : forall (A : Type) (q : A -> bool) (l : list A) (x : A),
             find q (l ++ [x])
             = match find q l with
               | Some y => Some y
               | None => if q x then Some x else None
               end).
  { intros A q l x. induction l as [|y l IH]; [reflexivity|].
    cbn [app find]. destruct (q y); [reflexivity | exact IH]. }
  split; [|split].
  - unfold BookClub.SpecificBook_get, BookClub.get_book. cbn [BookClub.books].
    rewrite Hfind, Hnob. cbn [BookClub.b_id]. now rewrite String.eqb_refl.
  - unfold BookClub.SpecificRatings_get, BookClub.get_book_rating.
    cbn [BookClub.bookRatings].
    rewrite Hfind, Hnor. cbn [BookClub.r_id]. now rewrite String.eqb_refl.
  - intros i Hi'. unfold BookClub.get_book, BookClub.get_book_rating.
    cbn [BookClub.books BookClub.bookRatings]. rewrite !Hfind.
    cbn [BookClub.b_id BookClub.r_id]. fold book_id.
    apply not_eq_sym in Hi'. apply String.eqb_neq in Hi'. rewrite Hi'.
    split.
    + match goal with |- match ?x with _ => _ end = _ => destruct x end;
        reflexivity.
    + match goal with |- match ?x with _ => _ end = _ => destruct x end;
        reflexivity.
Qed.

Lemma club_post_round_trip_witness :
  exists st',
    BookClub.Books_post
      [("title", Py.PStr "Effective Java"); ("ISBN", Py.PStr "9780134685991");
       ("genre", Py.PStr "Science")]
      (BookClub.mkEnrichment
         (Some (BookService.mkDetails "Joshua Bloch" "Addison-Wesley" "2018-01-06"))
         ["eng"] (Some "A summary."))
      BookClub.initial
    = (Py.Ok (BookClub.JId "1", 201), st')
    /\ BookClub.SpecificBook_get "1" st'
       = (BookClub.JBook (club_book "1" "Effective Java" ["eng"]), 200).
Proof.
  assert (Hinv : club_inv BookClub.initial).
  { unfold club_inv, BookClub.initial. simpl.
    repeat split; try constructor; try lia; intros ? []. }
  destruct (club_post_round_trip
              [("title", Py.PStr "Effective Java");
               ("ISBN", Py.PStr "9780134685991"); ("genre", Py.PStr "Science")]
              (BookClub.mkEnrichment
                 (Some (BookService.mkDetails "Joshua Bloch" "Addison-Wesley"
                          "2018-01-06"))
                 ["eng"] (Some "A summary."))
              BookClub.initial
              (BookService.mkDetails "Joshua Bloch" "Addison-Wesley" "2018-01-06")
              "A summary." Hinv eq_refl eq_refl eq_refl)
    as (title & isbn & genre & st' & Ht & Hi & Hg & Hpost & _ & Hget & _).
  injection Ht as <-. injection Hi as <-. injection Hg as <-.
  exists st'. split; [exact Hpost | exact Hget].
Defined.

(* ================================================================= *)
(** ** The details of a book, read from the answer of Google Books   *)
(* ================================================================= *)

(** X20. [get_book_details] returns [None] unless the answer has status
    200 and at least one item.  Otherwise: without an [authors] key it
    raises [KeyError] (the default "missing" is a string of more than
    one character, so the list is looked up again); with an empty list
    it raises [IndexError]; with a list that is not empty it returns the
    names joined by " and ", the publisher or "missing", and the
    published date when it has 4 or 10 characters, "missing" when it
    has not or is absent. *)
Theorem book_details_outcomes (status_code : Z) (book_data : BookService.Volumes) :
  (status_code <> 200 \/ BookService.totalItems book_data <= 0 ->
   BookService.get_book_details status_code book_data = BookService.Returns None)
  /\ (status_code = 200 -> 0 < BookService.totalItems book_data ->
      let info := BookService.volumeInfo book_data in
      match BookService.v_authors info with
      | None =>
          BookService.get_book_details status_code book_data
          = BookService.RaisesKeyError
      | Some [] =>
          BookService.get_book_details status_code book_data
          = BookService.RaisesIndexError
      | Some l =>
          exists d,
            BookService.get_book_details status_code book_data
            = BookService.Returns (Some d)
            /\ BookService.d_authors d = String.concat " and " l
            /\ BookService.d_publisher d
               = match BookService.v_publisher info with
                 | Some s => s
                 | None => "missing"
                 end
            /\ BookService.d_publishedDate d
               = match BookService.v_publishedDate info with
                 | Some s =>
                     if (String.length s =? 4)%nat || (String.length s =? 10)%nat
                     then s else "missing"
                 | None => "missing"
                 end
      end).
Proof.
  split.
  - intros [H|H]; unfold BookService.get_book_details.
    + apply Z.eqb_neq in H. now rewrite H.
    + destruct (status_code =? 200); [|reflexivity].
      now replace (0 <? BookService.totalItems book_data) with false
        by (symmetry; apply Z.ltb_ge; lia).
  - intros -> Hitems info. subst info. unfold BookService.get_book_details.
    cbn [Z.eqb Pos.eqb].
    replace (0 <? BookService.totalItems book_data) with true
      by (symmetry; now apply Z.ltb_lt).
    cbv zeta.
    destruct (BookService.v_authors (BookService.volumeInfo book_data))
      as [[|a l]|]; [reflexivity | | reflexivity].
    assert (Hdate : forall s : string,
               (if Z.of_nat (String.length s) =? 4 then s
                else if negb (Z.of_nat (String.length s) =? 10)
                     then "missing" else s)
               = if (String.length s =? 4)%nat || (String.length s =? 10)%nat
                 then s else "missing").
    { intros s.
      destruct (Nat.eqb_spec (String.length s) 4) as [E|E].
      - now rewrite E.
      - replace (Z.of_nat (String.length s) =? 4) with false
          by (symmetry; apply Z.eqb_neq; lia).
        destruct (Nat.eqb_spec (String.length s) 10) as [E'|E'].
        + now rewrite E'.
        + now replace (Z.of_nat (String.length s) =? 10) with false
            by (symmetry; apply Z.eqb_neq; lia). }
    cbn [BookService.authors_len].
    destruct l as [|b l].
    + cbn [List.length Z.of_nat Z.ltb Z.compare Pos.compare Pos.compare_cont
           Pos.of_succ_nat].
      eexists. split; [reflexivity|].
      cbn [BookService.d_authors BookService.d_publisher
           BookService.d_publishedDate String.concat].
      repeat split.
      destruct (BookService.v_publishedDate (BookService.volumeInfo book_data))
        as [s|]; [apply Hdate | reflexivity].
    + replace (1 <? Z.of_nat (List.length (a :: b :: l))) with true
        by (symmetry; apply Z.ltb_lt; cbn [List.length]; lia).
      eexists. split; [reflexivity|].
      cbn [BookService.d_authors BookService.d_publisher
           BookService.d_publishedDate].
      repeat split.
      destruct (BookService.v_publishedDate (BookService.volumeInfo book_data))
        as [s|]; [apply Hdate | reflexivity].
Qed.

Lemma book_details_outcomes_witness :
  BookService.get_book_details 200
    (BookService.mkVolumes 1
       (BookService.mkVolumeInfo None (Some "Addison-Wesley") (Some "2018-01-06")))
  = BookService.RaisesKeyError.
Proof.
  exact (proj2 (book_details_outcomes 200
                  (BookService.mkVolumes 1
                     (BookService.mkVolumeInfo None (Some "Addison-Wesley")
                        (Some "2018-01-06"))))
           eq_refl eq_refl).
Defined.

(* ================================================================= *)
(** ** Ratings posted at the same time                               *)
(* ================================================================= *)

(** [add_rating_value] is the three store operations, one after the
    other. *)
Lemma add_rating_value_operations (v : Z) (rating_id : string) (k : Z)
  (s : BookService.store) :
  Py.int rating_id = Py.Ok k ->
  BookService.add_rating_value v rating_id s
  = let s1 := RatingInterleaving.push k v (BookService.rating_collection s) in
    match RatingInterleaving.compute k s1 with
    | Py.Ok a =>
        (Py.Ok a,
         BookService.mkStore (BookService.book_collection s)
           (RatingInterleaving.set_average k a s1))
    | Py.Raise e =>
        (Py.Raise e, BookService.mkStore (BookService.book_collection s) s1)
    end.
Proof.
  intros Hint. cbv zeta.
  unfold BookService.add_rating_value, BookService.calculate_rating_average,
    RatingInterleaving.compute.
  eff. rewrite Hint. cbv beta iota.
  unfold BookService.set_ratings.
  cbn [BookService.rating_collection BookService.book_collection].
  fold (RatingInterleaving.push k v (BookService.rating_collection s)).
  destruct (BookService.subscript
              (Mongo.find_one k
                 (RatingInterleaving.push k v (BookService.rating_collection s)))
              BookService.r_values) as [values|e]; [|reflexivity].
  cbn [Py.bind].
  destruct (Py.truediv (Py.sum values) (Z.of_nat (List.length values)));
    reflexivity.
Qed.

Lemma rating_replace_split (i : nat) (c c' : RatingInterleaving.caller)
  (l : list RatingInterleaving.caller) :
  nth_error l i = Some c ->
  exists l1 l2,
    l = l1 ++ c :: l2 /\ RatingInterleaving.replace i c' l = l1 ++ c' :: l2.
Proof.
  revert l. induction i as [|i IH]; intros [|x l] H; try discriminate.
  - injection H as ->. now exists [], l.
  - cbn [nth_error] in H. destruct (IH l H) as (l1 & l2 & -> & Hr).
    exists (x :: l1), l2. cbn [RatingInterleaving.replace app].
    now rewrite Hr.
Qed.

(** One store operation of one caller: the values of every rating are
    those it had plus the values pushed since, and every caller keeps
    its request. *)
Lemma rating_step_keeps (i : nat) (w : RatingInterleaving.world) (k : Z)
  (r : BookService.Rating) (vs0 : list Z) :
  Mongo.find_one k (RatingInterleaving.shared w) = Some r ->
  Permutation (BookService.r_values r)
    (vs0 ++ flat_map (pushed_for k) (RatingInterleaving.callers w)) ->
  let w' := RatingInterleaving.step i w in
  map request_of (RatingInterleaving.callers w')
  = map request_of (RatingInterleaving.callers w)
  /\ exists r',
       Mongo.find_one k (RatingInterleaving.shared w') = Some r'
       /\ BookService.r_id r' = BookService.r_id r
       /\ BookService.r_title r' = BookService.r_title r
       /\ Permutation (BookService.r_values r')
            (vs0 ++ flat_map (pushed_for k) (RatingInterleaving.callers w')).
Proof.
  intros Hfind Hperm w'. subst w'. unfold RatingInterleaving.step.
  destruct (nth_error (RatingInterleaving.callers w) i) as [c|] eqn:Hnth.
  2:{ split; [reflexivity|]. exists r. auto. }
  destruct (RatingInterleaving.advance c (RatingInterleaving.shared w))
    as [c' s'] eqn:Hadv.
  destruct (rating_replace_split i c c' _ Hnth) as (l1 & l2 & Hl & Hrep).
  cbn [RatingInterleaving.callers RatingInterleaving.shared].
  rewrite Hrep. rewrite Hl in Hperm |- *.
  rewrite !map_app, !flat_map_app in *. cbn [map flat_map] in *.
  destruct c as [k' v|k' v|k' v a|k' v a|k' v e];
    cbn [RatingInterleaving.advance] in Hadv.
  - injection Hadv as <- <-. split; [reflexivity|].
    unfold RatingInterleaving.push. rewrite find_one_update, Hfind.
    cbn [pushed_for app] in *. rewrite (Z.eqb_sym k' k).
    destruct (k =? k'); cbn [option_map].
    + eexists. repeat split.
      cbn [BookService.r_values].
      rewrite Hperm. rewrite <- !app_assoc.
      do 2 apply Permutation_app_head.
      symmetry. apply Permutation_cons_append.
    + exists r. repeat split. exact Hperm.
  - destruct (RatingInterleaving.compute k' (RatingInterleaving.shared w));
      injection Hadv as <- <-; (split; [reflexivity|]); exists r; auto.
  - injection Hadv as <- <-. split; [reflexivity|].
    unfold RatingInterleaving.set_average. rewrite find_one_update, Hfind.
    destruct (k =? k'); cbn [option_map]; eexists; repeat split; exact Hperm.
  - injection Hadv as <- <-. split; [reflexivity|]. exists r. auto.
  - injection Hadv as <- <-. split; [reflexivity|]. exists r. auto.
Qed.

Lemma rating_run_keeps (schedule : list nat) :
  forall (w : RatingInterleaving.world) (k : Z) (r : BookService.Rating)
         (vs0 : list Z),
    Mongo.find_one k (RatingInterleaving.shared w) = Some r ->
    Permutation (BookService.r_values r)
      (vs0 ++ flat_map (pushed_for k) (RatingInterleaving.callers w)) ->
    let w' := RatingInterleaving.run schedule w in
    map request_of (RatingInterleaving.callers w')
    = map request_of (RatingInterleaving.callers w)
    /\ exists r',
         Mongo.find_one k (RatingInterleaving.shared w') = Some r'
         /\ BookService.r_id r' = BookService.r_id r
         /\ BookService.r_title r' = BookService.r_title r
         /\ Permutation (BookService.r_values r')
              (vs0 ++ flat_map (pushed_for k) (RatingInterleaving.callers w')).
Proof.
  induction schedule as [|i schedule IH]; intros w k r vs0 Hfind Hperm.
  - split; [reflexivity|]. exists r. auto.
  - destruct (rating_step_keeps i w k r vs0 Hfind Hperm)
      as (Hreq & r1 & Hfind1 & Hid1 & Htitle1 & Hperm1).
    destruct (IH _ k r1 vs0 Hfind1 Hperm1)
      as (Hreq' & r' & Hfind' & Hid' & Htitle' & Hperm').
    cbv zeta.
    change (RatingInterleaving.run (i :: schedule) w)
      with (RatingInterleaving.run schedule (RatingInterleaving.step i w)).
    split; [congruence|].
    exists r'. repeat split; try congruence; exact Hperm'.
Qed.

Lemma pushed_all (k : Z) (cs : list RatingInterleaving.caller) :
  forallb (fun c => match c with
                    | RatingInterleaving.Ready _ _ => false
                    | _ => true
                    end) cs = true ->
  flat_map (pushed_for k) cs = requested_for k (map request_of cs).
Proof.
  unfold requested_for. induction cs as [|c cs IH]; [reflexivity|].
  cbn [forallb map flat_map]. intros H. apply andb_prop in H.
  destruct H as [Hc Hcs]. rewrite (IH Hcs).
  destruct c; try discriminate; reflexivity.
Qed.

(** X21. Whatever the order in which the store operations of several
    rating posts interleave, no value is lost: a rating holds the values
    it had, followed by the values of the posts for it that have pushed;
    when all have, these are the values of all the requests for it. *)
Theorem rating_values_not_lost (schedule : list nat) (requests : list (Z * Z))
  (s : RatingInterleaving.store) (k : Z) (r : BookService.Rating) :
  Mongo.find_one k s = Some r ->
  let w := RatingInterleaving.run schedule (RatingInterleaving.start requests s) in
  exists r',
    Mongo.find_one k (RatingInterleaving.shared w) = Some r'
    /\ BookService.r_id r' = BookService.r_id r
    /\ BookService.r_title r' = BookService.r_title r
    /\ Permutation (BookService.r_values r')
         (BookService.r_values r
          ++ flat_map (pushed_for k) (RatingInterleaving.callers w))
    /\ (all_pushed w = true ->
        Permutation (BookService.r_values r')
          (BookService.r_values r ++ requested_for k requests)).
Proof.
  intros Hfind w.
  assert (Hstart : flat_map (pushed_for k)
                     (RatingInterleaving.callers
                        (RatingInterleaving.start requests s)) = []).
  { unfold RatingInterleaving.start. cbn [RatingInterleaving.callers].
    induction requests as [|kv l IH]; [reflexivity | exact IH]. }
  destruct (rating_run_keeps schedule (RatingInterleaving.start requests s)
              k r (BookService.r_values r) Hfind)
    as (Hreq & r' & Hfind' & Hid & Htitle & Hperm).
  { rewrite Hstart, app_nil_r. apply Permutation_refl. }
  exists r'. fold w in Hreq, Hfind', Hperm.
  repeat split; try assumption.
  intros Hall. unfold all_pushed in Hall.
  rewrite (pushed_all k _ Hall), Hreq in Hperm.
  unfold RatingInterleaving.start in Hperm. cbn [RatingInterleaving.callers] in Hperm.
  rewrite map_map in Hperm. cbn [request_of] in Hperm.
  rewrite (map_ext _ (fun kv => kv)) in Hperm by (intros []; reflexivity).
  now rewrite map_id in Hperm.
Qed.

Lemma rating_values_not_lost_witness :
  let w := RatingInterleaving.run [0; 1; 1; 0; 1; 0]%nat
             (RatingInterleaving.start [(1, 5); (1, 1)]
                [(1, BookService.mkRating "1" [4] 4 "Effective Java")]) in
  exists r',
    Mongo.find_one 1 (RatingInterleaving.shared w) = Some r'
    /\ Permutation (BookService.r_values r') [4; 5; 1].
Proof.
  intros w.
  destruct (rating_values_not_lost [0; 1; 1; 0; 1; 0]%nat [(1, 5); (1, 1)]
              [(1, BookService.mkRating "1" [4] 4 "Effective Java")] 1
              (BookService.mkRating "1" [4] 4 "Effective Java") eq_refl)
    as (r' & Hfind & _ & _ & _ & Hall).
  exists r'. split; [exact Hfind|]. exact (Hall eq_refl).
Defined.

Lemma rating_compute_found (k : Z) (s : RatingInterleaving.store)
  (r : BookService.Rating) :
  Mongo.find_one k s = Some r ->
  BookService.r_values r <> [] ->
  RatingInterleaving.compute k s = Py.Ok (mean (BookService.r_values r)).
Proof.
  intros Hfind Hne. unfold RatingInterleaving.compute. rewrite Hfind.
  cbn [BookService.subscript Py.bind]. now apply truediv_mean.
Qed.

(** X22. Nothing ties the average to the values when two posts
    interleave: if the second post pushes and stores its average between
    the computation and the [$set] of the first, the rating ends with
    both values and with the average the first computed, the mean of
    the values without the second. *)
Theorem rating_average_can_be_stale (s : RatingInterleaving.store) (k v1 v2 : Z)
  (r : BookService.Rating) :
  Mongo.find_one k s = Some r ->
  let w := RatingInterleaving.run [0; 0; 1; 1; 1; 0]%nat
             (RatingInterleaving.start [(k, v1); (k, v2)] s) in
  Mongo.find_one k (RatingInterleaving.shared w)
  = Some (BookService.mkRating (BookService.r_id r)
            ((BookService.r_values r ++ [v1]) ++ [v2])
            (mean (BookService.r_values r ++ [v1]))
            (BookService.r_title r))
  /\ RatingInterleaving.callers w
     = [RatingInterleaving.Returned k v1 (mean (BookService.r_values r ++ [v1]));
        RatingInterleaving.Returned k v2
          (mean ((BookService.r_values r ++ [v1]) ++ [v2]))].
Proof.
  intros Hfind w. subst w.
  set (r1 := BookService.mkRating (BookService.r_id r)
               (BookService.r_values r ++ [v1]) (BookService.r_average r)
               (BookService.r_title r)).
  set (s1 := RatingInterleaving.push k v1 s).
  assert (H1 : Mongo.find_one k s1 = Some r1).
  { subst s1. unfold RatingInterleaving.push.
    now rewrite find_one_update_same, Hfind. }
  pose proof (rating_compute_found k s1 r1 H1 (app_one_not_nil _ _)) as C1.
  cbn [BookService.r_values r1] in C1.
  set (r2 := BookService.mkRating (BookService.r_id r)
               ((BookService.r_values r ++ [v1]) ++ [v2])
               (BookService.r_average r) (BookService.r_title r)).
  set (s2 := RatingInterleaving.push k v2 s1).
  assert (H2 : Mongo.find_one k s2 = Some r2).
  { subst s2. unfold RatingInterleaving.push.
    now rewrite find_one_update_same, H1. }
  pose proof (rating_compute_found k s2 r2 H2 (app_one_not_nil _ _)) as C2.
  cbn [BookService.r_values r2] in C2.
  set (a1 := mean (BookService.r_values r ++ [v1])) in *.
  set (a2 := mean ((BookService.r_values r ++ [v1]) ++ [v2])) in *.
  assert (E1 : RatingInterleaving.step 0
                 (RatingInterleaving.start [(k, v1); (k, v2)] s)
               = RatingInterleaving.mkWorld s1
                   [RatingInterleaving.Pushed k v1; RatingInterleaving.Ready k v2])
    by reflexivity.
  assert (E2 : RatingInterleaving.step 0
                 (RatingInterleaving.mkWorld s1
                    [RatingInterleaving.Pushed k v1; RatingInterleaving.Ready k v2])
               = RatingInterleaving.mkWorld s1
                   [RatingInterleaving.Computed k v1 a1;
                    RatingInterleaving.Ready k v2]).
  { unfold RatingInterleaving.step.
    cbn [RatingInterleaving.callers RatingInterleaving.shared nth_error
         RatingInterleaving.advance].
    now rewrite C1. }
  assert (E3 : RatingInterleaving.step 1
                 (RatingInterleaving.mkWorld s1
                    [RatingInterleaving.Computed k v1 a1;
                     RatingInterleaving.Ready k v2])
               = RatingInterleaving.mkWorld s2
                   [RatingInterleaving.Computed k v1 a1;
                    RatingInterleaving.Pushed k v2])
    by reflexivity.
  assert (E4 : RatingInterleaving.step 1
                 (RatingInterleaving.mkWorld s2
                    [RatingInterleaving.Computed k v1 a1;
                     RatingInterleaving.Pushed k v2])
               = RatingInterleaving.mkWorld s2
                   [RatingInterleaving.Computed k v1 a1;
                    RatingInterleaving.Computed k v2 a2]).
  { unfold RatingInterleaving.step.
    cbn [RatingInterleaving.callers RatingInterleaving.shared nth_error
         RatingInterleaving.advance].
    now rewrite C2. }
  assert (E : RatingInterleaving.run [0; 0; 1; 1; 1; 0]%nat
                (RatingInterleaving.start [(k, v1); (k, v2)] s)
              = RatingInterleaving.mkWorld
                  (RatingInterleaving.set_average k a1
                     (RatingInterleaving.set_average k a2 s2))
                  [RatingInterleaving.Returned k v1 a1;
                   RatingInterleaving.Returned k v2 a2]).
  { unfold RatingInterleaving.run. cbn [fold_left].
    now rewrite E1, E2, E3, E4. }
  rewrite E. cbn [RatingInterleaving.shared RatingInterleaving.callers].
  split; [|reflexivity].
  unfold RatingInterleaving.set_average.
  rewrite !find_one_update_same, H2. reflexivity.
Qed.

Lemma rating_average_can_be_stale_witness :
  let w := RatingInterleaving.run [0; 0; 1; 1; 1; 0]%nat
             (RatingInterleaving.start [(1, 5); (1, 1)]
                [(1, BookService.mkRating "1" [] 0 "Effective Java")]) in
  Mongo.find_one 1 (RatingInterleaving.shared w)
  = Some (BookService.mkRating "1" [5; 1] (5 # 1) "Effective Java")
  /\ values_ok [5; 1] (5 # 1) = false.
Proof.
  intros w. split; [|reflexivity].
  exact (proj1 (rating_average_can_be_stale
                  [(1, BookService.mkRating "1" [] 0 "Effective Java")] 1 5 1
                  (BookService.mkRating "1" [] 0 "Effective Java") eq_refl)).
Defined.

(* ================================================================= *)
(** ** The ISBNs of the catalog                                      *)
(* ================================================================= *)

Lemma on_shelf_In (isbn : string) (s : BookService.store) :
  on_shelf (Py.PStr isbn) s = true <-> In isbn (book_ISBNs s).
Proof.
  unfold on_shelf, book_ISBNs, BookService.get_books, Mongo.find_gt0.
  rewrite existsb_exists, in_flat_map. split.
  - intros (d & Hin & Hd). apply in_map_iff in Hin.
    destruct Hin as ([k d'] & <- & Hin). apply filter_In in Hin.
    destruct Hin as [Hin Hk]. exists (k, d'). split; [exact Hin|].
    unfold book_isbn_of. cbn [fst snd] in *. rewrite Hk.
    destruct d' as [h|b]; [discriminate|].
    cbn in Hd. apply String.eqb_eq in Hd. subst. now left.
  - intros ([k d] & Hin & Hd). unfold book_isbn_of in Hd. cbn [fst snd] in Hd.
    destruct (0 <? k) eqn:Hk; [|contradiction].
    destruct d as [h|b]; [contradiction|]. destruct Hd as [<-|[]].
    exists (BookService.BookDoc b). split.
    + apply in_map_iff. exists (k, BookService.BookDoc b).
      split; [reflexivity|]. apply filter_In. now split.
    + cbn. apply String.eqb_refl.
Qed.

Lemma book_set_ISBNs (s : BookService.store) (h : Z) :
  book_ISBNs (Interleaving.book_set h s) = book_ISBNs s.
Proof.
  unfold book_ISBNs, Interleaving.book_set, BookService.set_books.
  cbn [BookService.book_collection].
  induction (BookService.book_collection s) as [|[k d] c IH]; [reflexivity|].
  cbn [Mongo.update_one]. destruct (Z.eqb_spec 0 k) as [<-|Hne].
  - reflexivity.
  - cbn [flat_map]. now rewrite IH.
Qed.

Lemma Books_post_store_ISBN (p : Py.dict) (details : option BookService.Details)
  (s : BookService.store) (h : Z) :
  catalog_wf s = true ->
  Interleaving.book_fetch s = Py.Ok h ->
  snd (BookService.Books_post p details s) = s
  \/ exists b r,
       on_shelf (Py.PStr (BookService.b_ISBN b)) s = false
       /\ snd (BookService.Books_post p details s)
          = BookService.mkStore
              (BookService.book_collection (Interleaving.book_set (h + 1) s)
               ++ [(h + 1, BookService.BookDoc b)])
              (BookService.rating_collection s ++ [(h + 1, r)]).
Proof.
  intros Hwf Hf.
  destruct p as [|kv rest]; [now left|].
  destruct (validate_book_addition_cases (kv :: rest) s Hwf)
    as [(Hv & _ & title & isbn & genre & Ht & Hi & Hg & _ & _ & Hoff)|(msg & Hv)].
  - destruct details as [details|].
    + right. do 2 eexists.
      rewrite (Books_post_accepted _ details s h title isbn genre Hwf Hf Hv Ht Hi Hg).
      split; [|reflexivity]. exact Hoff.
    + left. unfold BookService.Books_post, Eff.bind, Eff.read. now rewrite Hv.
  - left. unfold BookService.Books_post, Eff.bind, Eff.read. now rewrite Hv.
Qed.

Lemma handle_ISBNs (q : request) (s : BookService.store) :
  catalog_wf s = true ->
  no_put q = true ->
  NoDup (book_ISBNs s) -> NoDup (book_ISBNs (snd (handle q s))).
Proof.
  intros Hwf Hq Hnd.
  destruct (catalog_wf_fetch s Hwf) as (h & Hf).
  destruct (catalog_wf_ids s h Hwf Hf) as (Hh & _ & _).
  destruct q as [p details|book_id p|book_id|book_id p]; cbn [handle];
    [| discriminate | |].
  - destruct (Books_post_store_ISBN p details s h Hwf Hf)
      as [->|(b & r & Hoff & ->)]; [exact Hnd|].
    unfold book_ISBNs. cbn [BookService.book_collection].
    rewrite flat_map_app. cbn [flat_map]. unfold book_isbn_of at 2.
    cbn [fst snd].
    replace (0 <? h + 1) with true by (symmetry; apply Z.ltb_lt; lia).
    rewrite app_nil_r.
    fold (book_ISBNs (Interleaving.book_set (h + 1) s)).
    rewrite book_set_ISBNs.
    apply NoDup_app; [exact Hnd | repeat constructor; auto|].
    intros x Hx [<-|[]]. apply on_shelf_In in Hx. congruence.
  - destruct (SpecificBook_delete_store book_id s Hwf) as [->|(k & Hk & ->)];
      [exact Hnd|].
    unfold book_ISBNs in *. cbn [BookService.book_collection].
    destruct (delete_one_split k (BookService.book_collection s))
      as [->|(c1 & d & c2 & Hs & ->)]; [exact Hnd|].
    rewrite Hs in Hnd. rewrite flat_map_app in *. cbn [flat_map] in Hnd.
    now apply NoDup_app_drop in Hnd.
  - destruct (SpecificRatingsValues_post_store book_id p s)
      as [->|(k & v & r & _ & _ & _ & _ & ->)]; exact Hnd.
Qed.

(** X23. As long as no PUT is served, no two books of the catalog
    carry the same ISBN: creation refuses an ISBN that is there, and
    deletion and rating do not touch the ISBNs. *)
Theorem catalog_ISBNs_unique_without_put (qs : list request)
  (s : BookService.store) :
  catalog_wf s = true ->
  NoDup (book_ISBNs s) ->
  forallb no_put qs = true ->
  NoDup (book_ISBNs (serve qs s)).
Proof.
  revert s. induction qs as [|q qs IH]; intros s Hwf Hnd Hqs; [exact Hnd|].
  cbn [forallb] in Hqs. apply andb_prop in Hqs. destruct Hqs as [Hq Hqs].
  cbn [serve fold_left]. apply IH; [now apply handle_wf | | exact Hqs].
  now apply handle_ISBNs.
Qed.

Lemma catalog_ISBNs_unique_without_put_witness :
  NoDup (book_ISBNs
           (serve [PostBook [("title", Py.PStr "Effective Java");
                             ("ISBN", Py.PStr "9780134685991");
                             ("genre", Py.PStr "Science")]
                     (Some (BookService.mkDetails "Joshua Bloch" "Addison-Wesley"
                              "2018-01-06"));
                   DeleteBook "2"] two_book_catalog)).
Proof.
  apply (catalog_ISBNs_unique_without_put
           [PostBook [("title", Py.PStr "Effective Java");
                      ("ISBN", Py.PStr "9780134685991");
                      ("genre", Py.PStr "Science")]
              (Some (BookService.mkDetails "Joshua Bloch" "Addison-Wesley"
                       "2018-01-06"));
            DeleteBook "2"] two_book_catalog).
  - reflexivity.
  - repeat constructor; simpl; intuition discriminate.
  - reflexivity.
Defined.

(* ================================================================= *)
(** ** The order of the gates of a loan request                      *)
(* ================================================================= *)

(** X24. On a loan request with its three fields, a string as ISBN and
    a string as loan date, the gates are tried in this order and the
    first that fails decides the message: length of the ISBN, ISBN on
    loan, two loans of the member, form of the date, date of the
    calendar.  Every refusal has status 422 and leaves the store; the
    catalog is asked only when all gates are passed. *)
Theorem loan_gates_in_order (answer : Py.val -> LoanService.Response)
  (s : LoanService.store) (member : Py.val) (isbn date : string) :
  loans_wf s = true ->
  let verdict :=
    if negb (Z.of_nat (String.length isbn) =? 13) then
      Some (LoanService.JError "Invalid ISBN", 422)
    else if on_loan (Py.PStr isbn) s then
      Some (LoanService.JError "This book is already on loan", 422)
    else if 2 <=? LoanService.loan_count_of_member member s then
      Some (LoanService.JError
              ("Too many books on loan for " ++ Py.format member ++ ".")%string,
            422)
    else if negb (LoanService.date_pattern_match date) then
      Some (LoanService.JError "Invalid date format, should be YYYY-MM-DD", 422)
    else if negb (LoanService.strptime_ok date) then
      Some (LoanService.JError "Invalid date", 422)
    else None in
  LoanService.validate_loan_addition (loan_request member isbn date) s
  = Py.Ok verdict
  /\ (forall e, verdict = Some e ->
        snd e = 422
        /\ LoanService.Loans_post answer (loan_request member isbn date) s
           = (Py.Ok e, s)).
Proof.
  intros Hwf verdict.
  pose proof (validate_loan_addition_gates s member isbn date Hwf) as Hv.
  fold verdict in Hv. split; [exact Hv|].
  intros e He. split.
  - subst verdict.
    repeat match type of He with
           | (if ?c then _ else _) = _ => destruct c
           end; try discriminate; injection He as <-; reflexivity.
  - unfold LoanService.Loans_post, loan_request.
    fold (loan_request member isbn date).
    unfold Eff.bind, Eff.read. rewrite Hv, He. reflexivity.
Qed.

Lemma loan_gates_in_order_witness :
  LoanService.Loans_post one_book
    (loan_request (Py.PStr "Dana") "9780134685991" "2023-02-30") sample_loans
  = (Py.Ok (LoanService.JError "This book is already on loan", 422), sample_loans).
Proof.
  exact (proj2 (proj2 (loan_gates_in_order one_book sample_loans (Py.PStr "Dana")
                         "9780134685991" "2023-02-30" eq_refl)
                  (LoanService.JError "This book is already on loan", 422)
                  eq_refl)).
Defined.

(* ================================================================= *)
(** ** The first iteration always answers a creation request         *)
(* ================================================================= *)

(** X25. In the first iteration POST /books on a JSON object, once the
    three external calls have returned, always answers, with 201, 415,
    422 or 500, in every state; only a 201 changes the state, so a
    refused request, or one for which Google Books or Gemini gave
    nothing, uses up no identifier. *)
Theorem club_post_always_answers (p : Py.dict) (e : BookClub.Enrichment)
  (st : BookClub.state) :
  exists b status,
    fst (BookClub.Books_post p e st) = Py.Ok (b, status)
    /\ In status [201; 415; 422; 500]
    /\ (status <> 201 -> snd (BookClub.Books_post p e st) = st).
Proof.
  destruct p as [|kv rest].
  { do 2 eexists. split; [reflexivity|]. split; [simpl; auto|reflexivity]. }
  destruct (club_validate_book_addition_cases (kv :: rest) st)
    as [(Hv & title & isbn & genre & Ht & Hi & Hg & _)|(msg & Hv)].
  - destruct (BookClub.e_details e) as [details|] eqn:Hdet.
    + destruct (BookClub.e_summary e) as [summary|] eqn:Hsum.
      * rewrite (club_Books_post_accepted _ e st details summary title isbn genre
                   Hv Hdet Hsum Ht Hi Hg).
        do 2 eexists. split; [reflexivity|]. split; [simpl; auto|].
        intros H. now contradiction H.
      * unfold BookClub.Books_post, Eff.bind, Eff.read. rewrite Hv, Hdet, Hsum.
        do 2 eexists. split; [reflexivity|]. split; [simpl; auto|reflexivity].
    + unfold BookClub.Books_post, Eff.bind, Eff.read. rewrite Hv, Hdet.
      do 2 eexists. split; [reflexivity|]. split; [simpl; auto|reflexivity].
  - unfold BookClub.Books_post, Eff.bind, Eff.read. rewrite Hv.
    do 2 eexists. split; [reflexivity|]. split; [simpl; auto|reflexivity].
Qed.
